(** * BLE multi-advertising manager (stack/btm/btm_ble_multi_adv.cc)

    A shallow embedding of [BleAdvertisingManagerImpl]: the instance tables
    are lists indexed by instance id, every member function is a state
    transformer that also returns the commands it handed to its external
    collaborators (HCI interface, alarm service, address generator), and a
    [base::Callback] bound for a later completion is the Rocq function that
    the completion will run. *)

From stdpp Require Import base numbers list.

Open Scope Z_scope.

(** ** Machine integers *)

Definition INT_MAX : Z := 2147483647.

(** Conversion to [uint8_t], [uint16_t], [uint32_t]. *)
Definition to_uint8 (z : Z) : Z := z mod 256.
Definition to_uint16 (z : Z) : Z := z mod 65536.
Definition to_uint32 (z : Z) : Z := z mod 4294967296.

(** Conversion to [int] (two's complement, 32 bits). *)
Definition to_int (z : Z) : Z := (z + 2147483648) mod 4294967296 - 2147483648.

(** ** Results of running code that may hit undefined behaviour *)

Inductive fault : Set :=
| OutOfRange       (* operator[] past the end of a vector *)
| DivideByZero     (* integer division by zero *)
| SignedOverflow   (* overflow of an int addition *)
| NullPointer.     (* call through a null manager pointer *)

Inductive result (A : Type) : Type :=
| Ok (a : A)
| Crash (f : fault).
Arguments Ok {A} a.
Arguments Crash {A} f.

Definition bind {A B : Type} (r : result A) (k : A -> result B) : result B :=
  match r with
  | Ok a => k a
  | Crash f => Crash f
  end.

Notation "x <- r ;; k" := (bind r (fun x => k))
  (at level 100, r at next level, right associativity).

(** [v[i]] for a [std::vector]. *)
Definition at_index {A : Type} (v : list A) (i : Z) : result A :=
  if i <? 0 then Crash OutOfRange
  else match v !! Z.to_nat i with
       | Some a => Ok a
       | None => Crash OutOfRange
       end.

(** ** Data model *)

(** [RawAddress]: the six address bytes. *)
Definition RawAddress : Set := list Z.
Definition kEmpty : RawAddress := [0; 0; 0; 0; 0; 0].

(** [base::TimeTicks] and [base::TimeDelta] count microseconds. *)
Definition TimeTicks : Set := Z.
Definition TimeDelta : Set := Z.
Definition FromMilliseconds (ms : Z) : TimeDelta := ms * 1000.
Definition InMilliseconds (d : TimeDelta) : Z := Z.quot d 1000.

(** [std::array<uint8_t,5>] *)
Record array5 : Set := Array5 { a0 : Z; a1 : Z; a2 : Z; a3 : Z; a4 : Z }.
Definition array5_to_list (a : array5) : list Z := [a0 a; a1 a; a2 a; a3 a; a4 a].

(** The callbacks that are kept inside the instance table.  They all come
    from the client of the manager, so each is known by the name the client
    gave it; what running it does is the client's business, only the call is
    recorded. *)
Inductive StoredCb : Set :=
| NullCb                                   (* default-constructed, is_null() *)
| NoOpCb                                   (* base::DoNothing() *)
| ClientCb (name : nat)                    (* a MultiAdvCb of the client *)
| ClientRegisterCb (name : nat) (id : Z).  (* Bind(timeout_cb, inst_id) over a RegisterCb *)

Definition is_null (cb : StoredCb) : bool :=
  match cb with NullCb => true | _ => false end.

Record AdvertisingInstance : Set := MkAdvertisingInstance {
  inst_id : Z;  (* uint8_t *)
  in_use : bool;
  advertising_event_properties : Z;  (* uint8_t *)
  adv_raddr_timer : bool;  (* alarm_t*, true when non-null *)
  tx_power : Z;  (* int8_t *)
  duration : Z;  (* uint16_t, 1 unit is 10ms *)
  maxExtAdvEvents : Z;  (* uint8_t *)
  timeout_timer : bool;  (* alarm_t*, true when non-null *)
  own_address_type : Z;  (* uint8_t *)
  own_address : RawAddress;
  timeout_cb : StoredCb;  (* MultiAdvCb *)
  address_update_required : bool;
  periodic_enabled : bool;
  advertising_interval : Z;  (* uint32_t, 1 unit is 0.625 ms *)
  skip_rpa_count : Z;  (* uint8_t *)
  skip_rpa : bool;
  randomizer : array5;  (* std::array<uint8_t,5> *)
  advertise_data : list Z;
  scan_response_data : list Z;
  periodic_data : list Z;
  advertise_data_enc : list Z;
  scan_response_data_enc : list Z;
  periodic_adv_data_enc : list Z;
  enc_key_value : list Z;
  enable_status : bool;
  enable_time : TimeTicks;
  big_handle : Z  (* uint8_t *)
}.

(** [p_inst->inst_id], for code whose own parameter is called [inst_id]. *)
Definition get_inst_id (p_inst : AdvertisingInstance) : Z := inst_id p_inst.

(** Assignments to one member, [p_inst->field = v]. *)
Definition set_inst_id (v : Z) (i : AdvertisingInstance) : AdvertisingInstance :=
  let 'MkAdvertisingInstance f0 f1 f2 f3 f4 f5 f6 f7 f8 f9 f10 f11 f12 f13 f14 f15 f16 f17 f18 f19 f20 f21 f22 f23 f24 f25 f26 := i in
  MkAdvertisingInstance v f1 f2 f3 f4 f5 f6 f7 f8 f9 f10 f11 f12 f13 f14 f15 f16 f17 f18 f19 f20 f21 f22 f23 f24 f25 f26.
Definition set_in_use (v : bool) (i : AdvertisingInstance) : AdvertisingInstance :=
  let 'MkAdvertisingInstance f0 f1 f2 f3 f4 f5 f6 f7 f8 f9 f10 f11 f12 f13 f14 f15 f16 f17 f18 f19 f20 f21 f22 f23 f24 f25 f26 := i in
  MkAdvertisingInstance f0 v f2 f3 f4 f5 f6 f7 f8 f9 f10 f11 f12 f13 f14 f15 f16 f17 f18 f19 f20 f21 f22 f23 f24 f25 f26.
Definition set_advertising_event_properties (v : Z) (i : AdvertisingInstance) : AdvertisingInstance :=
  let 'MkAdvertisingInstance f0 f1 f2 f3 f4 f5 f6 f7 f8 f9 f10 f11 f12 f13 f14 f15 f16 f17 f18 f19 f20 f21 f22 f23 f24 f25 f26 := i in
  MkAdvertisingInstance f0 f1 v f3 f4 f5 f6 f7 f8 f9 f10 f11 f12 f13 f14 f15 f16 f17 f18 f19 f20 f21 f22 f23 f24 f25 f26.
Definition set_adv_raddr_timer (v : bool) (i : AdvertisingInstance) : AdvertisingInstance :=
  let 'MkAdvertisingInstance f0 f1 f2 f3 f4 f5 f6 f7 f8 f9 f10 f11 f12 f13 f14 f15 f16 f17 f18 f19 f20 f21 f22 f23 f24 f25 f26 := i in
  MkAdvertisingInstance f0 f1 f2 v f4 f5 f6 f7 f8 f9 f10 f11 f12 f13 f14 f15 f16 f17 f18 f19 f20 f21 f22 f23 f24 f25 f26.
Definition set_tx_power (v : Z) (i : AdvertisingInstance) : AdvertisingInstance :=
  let 'MkAdvertisingInstance f0 f1 f2 f3 f4 f5 f6 f7 f8 f9 f10 f11 f12 f13 f14 f15 f16 f17 f18 f19 f20 f21 f22 f23 f24 f25 f26 := i in
  MkAdvertisingInstance f0 f1 f2 f3 v f5 f6 f7 f8 f9 f10 f11 f12 f13 f14 f15 f16 f17 f18 f19 f20 f21 f22 f23 f24 f25 f26.
Definition set_duration (v : Z) (i : AdvertisingInstance) : AdvertisingInstance :=
  let 'MkAdvertisingInstance f0 f1 f2 f3 f4 f5 f6 f7 f8 f9 f10 f11 f12 f13 f14 f15 f16 f17 f18 f19 f20 f21 f22 f23 f24 f25 f26 := i in
  MkAdvertisingInstance f0 f1 f2 f3 f4 v f6 f7 f8 f9 f10 f11 f12 f13 f14 f15 f16 f17 f18 f19 f20 f21 f22 f23 f24 f25 f26.
Definition set_maxExtAdvEvents (v : Z) (i : AdvertisingInstance) : AdvertisingInstance :=
  let 'MkAdvertisingInstance f0 f1 f2 f3 f4 f5 f6 f7 f8 f9 f10 f11 f12 f13 f14 f15 f16 f17 f18 f19 f20 f21 f22 f23 f24 f25 f26 := i in
  MkAdvertisingInstance f0 f1 f2 f3 f4 f5 v f7 f8 f9 f10 f11 f12 f13 f14 f15 f16 f17 f18 f19 f20 f21 f22 f23 f24 f25 f26.
Definition set_timeout_timer (v : bool) (i : AdvertisingInstance) : AdvertisingInstance :=
  let 'MkAdvertisingInstance f0 f1 f2 f3 f4 f5 f6 f7 f8 f9 f10 f11 f12 f13 f14 f15 f16 f17 f18 f19 f20 f21 f22 f23 f24 f25 f26 := i in
  MkAdvertisingInstance f0 f1 f2 f3 f4 f5 f6 v f8 f9 f10 f11 f12 f13 f14 f15 f16 f17 f18 f19 f20 f21 f22 f23 f24 f25 f26.
Definition set_own_address_type (v : Z) (i : AdvertisingInstance) : AdvertisingInstance :=
  let 'MkAdvertisingInstance f0 f1 f2 f3 f4 f5 f6 f7 f8 f9 f10 f11 f12 f13 f14 f15 f16 f17 f18 f19 f20 f21 f22 f23 f24 f25 f26 := i in
  MkAdvertisingInstance f0 f1 f2 f3 f4 f5 f6 f7 v f9 f10 f11 f12 f13 f14 f15 f16 f17 f18 f19 f20 f21 f22 f23 f24 f25 f26.
Definition set_own_address (v : RawAddress) (i : AdvertisingInstance) : AdvertisingInstance :=
  let 'MkAdvertisingInstance f0 f1 f2 f3 f4 f5 f6 f7 f8 f9 f10 f11 f12 f13 f14 f15 f16 f17 f18 f19 f20 f21 f22 f23 f24 f25 f26 := i in
  MkAdvertisingInstance f0 f1 f2 f3 f4 f5 f6 f7 f8 v f10 f11 f12 f13 f14 f15 f16 f17 f18 f19 f20 f21 f22 f23 f24 f25 f26.
Definition set_timeout_cb (v : StoredCb) (i : AdvertisingInstance) : AdvertisingInstance :=
  let 'MkAdvertisingInstance f0 f1 f2 f3 f4 f5 f6 f7 f8 f9 f10 f11 f12 f13 f14 f15 f16 f17 f18 f19 f20 f21 f22 f23 f24 f25 f26 := i in
  MkAdvertisingInstance f0 f1 f2 f3 f4 f5 f6 f7 f8 f9 v f11 f12 f13 f14 f15 f16 f17 f18 f19 f20 f21 f22 f23 f24 f25 f26.
Definition set_address_update_required (v : bool) (i : AdvertisingInstance) : AdvertisingInstance :=
  let 'MkAdvertisingInstance f0 f1 f2 f3 f4 f5 f6 f7 f8 f9 f10 f11 f12 f13 f14 f15 f16 f17 f18 f19 f20 f21 f22 f23 f24 f25 f26 := i in
  MkAdvertisingInstance f0 f1 f2 f3 f4 f5 f6 f7 f8 f9 f10 v f12 f13 f14 f15 f16 f17 f18 f19 f20 f21 f22 f23 f24 f25 f26.
Definition set_periodic_enabled (v : bool) (i : AdvertisingInstance) : AdvertisingInstance :=
  let 'MkAdvertisingInstance f0 f1 f2 f3 f4 f5 f6 f7 f8 f9 f10 f11 f12 f13 f14 f15 f16 f17 f18 f19 f20 f21 f22 f23 f24 f25 f26 := i in
  MkAdvertisingInstance f0 f1 f2 f3 f4 f5 f6 f7 f8 f9 f10 f11 v f13 f14 f15 f16 f17 f18 f19 f20 f21 f22 f23 f24 f25 f26.
Definition set_advertising_interval (v : Z) (i : AdvertisingInstance) : AdvertisingInstance :=
  let 'MkAdvertisingInstance f0 f1 f2 f3 f4 f5 f6 f7 f8 f9 f10 f11 f12 f13 f14 f15 f16 f17 f18 f19 f20 f21 f22 f23 f24 f25 f26 := i in
  MkAdvertisingInstance f0 f1 f2 f3 f4 f5 f6 f7 f8 f9 f10 f11 f12 v f14 f15 f16 f17 f18 f19 f20 f21 f22 f23 f24 f25 f26.
Definition set_skip_rpa_count (v : Z) (i : AdvertisingInstance) : AdvertisingInstance :=
  let 'MkAdvertisingInstance f0 f1 f2 f3 f4 f5 f6 f7 f8 f9 f10 f11 f12 f13 f14 f15 f16 f17 f18 f19 f20 f21 f22 f23 f24 f25 f26 := i in
  MkAdvertisingInstance f0 f1 f2 f3 f4 f5 f6 f7 f8 f9 f10 f11 f12 f13 v f15 f16 f17 f18 f19 f20 f21 f22 f23 f24 f25 f26.
Definition set_skip_rpa (v : bool) (i : AdvertisingInstance) : AdvertisingInstance :=
  let 'MkAdvertisingInstance f0 f1 f2 f3 f4 f5 f6 f7 f8 f9 f10 f11 f12 f13 f14 f15 f16 f17 f18 f19 f20 f21 f22 f23 f24 f25 f26 := i in
  MkAdvertisingInstance f0 f1 f2 f3 f4 f5 f6 f7 f8 f9 f10 f11 f12 f13 f14 v f16 f17 f18 f19 f20 f21 f22 f23 f24 f25 f26.
Definition set_randomizer (v : array5) (i : AdvertisingInstance) : AdvertisingInstance :=
  let 'MkAdvertisingInstance f0 f1 f2 f3 f4 f5 f6 f7 f8 f9 f10 f11 f12 f13 f14 f15 f16 f17 f18 f19 f20 f21 f22 f23 f24 f25 f26 := i in
  MkAdvertisingInstance f0 f1 f2 f3 f4 f5 f6 f7 f8 f9 f10 f11 f12 f13 f14 f15 v f17 f18 f19 f20 f21 f22 f23 f24 f25 f26.
Definition set_advertise_data (v : list Z) (i : AdvertisingInstance) : AdvertisingInstance :=
  let 'MkAdvertisingInstance f0 f1 f2 f3 f4 f5 f6 f7 f8 f9 f10 f11 f12 f13 f14 f15 f16 f17 f18 f19 f20 f21 f22 f23 f24 f25 f26 := i in
  MkAdvertisingInstance f0 f1 f2 f3 f4 f5 f6 f7 f8 f9 f10 f11 f12 f13 f14 f15 f16 v f18 f19 f20 f21 f22 f23 f24 f25 f26.
Definition set_scan_response_data (v : list Z) (i : AdvertisingInstance) : AdvertisingInstance :=
  let 'MkAdvertisingInstance f0 f1 f2 f3 f4 f5 f6 f7 f8 f9 f10 f11 f12 f13 f14 f15 f16 f17 f18 f19 f20 f21 f22 f23 f24 f25 f26 := i in
  MkAdvertisingInstance f0 f1 f2 f3 f4 f5 f6 f7 f8 f9 f10 f11 f12 f13 f14 f15 f16 f17 v f19 f20 f21 f22 f23 f24 f25 f26.
Definition set_periodic_data (v : list Z) (i : AdvertisingInstance) : AdvertisingInstance :=
  let 'MkAdvertisingInstance f0 f1 f2 f3 f4 f5 f6 f7 f8 f9 f10 f11 f12 f13 f14 f15 f16 f17 f18 f19 f20 f21 f22 f23 f24 f25 f26 := i in
  MkAdvertisingInstance f0 f1 f2 f3 f4 f5 f6 f7 f8 f9 f10 f11 f12 f13 f14 f15 f16 f17 f18 v f20 f21 f22 f23 f24 f25 f26.
Definition set_advertise_data_enc (v : list Z) (i : AdvertisingInstance) : AdvertisingInstance :=
  let 'MkAdvertisingInstance f0 f1 f2 f3 f4 f5 f6 f7 f8 f9 f10 f11 f12 f13 f14 f15 f16 f17 f18 f19 f20 f21 f22 f23 f24 f25 f26 := i in
  MkAdvertisingInstance f0 f1 f2 f3 f4 f5 f6 f7 f8 f9 f10 f11 f12 f13 f14 f15 f16 f17 f18 f19 v f21 f22 f23 f24 f25 f26.
Definition set_scan_response_data_enc (v : list Z) (i : AdvertisingInstance) : AdvertisingInstance :=
  let 'MkAdvertisingInstance f0 f1 f2 f3 f4 f5 f6 f7 f8 f9 f10 f11 f12 f13 f14 f15 f16 f17 f18 f19 f20 f21 f22 f23 f24 f25 f26 := i in
  MkAdvertisingInstance f0 f1 f2 f3 f4 f5 f6 f7 f8 f9 f10 f11 f12 f13 f14 f15 f16 f17 f18 f19 f20 v f22 f23 f24 f25 f26.
Definition set_periodic_adv_data_enc (v : list Z) (i : AdvertisingInstance) : AdvertisingInstance :=
  let 'MkAdvertisingInstance f0 f1 f2 f3 f4 f5 f6 f7 f8 f9 f10 f11 f12 f13 f14 f15 f16 f17 f18 f19 f20 f21 f22 f23 f24 f25 f26 := i in
  MkAdvertisingInstance f0 f1 f2 f3 f4 f5 f6 f7 f8 f9 f10 f11 f12 f13 f14 f15 f16 f17 f18 f19 f20 f21 v f23 f24 f25 f26.
Definition set_enc_key_value (v : list Z) (i : AdvertisingInstance) : AdvertisingInstance :=
  let 'MkAdvertisingInstance f0 f1 f2 f3 f4 f5 f6 f7 f8 f9 f10 f11 f12 f13 f14 f15 f16 f17 f18 f19 f20 f21 f22 f23 f24 f25 f26 := i in
  MkAdvertisingInstance f0 f1 f2 f3 f4 f5 f6 f7 f8 f9 f10 f11 f12 f13 f14 f15 f16 f17 f18 f19 f20 f21 f22 v f24 f25 f26.
Definition set_enable_status (v : bool) (i : AdvertisingInstance) : AdvertisingInstance :=
  let 'MkAdvertisingInstance f0 f1 f2 f3 f4 f5 f6 f7 f8 f9 f10 f11 f12 f13 f14 f15 f16 f17 f18 f19 f20 f21 f22 f23 f24 f25 f26 := i in
  MkAdvertisingInstance f0 f1 f2 f3 f4 f5 f6 f7 f8 f9 f10 f11 f12 f13 f14 f15 f16 f17 f18 f19 f20 f21 f22 f23 v f25 f26.
Definition set_enable_time (v : TimeTicks) (i : AdvertisingInstance) : AdvertisingInstance :=
  let 'MkAdvertisingInstance f0 f1 f2 f3 f4 f5 f6 f7 f8 f9 f10 f11 f12 f13 f14 f15 f16 f17 f18 f19 f20 f21 f22 f23 f24 f25 f26 := i in
  MkAdvertisingInstance f0 f1 f2 f3 f4 f5 f6 f7 f8 f9 f10 f11 f12 f13 f14 f15 f16 f17 f18 f19 f20 f21 f22 f23 f24 v f26.
Definition set_big_handle (v : Z) (i : AdvertisingInstance) : AdvertisingInstance :=
  let 'MkAdvertisingInstance f0 f1 f2 f3 f4 f5 f6 f7 f8 f9 f10 f11 f12 f13 f14 f15 f16 f17 f18 f19 f20 f21 f22 f23 f24 f25 f26 := i in
  MkAdvertisingInstance f0 f1 f2 f3 f4 f5 f6 f7 f8 f9 f10 f11 f12 f13 f14 f15 f16 f17 f18 f19 f20 f21 f22 f23 f24 f25 v.

Module IsoBIG.

Record IsoBIGInstance : Set := MkIsoBIGInstance {
  big_handle : Z;
  in_use : bool;
  bis_handles : list Z;
  adv_inst_id : Z;
  created_status : bool;
  create_big_cb : option nat;
  terminate_big_cb : option nat
}.

Definition set_big_handle (v : Z) (b : IsoBIGInstance) : IsoBIGInstance :=
  let 'MkIsoBIGInstance f0 f1 f2 f3 f4 f5 f6 := b in
  MkIsoBIGInstance v f1 f2 f3 f4 f5 f6.
Definition set_in_use (v : bool) (b : IsoBIGInstance) : IsoBIGInstance :=
  let 'MkIsoBIGInstance f0 f1 f2 f3 f4 f5 f6 := b in
  MkIsoBIGInstance f0 v f2 f3 f4 f5 f6.
Definition set_bis_handles (v : list Z) (b : IsoBIGInstance) : IsoBIGInstance :=
  let 'MkIsoBIGInstance f0 f1 f2 f3 f4 f5 f6 := b in
  MkIsoBIGInstance f0 f1 v f3 f4 f5 f6.
Definition set_adv_inst_id (v : Z) (b : IsoBIGInstance) : IsoBIGInstance :=
  let 'MkIsoBIGInstance f0 f1 f2 f3 f4 f5 f6 := b in
  MkIsoBIGInstance f0 f1 f2 v f4 f5 f6.
Definition set_created_status (v : bool) (b : IsoBIGInstance) : IsoBIGInstance :=
  let 'MkIsoBIGInstance f0 f1 f2 f3 f4 f5 f6 := b in
  MkIsoBIGInstance f0 f1 f2 f3 v f5 f6.
Definition set_create_big_cb (v : option nat) (b : IsoBIGInstance) : IsoBIGInstance :=
  let 'MkIsoBIGInstance f0 f1 f2 f3 f4 f5 f6 := b in
  MkIsoBIGInstance f0 f1 f2 f3 f4 v f6.
Definition set_terminate_big_cb (v : option nat) (b : IsoBIGInstance) : IsoBIGInstance :=
  let 'MkIsoBIGInstance f0 f1 f2 f3 f4 f5 f6 := b in
  MkIsoBIGInstance f0 f1 f2 f3 f4 f5 v.

End IsoBIG.

(** The manager object together with the two globals that say whether it
    is alive: [instance] and [instance_weakptr] are set by [Initialize] and
    cleared together by [CleanUp], which is what [initialized] records
    ([IsInitialized()], [c->self], [instance_weakptr.get()]). *)
Record Manager : Set := MkManager {
  initialized : bool;
  adv_inst : list AdvertisingInstance;
  inst_count : Z;  (* uint8_t *)
  rpa_gen_offload_enabled : bool;
  iso_big_inst : list IsoBIG.IsoBIGInstance
}.

Definition set_adv_inst (v : list AdvertisingInstance) (m : Manager) : Manager :=
  MkManager (initialized m) v (inst_count m) (rpa_gen_offload_enabled m) (iso_big_inst m).
Definition set_iso_big_inst (v : list IsoBIG.IsoBIGInstance) (m : Manager) : Manager :=
  MkManager (initialized m) (adv_inst m) (inst_count m) (rpa_gen_offload_enabled m) v.
Definition set_inst_count (v : Z) (m : Manager) : Manager :=
  MkManager (initialized m) (adv_inst m) v (rpa_gen_offload_enabled m) (iso_big_inst m).
Definition set_rpa_gen_offload_enabled (v : bool) (m : Manager) : Manager :=
  MkManager (initialized m) (adv_inst m) (inst_count m) v (iso_big_inst m).
Definition set_initialized (v : bool) (m : Manager) : Manager :=
  MkManager v (adv_inst m) (inst_count m) (rpa_gen_offload_enabled m) (iso_big_inst m).

(** [tBTM_BLE_ADV_PARAMS] and [tBLE_PERIODIC_ADV_PARAMS], with the members
    this file reads. *)
Record tBTM_BLE_ADV_PARAMS : Set := {
  params_advertising_event_properties : Z;  (* uint16_t *)
  adv_int_min : Z;
  adv_int_max : Z;
  channel_map : Z;
  adv_filter_policy : Z;
  params_tx_power : Z;  (* int8_t *)
  primary_advertising_phy : Z;
  secondary_advertising_phy : Z;
  scan_request_notification_enable : Z;
  params_own_address_type : Z
}.

Record tBLE_PERIODIC_ADV_PARAMS : Set := {
  enable : Z;  (* uint8_t *)
  min_interval : Z;
  max_interval : Z;
  periodic_advertising_properties : Z
}.

(** ** External collaborators

    What the manager reads from the rest of the stack during one call:
    configuration flags of [btm_cb] and [stack_config], controller
    capabilities, the clock, the GAP key material and the BoringSSL AEAD.
    Three constants of headers that are not part of this file are kept
    symbolic as well. *)
Record Environment : Type := {
  enc_adv_data_enabled : bool;                      (* btm_cb.enc_adv_data_enabled *)
  BTM_BleLocalPrivacyEnabled : bool;
  supports_ble_iso_broadcaster : bool;
  supports_ble_periodic_advertising_adi : bool;
  get_pts_le_nonconn_adv_enabled : bool;
  get_pts_le_conn_nondisc_adv_enabled : bool;
  get_address : RawAddress;                         (* controller_get_interface()->get_address() *)
  btm_get_next_private_addrress_interval_ms : Z;
  Now : TimeTicks;                                  (* TimeTicks::Now() *)
  session_key : nat -> Z;                           (* GAP_BleReadEncrKeyMaterial().encr_material *)
  init_vector : nat -> Z;
  EVP_AEAD_CTX_new : list Z -> bool;                (* false: nullptr *)
  (* key, nonce, in, ad  |->  bytes written to out and to out_tag *)
  EVP_AEAD_CTX_seal_scatter : list Z -> list Z -> list Z -> list Z -> list Z * list Z;
  INVALID_BIG_HANDLE : Z;
  BLE_ADDR_DEFAULT : Z;
  BTM_BLE_MULTI_ADV_MAX : Z
}.

(** ** Constants *)

Definition EXT_ADV_DATA_LEN_MAX : Z := 251.
Definition PERIODIC_ADV_DATA_LEN_MAX : Z := 252.
Definition ADVERTISE_FAILED_FEATURE_UNSUPPORTED : Z := 0x05.

(** Values of the Bluetooth stack headers (ble_advertiser.h, hcidefs.h,
    bt_types.h, btm_api_types.h). *)
Definition BTM_BLE_MULTI_ADV_SUCCESS : Z := 0.
Definition BTM_BLE_MULTI_ADV_FAILURE : Z := 1.
Definition ADVERTISE_FAILED_TOO_MANY_ADVERTISERS : Z := 0x02.
Definition HCI_SUCCESS : Z := 0x00.
Definition HCI_ERR_ILLEGAL_COMMAND : Z := 0x01.
Definition HCI_ERR_CONN_CAUSE_LOCAL_HOST : Z := 0x16.
Definition HCI_ERR_ADVERTISING_TIMEOUT : Z := 0x3C.
Definition HCI_ERR_LIMIT_REACHED : Z := 0x43.
Definition BLE_ADDR_PUBLIC : Z := 0x00.
Definition BLE_ADDR_RANDOM : Z := 0x01.
Definition BLE_ADDR_RANDOM_ID : Z := 0x03.
Definition BLE_ADDR_ANONYMOUS : Z := 0xFF.
Definition HCI_EIR_FLAGS_TYPE : Z := 0x01.
Definition HCI_EIR_TX_POWER_LEVEL_TYPE : Z := 0x0A.
Definition BTM_BLE_AD_TYPE_ED : Z := 0x31.
Definition BTM_BLE_NON_DISCOVERABLE : Z := 0.
Definition BTM_LIMITED_DISCOVERABLE : Z := 1.
Definition BTM_GENERAL_DISCOVERABLE : Z := 2.

(** [EVP_AEAD_max_overhead(EVP_aead_aes_128_ccm_bluetooth())]: the tag of
    the Bluetooth CCM instance. *)
Definition EVP_AEAD_max_overhead : nat := 4.

(** Extended advertising operations of [DivideAndSendDataRecursively]. *)
Definition INTERMEDIATE : Z := 0x00.
Definition FIRST : Z := 0x01.
Definition LAST : Z := 0x02.
Definition COMPLETE : Z := 0x03.

(** ** Commands, events and pending completions *)

(** Calls into [BleAdvertiserHciInterface], [btsnd_hcic_ble_rand] and
    [btm_gen_resolvable_private_addr], without their callback argument. *)
Inductive command : Set :=
| SetParametersCmd (handle properties adv_int_min adv_int_max channel_map
                    own_address_type : Z) (own_address : RawAddress)
                   (peer_address_type : Z) (peer_address : RawAddress)
                   (filter_policy tx_power primary_phy secondary_max_skip
                    secondary_phy sid scan_request_notify_enable : Z)
| SetRandomAddressCmd (handle : Z) (address : RawAddress)
| SetAdvertisingDataCmd (handle operation fragment_preference length : Z) (data : list Z)
| SetScanResponseDataCmd (handle operation fragment_preference length : Z) (data : list Z)
| SetPeriodicAdvertisingParametersCmd (handle min_interval max_interval properties : Z)
| SetPeriodicAdvertisingDataCmd (handle operation length : Z) (data : list Z)
| SetPeriodicAdvertisingEnableCmd (enable handle : Z)
| EnableCmd (enable : bool) (handle duration max_extended_advertising_events : Z)
| RemoveAdvertisingSetCmd (handle : Z)
| TerminateBIGCmd (big_handle reason : Z)
| RandCmd
| GenerateRpaCmd.

(** The two alarms of the instance at a given table position. *)
Inductive alarm : Set :=
| adv_raddr_timer_of (p_inst : Z)
| timeout_timer_of (p_inst : Z).

(** The closure scheduled by [EnableWithTimerCb]:
    [Bind(&Enable, weak, inst_id, 0, timeout_cb, 0, 0, DoNothing)]. *)
Inductive TimerTask : Set :=
| DisableOnTimeout (inst_id : Z) (timeout_cb : StoredCb).

Inductive event : Set :=
| Issued (c : command)
| Called (cb : StoredCb) (status : Z)
| CalledIdTxPowerStatus (name : nat) (inst_id tx_power status : Z)
| CalledRegister (name : nat) (inst_id status : Z)
| CalledGetAddress (name : nat) (address_type : Z) (address : RawAddress)
| CalledCreateBIG (name : nat) (adv_inst_id status big_handle : Z)
                  (big_params : list Z) (conn_handle_list : list Z)
| CalledTerminateBIG (name : nat) (status adv_inst_id big_handle reason : Z)
| alarm_new (a : alarm)
| alarm_set_on_mloop (a : alarm) (interval_ms : Z)
| alarm_set_closure (a : alarm) (interval_ms : Z) (task : TimerTask)
| alarm_cancel (a : alarm)
| alarm_free (a : alarm)
| btm_acl_update_conn_addr (conn_handle : Z) (address : RawAddress).

(** What one call leaves behind: events that are over when the call
    returns, and commands whose completion will run the bound callback. *)
#[local] Unset Elimination Schemes.
Inductive effect : Type :=
| Emit (e : event)
| Hci (c : command) (cb : Z -> Manager -> result (Manager * list effect))
| HciParameters (c : command) (cb : Z -> Z -> Manager -> result (Manager * list effect))
| HciRand (cb : list Z -> Manager -> result (Manager * list effect))
| HciRpa (cb : RawAddress -> Manager -> result (Manager * list effect)).
#[local] Set Elimination Schemes.

(** A piece of manager code: runs on the manager state, may crash. *)
Definition Action : Type := Manager -> result (Manager * list effect).

Definition MultiAdvCb : Type := Z -> Action.
Definition ParametersCb : Type := Z -> Z -> Action.
Definition RegisterCb : Type := Z -> Z -> Action.
Definition IdTxPowerStatusCb : Type := Z -> Z -> Z -> Action.

Definition skip : Action := fun m => Ok (m, []).
Definition emit (e : event) : Action := fun m => Ok (m, [Emit e]).
Definition issue (e : effect) : Action := fun m => Ok (m, [e]).
Definition crash (f : fault) : Action := fun _ => Crash f.

Definition and_then (a b : Action) : Action :=
  fun m =>
    r1 <- a m ;;
    r2 <- b (fst r1) ;;
    Ok (fst r2, snd r1 ++ snd r2).

Notation "a ;;; b" := (and_then a b) (at level 100, right associativity).

(** Reading the state inside an action. *)
Definition with_state (k : Manager -> Action) : Action := fun m => k m m.

Definition modify (f : Manager -> Manager) : Action := fun m => Ok (f m, []).

(** [base::DoNothing()] *)
Definition DoNothing : MultiAdvCb := fun _ => skip.

(** [cb.Run(status)] on a stored callback; running a null callback is a
    fault. *)
Definition run_stored (cb : StoredCb) : MultiAdvCb :=
  fun status => if is_null cb then crash NullPointer else emit (Called cb status).

Definition client_cb (name : nat) : MultiAdvCb := run_stored (ClientCb name).
Definition client_id_tx_power_status_cb (name : nat) : IdTxPowerStatusCb :=
  fun inst_id tx_power status => emit (CalledIdTxPowerStatus name inst_id tx_power status).
Definition client_register_cb (name : nat) : RegisterCb :=
  fun inst_id status => emit (CalledRegister name inst_id status).
Definition client_get_address_cb (name : nat) : Z -> RawAddress -> Action :=
  fun address_type address => emit (CalledGetAddress name address_type address).

(** A method bound to [weak_factory_.GetWeakPtr()]: dropped once the
    manager is gone. *)
Definition weak (a : Action) : Action :=
  fun m => if initialized m then a m else Ok (m, []).

(** ** Fragmenter *)

(** [DataSender]: instance, operation, length, pointer into the payload
    (the bytes from that position on), completion. *)
Definition DataSender : Type := Z -> Z -> Z -> list Z -> MultiAdvCb -> Action.

(** [fuel] bounds the number of fragments that can still be handed to the
    sender; [DivideAndSendData] supplies more than any payload needs. *)
Fixpoint DivideAndSendDataRecursively (fuel : nat) (isFirst : bool) (inst_id : Z)
    (is_periodic_adv_data : bool) (data : list Z) (offset : Z)
    (done_cb : MultiAdvCb) (sender : DataSender) (status : Z) : Action :=
  let dataSize := to_int (Z.of_nat (length data)) in
  if negb (status =? 0) || (negb isFirst && (offset =? dataSize)) then
    (* if we got error writing data, or reached the end of data *)
    done_cb status
  else
    let adv_data_length_max :=
      if is_periodic_adv_data then PERIODIC_ADV_DATA_LEN_MAX else EXT_ADV_DATA_LEN_MAX in
    let moreThanOnePacket := dataSize - offset >? adv_data_length_max in
    let operation :=
      if isFirst then (if moreThanOnePacket then FIRST else COMPLETE)
      else (if moreThanOnePacket then INTERMEDIATE else LAST) in
    let len := if moreThanOnePacket then adv_data_length_max else dataSize - offset in
    let newOffset := offset + len in
    match fuel with
    | O => skip
    | S fuel' =>
        sender (to_uint8 inst_id) operation (to_uint8 len) (drop (Z.to_nat offset) data)
          (DivideAndSendDataRecursively fuel' false inst_id is_periodic_adv_data data
             newOffset done_cb sender)
    end.

Definition DivideAndSendData (inst_id : Z) (data : list Z) (is_periodic_adv_data : bool)
    (done_cb : MultiAdvCb) (sender : DataSender) : Action :=
  DivideAndSendDataRecursively (S (length data)) true inst_id is_periodic_adv_data data 0
    done_cb sender 0.

(** The HCI interface reads [length] bytes behind the pointer it is given. *)
Definition SetDataAdvDataSender (is_scan_rsp : bool) : DataSender :=
  fun inst_id operation len data cb =>
    weak (if is_scan_rsp
          then issue (Hci (SetScanResponseDataCmd inst_id operation 0x01 len
                             (take (Z.to_nat len) data)) cb)
          else issue (Hci (SetAdvertisingDataCmd inst_id operation 0x01 len
                             (take (Z.to_nat len) data)) cb)).

Definition HciSetPeriodicAdvertisingData : DataSender :=
  fun inst_id operation len data cb =>
    issue (Hci (SetPeriodicAdvertisingDataCmd inst_id operation len
                  (take (Z.to_nat len) data)) cb).

(** ** Completions

    The controller answers the commands in the order they were issued.
    [drive] plays a list of answers against the commands a call left
    behind and returns everything that was observable, in order. *)
Inductive reply : Set :=
| Status (status : Z)
| StatusTxPower (status tx_power : Z)
| Random (rand : list Z)
| Address (bda : RawAddress).

Definition issued (e : effect) : event :=
  match e with
  | Emit ev => ev
  | Hci c _ | HciParameters c _ => Issued c
  | HciRand _ => Issued RandCmd
  | HciRpa _ => Issued GenerateRpaCmd
  end.

(** The completion of [e] on answer [r]; an answer of the wrong kind is
    not delivered. *)
Definition resume (e : effect) (r : reply) : Action :=
  match e, r with
  | Hci _ cb, Status s => cb s
  | HciParameters _ cb, StatusTxPower s t => cb s t
  | HciRand cb, Random rand => cb rand
  | HciRpa cb, Address bda => cb bda
  | _, _ => skip
  end.

(** Events up to and including the first command that awaits an answer. *)
Fixpoint until_command (q : list effect) : list event * option (effect * list effect) :=
  match q with
  | [] => ([], None)
  | Emit ev :: q' => let '(evs, next) := until_command q' in (ev :: evs, next)
  | e :: q' => ([issued e], Some (e, q'))
  end.

Fixpoint drive (replies : list reply) (m : Manager) (q : list effect)
    : result (Manager * list event) :=
  let '(evs, next) := until_command q in
  match next with
  | None => Ok (m, evs)
  | Some (e, rest) =>
      match replies with
      | [] => Ok (m, evs ++ map issued rest)
      | r :: replies' =>
          r1 <- resume e r m ;;
          r2 <- drive replies' (fst r1) (rest ++ snd r1) ;;
          Ok (fst r2, evs ++ snd r2)
      end
  end.

(** A call followed by the controller's answers. *)
Definition run (a : Action) (replies : list reply) (m : Manager)
    : result (Manager * list event) :=
  r <- a m ;; drive replies (fst r) (snd r).


(** ** The instance table *)

(** Reading and writing through [p_inst], the instance at a table position. *)
Definition with_inst (p_inst : Z) (k : AdvertisingInstance -> Action) : Action :=
  fun m => inst <- at_index (adv_inst m) p_inst ;; k inst m.

Definition update_inst (p_inst : Z) (f : AdvertisingInstance -> AdvertisingInstance) : Action :=
  fun m =>
    inst <- at_index (adv_inst m) p_inst ;;
    Ok (set_adv_inst (<[Z.to_nat p_inst := f inst]> (adv_inst m)) m, []).

Definition with_big_inst (p_big_inst : Z) (k : IsoBIG.IsoBIGInstance -> Action) : Action :=
  fun m => big <- at_index (iso_big_inst m) p_big_inst ;; k big m.

Definition update_big_inst (p_big_inst : Z)
    (f : IsoBIG.IsoBIGInstance -> IsoBIG.IsoBIGInstance) : Action :=
  fun m =>
    big <- at_index (iso_big_inst m) p_big_inst ;;
    Ok (set_iso_big_inst (<[Z.to_nat p_big_inst := f big]> (iso_big_inst m)) m, []).

Definition is_connectable (advertising_event_properties : Z) : bool :=
  Z.testbit advertising_event_properties 0.

Definition IsEnabled (inst : AdvertisingInstance) : bool := enable_status inst.
Definition IsConnectable (inst : AdvertisingInstance) : bool :=
  is_connectable (advertising_event_properties inst).

Section WithEnvironment.

Variable env : Environment.

(** Members the constructors leave without a value. *)
Record Indeterminate : Set := {
  indeterminate_maxExtAdvEvents : Z;
  indeterminate_advertising_interval : Z;
  indeterminate_randomizer : array5;
  indeterminate_adv_inst_id : Z
}.

Definition AdvertisingInstance_new (inst_id : Z) (u : Indeterminate) : AdvertisingInstance :=
  {| inst_id := to_uint8 inst_id;
     in_use := false;
     advertising_event_properties := 0;
     adv_raddr_timer := true;
     tx_power := 0;
     duration := 0;
     maxExtAdvEvents := indeterminate_maxExtAdvEvents u;
     timeout_timer := false;
     own_address_type := 0;
     own_address := kEmpty;
     timeout_cb := NullCb;
     address_update_required := false;
     periodic_enabled := false;
     advertising_interval := indeterminate_advertising_interval u;
     skip_rpa_count := 0;
     skip_rpa := false;
     randomizer := indeterminate_randomizer u;
     advertise_data := [];
     scan_response_data := [];
     periodic_data := [];
     advertise_data_enc := [];
     scan_response_data_enc := [];
     periodic_adv_data_enc := [];
     enc_key_value := [];
     enable_status := false;
     enable_time := 0;
     big_handle := INVALID_BIG_HANDLE env |}.

Definition IsoBIGInstance_new (big_handle : Z) (u : Indeterminate) : IsoBIG.IsoBIGInstance :=
  {| IsoBIG.big_handle := to_uint8 big_handle;
     IsoBIG.in_use := false;
     IsoBIG.bis_handles := [];
     IsoBIG.adv_inst_id := indeterminate_adv_inst_id u;
     IsoBIG.created_status := false;
     IsoBIG.create_big_cb := None;
     IsoBIG.terminate_big_cb := None |}.

(** [ReadInstanceCountCb]; [u] and [u_big] give the indeterminate members of
    the freshly constructed slots. *)
Definition ReadInstanceCountCb (instance_count : Z) (u u_big : nat -> Indeterminate)
    : Action :=
  modify (fun m =>
    let count := Z.to_nat instance_count in
    MkManager (initialized m)
      (adv_inst m ++ map (fun i => AdvertisingInstance_new (Z.of_nat i) (u i)) (seq 0 count))
      instance_count
      (rpa_gen_offload_enabled m)
      (iso_big_inst m ++ map (fun i => IsoBIGInstance_new (Z.of_nat i) (u_big i)) (seq 0 count))).

Definition GetOwnAddress (inst_id : Z) (cb : Z -> RawAddress -> Action) : Action :=
  with_inst inst_id (fun inst => cb (own_address_type inst) (own_address inst)).

(** ** Encrypted advertising data *)

Definition GenerateRandomizer_cmpl (p_inst : Z) (temp_randomizer : list Z)
    (cb : MultiAdvCb) : Action :=
  let b i := nth i temp_randomizer 0 in
  (* memcpy of five bytes, then std::reverse *)
  update_inst p_inst (set_randomizer (Array5 (b 4%nat) (b 3%nat) (b 2%nat) (b 1%nat) (b 0%nat))) ;;;
  cb BTM_BLE_MULTI_ADV_SUCCESS.

Definition GenerateRandomizer (p_inst : Z) (cb : MultiAdvCb) : Action :=
  issue (HciRand (fun rand => GenerateRandomizer_cmpl p_inst (take 5 rand) cb)).

(** The loop over [i < 24] that splits the user provided key and IV. *)
Fixpoint user_key_iv (indices : list nat) (enc_key_value key iv : list Z)
    : result (list Z * list Z) :=
  match indices with
  | [] => Ok (key, iv)
  | i :: rest =>
      b <- at_index enc_key_value (Z.of_nat i) ;;
      if (i <? 16)%nat then user_key_iv rest enc_key_value (key ++ [b]) iv
      else user_key_iv rest enc_key_value key (iv ++ [b])
  end.

(** A C call that fills a vector it was given: it cannot change its size. *)
Definition written (buffer bytes : list Z) : list Z :=
  take (length buffer) bytes ++ drop (length bytes) buffer.

Definition EncryptedAdvertising (inst : AdvertisingInstance) (data : list Z)
    : result (list Z) :=
  key_iv <-
    (if bool_decide (enc_key_value inst = []) then
       (* Gap Key *)
       Ok (map (session_key env) (seq 0 16), map (init_vector env) (seq 0 8))
     else
       (* User Key *)
       user_key_iv (seq 0 24) (enc_key_value inst) [] []) ;;
  let key := fst key_iv in
  let iv := snd key_iv in
  let nonce := rev (array5_to_list (randomizer inst)) ++ rev iv in
  let in_ := data in
  let ad := [0xEA] in
  let out := repeat 0 (length in_) in
  if negb (EVP_AEAD_CTX_new env key) then Ok []
  else
    let out_tag := repeat 0 EVP_AEAD_max_overhead in
    let sealed := EVP_AEAD_CTX_seal_scatter env key nonce in_ ad in
    let out := written out (fst sealed) in
    let out_tag := written out_tag (snd sealed) in
    let ED_AD_Data := rev (array5_to_list (randomizer inst)) ++ out ++ out_tag in
    (* Below we are forming the LTV for Encrypted Data *)
    let ED_AD_Data := BTM_BLE_AD_TYPE_ED :: ED_AD_Data in
    Ok (to_uint8 (Z.of_nat (length ED_AD_Data)) :: ED_AD_Data).

Definition GenerateRpa (cb : RawAddress -> Action) : Action :=
  issue (HciRpa cb).

Definition hci_Enable (enable : bool) (handle duration maxExtAdvEvents : Z)
    (cb : MultiAdvCb) : Action :=
  issue (Hci (EnableCmd enable handle duration maxExtAdvEvents) cb).

Definition AdvertiseRestart (restart enable : bool) (p_inst : Z) : Action :=
  if restart then
    if negb enable then
      update_inst p_inst (set_enable_status false) ;;;
      with_inst p_inst (fun inst => hci_Enable false (inst_id inst) 0x00 0x00 DoNothing)
    else
      update_inst p_inst (set_enable_status true) ;;;
      with_inst p_inst (fun inst => hci_Enable true (inst_id inst) 0x00 0x00 DoNothing)
  else skip.

(** ** Advertising data *)

(** The loop that fills the TX Power Level structure: [i] walks from one
    length byte to the next; [fuel] bounds the number of structures. *)
Fixpoint fill_tx_power (fuel : nat) (tx_power : Z) (data : list Z) (i : Z)
    : result (list Z) :=
  if i + 2 <? Z.of_nat (length data) then
    match fuel with
    | O => Ok data
    | S fuel' =>
        type <- at_index data (i + 1) ;;
        let data :=
          if type =? HCI_EIR_TX_POWER_LEVEL_TYPE
          then <[Z.to_nat (i + 2) := to_uint8 tx_power]> data
          else data in
        len <- at_index data i ;;
        fill_tx_power fuel' tx_power data (i + (len + 1))
    end
  else Ok data.

Definition patch_tx_power (tx_power : Z) (data : list Z) : result (list Z) :=
  fill_tx_power (length data) tx_power data 0.

(** Running a computation that can crash inside an action. *)
Definition try {A : Type} (r : result A) (k : A -> Action) : Action :=
  fun m => a <- r ;; k a m.

(** Use of the manager pointer [ptr] captured from [instance_weakptr.get()]. *)
Definition through_ptr (ptr : bool) (a : Action) : Action :=
  fun m => if ptr && initialized m then a m else Crash NullPointer.

(** The completion [SetData] and [SetPeriodicAdvertisingData] bind when the
    set was stopped for the write: start it again on success. *)
Definition restart_after_write (p_inst : Z) (ptr : bool) (cb : MultiAdvCb) : MultiAdvCb :=
  fun status =>
    if negb (status =? 0) then
      (* Failed to Start Advertisement *)
      cb status
    else
      through_ptr ptr
        (with_inst p_inst (fun inst =>
           hci_Enable true (get_inst_id inst) (duration inst) (maxExtAdvEvents inst) cb)).

Definition SetData (inst_id : Z) (is_scan_rsp : bool) (data encr_data : list Z)
    (cb : MultiAdvCb) : Action :=
  if negb (bool_decide (encr_data = [])) && negb (enc_adv_data_enabled env) then
    cb ADVERTISE_FAILED_FEATURE_UNSUPPORTED
  else
    with_state (fun m0 =>
    if inst_id >=? inst_count m0 then
      (* bad instance id *)
      skip
    else
      let ptr := initialized m0 in
      let p_inst := inst_id in
      with_inst p_inst (fun inst0 =>
      let restart :=
        (Z.of_nat (length data + length encr_data) >? EXT_ADV_DATA_LEN_MAX) && IsEnabled inst0 in
      (if restart
       then hci_Enable false inst_id (duration inst0) (maxExtAdvEvents inst0) DoNothing
       else skip) ;;;
      (if is_scan_rsp then
         update_inst p_inst (fun i => set_scan_response_data_enc encr_data
                                        (set_scan_response_data data i))
       else
         update_inst p_inst (fun i => set_advertise_data_enc encr_data
                                        (set_advertise_data data i))) ;;;
      let update_flags :=
        get_pts_le_nonconn_adv_enabled env || get_pts_le_conn_nondisc_adv_enabled env in
      let data :=
        if (negb is_scan_rsp && is_connectable (advertising_event_properties inst0))
           || update_flags
        then
          let flags_val :=
            if negb (get_pts_le_conn_nondisc_adv_enabled env) then
              (if negb (duration inst0 =? 0) then BTM_LIMITED_DISCOVERABLE
               else BTM_GENERAL_DISCOVERABLE)
            else BTM_BLE_NON_DISCOVERABLE in
          [2; HCI_EIR_FLAGS_TYPE; flags_val] ++ data
        else data in
      (* This is the check to see if there is any data that needs to be encrypted *)
      if negb (bool_decide (encr_data = [])) then
        GenerateRandomizer p_inst (fun status =>
          if negb (status =? 0) then
            (* Generating Randomizer Failed *)
            cb status
          else
            with_inst p_inst (fun inst =>
            try (patch_tx_power (tx_power inst) data) (fun data =>
            try (patch_tx_power (tx_power inst) encr_data) (fun encr_data =>
            through_ptr ptr (
            try (EncryptedAdvertising inst encr_data) (fun encr_data =>
            let data := data ++ encr_data in
            if restart then
              DivideAndSendData (get_inst_id inst) data false
                (restart_after_write p_inst ptr cb) (SetDataAdvDataSender is_scan_rsp)
            else
              DivideAndSendData (get_inst_id inst) data false cb
                (SetDataAdvDataSender is_scan_rsp)))))))
      else
        (* Encr_data is empty so there is no data that needs to be encypted.
           We proceed with Unencrypted Advertising *)
        with_inst inst_id (fun inst =>
        try (patch_tx_power (tx_power inst) data) (fun data =>
        if restart then
          DivideAndSendData (get_inst_id inst) data false
            (restart_after_write p_inst ptr cb) (SetDataAdvDataSender is_scan_rsp)
        else
          DivideAndSendData inst_id data false cb (SetDataAdvDataSender is_scan_rsp))))).

Definition SetPeriodicAdvertisingParameters (inst_id : Z)
    (params : tBLE_PERIODIC_ADV_PARAMS) (cb : MultiAdvCb) : Action :=
  issue (Hci (SetPeriodicAdvertisingParametersCmd inst_id (min_interval params)
                (max_interval params) (periodic_advertising_properties params)) cb).

(** The callback [SetPeriodicAdvertisingEnable] binds for the completion. *)
Definition periodic_enable_completed (p_inst : Z) (enable : Z) (cb : MultiAdvCb)
    : MultiAdvCb :=
  fun status =>
    (if status =? 0
     then update_inst p_inst (set_periodic_enabled (negb (enable =? 0)))
     else skip) ;;;
    cb status.

Definition SetPeriodicAdvertisingEnable (inst_id : Z) (enable : Z) (cb : MultiAdvCb)
    : Action :=
  let p_inst := inst_id in
  with_inst p_inst (fun inst =>
  if negb (in_use inst) then
    (* Invalid or not active instance *)
    cb BTM_BLE_MULTI_ADV_FAILURE
  else
    let enable_cb := periodic_enable_completed p_inst enable cb in
    let enable :=
      if negb (enable =? 0) && negb (supports_ble_periodic_advertising_adi env)
      then 1 (* use value of 0x01 if ADI is not supported *)
      else enable in
    issue (Hci (SetPeriodicAdvertisingEnableCmd enable inst_id) enable_cb)).

(** Service data of the Broadcast Audio Announcement: 03 16 51 18. *)
Definition is_broadcast_uuid (data : list Z) : bool :=
  match data with
  | d0 :: d1 :: d2 :: d3 :: _ => (d0 =? 3) && (d1 =? 0x16) && (d2 =? 0x51) && (d3 =? 0x18)
  | _ => false
  end.

Definition restart_periodic_after_write (p_inst : Z) (ptr : bool) (cb : MultiAdvCb)
    : MultiAdvCb :=
  fun status =>
    if negb (status =? 0) then
      (* Failed to Start Advertisement *)
      cb status
    else
      through_ptr ptr
        (with_inst p_inst (fun inst => SetPeriodicAdvertisingEnable (get_inst_id inst) 1 cb)).

Definition SetPeriodicAdvertisingData (inst_id : Z) (data encr_data : list Z)
    (cb : MultiAdvCb) : Action :=
  if negb (bool_decide (encr_data = [])) && negb (enc_adv_data_enabled env) then
    cb ADVERTISE_FAILED_FEATURE_UNSUPPORTED
  else
    with_state (fun m0 =>
    let ptr := initialized m0 in
    if negb ptr then skip
    else
      let p_inst := inst_id in
      update_inst p_inst (fun i => set_periodic_adv_data_enc encr_data
                                     (set_periodic_data data i)) ;;;
      with_inst p_inst (fun inst0 =>
      let restartPeriodic :=
        (Z.of_nat (length data + length encr_data) >? PERIODIC_ADV_DATA_LEN_MAX)
        && periodic_enabled inst0 in
      (if restartPeriodic
       then SetPeriodicAdvertisingEnable inst_id 0 DoNothing
       else skip) ;;;
      (if is_broadcast_uuid data
       then update_inst inst_id (fun i => set_skip_rpa true (set_skip_rpa_count 15 i))
       else skip) ;;;
      (if is_broadcast_uuid encr_data
       then update_inst inst_id (fun i => set_skip_rpa true (set_skip_rpa_count 15 i))
       else skip) ;;;
      (* This is the check to see if there is any periodic advertising data
         that needs to be encrypted *)
      if negb (bool_decide (encr_data = [])) then
        GenerateRandomizer p_inst (fun status =>
          if negb (status =? 0) then
            (* Generating Randomizer Failed *)
            cb status
          else
            through_ptr ptr (
            with_inst p_inst (fun inst =>
            try (EncryptedAdvertising inst encr_data) (fun encr_data =>
            let data := data ++ encr_data in
            if restartPeriodic then
              DivideAndSendData (get_inst_id inst) data true
                (restart_periodic_after_write p_inst ptr cb)
                HciSetPeriodicAdvertisingData
            else
              DivideAndSendData (get_inst_id inst) data true cb HciSetPeriodicAdvertisingData))))
      else
        (* Proceed with unencrypted periodic advertising *)
        if restartPeriodic then
          with_inst p_inst (fun inst =>
            DivideAndSendData (get_inst_id inst) data true
              (restart_periodic_after_write p_inst ptr cb)
              HciSetPeriodicAdvertisingData)
        else
          DivideAndSendData inst_id data true cb HciSetPeriodicAdvertisingData)).

(** ** RPA rotation *)

Definition any_encrypted_data (inst : AdvertisingInstance) : bool :=
  negb (bool_decide (advertise_data_enc inst = []))
  || negb (bool_decide (scan_response_data_enc inst = []))
  || negb (bool_decide (periodic_adv_data_enc inst = [])).

(** The callback [ConfigureRpa] binds for the generated address. *)
Definition ConfigureRpa_generated (p_inst : Z) (configuredCb : MultiAdvCb)
    : RawAddress -> Action :=
  fun bda =>
    with_inst p_inst (fun inst =>
    (* Connectable advertising set must be disabled when updating RPA *)
    let restart := (IsEnabled inst && IsConnectable inst) || any_encrypted_data inst in
    with_state (fun m0 =>
    if negb (initialized m0) then skip
    else
      AdvertiseRestart restart false p_inst ;;;
      update_inst p_inst (set_own_address bda) ;;;
      (* set it to controller *)
      issue (Hci (SetRandomAddressCmd (inst_id inst) bda) (fun _ => configuredCb 0x00)) ;;;
      let restart_cb : MultiAdvCb := fun status =>
        if negb (status =? 0) then configuredCb status
        else AdvertiseRestart restart true p_inst in
      let periodic_cb := restart_cb in
      let scan_rsp_cb : MultiAdvCb := fun status =>
        if negb (status =? 0) then
          (* Set Scan Response Data Failed *)
          configuredCb status
        else
          with_inst p_inst (fun inst =>
          if negb (bool_decide (periodic_adv_data_enc inst = [])) && periodic_enabled inst then
            SetPeriodicAdvertisingData (inst_id inst) (periodic_data inst)
              (periodic_adv_data_enc inst) periodic_cb
          else AdvertiseRestart restart true p_inst) in
      let adv_data_cb : MultiAdvCb := fun status =>
        if negb (status =? 0) then
          (* Set Data Failed *)
          configuredCb status
        else
          with_inst p_inst (fun inst =>
          SetData (inst_id inst) true (scan_response_data inst)
            (scan_response_data_enc inst) scan_rsp_cb) in
      with_inst p_inst (fun inst =>
      if negb (bool_decide (advertise_data_enc inst = [])) then
        SetData (inst_id inst) false (advertise_data inst) (advertise_data_enc inst)
          adv_data_cb
      else if negb (bool_decide (scan_response_data_enc inst = [])) then
        SetData (inst_id inst) true (scan_response_data inst)
          (scan_response_data_enc inst) restart_cb
      else if negb (bool_decide (periodic_adv_data_enc inst = [])) && periodic_enabled inst
              && bool_decide (advertise_data_enc inst = [])
              && bool_decide (scan_response_data_enc inst = []) then
        SetPeriodicAdvertisingData (inst_id inst) (periodic_data inst)
          (periodic_adv_data_enc inst) periodic_cb
      else AdvertiseRestart restart true p_inst))).

Definition ConfigureRpa (p_inst : Z) (configuredCb : MultiAdvCb) : Action :=
  with_inst p_inst (fun inst =>
  (* Connectable advertising set must be disabled when updating RPA *)
  let restart := IsEnabled inst && IsConnectable inst in
  if skip_rpa inst && (skip_rpa_count inst >? 0) then
    update_inst p_inst (set_skip_rpa_count (skip_rpa_count inst - 1))
  else
    (if skip_rpa inst
     then (* Set skip_rpa_count for broadcast *)
       update_inst p_inst (set_skip_rpa_count 15)
     else skip) ;;;
    (* If there is any form of timeout on the set, schedule address update when
       the set stops, because there is no good way to compute new timeout value.
       Maximum duration value is around 10 minutes, so this is safe. *)
    if restart && (negb (duration inst =? 0) || negb (maxExtAdvEvents inst =? 0)) then
      update_inst p_inst (set_address_update_required true) ;;;
      configuredCb 0x01
    else
      GenerateRpa (ConfigureRpa_generated p_inst configuredCb)).

(** [btm_ble_adv_raddr_timer_timeout] *)
Definition btm_ble_adv_raddr_timer_timeout (p_inst : Z) : Action :=
  with_state (fun m => if initialized m then ConfigureRpa p_inst DoNothing else skip).

(** ** Allocation *)

(** The scan of [RegisterAdvertiserImpl] for the first slot not in use,
    from position [i], over at most [n] slots. *)
Fixpoint first_free (n : nat) (i : Z) (table : list AdvertisingInstance)
    : result (option Z) :=
  match n with
  | O => Ok None
  | S n' =>
      inst <- at_index table i ;;
      if in_use inst then first_free n' (i + 1) table else Ok (Some i)
  end.

Definition RegisterAdvertiserImpl (own_address_type : Z) (cb : RegisterCb) : Action :=
  fun m =>
    free <- first_free (Z.to_nat (inst_count m)) 0 (adv_inst m) ;;
    match free with
    | Some p_inst =>
        (update_inst p_inst (fun i => set_own_address_type (to_uint8 own_address_type)
                                        (set_in_use true i)) ;;;
         (* set up periodic timer to update address. *)
         if negb (own_address_type =? BLE_ADDR_PUBLIC) then
           with_state (fun m1 =>
           if negb (rpa_gen_offload_enabled m1) then
             GenerateRpa (fun bda =>
               with_inst p_inst (fun inst =>
               if negb (in_use inst) then
                 (* Not active instance *)
                 skip
               else
                 update_inst p_inst (set_own_address bda) ;;;
                 emit (alarm_set_on_mloop (adv_raddr_timer_of p_inst)
                         (btm_get_next_private_addrress_interval_ms env)) ;;;
                 cb (inst_id inst) BTM_BLE_MULTI_ADV_SUCCESS))
           else
             with_inst p_inst (fun inst => cb (inst_id inst) BTM_BLE_MULTI_ADV_SUCCESS))
         else
           update_inst p_inst (set_own_address (get_address env)) ;;;
           with_inst p_inst (fun inst => cb (inst_id inst) BTM_BLE_MULTI_ADV_SUCCESS)) m
    | None =>
        (* no free advertiser instance *)
        cb 0xFF ADVERTISE_FAILED_TOO_MANY_ADVERTISERS m
    end.

Definition RegisterAdvertiser (cb : RegisterCb) : Action :=
  let own_address_type :=
    if BTM_BleLocalPrivacyEnabled env then BLE_ADDR_RANDOM else BLE_ADDR_PUBLIC in
  RegisterAdvertiserImpl own_address_type cb.

Definition GetMaxAdvInstances (m : Manager) : Z := inst_count m.

Definition UpdateRpaGenOffloadStatus (enable : bool) : Action :=
  modify (set_rpa_gen_offload_enabled enable).

Definition IsRpaGenOffloadEnabled (m : Manager) : bool := rpa_gen_offload_enabled m.

(** ** Parameters and enabling *)

Definition SetParameters (inst_id : Z) (p_params : tBTM_BLE_ADV_PARAMS) (cb : ParametersCb)
    : Action :=
  with_state (fun m0 =>
  if inst_id >=? inst_count m0 then
    (* bad instance id *)
    skip
  else
    let p_inst := inst_id in
    with_inst p_inst (fun inst0 =>
    if negb (in_use inst0) then
      (* adv instance not in use *)
      cb BTM_BLE_MULTI_ADV_FAILURE 0
    else
      update_inst p_inst (fun i =>
        set_advertising_interval (adv_int_min p_params)
          (set_tx_power (params_tx_power p_params)
             (set_advertising_event_properties
                (to_uint8 (params_advertising_event_properties p_params)) i))) ;;;
      (if rpa_gen_offload_enabled m0
       then update_inst p_inst (set_own_address_type BLE_ADDR_RANDOM_ID)
       else skip) ;;;
      with_inst p_inst (fun inst =>
      let peer_address :=
        if rpa_gen_offload_enabled m0
        then (* peer addr for RPA offload: 00:00:00:00:00:<inst_id> *)
          [0; 0; 0; 0; 0; get_inst_id inst]
        else kEmpty in
      (* sid must be in range 0x00 to 0x0F. Since no controller supports more
         than 16 advertisers, it's safe to make sid equal to inst_id. *)
      let sid := get_inst_id inst mod 0x10 in
      issue (HciParameters
               (SetParametersCmd (get_inst_id inst)
                  (params_advertising_event_properties p_params)
                  (adv_int_min p_params) (adv_int_max p_params) (channel_map p_params)
                  (own_address_type inst) (own_address inst) 0x00 peer_address
                  (adv_filter_policy p_params) (tx_power inst)
                  (primary_advertising_phy p_params) 0x00
                  (secondary_advertising_phy p_params) sid
                  (scan_request_notification_enable p_params))
               cb)))).

Definition EnableWithTimerCb (inst_id : Z) (enable_cb : MultiAdvCb) (duration : Z)
    (timeout_cb : StoredCb) (status : Z) : Action :=
  let p_inst := inst_id in
  (* Run the regular enable callback *)
  enable_cb status ;;;
  update_inst p_inst (set_timeout_timer true) ;;;
  emit (alarm_new (timeout_timer_of p_inst)) ;;;
  (* schedule disable when the timeout passes *)
  emit (alarm_set_closure (timeout_timer_of p_inst) (duration * 10)
          (DisableOnTimeout inst_id timeout_cb)).

Definition EnableFinish (p_inst : Z) (enable : bool) (cb : MultiAdvCb) (status : Z)
    : Action :=
  with_inst p_inst (fun inst0 =>
  let timed := enable && negb (duration inst0 =? 0) in
  let myCb : MultiAdvCb :=
    if timed then
      fun status => weak (EnableWithTimerCb (inst_id inst0) cb (duration inst0)
                            (timeout_cb inst0) status)
    else cb in
  (if negb timed && timeout_timer inst0 then
     emit (alarm_cancel (timeout_timer_of p_inst)) ;;;
     emit (alarm_free (timeout_timer_of p_inst)) ;;;
     update_inst p_inst (set_timeout_timer false)
   else skip) ;;;
  (if enable then update_inst p_inst (set_enable_time (Now env)) else skip) ;;;
  update_inst p_inst (set_enable_status enable) ;;;
  hci_Enable enable (inst_id inst0) (duration inst0) (maxExtAdvEvents inst0) myCb).

Definition Enable (inst_id : Z) (enable : bool) (cb : MultiAdvCb) (duration : Z)
    (maxExtAdvEvents : Z) (timeout_cb : StoredCb) : Action :=
  with_state (fun m0 =>
  if inst_id >=? inst_count m0 then
    (* bad instance id *)
    skip
  else
    let p_inst := inst_id in
    with_inst p_inst (fun inst0 =>
    if negb (in_use inst0) then
      (* Invalid or no active instance *)
      cb BTM_BLE_MULTI_ADV_FAILURE
    else
      (if enable && (negb (duration =? 0) || negb (maxExtAdvEvents =? 0))
       then update_inst p_inst (set_timeout_cb timeout_cb)
       else skip) ;;;
      update_inst p_inst (fun i => set_maxExtAdvEvents maxExtAdvEvents (set_duration duration i)) ;;;
      if negb (rpa_gen_offload_enabled m0) && (enable && address_update_required inst0) then
        update_inst p_inst (set_address_update_required false) ;;;
        ConfigureRpa p_inst (fun status => weak (EnableFinish p_inst enable cb status))
      else
        EnableFinish p_inst enable cb 0)).

(** The task of the timeout alarm, when it fires. *)
Definition run_timer_task (task : TimerTask) : Action :=
  match task with
  | DisableOnTimeout inst_id timeout_cb =>
      weak (Enable inst_id false (run_stored timeout_cb) 0 0 NoOpCb)
  end.

(** ** Unregister *)

Definition Unregister (inst_id : Z) : Action :=
  let p_inst := inst_id in
  with_state (fun m0 =>
  if negb (initialized m0) then
    (* Stack already shutdown *)
    skip
  else if inst_id >=? inst_count m0 then
    (* bad instance id *)
    skip
  else
    (if supports_ble_iso_broadcaster env then
       (* Terminate BIG *)
       with_inst p_inst (fun inst =>
       if negb (big_handle inst =? INVALID_BIG_HANDLE env) then
         let p_big_inst := big_handle inst in
         with_big_inst p_big_inst (fun _ =>
         emit (Issued (TerminateBIGCmd (big_handle inst) HCI_ERR_CONN_CAUSE_LOCAL_HOST)) ;;;
         update_big_inst p_big_inst (fun b =>
           IsoBIG.set_big_handle (INVALID_BIG_HANDLE env)
             (IsoBIG.set_created_status false
                (IsoBIG.set_bis_handles [] (IsoBIG.set_in_use false b)))) ;;;
         update_inst p_inst (set_big_handle (INVALID_BIG_HANDLE env)))
       else skip)
     else skip) ;;;
    with_inst p_inst (fun inst =>
    if IsEnabled inst then
      update_inst p_inst (fun i =>
        set_scan_response_data_enc []
          (set_scan_response_data []
             (set_advertise_data_enc []
                (set_advertise_data [] (set_enable_status false i))))) ;;;
      hci_Enable false inst_id 0x00 0x00 DoNothing
    else skip) ;;;
    with_inst p_inst (fun inst =>
    if periodic_enabled inst then
      update_inst p_inst (fun i =>
        set_periodic_adv_data_enc [] (set_periodic_data [] (set_periodic_enabled false i))) ;;;
      issue (Hci (SetPeriodicAdvertisingEnableCmd 0 inst_id) DoNothing)
    else skip) ;;;
    with_inst p_inst (fun inst =>
    if timeout_timer inst then
      (* Cancelling timer *)
      emit (alarm_cancel (timeout_timer_of p_inst)) ;;;
      emit (alarm_free (timeout_timer_of p_inst)) ;;;
      update_inst p_inst (set_timeout_timer false)
    else skip) ;;;
    emit (alarm_cancel (adv_raddr_timer_of p_inst)) ;;;
    update_inst p_inst (fun i => set_skip_rpa false (set_skip_rpa_count 0 (set_in_use false i))) ;;;
    issue (Hci (RemoveAdvertisingSetCmd inst_id) DoNothing) ;;;
    update_inst p_inst (set_address_update_required false)).

(** ** Start advertising set *)

(** [CreatorParams]: all the data needed in the callbacks below.  [self] is
    the weak pointer to the manager, read from the state when a callback
    runs. *)
Record CreatorParams : Type := {
  c_inst_id : Z;
  c_cb : IdTxPowerStatusCb;
  c_params : tBTM_BLE_ADV_PARAMS;
  c_advertise_data : list Z;
  c_advertise_data_enc : list Z;
  c_scan_response_data : list Z;
  c_scan_response_data_enc : list Z;
  c_periodic_params : tBLE_PERIODIC_ADV_PARAMS;
  c_periodic_data : list Z;
  c_periodic_adv_data_enc : list Z;
  c_enc_key_value : list Z;
  c_duration : Z;
  c_maxExtAdvEvents : Z;
  c_timeout_cb : nat  (* RegisterCb of the client *)
}.

Definition set_c_inst_id (v : Z) (c : CreatorParams) : CreatorParams :=
  {| c_inst_id := v; c_cb := c_cb c; c_params := c_params c;
     c_advertise_data := c_advertise_data c;
     c_advertise_data_enc := c_advertise_data_enc c;
     c_scan_response_data := c_scan_response_data c;
     c_scan_response_data_enc := c_scan_response_data_enc c;
     c_periodic_params := c_periodic_params c;
     c_periodic_data := c_periodic_data c;
     c_periodic_adv_data_enc := c_periodic_adv_data_enc c;
     c_enc_key_value := c_enc_key_value c;
     c_duration := c_duration c;
     c_maxExtAdvEvents := c_maxExtAdvEvents c;
     c_timeout_cb := c_timeout_cb c |}.

(** The shape shared by the completion callbacks of the chain: nothing
    when the stack was shut down, roll back on a non-zero status, go on
    otherwise. *)
Definition chained (c : CreatorParams) (next : Action) : MultiAdvCb :=
  fun status =>
    with_state (fun m =>
    if negb (initialized m) then
      (* Stack was shut down *)
      skip
    else if negb (status =? 0) then
      Unregister (c_inst_id c) ;;;
      c_cb c 0 0 status
    else next).

Definition StartAdvertisingSetFinish_enable_cb (c : CreatorParams) : MultiAdvCb :=
  fun status =>
    chained c
      (with_inst (c_inst_id c) (fun inst => c_cb c (c_inst_id c) (tx_power inst) status))
      status.

Definition StartAdvertisingSetFinish (c : CreatorParams) : Action :=
  Enable (c_inst_id c) true (StartAdvertisingSetFinish_enable_cb c) (c_duration c)
    (c_maxExtAdvEvents c) (ClientRegisterCb (c_timeout_cb c) (c_inst_id c)).

Definition periodic_enable_cb (c : CreatorParams) : MultiAdvCb :=
  chained c (StartAdvertisingSetFinish c).

Definition periodic_data_cb (c : CreatorParams) : MultiAdvCb :=
  chained c
    (SetPeriodicAdvertisingEnable (c_inst_id c) (enable (c_periodic_params c))
       (periodic_enable_cb c)).

Definition periodic_parameters_cb (c : CreatorParams) : MultiAdvCb :=
  chained c
    (SetPeriodicAdvertisingData (c_inst_id c) (c_periodic_data c)
       (c_periodic_adv_data_enc c) (periodic_data_cb c)).

Definition StartAdvertisingSetPeriodicPart (c : CreatorParams) : Action :=
  SetPeriodicAdvertisingParameters (c_inst_id c) (c_periodic_params c)
    (periodic_parameters_cb c).

Definition scan_response_data_cb (c : CreatorParams) : MultiAdvCb :=
  chained c
    (if negb (enable (c_periodic_params c) =? 0)
     then StartAdvertisingSetPeriodicPart c
     else StartAdvertisingSetFinish c).

Definition advertise_data_cb (c : CreatorParams) : MultiAdvCb :=
  chained c
    (SetData (c_inst_id c) true (c_scan_response_data c) (c_scan_response_data_enc c)
       (scan_response_data_cb c)).

Definition StartAdvertisingSetAfterAddressPart (c : CreatorParams) : Action :=
  SetData (c_inst_id c) false (c_advertise_data c) (c_advertise_data_enc c)
    (advertise_data_cb c).

Definition random_address_cb (c : CreatorParams) : MultiAdvCb :=
  chained c (StartAdvertisingSetAfterAddressPart c).

Definition parameters_cb (c : CreatorParams) : ParametersCb :=
  fun status tx_power =>
    chained c
      (update_inst (c_inst_id c) (set_tx_power tx_power) ;;;
       with_inst (c_inst_id c) (fun inst =>
       if own_address_type inst =? BLE_ADDR_PUBLIC then
         StartAdvertisingSetAfterAddressPart c
       else
         with_state (fun m =>
         if negb (IsRpaGenOffloadEnabled m) then
           (* own_address_type == BLE_ADDR_RANDOM *)
           issue (Hci (SetRandomAddressCmd (c_inst_id c) (own_address inst))
                    (random_address_cb c))
         else StartAdvertisingSetAfterAddressPart c)))
      status.

Definition register_cb (c : CreatorParams) : RegisterCb :=
  fun advertiser_id status =>
    with_state (fun m =>
    if negb (initialized m) then
      (* Stack was shut down *)
      skip
    else if negb (status =? 0) then
      c_cb c 0 0 status
    else
      let c := set_c_inst_id advertiser_id c in
      update_inst (c_inst_id c) (set_enc_key_value (c_enc_key_value c)) ;;;
      SetParameters (c_inst_id c) (c_params c) (parameters_cb c)).

Definition StartAdvertisingSet (cb : IdTxPowerStatusCb) (params : tBTM_BLE_ADV_PARAMS)
    (advertise_data advertise_data_enc scan_response_data scan_response_data_enc : list Z)
    (periodic_params : tBLE_PERIODIC_ADV_PARAMS)
    (periodic_data periodic_adv_data_enc : list Z)
    (duration maxExtAdvEvents : Z) (enc_key_value : list Z) (timeout_cb : nat) : Action :=
  if (negb (bool_decide (advertise_data_enc = []))
      || negb (bool_decide (scan_response_data_enc = []))
      || negb (bool_decide (periodic_adv_data_enc = [])))
     && negb (enc_adv_data_enabled env)
  then
    (* Encrypted Advertising Feature not Enabled but Encrypted Data is provided *)
    cb 0 0 ADVERTISE_FAILED_FEATURE_UNSUPPORTED
  else
    let c :=
      {| c_inst_id := 0; c_cb := cb; c_params := params;
         c_advertise_data := advertise_data;
         c_advertise_data_enc := advertise_data_enc;
         c_scan_response_data := scan_response_data;
         c_scan_response_data_enc := scan_response_data_enc;
         c_periodic_params := periodic_params;
         c_periodic_data := periodic_data;
         c_periodic_adv_data_enc := periodic_adv_data_enc;
         c_enc_key_value := enc_key_value;
         c_duration := duration;
         c_maxExtAdvEvents := maxExtAdvEvents;
         c_timeout_cb := timeout_cb |} in
    let own_address_type :=
      if negb (params_own_address_type params =? BLE_ADDR_ANONYMOUS)
         && negb (params_own_address_type params =? BLE_ADDR_DEFAULT env)
      then params_own_address_type params
      else if BTM_BleLocalPrivacyEnabled env then BLE_ADDR_RANDOM else BLE_ADDR_PUBLIC in
    RegisterAdvertiserImpl own_address_type (register_cb c).

(** ** Duration and event budgets *)

(** [a + b] on [int]; overflow is undefined behaviour. *)
Definition int_add (a b : Z) : result Z :=
  if (a + b >? INT_MAX) || (a + b <? - INT_MAX - 1) then Crash SignedOverflow else Ok (a + b).

Definition int_sub (a b : Z) : result Z := int_add a (- b).

(** [RecomputeTimeout] works on the instance it is given, which need not be
    in the table (the self tests call it on a local instance). It returns the
    instance and the callbacks it ran. *)
Definition RecomputeTimeout (inst : AdvertisingInstance) (now : TimeTicks)
    : result (AdvertisingInstance * list effect) :=
  let duration_ : TimeDelta := now - enable_time inst in
  after_duration <-
    (if negb (duration inst =? 0) then
       let durationDone := to_int (Z.quot (InMilliseconds duration_) 10) in
       next <- int_add durationDone 1 ;;
       if next >=? duration inst then
         (* inst->timeout_cb.Run(0), with no is_null test before it *)
         if is_null (timeout_cb inst) then Crash NullPointer
         else Ok (set_enable_status false inst, [Emit (Called (timeout_cb inst) 0)], true)
       else
         rest <- int_sub (duration inst) durationDone ;;
         Ok (set_duration (to_uint16 rest) inst, [], false)
     else Ok (inst, [], false)) ;;
  let inst := fst (fst after_duration) in
  let called := snd (fst after_duration) in
  let cb_fired := snd after_duration in
  if negb (maxExtAdvEvents inst =? 0) && negb cb_fired then
    let divisor := Z.quot (to_uint32 (advertising_interval inst * 5)) 8 in
    if divisor =? 0 then Crash DivideByZero
    else
      let eventsDone := to_int (Z.quot (InMilliseconds duration_) divisor) in
      next <- int_add eventsDone 1 ;;
      if next >=? maxExtAdvEvents inst then
        if is_null (timeout_cb inst) then Crash NullPointer
        else Ok (set_enable_status false inst, called ++ [Emit (Called (timeout_cb inst) 0)])
      else
        rest <- int_sub (maxExtAdvEvents inst) eventsDone ;;
        Ok (set_maxExtAdvEvents (to_uint8 rest) inst, called)
  else Ok (inst, called).

(** [RecomputeTimeout] on the instance at a table position. *)
Definition RecomputeTimeout_at (p_inst : Z) (now : TimeTicks) : Action :=
  fun m =>
    inst <- at_index (adv_inst m) p_inst ;;
    r <- RecomputeTimeout inst now ;;
    Ok (set_adv_inst (<[Z.to_nat p_inst := fst r]> (adv_inst m)) m, snd r).

(** ** Events of the controller *)

Definition OnAdvertisingSetTerminated (status advertising_handle connection_handle
    num_completed_extended_adv_events : Z) : Action :=
  let p_inst := advertising_handle in
  if (status =? HCI_ERR_LIMIT_REACHED) || (status =? HCI_ERR_ADVERTISING_TIMEOUT) then
    (* either duration elapsed, or maxExtAdvEvents reached *)
    update_inst p_inst (set_enable_status false) ;;;
    with_inst p_inst (fun inst =>
    if is_null (timeout_cb inst) then
      (* No timeout callback *)
      skip
    else run_stored (timeout_cb inst) status)
  else
    with_state (fun m0 =>
    (if negb (rpa_gen_offload_enabled m0)
        && (BTM_BleLocalPrivacyEnabled env
            && (advertising_handle <=? BTM_BLE_MULTI_ADV_MAX env))
     then with_inst p_inst (fun inst =>
            emit (btm_acl_update_conn_addr connection_handle (own_address inst)))
     else skip) ;;;
    (* reneabling advertising *)
    with_inst p_inst (fun inst =>
    if in_use inst then
      if Z.land (advertising_event_properties inst) 0x0C =? 0 then
        (* directed advertising bits not set *)
        RecomputeTimeout_at p_inst (Now env) ;;;
        with_inst p_inst (fun inst =>
        if enable_status inst then
          hci_Enable true advertising_handle (duration inst) (maxExtAdvEvents inst) DoNothing
        else skip)
      else
        (* mark directed adv as disabled if adv has been stopped *)
        update_inst p_inst (set_in_use false)
    else skip)).

Definition CreateBIGComplete (status big_handle : Z) (big_params : list Z)
    (conn_handle_list : list Z) : Action :=
  with_state (fun m0 =>
  if big_handle >=? inst_count m0 then
    (* Invalid BIG handle *)
    skip
  else
    let p_big_inst := big_handle in
    (if status =? HCI_SUCCESS then
       update_big_inst p_big_inst (fun b =>
         IsoBIG.set_created_status true (IsoBIG.set_bis_handles conn_handle_list b))
     else
       update_big_inst p_big_inst (fun b =>
         IsoBIG.set_big_handle (INVALID_BIG_HANDLE env) (IsoBIG.set_in_use false b)) ;;;
       with_big_inst p_big_inst (fun big =>
       update_inst (IsoBIG.adv_inst_id big) (set_big_handle (INVALID_BIG_HANDLE env)))) ;;;
    with_big_inst p_big_inst (fun big =>
    match IsoBIG.create_big_cb big with
    | Some name =>
        emit (CalledCreateBIG name (IsoBIG.adv_inst_id big) status big_handle big_params
                conn_handle_list)
    | None => skip
    end)).

Definition TerminateBIGComplete (status big_handle : Z) (cmd_status : bool) (reason : Z)
    : Action :=
  with_state (fun m0 =>
  if big_handle >=? inst_count m0 then
    (* Invalid BIG handle *)
    skip
  else
    let p_big_inst := big_handle in
    (if negb cmd_status then
       update_big_inst p_big_inst (fun b =>
         IsoBIG.set_big_handle (INVALID_BIG_HANDLE env)
           (IsoBIG.set_created_status false
              (IsoBIG.set_bis_handles [] (IsoBIG.set_in_use false b)))) ;;;
       with_big_inst p_big_inst (fun big =>
       update_inst (IsoBIG.adv_inst_id big) (set_big_handle (INVALID_BIG_HANDLE env)))
     else skip) ;;;
    with_big_inst p_big_inst (fun big =>
    match IsoBIG.terminate_big_cb big with
    | Some name =>
        emit (CalledTerminateBIG name status (IsoBIG.adv_inst_id big) big_handle reason)
    | None => skip
    end)).

End WithEnvironment.

(** * Further members of the manager *)

(** ** Calls on the HCI interface for several sets, and for a BIG *)

(** [SetEnableData], one entry of the list [Enable] takes for several sets. *)
Module SetEnable.

Record SetEnableData : Set := MkSetEnableData {
  handle : Z;                            (* uint8_t *)
  duration : Z;                          (* uint16_t *)
  max_extended_advertising_events : Z    (* uint8_t *)
}.

End SetEnable.

Record tBLE_CREATE_BIG_PARAMS : Set := {
  num_bis : Z;
  sdu_int : Z;
  max_sdu : Z;
  max_transport_latency : Z;
  rtn : Z;
  phy : Z;
  packing : Z;
  framing : Z;
  encryption : Z;
  broadcast_code : list Z
}.

(** [GetHciInterface()->Enable(enable, sets, base::DoNothing())] and
    [GetHciInterface()->CreateBIG(...)]; neither has a completion that does
    anything. *)
Inductive batch_command : Set :=
| EnableSetsCmd (enable : bool) (sets : list SetEnable.SetEnableData)
| CreateBIGCmd (big_handle adv_handle : Z) (params : tBLE_CREATE_BIG_PARAMS).

(** The [CreatorParams] local to [StartAdvertising]. *)
Record LegacyCreatorParams : Type := {
  l_inst_id : Z;
  l_cb : MultiAdvCb;
  l_params : tBTM_BLE_ADV_PARAMS;
  l_advertise_data : list Z;
  l_advertise_data_enc : list Z;
  l_scan_response_data : list Z;
  l_scan_response_data_enc : list Z;
  l_duration : Z;  (* int *)
  l_timeout_cb : StoredCb
}.

Section MoreOfTheManager.

Variable env : Environment.

(** ** Legacy start *)

Definition StartAdvertising_scan_response_data_cb (c : LegacyCreatorParams) : MultiAdvCb :=
  fun status =>
    with_state (fun m =>
    if negb (initialized m) then
      (* Stack was shut down *)
      skip
    else if negb (status =? 0) then
      (* setting scan response data failed *)
      l_cb c status
    else
      Enable env (l_inst_id c) true (l_cb c) (to_uint16 (l_duration c)) 0 (l_timeout_cb c)).

Definition StartAdvertising_advertise_data_cb (c : LegacyCreatorParams) : MultiAdvCb :=
  fun status =>
    with_state (fun m =>
    if negb (initialized m) then
      (* Stack was shut down *)
      skip
    else if negb (status =? 0) then
      (* setting advertise data failed *)
      l_cb c status
    else
      SetData env (l_inst_id c) true (l_scan_response_data c) (l_scan_response_data_enc c)
        (StartAdvertising_scan_response_data_cb c)).

Definition StartAdvertising_random_address_cb (c : LegacyCreatorParams) : MultiAdvCb :=
  fun status =>
    with_state (fun m =>
    if negb (initialized m) then
      (* Stack was shut down *)
      skip
    else if negb (status =? 0) then
      (* setting random address failed *)
      l_cb c status
    else
      SetData env (l_inst_id c) false (l_advertise_data c) (l_advertise_data_enc c)
        (StartAdvertising_advertise_data_cb c)).

Definition StartAdvertising_parameters_cb (c : LegacyCreatorParams) : ParametersCb :=
  fun status tx_power =>
    with_state (fun m =>
    if negb (initialized m) then
      (* Stack was shut down *)
      skip
    else if negb (status =? 0) then
      (* setting parameters failed *)
      l_cb c status
    else
      update_inst (l_inst_id c) (set_tx_power tx_power) ;;;
      with_inst (l_inst_id c) (fun inst =>
      let rpa := own_address inst in
      issue (Hci (SetRandomAddressCmd (l_inst_id c) rpa)
               (StartAdvertising_random_address_cb c)))).

Definition StartAdvertising (advertiser_id : Z) (cb : MultiAdvCb)
    (params : tBTM_BLE_ADV_PARAMS) (advertise_data scan_response_data : list Z)
    (duration : Z) (timeout_cb : StoredCb) : Action :=
  let c :=
    {| l_inst_id := advertiser_id;
       l_cb := cb;
       l_params := params;
       l_advertise_data := advertise_data;
       l_advertise_data_enc := [];
       l_scan_response_data := scan_response_data;
       l_scan_response_data_enc := [];
       l_duration := duration;
       l_timeout_cb := timeout_cb |} in
  SetParameters (l_inst_id c) (l_params c) (StartAdvertising_parameters_cb c).

(** ** Suspend and resume *)

(** The loop of [Suspend] over the table; [i] is the position of the first
    instance of [table], and [now i] is what [TimeTicks::Now()] returns when
    the loop is at position [i]. It returns the table, the callbacks run and
    the sets collected. *)
Fixpoint Suspend_sets (now : nat -> TimeTicks) (i : nat) (table : list AdvertisingInstance)
    : result (list AdvertisingInstance * list effect * list SetEnable.SetEnableData) :=
  match table with
  | [] => Ok ([], [], [])
  | inst :: rest =>
      if negb (in_use inst) || negb (enable_status inst) then
        r <- Suspend_sets now (S i) rest ;;
        Ok (inst :: fst (fst r), snd (fst r), snd r)
      else
        r1 <- (if negb (duration inst =? 0) || negb (maxExtAdvEvents inst =? 0)
               then RecomputeTimeout inst (now i)
               else Ok (inst, [])) ;;
        r <- Suspend_sets now (S i) rest ;;
        Ok (fst r1 :: fst (fst r), snd r1 ++ snd (fst r),
            SetEnable.MkSetEnableData (inst_id (fst r1)) 0 0 :: snd r)
  end.

Definition Suspend (now : nat -> TimeTicks) (m : Manager)
    : result (Manager * list effect * list batch_command) :=
  r <- Suspend_sets now 0 (adv_inst m) ;;
  let sets := snd r in
  Ok (set_adv_inst (fst (fst r)) m, snd (fst r),
      if bool_decide (sets = []) then [] else [EnableSetsCmd false sets]).

(** [Resume] changes nothing in the manager. *)
Definition Resume (m : Manager) : list batch_command :=
  let sets :=
    flat_map (fun inst =>
                if in_use inst && enable_status inst
                then [SetEnable.MkSetEnableData (inst_id inst) (duration inst)
                        (maxExtAdvEvents inst)]
                else [])
             (adv_inst m) in
  if bool_decide (sets = []) then [] else [EnableSetsCmd true sets].

(** ** Broadcast isochronous groups *)

(** The scan of [CreateBIG] for the first BIG slot not in use. *)
Fixpoint first_free_big (n : nat) (i : Z) (table : list IsoBIG.IsoBIGInstance)
    : result (option Z) :=
  match n with
  | O => Ok None
  | S n' =>
      big <- at_index table i ;;
      if IsoBIG.in_use big then first_free_big n' (i + 1) table else Ok (Some i)
  end.

Definition CreateBIG (inst_id : Z) (params : tBLE_CREATE_BIG_PARAMS) (cb : option nat)
    (m : Manager) : result (Manager * list effect * list batch_command) :=
  let rejected : list effect :=
    match cb with
    | Some name =>
        [Emit (CalledCreateBIG name inst_id HCI_ERR_ILLEGAL_COMMAND (INVALID_BIG_HANDLE env)
                 [0; 0; 0; 0; 0; 0; 0; 0; 0; 0] [])]
    | None => []
    end in
  if negb (supports_ble_iso_broadcaster env) then
    (* Iso Broadcaster not supported in controller *)
    Ok (m, rejected, [])
  else
    let p_inst := inst_id in
    free <- first_free_big (Z.to_nat (inst_count m)) 0 (iso_big_inst m) ;;
    match free with
    | None =>
        (* Cant Create BIG, Max BIG Handle limit reached *)
        Ok (m, rejected, [])
    | Some i =>
        let p_big_inst := i in
        r1 <- update_big_inst p_big_inst (fun b =>
                IsoBIG.set_create_big_cb cb
                  (IsoBIG.set_adv_inst_id inst_id
                     (IsoBIG.set_big_handle i (IsoBIG.set_in_use true b)))) m ;;
        big <- at_index (iso_big_inst (fst r1)) p_big_inst ;;
        r2 <- update_inst p_inst (set_big_handle (IsoBIG.big_handle big)) (fst r1) ;;
        inst <- at_index (adv_inst (fst r2)) p_inst ;;
        Ok (fst r2, [], [CreateBIGCmd (big_handle inst) inst_id params])
    end.

Definition TerminateBIG (inst_id big_handle reason : Z) (cb : option nat) : Action :=
  let rejected : Action :=
    match cb with
    | Some name =>
        emit (CalledTerminateBIG name HCI_ERR_ILLEGAL_COMMAND inst_id big_handle reason)
    | None => skip
    end in
  if negb (supports_ble_iso_broadcaster env) then
    (* Iso Broadcaster not supported in controller *)
    rejected
  else
    with_state (fun m0 =>
    if big_handle >=? inst_count m0 then
      (* Invalid BIG handle *)
      rejected
    else
      let p_big_inst := big_handle in
      if negb (initialized m0) then
        (* Stack already shutdown *)
        rejected
      else
        update_big_inst p_big_inst (fun b =>
          IsoBIG.set_adv_inst_id inst_id (IsoBIG.set_terminate_big_cb cb b)) ;;;
        with_big_inst p_big_inst (fun big =>
        if IsoBIG.created_status big then
          emit (Issued (TerminateBIGCmd big_handle reason))
        else
          (* Terminating BIG which is not created *)
          rejected)).

End MoreOfTheManager.

(** * Vocabulary of the specification *)


Definition chunk_max (is_periodic_adv_data : bool) : Z :=
  if is_periodic_adv_data then PERIODIC_ADV_DATA_LEN_MAX else EXT_ADV_DATA_LEN_MAX.

(** The sender [SetData] and [SetPeriodicAdvertisingData] hand to the
    fragmenter, and the command it issues for one chunk. *)
Definition fragment_sender (is_periodic_adv_data is_scan_rsp : bool) : DataSender :=
  if is_periodic_adv_data then HciSetPeriodicAdvertisingData
  else SetDataAdvDataSender is_scan_rsp.

Definition fragment_command (is_periodic_adv_data is_scan_rsp : bool)
    (inst_id : Z) (chunk : Z * list Z) : command :=
  let len := Z.of_nat (length (snd chunk)) in
  if is_periodic_adv_data then SetPeriodicAdvertisingDataCmd inst_id (fst chunk) len (snd chunk)
  else if is_scan_rsp then SetScanResponseDataCmd inst_id (fst chunk) 0x01 len (snd chunk)
  else SetAdvertisingDataCmd inst_id (fst chunk) 0x01 len (snd chunk).

(** Number of fragments the specification asks for. *)
Definition fragment_count (len max : Z) : Z :=
  if len =? 0 then 1 else (len + max - 1) / max.

(** The chunks (operation, payload) that remain to be sent from [offset]. *)
Fixpoint chunks_from (fuel : nat) (isFirst : bool) (max : Z) (data : list Z) (offset : Z)
    : list (Z * list Z) :=
  let dataSize := Z.of_nat (length data) in
  if negb isFirst && (offset =? dataSize) then []
  else
    match fuel with
    | O => []
    | S fuel' =>
        let more := dataSize - offset >? max in
        let operation :=
          if isFirst then (if more then FIRST else COMPLETE)
          else (if more then INTERMEDIATE else LAST) in
        let len := if more then max else dataSize - offset in
        (operation, take (Z.to_nat len) (drop (Z.to_nat offset) data))
          :: chunks_from fuel' false max data (offset + len)
    end.


(** A budget after [done] units of it were used; 0 stands for "no limit"
    and is left alone. *)
Definition remaining (budget done : Z) : Z :=
  if budget =? 0 then 0 else budget - done.

(** The budget is used up, or will be within one more unit. *)
Definition exhausted (budget done : Z) : bool :=
  negb (budget =? 0) && (done + 1 >=? budget).

(** Number of callback runs and commands a call of [RecomputeTimeout] made. *)
Definition callbacks_run (r : result (AdvertisingInstance * list effect)) : nat :=
  match r with
  | Ok (_, called) => length called
  | Crash _ => 0
  end.

(** The instance of the self tests [testRecomputeTimeout1..3]: a fresh
    [AdvertisingInstance test1(0)] with some members assigned. *)
Definition test_instance (env : Environment) (u : Indeterminate) (start : TimeTicks)
    (cb : StoredCb) : AdvertisingInstance :=
  set_timeout_cb cb
    (set_enable_time start (set_enable_status true (AdvertisingInstance_new env 0 u))).

(** Elapsed milliseconds, and the two counters computed from them. *)
Definition elapsed_ms (inst : AdvertisingInstance) (now : TimeTicks) : Z :=
  InMilliseconds (now - enable_time inst).
Definition event_period (inst : AdvertisingInstance) : Z :=
  Z.quot (to_uint32 (advertising_interval inst * 5)) 8.
Definition durationDone (inst : AdvertisingInstance) (now : TimeTicks) : Z :=
  Z.quot (elapsed_ms inst now) 10.
Definition eventsDone (inst : AdvertisingInstance) (now : TimeTicks) : Z :=
  Z.quot (elapsed_ms inst now) (event_period inst).


(** ** Concrete inputs *)

(** An environment with a stand-in cipher (it is never looked into). *)
Definition example_env : Environment :=
  {| enc_adv_data_enabled := true;
     BTM_BleLocalPrivacyEnabled := false;
     supports_ble_iso_broadcaster := true;
     supports_ble_periodic_advertising_adi := true;
     get_pts_le_nonconn_adv_enabled := false;
     get_pts_le_conn_nondisc_adv_enabled := false;
     get_address := [1; 2; 3; 4; 5; 6];
     btm_get_next_private_addrress_interval_ms := 900000;
     Now := 5000000;
     session_key := fun i => Z.of_nat i;
     init_vector := fun i => 100 + Z.of_nat i;
     EVP_AEAD_CTX_new := fun _ => true;
     EVP_AEAD_CTX_seal_scatter := fun key nonce i ad => (map (Z.lxor 0x5A) i, [1; 2; 3; 4]);
     INVALID_BIG_HANDLE := 0xFF;
     BLE_ADDR_DEFAULT := 0xFE;
     BTM_BLE_MULTI_ADV_MAX := 16 |}.

Definition example_indeterminate : Indeterminate :=
  {| indeterminate_maxExtAdvEvents := 7;
     indeterminate_advertising_interval := 9;
     indeterminate_randomizer := Array5 1 2 3 4 5;
     indeterminate_adv_inst_id := 0 |}.

(** A manager with three free slots, as [ReadInstanceCountCb 3] leaves it. *)
Definition example_manager : Manager :=
  {| initialized := true;
     adv_inst := map (fun i => AdvertisingInstance_new example_env i example_indeterminate)
                   [0; 1; 2];
     inst_count := 3;
     rpa_gen_offload_enabled := false;
     iso_big_inst := map (fun i => IsoBIGInstance_new i example_indeterminate) [0; 1; 2] |}.

(** The same manager with slot [p] replaced. *)
Definition with_slot (p : nat) (inst : AdvertisingInstance) (m : Manager) : Manager :=
  set_adv_inst (<[p := inst]> (adv_inst m)) m.

(** The instance of [testRecomputeTimeout2]. *)
Definition example_timed_instance : AdvertisingInstance :=
  set_advertising_interval 16
    (set_maxExtAdvEvents 50
       (set_duration 50 (test_instance example_env example_indeterminate 1000 (ClientCb 1)))).

(** Both budgets used up at once: duration 12 and one event left, 500 ms on. *)
Definition example_both_exhausted : AdvertisingInstance :=
  set_advertising_interval 16
    (set_maxExtAdvEvents 1
       (set_duration 12 (test_instance example_env example_indeterminate 1000 (ClientCb 1)))).

(** The instance of the "EAD wrap" scenario: key 00..0F, IV 00..07,
    randomizer 01 02 03 04 05. *)
Definition example_keyed_instance : AdvertisingInstance :=
  set_enc_key_value (seqZ 0 16 ++ seqZ 0 8)
    (set_randomizer (Array5 1 2 3 4 5)
       (AdvertisingInstance_new example_env 0 example_indeterminate)).

(** [inst] is the instance at table position [p_inst]. *)
Definition slot (m : Manager) (p_inst : Z) (inst : AdvertisingInstance) : Prop :=
  at_index (adv_inst m) p_inst = Ok inst.

(** A registered, enabled, connectable set with a duration of 5 units. *)
Definition example_enabled_instance : AdvertisingInstance :=
  set_duration 5
    (set_enable_status true
       (set_advertising_event_properties 0x13
          (set_in_use true (AdvertisingInstance_new example_env 0 example_indeterminate)))).

(** The statuses with which the client's callback [name] was run, in order. *)
Definition client_calls (name : nat) (evs : list event) : list Z :=
  flat_map (fun e =>
              match e with
              | Called (ClientCb n) status => if (n =? name)%nat then [status] else []
              | _ => []
              end) evs.

(** Commands among the events. *)
Definition commands (evs : list event) : list command :=
  flat_map (fun e => match e with Issued c => [c] | _ => [] end) evs.

(** A registered broadcast set in the throttle window, with a rotation of
    its address pending. *)
Definition example_throttled_instance : AdvertisingInstance :=
  set_address_update_required true
    (set_skip_rpa_count 15
       (set_skip_rpa true
          (set_in_use true (AdvertisingInstance_new example_env 0 example_indeterminate)))).

(** The tables as [ReadInstanceCountCb] builds them and the manager keeps
    them: inst_count slots each, every advertising slot knows its own
    position, and a BIG handle is either the sentinel or a BIG slot. *)
Definition tables_ok (env : Environment) (m : Manager) : Prop :=
  Z.of_nat (length (adv_inst m)) = inst_count m
  /\ Z.of_nat (length (iso_big_inst m)) = inst_count m
  /\ forall (p : Z) (inst : AdvertisingInstance),
       slot m p inst ->
       get_inst_id inst = p
       /\ (big_handle inst = INVALID_BIG_HANDLE env \/ 0 <= big_handle inst < inst_count m).



(** Parameters of a connectable set and of a periodic train. *)
Definition example_params : tBTM_BLE_ADV_PARAMS :=
  {| params_advertising_event_properties := 0x13;
     adv_int_min := 160; adv_int_max := 160; channel_map := 7;
     adv_filter_policy := 0; params_tx_power := -7;
     primary_advertising_phy := 1; secondary_advertising_phy := 1;
     scan_request_notification_enable := 0; params_own_address_type := 0 |}.

Definition example_periodic_params : tBLE_PERIODIC_ADV_PARAMS :=
  {| enable := 1; min_interval := 80; max_interval := 80;
     periodic_advertising_properties := 0 |}.

(** The example manager after slot 0 was registered. *)
Definition example_registered_manager : Manager :=
  with_slot 0
    (set_in_use true (AdvertisingInstance_new example_env 0 example_indeterminate))
    example_manager.

(** The example environment of a build without encrypted advertising. *)
Definition example_env_without_feature : Environment :=
  {| enc_adv_data_enabled := false;
     BTM_BleLocalPrivacyEnabled := false;
     supports_ble_iso_broadcaster := true;
     supports_ble_periodic_advertising_adi := true;
     get_pts_le_nonconn_adv_enabled := false;
     get_pts_le_conn_nondisc_adv_enabled := false;
     get_address := [1; 2; 3; 4; 5; 6];
     btm_get_next_private_addrress_interval_ms := 900000;
     Now := 5000000;
     session_key := fun i => Z.of_nat i;
     init_vector := fun i => 100 + Z.of_nat i;
     EVP_AEAD_CTX_new := fun _ => true;
     EVP_AEAD_CTX_seal_scatter := fun key nonce i ad => (map (Z.lxor 0x5A) i, [1; 2; 3; 4]);
     INVALID_BIG_HANDLE := 0xFF;
     BLE_ADDR_DEFAULT := 0xFE;
     BTM_BLE_MULTI_ADV_MAX := 16 |}.

(** * Vocabulary for the further properties *)

(** A vector of [uint8_t]. *)
Definition bytes (data : list Z) : Prop := Forall (fun b => 0 <= b < 256) data.

(** An advertising structure, type and value, and its bytes on the wire:
    length (of type and value), type, value. *)
Definition encode_structure (s : Z * list Z) : list Z :=
  (1 + Z.of_nat (length (snd s))) :: fst s :: snd s.

Definition encode_structures (ss : list (Z * list Z)) : list Z :=
  flat_map encode_structure ss.

(** The structure with its first value byte replaced when it is a TX Power
    Level structure. *)
Definition with_tx_power (tx_power : Z) (s : Z * list Z) : Z * list Z :=
  if fst s =? HCI_EIR_TX_POWER_LEVEL_TYPE then
    match snd s with
    | _ :: rest => (fst s, to_uint8 tx_power :: rest)
    | [] => s
    end
  else s.

(** The example manager with every slot taken. *)
Definition example_full_manager : Manager :=
  set_adv_inst (map (set_in_use true) (adv_inst example_manager)) example_manager.

(** [Unregister] terminates the BIG of the instance. *)
Definition has_big (env : Environment) (inst : AdvertisingInstance) : bool :=
  supports_ble_iso_broadcaster env && negb (big_handle inst =? INVALID_BIG_HANDLE env).

(** The slot as [Unregister] leaves it. *)
Definition unregistered (env : Environment) (inst : AdvertisingInstance)
    : AdvertisingInstance :=
  let inst :=
    if has_big env inst then set_big_handle (INVALID_BIG_HANDLE env) inst else inst in
  let inst :=
    if enable_status inst then
      set_scan_response_data_enc []
        (set_scan_response_data []
           (set_advertise_data_enc [] (set_advertise_data [] (set_enable_status false inst))))
    else inst in
  let inst :=
    if periodic_enabled inst then
      set_periodic_adv_data_enc [] (set_periodic_data [] (set_periodic_enabled false inst))
    else inst in
  let inst := if timeout_timer inst then set_timeout_timer false inst else inst in
  set_address_update_required false
    (set_skip_rpa false (set_skip_rpa_count 0 (set_in_use false inst))).

(** The BIG slot as [Unregister] leaves it. *)
Definition released_big (env : Environment) (big : IsoBIG.IsoBIGInstance)
    : IsoBIG.IsoBIGInstance :=
  IsoBIG.set_big_handle (INVALID_BIG_HANDLE env)
    (IsoBIG.set_created_status false
       (IsoBIG.set_bis_handles [] (IsoBIG.set_in_use false big))).

(** What [Unregister] of the instance at [inst_id] hands to its collaborators. *)
Definition teardown_of (env : Environment) (inst_id : Z) (inst : AdvertisingInstance)
    : list effect :=
  (if has_big env inst
   then [Emit (Issued (TerminateBIGCmd (big_handle inst) HCI_ERR_CONN_CAUSE_LOCAL_HOST))]
   else [])
  ++ (if enable_status inst then [Hci (EnableCmd false inst_id 0x00 0x00) DoNothing] else [])
  ++ (if periodic_enabled inst
      then [Hci (SetPeriodicAdvertisingEnableCmd 0 inst_id) DoNothing] else [])
  ++ (if timeout_timer inst
      then [Emit (alarm_cancel (timeout_timer_of inst_id));
            Emit (alarm_free (timeout_timer_of inst_id))]
      else [])
  ++ [Emit (alarm_cancel (adv_raddr_timer_of inst_id));
      Hci (RemoveAdvertisingSetCmd inst_id) DoNothing].

(** A registered, enabled set without duration or event limit. *)
Definition example_unlimited_instance : AdvertisingInstance :=
  set_maxExtAdvEvents 0
    (set_enable_status true
       (set_in_use true (AdvertisingInstance_new example_env 0 example_indeterminate))).

(** [n] runs of an action, one after the other. *)
Fixpoint repeated (n : nat) (a : Action) : Action :=
  match n with
  | O => skip
  | S n' => a ;;; repeated n' a
  end.

(** A set that is being rotated at once: the address is not deferred to the
    next Enable. *)
Definition rotates_at_once (inst : AdvertisingInstance) : bool :=
  negb (IsEnabled inst && IsConnectable inst
        && (negb (duration inst =? 0) || negb (maxExtAdvEvents inst =? 0))).

(** A broadcast set in the throttle window, with [count] ticks to skip. *)
Definition example_broadcast_instance (count : Z) : AdvertisingInstance :=
  set_skip_rpa_count count
    (set_skip_rpa true
       (set_in_use true (AdvertisingInstance_new example_env 0 example_indeterminate))).

(** The set is in use and enabled: [Suspend] and [Resume] act on it. *)
Definition suspendable (inst : AdvertisingInstance) : bool :=
  in_use inst && enable_status inst.

(** The ids of the sets of a table that are in use and enabled, in table
    order. *)
Definition enabled_handles (table : list AdvertisingInstance) : list Z :=
  flat_map (fun inst => if suspendable inst then [inst_id inst] else []) table.

(** One of the budgets of the set is used up at [now]. *)
Definition budget_over (inst : AdvertisingInstance) (now : TimeTicks) : bool :=
  exhausted (duration inst) (durationDone inst now)
  || exhausted (maxExtAdvEvents inst) (eventsDone inst now).

(** [RecomputeTimeout] returns on the set: the clock did not run backwards,
    no integer leaves its range, the period is not 0 where it divides, and
    the timeout callback is there where it is run. *)
Definition recomputable (inst : AdvertisingInstance) (now : TimeTicks) : Prop :=
  0 <= elapsed_ms inst now < INT_MAX
  /\ 0 <= duration inst < 65536 /\ 0 <= maxExtAdvEvents inst < 256
  /\ (exhausted (duration inst) (durationDone inst now) = false ->
      maxExtAdvEvents inst <> 0 -> event_period inst <> 0)
  /\ (budget_over inst now = true -> is_null (timeout_cb inst) = false).

(** [Suspend] and [Resume] set by set, in the words of the budgets: a set in
    use and enabled is disabled in the controller; when one of its budgets
    is used up it is marked disabled and its timeout callback is run,
    otherwise it keeps what is left of its budgets, and that is what
    [Resume] enables it with. [now i] is the time at which [Suspend] looks at
    slot [i]. *)
Definition after_suspend (inst : AdvertisingInstance) (now : TimeTicks)
    : AdvertisingInstance :=
  if suspendable inst then
    if exhausted (duration inst) (durationDone inst now) then set_enable_status false inst
    else
      let inst1 := set_duration (remaining (duration inst) (durationDone inst now)) inst in
      if exhausted (maxExtAdvEvents inst) (eventsDone inst now)
      then set_enable_status false inst1
      else set_maxExtAdvEvents (remaining (maxExtAdvEvents inst) (eventsDone inst now)) inst1
  else inst.

Fixpoint suspended_table (now : nat -> TimeTicks) (i : nat) (table : list AdvertisingInstance)
    : list AdvertisingInstance :=
  match table with
  | [] => []
  | inst :: rest => after_suspend inst (now i) :: suspended_table now (S i) rest
  end.

Fixpoint suspend_calls (now : nat -> TimeTicks) (i : nat) (table : list AdvertisingInstance)
    : list effect :=
  match table with
  | [] => []
  | inst :: rest =>
      (if suspendable inst && budget_over inst (now i)
       then [Emit (Called (timeout_cb inst) 0)] else [])
      ++ suspend_calls now (S i) rest
  end.

Fixpoint resumed_sets (now : nat -> TimeTicks) (i : nat) (table : list AdvertisingInstance)
    : list SetEnable.SetEnableData :=
  match table with
  | [] => []
  | inst :: rest =>
      (if suspendable inst && negb (budget_over inst (now i))
       then [SetEnable.MkSetEnableData (inst_id inst)
               (remaining (duration inst) (durationDone inst (now i)))
               (remaining (maxExtAdvEvents inst) (eventsDone inst (now i)))]
       else [])
      ++ resumed_sets now (S i) rest
  end.

(** A table with a set whose budgets ran out in slot 0 and a set with
    budgets left in slot 1, at time [1000 + 500 ms] and [1000 + 250 ms]. *)
Definition example_suspend_manager : Manager :=
  with_slot 1 (set_inst_id 1 (set_in_use true example_timed_instance))
    (with_slot 0 (set_in_use true example_both_exhausted) example_manager).

(** Parameters of a group of two streams. *)
Definition example_big_params : tBLE_CREATE_BIG_PARAMS :=
  {| num_bis := 2;
     sdu_int := 10000;
     max_sdu := 100;
     max_transport_latency := 20;
     rtn := 2;
     phy := 2;
     packing := 0;
     framing := 0;
     encryption := 0;
     broadcast_code := [] |}.

(** The chunks [DivideAndSendData] cuts a payload into. *)
Definition chunks_of (is_periodic_adv_data : bool) (data : list Z) : list (Z * list Z) :=
  chunks_from (S (length data)) true (chunk_max is_periodic_adv_data) data 0.

(** The flags structure [SetData] puts in front of the data it sends. *)
Definition SetData_flags (env : Environment) (inst : AdvertisingInstance)
    (is_scan_rsp : bool) : list Z :=
  if (negb is_scan_rsp && IsConnectable inst)
     || (get_pts_le_nonconn_adv_enabled env || get_pts_le_conn_nondisc_adv_enabled env)
  then
    [2; HCI_EIR_FLAGS_TYPE;
     if get_pts_le_conn_nondisc_adv_enabled env then BTM_BLE_NON_DISCOVERABLE
     else if duration inst =? 0 then BTM_GENERAL_DISCOVERABLE
          else BTM_LIMITED_DISCOVERABLE]
  else [].

(** The instance once [SetData] has stored data without an encrypted part. *)
Definition SetData_stored (is_scan_rsp : bool) (data : list Z) (inst : AdvertisingInstance)
    : AdvertisingInstance :=
  if is_scan_rsp then set_scan_response_data_enc [] (set_scan_response_data data inst)
  else set_advertise_data_enc [] (set_advertise_data data inst).

(** What [SetParameters] stores in an instance in use, and the command it
    sends for it. *)
Definition SetParameters_stored (m : Manager) (p_params : tBTM_BLE_ADV_PARAMS)
    (inst : AdvertisingInstance) : AdvertisingInstance :=
  let stored :=
    set_advertising_interval (adv_int_min p_params)
      (set_tx_power (params_tx_power p_params)
         (set_advertising_event_properties
            (to_uint8 (params_advertising_event_properties p_params)) inst)) in
  if rpa_gen_offload_enabled m then set_own_address_type BLE_ADDR_RANDOM_ID stored
  else stored.

Definition SetParameters_command (m : Manager) (p_params : tBTM_BLE_ADV_PARAMS)
    (inst : AdvertisingInstance) : command :=
  SetParametersCmd (get_inst_id inst)
    (params_advertising_event_properties p_params)
    (adv_int_min p_params) (adv_int_max p_params) (channel_map p_params)
    (if rpa_gen_offload_enabled m then BLE_ADDR_RANDOM_ID else own_address_type inst)
    (own_address inst) 0x00
    (if rpa_gen_offload_enabled m then [0; 0; 0; 0; 0; get_inst_id inst] else kEmpty)
    (adv_filter_policy p_params) (params_tx_power p_params)
    (primary_advertising_phy p_params) 0x00
    (secondary_advertising_phy p_params) (get_inst_id inst mod 16)
    (scan_request_notification_enable p_params).


(** * Properties of the fragmenter *)

Lemma to_int_small (z : Z) : 0 <= z <= INT_MAX -> to_int z = z.
Proof. unfold to_int, INT_MAX. intros H. rewrite Z.mod_small; lia. Qed.

Lemma to_uint8_small (z : Z) : 0 <= z < 256 -> to_uint8 z = z.
Proof. unfold to_uint8. intros H. apply Z.mod_small. lia. Qed.

Lemma to_uint16_small (z : Z) : 0 <= z < 65536 -> to_uint16 z = z.
Proof. unfold to_uint16. intros H. apply Z.mod_small. lia. Qed.

Lemma chunk_max_cases (p : bool) : chunk_max p = 251 \/ chunk_max p = 252.
Proof. destruct p; [right | left]; reflexivity. Qed.

Section Fragmenter.

Variable m : Manager.
Variable inst_id : Z.
Variables is_periodic_adv_data is_scan_rsp : bool.
Variable data : list Z.
Variable done_cb : nat.

Hypothesis alive : initialized m = true.
Hypothesis fits_int : Z.of_nat (length data) <= INT_MAX.

Let max := chunk_max is_periodic_adv_data.
Let sender := fragment_sender is_periodic_adv_data is_scan_rsp.
Let send (chunk : Z * list Z) : event :=
  Issued (fragment_command is_periodic_adv_data is_scan_rsp (to_uint8 inst_id) chunk).
Let rec_ (fuel : nat) (isFirst : bool) (offset status : Z) : Action :=
  DivideAndSendDataRecursively fuel isFirst inst_id is_periodic_adv_data data offset
    (client_cb done_cb) sender status.

Lemma sender_issues (op len : Z) (ptr : list Z) (cb : MultiAdvCb) :
  0 <= len ->
  sender (to_uint8 inst_id) op len ptr cb m
  = Ok (m, [Hci (fragment_command is_periodic_adv_data is_scan_rsp (to_uint8 inst_id)
                   (op, take (Z.to_nat len) ptr)) cb])
    \/ Z.of_nat (length ptr) < len.
Proof.
  intros Hlen.
  destruct (Z_lt_le_dec (Z.of_nat (length ptr)) len) as [Hlt | Hle]; [by right | left].
  assert (Z.of_nat (length (take (Z.to_nat len) ptr)) = len) as Hl.
  { rewrite length_take. lia. }
  unfold sender, fragment_sender, fragment_command, SetDataAdvDataSender,
    HciSetPeriodicAdvertisingData, weak, issue. cbn [fst snd].
  rewrite Hl. destruct is_periodic_adv_data, is_scan_rsp; rewrite ?alive; reflexivity.
Qed.

(** A non-zero status ends the chain at once. *)
Lemma run_failed (fuel : nat) (isFirst : bool) (offset status : Z) (replies : list reply) :
  status <> 0 ->
  run (rec_ fuel isFirst offset status) replies m = Ok (m, [Called (ClientCb done_cb) status]).
Proof.
  intros Hs. unfold run, rec_. destruct fuel; cbn [DivideAndSendDataRecursively];
    (destruct (Z.eqb_spec status 0) as [|_]; [done |]); destruct replies; reflexivity.
Qed.

(** The end of the payload ends the chain with the last status. *)
Lemma run_finished (fuel : nat) (offset : Z) (replies : list reply) :
  offset = Z.of_nat (length data) ->
  run (rec_ fuel false offset 0) replies m = Ok (m, [Called (ClientCb done_cb) 0]).
Proof.
  intros ->. unfold run, rec_.
  destruct fuel; cbn [DivideAndSendDataRecursively];
    rewrite to_int_small by lia; rewrite !Z.eqb_refl; destruct replies; reflexivity.
Qed.

Let n := Z.of_nat (length data).

(** One fragment goes out; the chain continues from its completion. *)
Lemma run_step (fuel : nat) (isFirst : bool) (offset : Z) :
  0 <= offset <= n ->
  isFirst = true \/ offset < n ->
  let more := n - offset >? max in
  let operation :=
    if isFirst then (if more then FIRST else COMPLETE)
    else (if more then INTERMEDIATE else LAST) in
  let len := if more then max else n - offset in
  let chunk := (operation, take (Z.to_nat len) (drop (Z.to_nat offset) data)) in
  run (rec_ (S fuel) isFirst offset 0) [] m = Ok (m, [send chunk]) /\
  forall (s : Z) (replies : list reply),
    run (rec_ (S fuel) isFirst offset 0) (Status s :: replies) m
    = (r <- run (rec_ fuel false (offset + len) s) replies m ;;
       Ok (fst r, send chunk :: snd r)).
Proof.
  intros Hoff Hgo more operation len chunk.
  assert (0 <= len <= 252 /\ len <= n - offset) as [Hlen Hlen'].
  { subst len more. destruct (chunk_max_cases is_periodic_adv_data) as [E | E];
      fold max in E; destruct (Z.gtb_spec (n - offset) max); lia. }
  assert (rec_ (S fuel) isFirst offset 0
          = sender (to_uint8 inst_id) operation (to_uint8 len) (drop (Z.to_nat offset) data)
              (rec_ fuel false (offset + len))) as Hrec.
  { unfold rec_ at 1. cbn [DivideAndSendDataRecursively].
    rewrite to_int_small by (fold n; lia). fold n.
    replace (negb (0 =? 0) || negb isFirst && (offset =? n)) with false; [reflexivity |].
    destruct Hgo as [-> | Hlt]; [reflexivity |].
    destruct (Z.eqb_spec offset n); [lia |]. by destruct isFirst. }
  rewrite Hrec, (to_uint8_small len) by lia.
  destruct (sender_issues operation len (drop (Z.to_nat offset) data)
              (rec_ fuel false (offset + len))) as [Hs | Hs]; [lia | |].
  2:{ rewrite length_drop in Hs. subst n. lia. }
  unfold run. rewrite Hs. split; [reflexivity |].
  intros s replies. cbn.
  destruct (rec_ fuel false (offset + len) s m) as [[m' q] | f] eqn:E; cbn; [| reflexivity].
  destruct (drive replies m' q) as [[m'' evs] | f]; reflexivity.
Qed.

Let enough (fuel : nat) (isFirst : bool) (offset : Z) : Prop :=
  n - offset + (if isFirst then 1 else 0) <= Z.of_nat fuel.

(** With every answer zero the chain sends all chunks and reports 0. *)
Lemma run_all_ok (fuel : nat) :
  forall (isFirst : bool) (offset : Z) (k : nat),
    0 <= offset <= n -> enough fuel isFirst offset ->
    (length (chunks_from fuel isFirst max data offset) <= k)%nat ->
    run (rec_ fuel isFirst offset 0) (repeat (Status 0) k) m
    = Ok (m, map send (chunks_from fuel isFirst max data offset)
             ++ [Called (ClientCb done_cb) 0]).
Proof.
  unfold enough.
  induction fuel as [| fuel IH]; intros isFirst offset k Hoff Hfuel Hk.
  - destruct isFirst; [lia |].
    assert (offset = n) as -> by lia.
    rewrite run_finished by reflexivity.
    cbn. fold n. by rewrite Z.eqb_refl.
  - destruct (decide (isFirst = false /\ offset = n)) as [[-> ->] | Hgo].
    + rewrite run_finished by reflexivity.
      cbn. fold n. by rewrite Z.eqb_refl.
    + assert (isFirst = true \/ offset < n) as Hgo'.
      { destruct isFirst; [by left | right]. lia. }
      destruct (run_step fuel isFirst offset Hoff Hgo') as [_ Hstep].
      revert Hk. cbn [chunks_from]. fold n.
      replace (negb isFirst && (offset =? n)) with false.
      2:{ destruct Hgo' as [-> | Hlt]; [reflexivity |].
          destruct (Z.eqb_spec offset n); [lia |]. by destruct isFirst. }
      intros Hk. destruct k as [| k]; [cbn in Hk; lia |].
      cbn [repeat]. rewrite Hstep.
      set (len := if n - offset >? max then max else n - offset) in *.
      assert (0 < max) as Hmax.
      { destruct (chunk_max_cases is_periodic_adv_data) as [E | E]; fold max in E; lia. }
      assert (0 <= len <= n - offset /\ (isFirst = false -> 0 < len)) as [Hlen Hpos].
      { subst len. destruct (Z.gtb_spec (n - offset) max); split; try lia.
        intros ->. destruct Hgo'; [done | lia]. }
      rewrite IH; [reflexivity | lia | | cbn in Hk; lia].
      destruct isFirst; [lia |]. specialize (Hpos eq_refl). lia.
Qed.

(** The first non-zero answer stops the chain and is reported. *)
Lemma run_first_failure (fuel : nat) :
  forall (isFirst : bool) (offset : Z) (j : nat) (s : Z) (rest : list reply),
    0 <= offset <= n -> enough fuel isFirst offset ->
    (j < length (chunks_from fuel isFirst max data offset))%nat ->
    s <> 0 ->
    run (rec_ fuel isFirst offset 0) (repeat (Status 0) j ++ Status s :: rest) m
    = Ok (m, map send (take (S j) (chunks_from fuel isFirst max data offset))
             ++ [Called (ClientCb done_cb) s]).
Proof.
  unfold enough.
  induction fuel as [| fuel IH]; intros isFirst offset j s rest Hoff Hfuel Hj Hs.
  - cbn in Hj. destruct (negb isFirst && (offset =? Z.of_nat (length data))); cbn in Hj; lia.
  - revert Hj. cbn [chunks_from]. fold n.
    destruct (negb isFirst && (offset =? n)) eqn:Hend; [cbn; lia |].
    assert (isFirst = true \/ offset < n) as Hgo'.
    { destruct isFirst; [by left | right]. cbn in Hend.
      destruct (Z.eqb_spec offset n); [done | lia]. }
    destruct (run_step fuel isFirst offset Hoff Hgo') as [_ Hstep].
    set (len := if n - offset >? max then max else n - offset) in *.
    assert (0 < max) as Hmax.
    { destruct (chunk_max_cases is_periodic_adv_data) as [E | E]; fold max in E; lia. }
    assert (0 <= len <= n - offset /\ (isFirst = false -> 0 < len)) as [Hlen Hpos].
    { subst len. destruct (Z.gtb_spec (n - offset) max); split; try lia.
      intros ->. destruct Hgo'; [done | lia]. }
    intros Hj. destruct j as [| j].
    + cbn [repeat app]. rewrite Hstep, run_failed by done.
      cbn. by rewrite take_0.
    + cbn [repeat app]. rewrite Hstep.
      rewrite IH; [reflexivity | lia | | cbn in Hj; lia | done].
      destruct isFirst; [lia |]. specialize (Hpos eq_refl). lia.
Qed.

End Fragmenter.

Section Chunks.

Variable max : Z.
Variable data : list Z.
Hypothesis max_pos : 0 < max.

Let n := Z.of_nat (length data).

Lemma chunks_concat (fuel : nat) :
  forall (isFirst : bool) (offset : Z),
    0 <= offset <= n ->
    n - offset + (if isFirst then 1 else 0) <= Z.of_nat fuel ->
    concat (map snd (chunks_from fuel isFirst max data offset))
    = drop (Z.to_nat offset) data.
Proof.
  induction fuel as [| fuel IH]; intros isFirst offset Hoff Hfuel.
  - destruct isFirst; [lia |]. assert (offset = n) as -> by lia.
    cbn. fold n. rewrite Z.eqb_refl. cbn.
    subst n. rewrite Nat2Z.id. by rewrite drop_all.
  - cbn [chunks_from]. fold n.
    destruct (negb isFirst && (offset =? n)) eqn:Hend.
    + destruct isFirst; [done |]. cbn in Hend. apply Z.eqb_eq in Hend as ->.
      subst n. rewrite Nat2Z.id. by rewrite drop_all.
    + set (len := if n - offset >? max then max else n - offset).
      assert (0 <= len <= n - offset /\ (isFirst = false -> 0 < len)) as [Hlen Hpos].
      { subst len. destruct (Z.gtb_spec (n - offset) max); split; try lia.
        intros ->. cbn in Hend. destruct (Z.eqb_spec offset n); [done | lia]. }
      cbn [map concat snd]. rewrite IH.
      * replace (Z.to_nat (offset + len)) with (Z.to_nat offset + Z.to_nat len)%nat by lia.
        rewrite <- drop_drop. apply take_drop.
      * lia.
      * destruct isFirst; [lia |]. specialize (Hpos eq_refl). lia.
Qed.

(** After the first chunk: INTERMEDIATE chunks, then one LAST chunk,
    [ceil(rest / max)] of them in all. *)
Lemma chunks_rest (fuel : nat) :
  forall (offset : Z),
    0 <= offset <= n ->
    n - offset <= Z.of_nat fuel ->
    Z.of_nat (length (chunks_from fuel false max data offset)) = (n - offset + max - 1) / max
    /\ (offset < n ->
        exists j : nat,
          map fst (chunks_from fuel false max data offset) = repeat INTERMEDIATE j ++ [LAST]).
Proof.
  induction fuel as [| fuel IH]; intros offset Hoff Hfuel.
  - assert (offset = n) as -> by lia. split; [| lia].
    cbn. fold n. rewrite Z.eqb_refl. cbn.
    replace (n - n + max - 1) with (max - 1) by lia.
    symmetry. apply Z.div_small. lia.
  - cbn [chunks_from]. fold n. cbn [negb andb].
    destruct (Z.eqb_spec offset n) as [-> | Hne].
    + split; [| lia]. cbn.
      replace (n - n + max - 1) with (max - 1) by lia.
      symmetry. apply Z.div_small. lia.
    + destruct (Z.gtb_spec (n - offset) max) as [Hmore | Hlast].
      * destruct (IH (offset + max)) as [Hlen Hops]; [lia | lia |].
        split.
        -- cbn [length]. rewrite Nat2Z.inj_succ, Hlen.
           replace (n - offset + max - 1) with (n - (offset + max) + max - 1 + 1 * max) by lia.
           rewrite Z.div_add by lia. lia.
        -- intros _. destruct Hops as [j Hj]; [lia |].
           exists (S j). cbn [map fst]. by rewrite Hj.
      * destruct (IH (offset + (n - offset))) as [Hlen _]; [lia | lia |].
        replace (offset + (n - offset)) with n in * by lia.
        assert (chunks_from fuel false max data n = []) as Hnil.
        { destruct (chunks_from fuel false max data n); [done |].
          cbn [length] in Hlen. rewrite Nat2Z.inj_succ in Hlen.
          replace (n - n + max - 1) with (max - 1) in Hlen by lia.
          rewrite Z.div_small in Hlen by lia. lia. }
        rewrite Hnil. split.
        -- cbn. apply Z.div_unique with (r := n - offset - 1); lia.
        -- intros _. by exists 0%nat.
Qed.

End Chunks.

(** C1. With every per-chunk status zero, [DivideAndSendData] sends one
    COMPLETE chunk when the payload fits in one chunk (251 bytes, 252 for
    periodic data) and FIRST, INTERMEDIATE..., LAST otherwise; the chunk
    payloads concatenated in delivery order are the payload, there are
    ceil(len/chunk_max) chunks (one, of length 0, for the empty payload), and
    the first non-zero status stops the chain and is reported to the done
    callback. *)
Theorem fragmenter_chain (m : Manager) (inst_id : Z) (is_periodic_adv_data is_scan_rsp : bool)
    (data : list Z) (done_cb : nat) :
  initialized m = true ->
  Z.of_nat (length data) <= INT_MAX ->
  let max := chunk_max is_periodic_adv_data in
  let n := Z.of_nat (length data) in
  let call := DivideAndSendData inst_id data is_periodic_adv_data (client_cb done_cb)
                (fragment_sender is_periodic_adv_data is_scan_rsp) in
  let send chunk :=
    Issued (fragment_command is_periodic_adv_data is_scan_rsp (to_uint8 inst_id) chunk) in
  max = (if is_periodic_adv_data then 252 else 251) /\
  exists chunks : list (Z * list Z),
    (forall k : nat, (length chunks <= k)%nat ->
       run call (repeat (Status 0) k) m
       = Ok (m, map send chunks ++ [Called (ClientCb done_cb) 0]))
    /\ concat (map snd chunks) = data
    /\ Z.of_nat (length chunks) = fragment_count n max
    /\ (n <= max -> map fst chunks = [COMPLETE])
    /\ (max < n -> exists j : nat, map fst chunks = FIRST :: repeat INTERMEDIATE j ++ [LAST])
    /\ (forall (j : nat) (s : Z) (rest : list reply),
          (j < length chunks)%nat -> s <> 0 ->
          run call (repeat (Status 0) j ++ Status s :: rest) m
          = Ok (m, map send (take (S j) chunks) ++ [Called (ClientCb done_cb) s])).
Proof.
  intros alive fits max n call send.
  split; [by destruct is_periodic_adv_data |].
  assert (0 < max) as Hmax.
  { destruct (chunk_max_cases is_periodic_adv_data) as [E | E]; fold max in E; lia. }
  assert (n - 0 + 1 <= Z.of_nat (S (length data))) as Hfuel by (subst n; lia).
  assert (0 <= 0 <= n) as Hoff by (subst n; lia).
  exists (chunks_from (S (length data)) true max data 0).
  split; [| split; [| split; [| split; [| split]]]].
  - intros k Hk. by apply run_all_ok.
  - by rewrite chunks_concat.
  - cbn [chunks_from negb andb]. fold n. cbn [length]. rewrite Nat2Z.inj_succ.
    unfold fragment_count.
    destruct (Z.gtb_spec (n - 0) max) as [Hmore | Hone].
    + destruct (chunks_rest max data Hmax (length data) (0 + max)) as [-> _]; fold n; [lia.. |].
      destruct (Z.eqb_spec n 0); [lia |].
      replace (n + max - 1) with (n - (0 + max) + max - 1 + 1 * max) by lia.
      rewrite Z.div_add by lia. lia.
    + destruct (chunks_rest max data Hmax (length data) (0 + (n - 0))) as [-> _]; fold n; [lia.. |].
      replace (n - (0 + (n - 0)) + max - 1) with (max - 1) by lia.
      rewrite Z.div_small by lia.
      destruct (Z.eqb_spec n 0); [lia |].
      apply Z.div_unique with (r := n - 1); lia.
  - intros Hfit. cbn [chunks_from negb andb]. fold n.
    destruct (Z.gtb_spec (n - 0) max) as [Hmore | _]; [lia |].
    destruct (chunks_rest max data Hmax (length data) (0 + (n - 0))) as [Hlen _]; fold n; [lia.. |].
    fold n in Hlen.
    replace (n - (0 + (n - 0)) + max - 1) with (max - 1) in Hlen by lia.
    rewrite Z.div_small in Hlen by lia.
    destruct (chunks_from (length data) false max data (0 + (n - 0))); [done | cbn in Hlen; lia].
  - intros Hbig. cbn [chunks_from negb andb]. fold n.
    destruct (Z.gtb_spec (n - 0) max) as [_ | Hone]; [| lia].
    destruct (chunks_rest max data Hmax (length data) (0 + max)) as [_ [j Hj]]; fold n; [lia.. |].
    exists j. cbn [map fst]. by rewrite Hj.
  - intros j s rest Hj Hs. by apply run_first_failure.
Qed.

Lemma fragmenter_chain_witness :
  initialized example_manager = true
  /\ Z.of_nat (length (repeat 7 300)) <= INT_MAX
  /\ exists chunks : list (Z * list Z),
       run (DivideAndSendData 1 (repeat 7 300) false (client_cb 1)
              (fragment_sender false false))
           (repeat (Status 0) 2) example_manager
       = Ok (example_manager,
             map (fun chunk => Issued (fragment_command false false (to_uint8 1) chunk)) chunks
             ++ [Called (ClientCb 1) 0])
       /\ map fst chunks = [FIRST; LAST]
       /\ concat (map snd chunks) = repeat 7 300.
Proof.
  assert (Hfits : Z.of_nat (length (repeat 7 300)) <= INT_MAX) by (by vm_compute).
  split; [reflexivity |]. split; [exact Hfits |].
  destruct (fragmenter_chain example_manager 1 false false (repeat 7 300) 1%nat
              eq_refl Hfits)
    as (_ & chunks & Hrun & Hcat & Hcount & _ & Hmulti & _).
  assert (Hlen : length chunks = 2%nat).
  { apply Nat2Z.inj. rewrite Hcount. by vm_compute. }
  exists chunks. split_and!.
  - apply Hrun. lia.
  - destruct Hmulti as (j & Hops); [by vm_compute |].
    rewrite Hops.
    assert (Hj : length (map fst chunks) = 2%nat) by (by rewrite length_map).
    rewrite Hops in Hj. cbn in Hj. rewrite length_app, repeat_length in Hj. cbn in Hj.
    by replace j with 0%nat by lia.
  - exact Hcat.
Defined.


(** * Properties of the duration and event budgets *)

Lemma int_add_small (a b : Z) :
  - INT_MAX - 1 <= a + b <= INT_MAX -> int_add a b = Ok (a + b).
Proof.
  intros H. unfold int_add.
  destruct (Z.gtb_spec (a + b) INT_MAX); [lia |].
  destruct (Z.ltb_spec (a + b) (- INT_MAX - 1)); [lia |]. reflexivity.
Qed.

Lemma set_duration_same (inst : AdvertisingInstance) :
  set_duration (duration inst) inst = inst.
Proof. by destruct inst. Qed.

Lemma set_maxExtAdvEvents_same (inst : AdvertisingInstance) :
  set_maxExtAdvEvents (maxExtAdvEvents inst) inst = inst.
Proof. by destruct inst. Qed.

(** The exact result of [RecomputeTimeout] while no integer leaves its
    range; the callback is run without a test for null. *)
Lemma RecomputeTimeout_exact (inst : AdvertisingInstance) (now : TimeTicks) :
  0 <= elapsed_ms inst now < INT_MAX ->
  0 <= duration inst < 65536 ->
  0 <= maxExtAdvEvents inst < 256 ->
  (exhausted (duration inst) (durationDone inst now) = false ->
   maxExtAdvEvents inst <> 0 -> event_period inst <> 0) ->
  RecomputeTimeout inst now
  = if exhausted (duration inst) (durationDone inst now) then
      if is_null (timeout_cb inst) then Crash NullPointer
      else Ok (set_enable_status false inst, [Emit (Called (timeout_cb inst) 0)])
    else
      let inst1 := set_duration (remaining (duration inst) (durationDone inst now)) inst in
      if exhausted (maxExtAdvEvents inst) (eventsDone inst now) then
        if is_null (timeout_cb inst) then Crash NullPointer
        else Ok (set_enable_status false inst1, [Emit (Called (timeout_cb inst) 0)])
      else
        Ok (set_maxExtAdvEvents (remaining (maxExtAdvEvents inst) (eventsDone inst now)) inst1,
            []).
Proof.
  destruct inst as [id iu props rt tx dur mx tt oat oa tcb aur pe ai src sr rnd
                    ad sd pd ade sde pde ekv es et bh].
  unfold durationDone, eventsDone, event_period, elapsed_ms, exhausted, remaining,
    RecomputeTimeout, int_sub.
  cbn [duration maxExtAdvEvents advertising_interval timeout_cb enable_time].
  set (ms := InMilliseconds (now - et)).
  set (per := Z.quot (to_uint32 (ai * 5)) 8).
  intros Hel Hdur Hmax Hdiv.
  assert (0 <= Z.quot ms 10 <= ms) as Hdd.
  { rewrite Z.quot_div_nonneg by lia.
    split; [apply Z.div_pos; lia |]. apply Z.div_le_upper_bound; lia. }
  assert (0 <= per) as Hper.
  { subst per. unfold to_uint32. apply Z.quot_pos; [| lia]. apply Z.mod_pos_bound. lia. }
  assert (per <> 0 -> 0 <= Z.quot ms per <= ms) as Hed.
  { intros Hne. rewrite Z.quot_div_nonneg by lia.
    split; [apply Z.div_pos; lia |]. apply Z.div_le_upper_bound; nia. }
  rewrite (to_int_small (Z.quot ms 10)) by (unfold INT_MAX in *; lia).
  assert (forall x y : Z, x + - y = x - y) as Hsub by (intros; lia).
  destruct (Z.eqb_spec dur 0) as [-> | Hdne]; cbn [negb andb bind fst snd].
  - cbn [duration maxExtAdvEvents advertising_interval timeout_cb enable_time set_duration set_enable_status set_maxExtAdvEvents]. fold per.
    destruct (Z.eqb_spec mx 0) as [-> | Hmne]; cbn [negb andb bind fst snd]; [done |].
    specialize (Hdiv eq_refl Hmne). specialize (Hed Hdiv).
    destruct (Z.eqb_spec per 0) as [| _]; [done |].
    rewrite (to_int_small (Z.quot ms per)) by (unfold INT_MAX in *; lia).
    rewrite int_add_small by (unfold INT_MAX in *; lia). cbn [bind].
    destruct (Z.geb_spec (Z.quot ms per + 1) mx); [by destruct (is_null tcb) |].
    rewrite int_add_small by (unfold INT_MAX in *; lia). cbn [bind].
    by rewrite to_uint8_small, Hsub by lia.
  - rewrite int_add_small by (unfold INT_MAX in *; lia). cbn [bind].
    destruct (Z.geb_spec (Z.quot ms 10 + 1) dur) as [Hout | Hleft];
      cbn [bind fst snd negb andb].
    { destruct (is_null tcb); [done |]. cbn [bind fst snd negb andb].
      by rewrite andb_false_r. }
    rewrite int_add_small by (unfold INT_MAX in *; lia). cbn [bind fst snd].
    rewrite to_uint16_small, Hsub by lia.
    cbn [duration maxExtAdvEvents advertising_interval timeout_cb enable_time set_duration set_enable_status set_maxExtAdvEvents]. fold per.
    destruct (Z.eqb_spec mx 0) as [-> | Hmne]; cbn [negb andb bind fst snd]; [done |].
    specialize (Hdiv eq_refl Hmne). specialize (Hed Hdiv).
    destruct (Z.eqb_spec per 0) as [| _]; [done |].
    rewrite (to_int_small (Z.quot ms per)) by (unfold INT_MAX in *; lia).
    rewrite int_add_small by (unfold INT_MAX in *; lia). cbn [bind].
    destruct (Z.geb_spec (Z.quot ms per + 1) mx); [by destruct (is_null tcb) |].
    rewrite int_add_small by (unfold INT_MAX in *; lia). cbn [bind].
    by rewrite to_uint8_small, Hsub by lia.
Qed.






Lemma to_int_range (z : Z) : - INT_MAX - 1 <= to_int z <= INT_MAX.
Proof.
  unfold to_int, INT_MAX.
  pose proof (Z.mod_pos_bound (z + 2147483648) 4294967296 eq_refl). lia.
Qed.

(** C9. One call of [RecomputeTimeout] runs timeout_cb at most once: when
    the duration budget expires the callback is run (a fault when it is
    null, as there is no test), the maxExtAdvEvents branch is skipped, and
    maxExtAdvEvents keeps its value, whatever the state of the event
    budget. *)
Theorem RecomputeTimeout_fires_once (inst : AdvertisingInstance) (now : TimeTicks) :
  (callbacks_run (RecomputeTimeout inst now) <= 1)%nat
  /\ (duration inst <> 0 ->
      to_int (durationDone inst now) < INT_MAX ->
      to_int (durationDone inst now) + 1 >= duration inst ->
      RecomputeTimeout inst now
      = (if is_null (timeout_cb inst) then Crash NullPointer
         else Ok (set_enable_status false inst, [Emit (Called (timeout_cb inst) 0)]))
      /\ maxExtAdvEvents (set_enable_status false inst) = maxExtAdvEvents inst).
Proof.
  split.
  - destruct inst as [id iu props rt tx dur mx tt oat oa tcb aur pe ai src sr rnd
                      ad sd pd ade sde pde ekv es et bh].
    unfold RecomputeTimeout, int_sub, int_add, callbacks_run.
    cbn [duration maxExtAdvEvents advertising_interval timeout_cb enable_time].
    repeat (case_match; simplify_eq/=); try lia.
  - intros Hdur Hfit Hout. split; [| by destruct inst].
    pose proof (to_int_range (durationDone inst now)) as Hrange.
    unfold RecomputeTimeout.
    fold (elapsed_ms inst now). fold (durationDone inst now).
    destruct (Z.eqb_spec (duration inst) 0) as [| _]; [done |]. cbn [negb].
    rewrite int_add_small by lia. cbn [bind].
    destruct (Z.geb_spec (to_int (durationDone inst now) + 1) (duration inst)); [| lia].
    destruct (is_null (timeout_cb inst)); [done |].
    cbn [bind fst snd negb]. by rewrite andb_false_r.
Qed.

Lemma RecomputeTimeout_fires_once_witness :
  duration example_both_exhausted <> 0
  /\ exhausted (maxExtAdvEvents example_both_exhausted)
       (eventsDone example_both_exhausted (1000 + FromMilliseconds 500)) = true
  /\ RecomputeTimeout example_both_exhausted (1000 + FromMilliseconds 500)
     = Ok (set_enable_status false example_both_exhausted, [Emit (Called (ClientCb 1) 0)])
  /\ maxExtAdvEvents (set_enable_status false example_both_exhausted) = 1.
Proof.
  split; [by vm_compute |]. split; [by vm_compute |].
  destruct (RecomputeTimeout_fires_once example_both_exhausted (1000 + FromMilliseconds 500))
    as [_ Hexpired].
  destruct Hexpired as [Hrun Hkept]; [by vm_compute.. |].
  split; [exact Hrun | exact Hkept].
Defined.

(** * Properties of the encryption engine *)

Lemma written_length (buffer bytes : list Z) : length (written buffer bytes) = length buffer.
Proof. unfold written. rewrite length_app, length_take, length_drop. lia. Qed.

Lemma user_key_iv_24 (enc_key_value : list Z) :
  length enc_key_value = 24%nat ->
  user_key_iv (seq 0 24) enc_key_value [] []
  = Ok (take 16 enc_key_value, drop 16 enc_key_value).
Proof.
  intros Hlen.
  do 25 (destruct enc_key_value as [| ? enc_key_value]; [discriminate Hlen || reflexivity |]).
  discriminate Hlen.
Qed.

Section Encryption.

Variable env : Environment.
Variable inst : AdvertisingInstance.
Variable data : list Z.

(** Key and IV as the specification selects them. *)
Let user_key : bool := negb (bool_decide (enc_key_value inst = [])).
Let key : list Z :=
  if user_key then take 16 (enc_key_value inst) else map (session_key env) (seq 0 16).
Let iv : list Z :=
  if user_key then drop 16 (enc_key_value inst) else map (init_vector env) (seq 0 8).
Let reversed_randomizer : list Z := rev (array5_to_list (randomizer inst)).
Let nonce : list Z := reversed_randomizer ++ rev iv.
Let sealed : list Z * list Z := EVP_AEAD_CTX_seal_scatter env key nonce data [0xEA].

(** C6 (amended). With a 24-byte enc_key_value the key is its first 16
    bytes and the IV its last 8, with an empty one both come from the GAP
    key material; the nonce is the reversed randomizer (5 bytes) followed
    by the reversed IV (8 bytes), the associated data is the byte 0xEA, and
    the result is [length][0x31][reversed randomizer, ciphertext, MIC] with
    a ciphertext as long as the plaintext and a 4-byte MIC. The length byte
    is 1+5+len+4 reduced to 8 bits, which is 1+5+len+4 itself for a
    plaintext of at most 245 bytes. *)
Theorem EncryptedAdvertising_layout :
  enc_key_value inst = [] \/ length (enc_key_value inst) = 24%nat ->
  EVP_AEAD_CTX_new env key = true ->
  exists ciphertext mic : list Z,
    EncryptedAdvertising env inst data
    = Ok (to_uint8 (1 + 5 + Z.of_nat (length data) + 4)
            :: 0x31 :: reversed_randomizer ++ ciphertext ++ mic)
    /\ ciphertext = written (repeat 0 (length data)) (fst sealed)
    /\ mic = written (repeat 0 4) (snd sealed)
    /\ length key = 16%nat /\ length iv = 8%nat
    /\ length reversed_randomizer = 5%nat /\ length nonce = 13%nat
    /\ length ciphertext = length data /\ length mic = 4%nat
    /\ (Z.of_nat (length data) <= 245 ->
        to_uint8 (1 + 5 + Z.of_nat (length data) + 4) = 1 + 5 + Z.of_nat (length data) + 4).
Proof.
  intros Hkey Hctx.
  assert (length key = 16%nat /\ length iv = 8%nat) as [Hk Hi].
  { subst key iv user_key. destruct Hkey as [-> | Hlen]; [done |].
    case_bool_decide as He; [by rewrite He in Hlen |]. cbn [negb].
    rewrite length_take, length_drop. lia. }
  assert (EncryptedAdvertising env inst data
          = Ok (to_uint8 (Z.of_nat (length (BTM_BLE_AD_TYPE_ED :: reversed_randomizer
                   ++ written (repeat 0 (length data)) (fst sealed)
                   ++ written (repeat 0 4) (snd sealed))))
                :: BTM_BLE_AD_TYPE_ED :: reversed_randomizer
                   ++ written (repeat 0 (length data)) (fst sealed)
                   ++ written (repeat 0 4) (snd sealed))) as Hrun.
  { unfold EncryptedAdvertising.
    subst sealed nonce key iv user_key reversed_randomizer.
    destruct Hkey as [He | Hlen].
    - rewrite He in *. cbn [bool_decide negb bind fst snd] in *.
      rewrite bool_decide_eq_true_2 in * by done. cbn [negb bind fst snd] in *.
      by rewrite Hctx.
    - case_bool_decide as He; [by rewrite He in Hlen |]. cbn [negb] in *.
      rewrite user_key_iv_24 by done. cbn [bind fst snd]. by rewrite Hctx. }
  eexists _, _. split_and!; try done.
  - rewrite Hrun. do 2 f_equal.
    cbn [length]. rewrite !length_app, !written_length, !repeat_length.
    subst reversed_randomizer. rewrite length_rev. cbn [array5_to_list length].
    f_equal. lia.
  - subst nonce reversed_randomizer. by rewrite length_app, !length_rev, Hi.
  - by rewrite written_length, repeat_length.
  - by rewrite written_length, repeat_length.
  - intros Hfit. apply to_uint8_small. lia.
Qed.

End Encryption.

Lemma EncryptedAdvertising_layout_witness :
  length (enc_key_value example_keyed_instance) = 24%nat
  /\ exists ciphertext mic : list Z,
       EncryptedAdvertising example_env example_keyed_instance [0x03; 0x16; 0x51; 0x18]
       = Ok (14 :: 0x31 :: [5; 4; 3; 2; 1] ++ ciphertext ++ mic)
       /\ length ciphertext = 4%nat /\ length mic = 4%nat.
Proof.
  split; [reflexivity |].
  destruct (EncryptedAdvertising_layout example_env example_keyed_instance
              [0x03; 0x16; 0x51; 0x18])
    as (ciphertext & mic & Hrun & _ & _ & _ & _ & _ & _ & Hct & Hmic & _).
  - right. reflexivity.
  - reflexivity.
  - exists ciphertext, mic. split; [exact Hrun | split; [exact Hct | exact Hmic]].
Defined.

(** C6, as stated, fails for a plaintext of 246 bytes: the length byte
    cannot hold 1+5+246+4 = 256 and reads 0. *)
Lemma EncryptedAdvertising_length_wraps :
  exists rest : list Z,
    EncryptedAdvertising example_env example_keyed_instance (repeat 0 246) = Ok (0 :: rest)
    /\ 0 <> 1 + 5 + Z.of_nat (length (repeat 0 246)) + 4.
Proof. eexists. split; [vm_compute; reflexivity | by vm_compute]. Qed.

(** * Reasoning about the instance table *)

Lemma at_index_ok {A : Type} (v : list A) (i : Z) (a : A) :
  0 <= i -> v !! Z.to_nat i = Some a -> at_index v i = Ok a.
Proof.
  intros Hi Hl. unfold at_index.
  destruct (Z.ltb_spec i 0); [lia |]. by rewrite Hl.
Qed.

Lemma at_index_inv {A : Type} (v : list A) (i : Z) (a : A) :
  at_index v i = Ok a -> 0 <= i < Z.of_nat (length v) /\ v !! Z.to_nat i = Some a.
Proof.
  unfold at_index. destruct (Z.ltb_spec i 0); [done |].
  destruct (v !! Z.to_nat i) eqn:E; [| done].
  intros [= ->]. split; [| done]. apply lookup_lt_Some in E. lia.
Qed.

Lemma at_index_out {A : Type} (v : list A) (i : Z) :
  i < 0 \/ Z.of_nat (length v) <= i -> at_index v i = Crash OutOfRange.
Proof.
  intros Hi. unfold at_index. destruct (Z.ltb_spec i 0); [done |].
  rewrite lookup_ge_None_2; [done | lia].
Qed.

Lemma at_index_in {A : Type} (v : list A) (i : Z) :
  0 <= i < Z.of_nat (length v) -> exists a : A, at_index v i = Ok a.
Proof.
  intros Hi. destruct (lookup_lt_is_Some_2 v (Z.to_nat i)) as [a Ha]; [lia |].
  exists a. apply at_index_ok; [lia | done].
Qed.

Lemma at_index_insert {A : Type} (v : list A) (i : Z) (a b : A) :
  at_index v i = Ok a -> at_index (<[Z.to_nat i := b]> v) i = Ok b.
Proof.
  intros [Hi Hl]%at_index_inv. apply at_index_ok; [lia |].
  apply list_lookup_insert_eq. lia.
Qed.

Lemma slot_with_slot (m : Manager) (p : Z) (inst new : AdvertisingInstance) :
  slot m p inst -> slot (with_slot (Z.to_nat p) new m) p new.
Proof. unfold slot, with_slot. cbn. apply at_index_insert. Qed.

Lemma with_slot_twice (m : Manager) (p : nat) (a b : AdvertisingInstance) :
  with_slot p b (with_slot p a m) = with_slot p b m.
Proof. unfold with_slot, set_adv_inst. cbn. by rewrite list_insert_insert_eq. Qed.

Lemma with_inst_slot (p : Z) (k : AdvertisingInstance -> Action) (m : Manager)
    (inst : AdvertisingInstance) :
  slot m p inst -> with_inst p k m = k inst m.
Proof. unfold slot, with_inst. by intros ->. Qed.

Lemma update_inst_slot (p : Z) (f : AdvertisingInstance -> AdvertisingInstance) (m : Manager)
    (inst : AdvertisingInstance) :
  slot m p inst -> update_inst p f m = Ok (with_slot (Z.to_nat p) (f inst) m, []).
Proof. unfold slot, update_inst. by intros ->. Qed.

Lemma and_then_ok (a b : Action) (m m1 : Manager) (e1 : list effect) :
  a m = Ok (m1, e1) -> (a ;;; b) m = (r <- b m1 ;; Ok (fst r, e1 ++ snd r)).
Proof. unfold and_then. by intros ->. Qed.

Lemma and_then_silent (a b : Action) (m m1 : Manager) :
  a m = Ok (m1, []) -> (a ;;; b) m = b m1.
Proof. unfold and_then. intros ->. cbn. by destruct (b m1) as [[? ?] |]. Qed.

Lemma update_then (p : Z) (f : AdvertisingInstance -> AdvertisingInstance) (b : Action)
    (m : Manager) (inst : AdvertisingInstance) :
  slot m p inst -> (update_inst p f ;;; b) m = b (with_slot (Z.to_nat p) (f inst) m).
Proof. intros H. apply and_then_silent. by apply update_inst_slot. Qed.

Lemma skip_then (b : Action) (m : Manager) : (skip ;;; b) m = b m.
Proof. by apply and_then_silent. Qed.

Lemma emit_then (e : event) (b : Action) (m : Manager) :
  (emit e ;;; b) m = (r <- b m ;; Ok (fst r, Emit e :: snd r)).
Proof. by rewrite (and_then_ok _ _ _ m [Emit e]). Qed.

Lemma issue_then (e : effect) (b : Action) (m : Manager) :
  (issue e ;;; b) m = (r <- b m ;; Ok (fst r, e :: snd r)).
Proof. by rewrite (and_then_ok _ _ _ m [e]). Qed.

Lemma and_then_assoc (a b c : Action) (m : Manager) :
  ((a ;;; b) ;;; c) m = (a ;;; (b ;;; c)) m.
Proof.
  unfold and_then. destruct (a m) as [[m1 e1] |]; cbn; [| done].
  destruct (b m1) as [[m2 e2] |]; cbn; [| done].
  destruct (c m2) as [[m3 e3] |]; cbn; [| done].
  by rewrite app_assoc.
Qed.

(** Straight-line execution on a known slot. *)
Ltac on_slot :=
  repeat first
    [ erewrite with_inst_slot by eauto using slot_with_slot
    | erewrite update_then by eauto using slot_with_slot
    | erewrite update_inst_slot by eauto using slot_with_slot
    | rewrite and_then_assoc
    | rewrite skip_then
    | rewrite emit_then
    | rewrite issue_then
    | rewrite with_slot_twice
    | progress cbn [bind fst snd with_state skip emit issue app] ].

Section Rotation.

Variable env : Environment.
Variable m : Manager.
Variable p_inst : Z.
Variable inst : AdvertisingInstance.
Hypothesis at_p : slot m p_inst inst.

Lemma ConfigureRpa_skip (configuredCb : MultiAdvCb) :
  skip_rpa inst = true -> 0 < skip_rpa_count inst ->
  ConfigureRpa env p_inst configuredCb m
  = Ok (with_slot (Z.to_nat p_inst)
          (set_skip_rpa_count (skip_rpa_count inst - 1) inst) m, []).
Proof.
  intros Hskip Hcount. unfold ConfigureRpa.
  on_slot. rewrite Hskip.
  destruct (Z.gtb_spec (skip_rpa_count inst) 0); [| lia]. cbn [andb].
  by on_slot.
Qed.

Lemma ConfigureRpa_defer (configuredCb : MultiAdvCb) :
  enable_status inst = true -> IsConnectable inst = true ->
  duration inst <> 0 \/ maxExtAdvEvents inst <> 0 ->
  skip_rpa inst = false \/ skip_rpa_count inst <= 0 ->
  ConfigureRpa env p_inst configuredCb m
  = configuredCb 0x01
      (with_slot (Z.to_nat p_inst)
         (set_address_update_required true
            (if skip_rpa inst then set_skip_rpa_count 15 inst else inst)) m).
Proof.
  intros Hen Hconn Hbudget Hthrottle. unfold ConfigureRpa.
  on_slot. unfold IsEnabled. rewrite Hen, Hconn. cbn [andb].
  replace (negb (duration inst =? 0) || negb (maxExtAdvEvents inst =? 0)) with true.
  2:{ destruct Hbudget as [H | H]; [destruct (Z.eqb_spec (duration inst) 0) |
        destruct (Z.eqb_spec (maxExtAdvEvents inst) 0)]; try done.
      cbn. by rewrite orb_true_r. }
  destruct (skip_rpa inst) eqn:Hskip.
  - destruct Hthrottle as [| Hcount]; [done |].
    destruct (Z.gtb_spec (skip_rpa_count inst) 0); [lia |]. cbn [andb].
    by on_slot.
  - cbn [andb]. by on_slot.
Qed.

End Rotation.

(** * Enable *)

Section Enabling.

Variable env : Environment.
Variable m : Manager.
Variable inst_id : Z.
Variable enable : bool.
Variable cb : MultiAdvCb.
Variables duration_ maxExtAdvEvents_ : Z.
Variable timeout_cb_ : StoredCb.

Let call : Action := Enable env inst_id enable cb duration_ maxExtAdvEvents_ timeout_cb_.

Lemma Enable_bad_id :
  inst_count m <= inst_id -> call m = Ok (m, []).
Proof.
  intros Hid. unfold call, Enable, with_state.
  by destruct (Z.geb_spec inst_id (inst_count m)); [| lia].
Qed.

Variable inst : AdvertisingInstance.
Hypothesis in_range : inst_id < inst_count m.
Hypothesis at_id : slot m inst_id inst.

Lemma Enable_not_in_use :
  in_use inst = false -> call m = cb BTM_BLE_MULTI_ADV_FAILURE m.
Proof.
  intros Hfree. unfold call, Enable, with_state.
  destruct (Z.geb_spec inst_id (inst_count m)); [lia |].
  on_slot. by rewrite Hfree.
Qed.

(** The instance once [Enable] has stored its arguments. *)
Let stored : AdvertisingInstance :=
  set_maxExtAdvEvents maxExtAdvEvents_
    (set_duration duration_
       (if enable && (negb (duration_ =? 0) || negb (maxExtAdvEvents_ =? 0))
        then set_timeout_cb timeout_cb_ inst else inst)).

Lemma Enable_direct :
  in_use inst = true ->
  rpa_gen_offload_enabled m = true \/ enable = false \/ address_update_required inst = false ->
  call m = EnableFinish env inst_id enable cb 0 (with_slot (Z.to_nat inst_id) stored m).
Proof.
  intros Hused Hdirect. unfold call, Enable, with_state.
  destruct (Z.geb_spec inst_id (inst_count m)); [lia |].
  on_slot. rewrite Hused. cbn [negb].
  replace (negb (rpa_gen_offload_enabled m) && (enable && address_update_required inst))
    with false.
  2:{ destruct Hdirect as [-> | [-> | ->]]; [done | by rewrite andb_false_r |].
      by rewrite !andb_false_r. }
  subst stored.
  destruct (enable && (negb (duration_ =? 0) || negb (maxExtAdvEvents_ =? 0))); by on_slot.
Qed.

Lemma Enable_rotating :
  in_use inst = true -> rpa_gen_offload_enabled m = false -> enable = true ->
  address_update_required inst = true ->
  call m = ConfigureRpa env inst_id (fun status => weak (EnableFinish env inst_id enable cb status))
             (with_slot (Z.to_nat inst_id) (set_address_update_required false stored) m).
Proof.
  intros Hused Hoff Hen Hreq. unfold call, Enable, with_state.
  destruct (Z.geb_spec inst_id (inst_count m)); [lia |].
  on_slot. rewrite Hused, Hoff, Hen, Hreq. cbn [negb andb].
  subst stored. rewrite Hen. cbn [andb].
  destruct (negb (duration_ =? 0) || negb (maxExtAdvEvents_ =? 0)); by on_slot.
Qed.

End Enabling.

Lemma EnableFinish_run (env : Environment) (p_inst : Z) (enable : bool) (cb : MultiAdvCb)
    (status : Z) (m : Manager) (inst0 : AdvertisingInstance) :
  slot m p_inst inst0 ->
  let timed := enable && negb (duration inst0 =? 0) in
  let cancels := negb timed && timeout_timer inst0 in
  EnableFinish env p_inst enable cb status m
  = Ok (with_slot (Z.to_nat p_inst)
          (set_enable_status enable
             ((if enable then set_enable_time (Now env) else id)
                ((if cancels then set_timeout_timer false else id) inst0))) m,
        (if cancels
         then [Emit (alarm_cancel (timeout_timer_of p_inst));
               Emit (alarm_free (timeout_timer_of p_inst))]
         else [])
        ++ [Hci (EnableCmd enable (inst_id inst0) (duration inst0) (maxExtAdvEvents inst0))
              (if timed
               then fun status =>
                      weak (EnableWithTimerCb (inst_id inst0) cb (duration inst0)
                              (timeout_cb inst0) status)
               else cb)]).
Proof.
  intros Hslot timed cancels. subst timed cancels. unfold EnableFinish, hci_Enable.
  on_slot.
  destruct enable, (duration inst0 =? 0), (timeout_timer inst0);
    cbn [negb andb]; on_slot; reflexivity.
Qed.

Lemma stored_budgets (enable : bool) (d me : Z) (tcb : StoredCb) (inst : AdvertisingInstance) :
  let stored :=
    set_maxExtAdvEvents me
      (set_duration d
         (if enable && (negb (d =? 0) || negb (me =? 0)) then set_timeout_cb tcb inst else inst)) in
  duration stored = d /\ maxExtAdvEvents stored = me /\ inst_id stored = inst_id inst
  /\ timeout_timer stored = timeout_timer inst.
Proof. destruct inst. by destruct (enable && _). Qed.

Lemma initialized_with_slot (p : nat) (inst : AdvertisingInstance) (m : Manager) :
  initialized (with_slot p inst m) = initialized m.
Proof. reflexivity. Qed.

(** C7, as stated, fails at an instance id equal to inst_count: the call
    returns at the range check and the callback never runs. *)
Lemma Enable_bad_id_never_completes :
  run (Enable example_env 3 true (client_cb 1) 0 0 NoOpCb) [Status 0] example_manager
  = Ok (example_manager, [])
  /\ client_calls 1 [] = []
  /\ inst_count example_manager <= 3.
Proof. split; [reflexivity | split; [reflexivity | by vm_compute]]. Qed.

(** C3 (amended). For an instance that is enabled, connectable, has a
    nonzero duration or maxExtAdvEvents and is not in the throttle window of a
    broadcast set, [ConfigureRpa] sets address_update_required (and, for a
    broadcast set whose window just ended, restarts the window at 15),
    generates no address, issues no command, and runs configuredCb once with
    the status 0x01. *)
Theorem ConfigureRpa_deferred (env : Environment) (m : Manager) (p_inst : Z)
    (inst : AdvertisingInstance) (name : nat) :
  slot m p_inst inst ->
  enable_status inst = true -> IsConnectable inst = true ->
  duration inst <> 0 \/ maxExtAdvEvents inst <> 0 ->
  skip_rpa inst = false \/ skip_rpa_count inst <= 0 ->
  let m' :=
    with_slot (Z.to_nat p_inst)
      (set_address_update_required true
         (if skip_rpa inst then set_skip_rpa_count 15 inst else inst)) m in
  ConfigureRpa env p_inst (client_cb name) m = Ok (m', [Emit (Called (ClientCb name) 0x01)])
  /\ forall replies : list reply,
       run (ConfigureRpa env p_inst (client_cb name)) replies m
       = Ok (m', [Called (ClientCb name) 0x01]).
Proof.
  intros Hslot Hen Hconn Hbudget Hthrottle m'.
  assert (ConfigureRpa env p_inst (client_cb name) m
          = Ok (m', [Emit (Called (ClientCb name) 0x01)])) as Hrun.
  { by rewrite (ConfigureRpa_defer env m p_inst inst). }
  split; [exact Hrun |].
  intros replies. unfold run. rewrite Hrun. by destruct replies.
Qed.

Lemma ConfigureRpa_deferred_witness :
  enable_status example_enabled_instance = true
  /\ IsConnectable example_enabled_instance = true
  /\ duration example_enabled_instance <> 0
  /\ ConfigureRpa example_env 0 (client_cb 1)
       (with_slot 0 example_enabled_instance example_manager)
     = Ok (with_slot 0 (set_address_update_required true example_enabled_instance)
             example_manager,
           [Emit (Called (ClientCb 1) 0x01)]).
Proof.
  split; [reflexivity |]. split; [reflexivity |]. split; [by vm_compute |].
  destruct (ConfigureRpa_deferred example_env
              (with_slot 0 example_enabled_instance example_manager) 0
              example_enabled_instance 1) as [Hrun _].
  - reflexivity.
  - reflexivity.
  - reflexivity.
  - left. by vm_compute.
  - left. reflexivity.
  - exact Hrun.
Defined.

(** C3, as stated, fails: the status handed to configuredCb is 0x01, not
    the success status 0. *)
Lemma ConfigureRpa_deferred_status_is_not_success :
  ConfigureRpa example_env 0 (client_cb 1)
    (with_slot 0 example_enabled_instance example_manager)
  = Ok (with_slot 0 (set_address_update_required true example_enabled_instance)
          example_manager,
        [Emit (Called (ClientCb 1) 0x01)])
  /\ 0x01 <> BTM_BLE_MULTI_ADV_SUCCESS.
Proof. split; [reflexivity | by vm_compute]. Qed.

(** C8. For a broadcast set (skip_rpa) with skip_rpa_count above 0,
    [ConfigureRpa] only takes one off skip_rpa_count: no address is generated,
    no command issued, no other member of the instance changed, and
    configuredCb is not run; so an [Enable] that went into [ConfigureRpa]
    for a pending address update leaves nothing behind that could ever run
    its completion callback. *)
Theorem ConfigureRpa_throttled (env : Environment) (m : Manager) (p_inst : Z)
    (inst : AdvertisingInstance) :
  slot m p_inst inst ->
  skip_rpa inst = true -> 0 < skip_rpa_count inst ->
  (forall configuredCb : MultiAdvCb,
     ConfigureRpa env p_inst configuredCb m
     = Ok (with_slot (Z.to_nat p_inst)
             (set_skip_rpa_count (skip_rpa_count inst - 1) inst) m, []))
  /\ (forall (cb : MultiAdvCb) (duration_ maxExtAdvEvents_ : Z) (timeout_cb_ : StoredCb),
        p_inst < inst_count m -> in_use inst = true ->
        address_update_required inst = true -> rpa_gen_offload_enabled m = false ->
        exists m' : Manager,
          Enable env p_inst true cb duration_ maxExtAdvEvents_ timeout_cb_ m = Ok (m', [])
          /\ forall replies : list reply,
               run (Enable env p_inst true cb duration_ maxExtAdvEvents_ timeout_cb_)
                 replies m
               = Ok (m', [])).
Proof.
  intros Hslot Hskip Hcount. split.
  - intros configuredCb. by apply ConfigureRpa_skip.
  - intros cb duration_ maxExtAdvEvents_ timeout_cb_ Hrange Hused Hreq Hoff.
    eexists. 
    assert (forall x, skip_rpa (set_address_update_required false
              (set_maxExtAdvEvents maxExtAdvEvents_ (set_duration duration_ x))) = skip_rpa x
            /\ skip_rpa_count (set_address_update_required false
              (set_maxExtAdvEvents maxExtAdvEvents_ (set_duration duration_ x)))
               = skip_rpa_count x) as Hkeep by (by intros []).
    assert (forall x, skip_rpa (set_timeout_cb timeout_cb_ x) = skip_rpa x
                      /\ skip_rpa_count (set_timeout_cb timeout_cb_ x) = skip_rpa_count x)
      as Hkeep' by (by intros []).
    rewrite (Enable_rotating _ _ _ _ _ _ _ _ inst) by done.
    erewrite ConfigureRpa_skip; [| eauto using slot_with_slot | |].
    + split; [reflexivity |]. intros replies. unfold run.
      rewrite (Enable_rotating _ _ _ _ _ _ _ _ inst) by done.
      erewrite ConfigureRpa_skip; [| eauto using slot_with_slot | |].
      * by destruct replies.
      * destruct (Hkeep (if true && (negb (duration_ =? 0) || negb (maxExtAdvEvents_ =? 0))
                         then set_timeout_cb timeout_cb_ inst else inst)) as [-> _].
        destruct (true && _); [by destruct (Hkeep' inst) as [-> _] | done].
      * destruct (Hkeep (if true && (negb (duration_ =? 0) || negb (maxExtAdvEvents_ =? 0))
                         then set_timeout_cb timeout_cb_ inst else inst)) as [_ ->].
        destruct (true && _); [by destruct (Hkeep' inst) as [_ ->] | done].
    + destruct (Hkeep (if true && (negb (duration_ =? 0) || negb (maxExtAdvEvents_ =? 0))
                       then set_timeout_cb timeout_cb_ inst else inst)) as [-> _].
      destruct (true && _); [by destruct (Hkeep' inst) as [-> _] | done].
    + destruct (Hkeep (if true && (negb (duration_ =? 0) || negb (maxExtAdvEvents_ =? 0))
                       then set_timeout_cb timeout_cb_ inst else inst)) as [_ ->].
      destruct (true && _); [by destruct (Hkeep' inst) as [_ ->] | done].
Qed.

Lemma ConfigureRpa_throttled_witness :
  skip_rpa example_throttled_instance = true
  /\ 0 < skip_rpa_count example_throttled_instance
  /\ forall replies : list reply,
       exists m' : Manager,
         run (Enable example_env 0 true (client_cb 1) 0 0 NoOpCb) replies
           (with_slot 0 example_throttled_instance example_manager)
         = Ok (m', []).
Proof.
  split; [reflexivity |]. split; [by vm_compute |]. intros replies.
  destruct (ConfigureRpa_throttled example_env
              (with_slot 0 example_throttled_instance example_manager) 0
              example_throttled_instance) as [_ Henable];
    [reflexivity | reflexivity | by vm_compute |].
  destruct (Henable (client_cb 1) 0 0 NoOpCb) as (m' & _ & Hrun);
    [by vm_compute | reflexivity | reflexivity | reflexivity |].
  exists m'. apply Hrun.
Defined.

(** * Unregister *)

Lemma with_big_inst_at (p : Z) (k : IsoBIG.IsoBIGInstance -> Action) (m : Manager)
    (big : IsoBIG.IsoBIGInstance) :
  at_index (iso_big_inst m) p = Ok big -> with_big_inst p k m = k big m.
Proof. unfold with_big_inst. by intros ->. Qed.

Lemma update_big_inst_at (p : Z) (f : IsoBIG.IsoBIGInstance -> IsoBIG.IsoBIGInstance)
    (m : Manager) (big : IsoBIG.IsoBIGInstance) :
  at_index (iso_big_inst m) p = Ok big ->
  update_big_inst p f m
  = Ok (set_iso_big_inst (<[Z.to_nat p := f big]> (iso_big_inst m)) m, []).
Proof. unfold update_big_inst. by intros ->. Qed.

Lemma with_inst_then (p : Z) (k : AdvertisingInstance -> Action) (b : Action) (m : Manager)
    (inst : AdvertisingInstance) :
  slot m p inst -> (with_inst p k ;;; b) m = (k inst ;;; b) m.
Proof. intros H. unfold and_then. by rewrite (with_inst_slot p k m inst). Qed.

Lemma with_big_inst_then (p : Z) (k : IsoBIG.IsoBIGInstance -> Action) (b : Action)
    (m : Manager) (big : IsoBIG.IsoBIGInstance) :
  at_index (iso_big_inst m) p = Ok big -> (with_big_inst p k ;;; b) m = (k big ;;; b) m.
Proof. intros H. unfold and_then. by rewrite (with_big_inst_at p k m big). Qed.

Lemma update_big_then (p : Z) (f : IsoBIG.IsoBIGInstance -> IsoBIG.IsoBIGInstance)
    (b : Action) (m : Manager) (big : IsoBIG.IsoBIGInstance) :
  at_index (iso_big_inst m) p = Ok big ->
  (update_big_inst p f ;;; b) m
  = b (set_iso_big_inst (<[Z.to_nat p := f big]> (iso_big_inst m)) m).
Proof. intros H. apply and_then_silent. by apply update_big_inst_at. Qed.

Ltac fields :=
  cbn [inst_id in_use advertising_event_properties adv_raddr_timer tx_power duration
       maxExtAdvEvents timeout_timer own_address_type own_address timeout_cb
       address_update_required periodic_enabled advertising_interval skip_rpa_count
       skip_rpa randomizer advertise_data scan_response_data periodic_data
       advertise_data_enc scan_response_data_enc periodic_adv_data_enc enc_key_value
       enable_status enable_time big_handle
       set_inst_id set_in_use set_advertising_event_properties set_adv_raddr_timer
       set_tx_power set_duration set_maxExtAdvEvents set_timeout_timer
       set_own_address_type set_own_address set_timeout_cb set_address_update_required
       set_periodic_enabled set_advertising_interval set_skip_rpa_count set_skip_rpa
       set_randomizer set_advertise_data set_scan_response_data set_periodic_data
       set_advertise_data_enc set_scan_response_data_enc set_periodic_adv_data_enc
       set_enc_key_value set_enable_status set_enable_time set_big_handle
       IsEnabled IsConnectable get_inst_id].

Lemma slot_set_iso_big_inst (m : Manager) (v : list IsoBIG.IsoBIGInstance) (p : Z)
    (inst : AdvertisingInstance) :
  slot m p inst -> slot (set_iso_big_inst v m) p inst.
Proof. done. Qed.

Ltac slot_tac := eauto using slot_with_slot, slot_set_iso_big_inst.

(** Straight-line execution of a sequence on known slots. *)
Ltac steps :=
  repeat first
    [ rewrite and_then_assoc
    | rewrite skip_then
    | rewrite emit_then
    | rewrite issue_then
    | erewrite update_then by slot_tac
    | erewrite with_inst_then by slot_tac
    | erewrite with_inst_slot by slot_tac
    | erewrite update_inst_slot by slot_tac
    | rewrite with_slot_twice
    | progress cbn [bind fst snd with_state skip emit issue app negb andb orb]
    | progress fields ].

Section Unregistering.

Variable env : Environment.
Variable m : Manager.
Variable inst_id : Z.
Variable inst : AdvertisingInstance.

Hypothesis alive : initialized m = true.
Hypothesis tables : tables_ok env m.
Hypothesis in_range : inst_id < inst_count m.
Hypothesis at_id : slot m inst_id inst.


End Unregistering.

(** * Start advertising set: rollback *)

Lemma drive_unfold (replies : list reply) (m : Manager) (q : list effect) :
  drive replies m q
  = match until_command q with
    | (evs, None) => Ok (m, evs)
    | (evs, Some (e, rest)) =>
        match replies with
        | [] => Ok (m, evs ++ map issued rest)
        | r :: replies' =>
            r1 <- resume e r m ;;
            r2 <- drive replies' (fst r1) (rest ++ snd r1) ;;
            Ok (fst r2, evs ++ snd r2)
        end
    end.
Proof. by destruct replies. Qed.

Lemma drive_emit (replies : list reply) (m : Manager) (ev : event) (q : list effect) :
  drive replies m (Emit ev :: q) = (r <- drive replies m q ;; Ok (fst r, ev :: snd r)).
Proof.
  rewrite !drive_unfold. cbn [until_command].
  destruct (until_command q) as [evs [[e rest] |]]; [| done].
  destruct replies as [| r replies]; [done |].
  destruct (resume e r m) as [[m1 q1] |]; [| done]. cbn [bind fst snd].
  by destruct (drive replies m1 (rest ++ q1)) as [[m2 evs2] |].
Qed.

Lemma drive_nil (m : Manager) (q : list effect) : drive [] m q = Ok (m, map issued q).
Proof.
  induction q as [| e q IH]; [done |].
  destruct e; try done. by rewrite drive_emit, IH.
Qed.

(** A command whose completion does nothing uses up one answer. *)
Lemma drive_DoNothing (replies : list reply) (m : Manager) (c : command) (q : list effect) :
  drive replies m (Hci c DoNothing :: q)
  = (r <- drive (tail replies) m q ;; Ok (fst r, Issued c :: snd r)).
Proof.
  destruct replies as [| r replies].
  - by rewrite !drive_nil.
  - cbn [drive until_command tail issued].
    assert (resume (Hci c DoNothing) r m = Ok (m, [])) as -> by (by destruct r).
    cbn [bind fst snd]. by rewrite app_nil_r.
Qed.


Section Rollback.

Variable env : Environment.
Variable m : Manager.
Variable c : CreatorParams.
Variable name : nat.
Variable status : Z.

Hypothesis client : c_cb c = client_id_tx_power_status_cb name.
Hypothesis alive : initialized m = true.
Hypothesis tables : tables_ok env m.
Hypothesis in_range : 0 <= c_inst_id c < inst_count m.
Hypothesis failed : status <> 0.



End Rollback.

Lemma example_tables_ok : tables_ok example_env example_registered_manager.
Proof.
  split; [reflexivity |]. split; [reflexivity |].
  intros p inst [Hrange Hlookup]%at_index_inv. cbn in Hrange.
  assert (p = 0 \/ p = 1 \/ p = 2) as [-> | [-> | ->]] by lia;
    cbn in Hlookup; injection Hlookup as <-; split; (reflexivity || (left; reflexivity)).
Qed.

(** * Lookups in the instance table *)

Lemma RecomputeTimeout_in_range (inst : AdvertisingInstance) (now : TimeTicks) :
  RecomputeTimeout inst now <> Crash OutOfRange.
Proof.
  unfold RecomputeTimeout, int_sub, int_add.
  repeat (case_match; simplify_eq/=); done.
Qed.

Section Lookups.

Variable env : Environment.
Variable m : Manager.
Hypothesis table : Z.of_nat (length (adv_inst m)) = inst_count m.

Lemma GetOwnAddress_range (inst_id : Z) (name : nat) :
  0 <= inst_id ->
  GetOwnAddress inst_id (client_get_address_cb name) m = Crash OutOfRange
  <-> inst_count m <= inst_id.
Proof.
  intros Hpos. unfold GetOwnAddress. split.
  - intros Hcrash.
    destruct (Z_lt_le_dec inst_id (inst_count m)) as [Hin | Hout]; [| done].
    destruct (at_index_in (adv_inst m) inst_id) as [inst Hslot]; [lia |].
    by rewrite (with_inst_slot _ _ _ inst) in Hcrash.
  - intros Hout. unfold with_inst. rewrite at_index_out by lia. done.
Qed.

Lemma OnAdvertisingSetTerminated_range (status advertising_handle connection_handle
    num_completed : Z) :
  0 <= advertising_handle ->
  OnAdvertisingSetTerminated env status advertising_handle connection_handle num_completed m
  = Crash OutOfRange
  <-> inst_count m <= advertising_handle.
Proof.
  intros Hpos. unfold OnAdvertisingSetTerminated, hci_Enable, run_stored. split.
  - intros Hcrash.
    destruct (Z_lt_le_dec advertising_handle (inst_count m)) as [Hin | Hout]; [| done].
    exfalso.
    destruct (at_index_in (adv_inst m) advertising_handle) as [inst Hslot]; [lia |].
    fold (slot m advertising_handle inst) in Hslot.
    destruct inst as [id iu props rt tx dur mx tt oat oa tcb aur pe ai src sr rnd
                      ad sd pd ade sde pde ekv es et bh].
    destruct ((status =? HCI_ERR_LIMIT_REACHED) || (status =? HCI_ERR_ADVERTISING_TIMEOUT)).
    + revert Hcrash. steps. by destruct (is_null tcb).
    + revert Hcrash. unfold with_state.
      set (acl := negb (rpa_gen_offload_enabled m)
                  && (BTM_BleLocalPrivacyEnabled env
                      && (advertising_handle <=? BTM_BLE_MULTI_ADV_MAX env))).
      assert (forall rest : Action,
                rest m <> Crash OutOfRange ->
                ((if acl
                  then with_inst advertising_handle (fun inst =>
                         emit (btm_acl_update_conn_addr connection_handle (own_address inst)))
                  else skip) ;;; rest) m <> Crash OutOfRange) as Hacl.
      { intros rest Hrest. destruct acl; steps; [| done].
        by destruct (rest m) as [[? ?] | []]. }
      apply Hacl. steps. destruct iu; [| done].
      destruct (Z.land props 12 =? 0); steps; [| done].
      unfold and_then, RecomputeTimeout_at. rewrite Hslot. cbn [bind].
      match goal with |- context [RecomputeTimeout ?i ?n] =>
        pose proof (RecomputeTimeout_in_range i n) as Hrt;
        destruct (RecomputeTimeout i n) as [[inst1 called] | f] end.
      2:{ cbn. by destruct f. }
      cbn [bind fst snd].
      fold (with_slot (Z.to_nat advertising_handle) inst1 m).
      erewrite with_inst_slot by slot_tac.
      by destruct (enable_status inst1).
  - intros Hout.
    destruct ((status =? HCI_ERR_LIMIT_REACHED) || (status =? HCI_ERR_ADVERTISING_TIMEOUT)).
    + unfold and_then, update_inst. by rewrite at_index_out by lia.
    + unfold with_state, and_then, with_inst.
      destruct (negb (rpa_gen_offload_enabled m) && _);
        cbn [bind fst snd skip]; by rewrite at_index_out by lia.
Qed.

Lemma BIG_complete_rejects (status big_handle : Z) (big_params conn_handle_list : list Z)
    (cmd_status : bool) (reason : Z) :
  inst_count m <= big_handle ->
  CreateBIGComplete env status big_handle big_params conn_handle_list m = Ok (m, [])
  /\ TerminateBIGComplete env status big_handle cmd_status reason m = Ok (m, []).
Proof.
  intros Hout. unfold CreateBIGComplete, TerminateBIGComplete, with_state.
  by destruct (Z.geb_spec big_handle (inst_count m)); [| lia].
Qed.

End Lookups.

(** [ReadInstanceCountCb] on the empty manager builds tables of inst_count slots. *)
Lemma ReadInstanceCountCb_tables (env : Environment) (instance_count : Z)
    (u u_big : nat -> Indeterminate) (m : Manager) :
  0 <= instance_count -> adv_inst m = [] -> iso_big_inst m = [] ->
  exists m' : Manager,
    ReadInstanceCountCb env instance_count u u_big m = Ok (m', [])
    /\ Z.of_nat (length (adv_inst m')) = inst_count m'
    /\ Z.of_nat (length (iso_big_inst m')) = inst_count m'.
Proof.
  intros Hpos Hadv Hbig. eexists. split; [reflexivity |].
  cbn. rewrite Hadv, Hbig. cbn. rewrite !length_map, !length_seq. lia.
Qed.

(** C10. [GetOwnAddress] and [OnAdvertisingSetTerminated] reach into the
    instance table with the id or handle of their caller before any check:
    on a table of inst_count slots they run into the out-of-range access
    exactly when that id or handle is inst_count or more, whereas
    [CreateBIGComplete] and [TerminateBIGComplete] return at their range
    check and leave everything as it is. *)
Theorem lookups_before_range_check (env : Environment) (m : Manager) (id : Z) (name : nat)
    (status connection_handle num_completed : Z) :
  Z.of_nat (length (adv_inst m)) = inst_count m ->
  0 <= id ->
  (GetOwnAddress id (client_get_address_cb name) m = Crash OutOfRange
   <-> inst_count m <= id)
  /\ (OnAdvertisingSetTerminated env status id connection_handle num_completed m
      = Crash OutOfRange
      <-> inst_count m <= id)
  /\ (inst_count m <= id ->
      forall (big_params conn_handle_list : list Z) (cmd_status : bool) (reason : Z),
        CreateBIGComplete env status id big_params conn_handle_list m = Ok (m, [])
        /\ TerminateBIGComplete env status id cmd_status reason m = Ok (m, [])).
Proof.
  intros Htable Hpos. split_and!.
  - by apply GetOwnAddress_range.
  - by apply OnAdvertisingSetTerminated_range.
  - intros Hout big_params conn_handle_list cmd_status reason.
    by apply BIG_complete_rejects.
Qed.

Lemma lookups_before_range_check_witness :
  Z.of_nat (length (adv_inst example_manager)) = inst_count example_manager
  /\ GetOwnAddress 3 (client_get_address_cb 1) example_manager = Crash OutOfRange
  /\ OnAdvertisingSetTerminated example_env 0 3 64 0 example_manager = Crash OutOfRange
  /\ CreateBIGComplete example_env 0 3 [] [] example_manager = Ok (example_manager, [])
  /\ GetOwnAddress 2 (client_get_address_cb 1) example_manager <> Crash OutOfRange.
Proof.
  split; [reflexivity |].
  destruct (lookups_before_range_check example_env example_manager 3 1 0 64 0)
    as (Hget & Hterm & Hbig); [reflexivity | by vm_compute |].
  destruct (lookups_before_range_check example_env example_manager 2 1 0 64 0)
    as (Hget2 & _); [reflexivity | by vm_compute |].
  split; [apply Hget; by vm_compute |].
  split; [apply Hterm; by vm_compute |].
  split; [apply (Hbig ltac:(by vm_compute) [] [] false 0) |].
  intros Hcrash. apply Hget2 in Hcrash. revert Hcrash. by vm_compute.
Defined.


(** * Buffers that are not empty *)

Lemma nonempty_decide (l : list Z) : l <> [] -> bool_decide (l = []) = false.
Proof. intros H. by apply bool_decide_eq_false. Qed.


(** * The TX power in advertising data *)


Lemma to_uint8_byte (z : Z) : 0 <= to_uint8 z < 256.
Proof. unfold to_uint8. apply Z.mod_pos_bound. lia. Qed.

Lemma bytes_insert (data : list Z) (k : nat) (b : Z) :
  bytes data -> 0 <= b < 256 -> bytes (<[k := b]> data).
Proof. intros Hd Hb. by apply Forall_insert. Qed.

Lemma bytes_at (data : list Z) (k : nat) (b : Z) :
  bytes data -> data !! k = Some b -> 0 <= b < 256.
Proof. intros Hd Hk. by apply (Forall_lookup_1 _ _ _ _ Hd Hk). Qed.

(** One round of the loop, for a position inside the buffer. *)
Lemma fill_tx_power_step (fuel : nat) (tx_power : Z) (data : list Z) (i : Z) :
  0 <= i -> i + 2 < Z.of_nat (length data) ->
  exists type len : Z,
    data !! Z.to_nat (i + 1) = Some type
    /\ data !! Z.to_nat i = Some len
    /\ fill_tx_power (S fuel) tx_power data i
       = fill_tx_power fuel tx_power
           (if type =? HCI_EIR_TX_POWER_LEVEL_TYPE
            then <[Z.to_nat (i + 2) := to_uint8 tx_power]> data else data)
           (i + (len + 1)).
Proof.
  intros Hi Hin.
  destruct (lookup_lt_is_Some_2 data (Z.to_nat (i + 1))) as [type Htype]; [lia |].
  destruct (lookup_lt_is_Some_2 data (Z.to_nat i)) as [len Hlen]; [lia |].
  exists type, len. split; [done |]. split; [done |].
  cbn [fill_tx_power].
  destruct (Z.ltb_spec (i + 2) (Z.of_nat (length data))); [| lia].
  rewrite (at_index_ok data (i + 1) type) by (done || lia). cbn [bind].
  rewrite (at_index_ok _ i len); [done | lia |].
  destruct (type =? HCI_EIR_TX_POWER_LEVEL_TYPE); [| done].
  rewrite list_lookup_insert_ne by lia. done.
Qed.

Lemma fill_tx_power_done (fuel : nat) (tx_power : Z) (data : list Z) (i : Z) :
  Z.of_nat (length data) <= i + 2 -> fill_tx_power fuel tx_power data i = Ok data.
Proof.
  intros Hout. destruct fuel; cbn [fill_tx_power];
    by destruct (Z.ltb_spec (i + 2) (Z.of_nat (length data))); [lia |].
Qed.

Lemma fill_tx_power_spec (tx_power : Z) (fuel : nat) :
  forall (data : list Z) (i : Z),
    bytes data -> 0 <= i -> Z.of_nat (length data) <= i + Z.of_nat fuel ->
    exists out : list Z,
      fill_tx_power fuel tx_power data i = Ok out
      /\ fill_tx_power (S fuel) tx_power data i = Ok out
      /\ length out = length data
      /\ bytes out
      /\ forall k : nat,
           out !! k = data !! k
           \/ (i + 2 <= Z.of_nat k
               /\ out !! (k - 1)%nat = Some HCI_EIR_TX_POWER_LEVEL_TYPE
               /\ out !! k = Some (to_uint8 tx_power)).
Proof.
  induction fuel as [| fuel IH]; intros data i Hbytes Hi Hfuel.
  { exists data. rewrite !fill_tx_power_done by lia. split_and!; try done. by left. }
  destruct (Z.le_gt_cases (Z.of_nat (length data)) (i + 2)) as [Hout | Hin].
  { exists data. rewrite !fill_tx_power_done by lia. split_and!; try done. by left. }
  destruct (fill_tx_power_step (S fuel) tx_power data i Hi Hin)
    as (type & len & Htype & Hlen & Hstep2).
  destruct (fill_tx_power_step fuel tx_power data i Hi Hin)
    as (type' & len' & Htype' & Hlen' & Hstep1).
  simplify_eq.
  pose proof (bytes_at _ _ _ Hbytes Hlen) as Hlenb.
  set (data' := if type =? HCI_EIR_TX_POWER_LEVEL_TYPE
                then <[Z.to_nat (i + 2) := to_uint8 tx_power]> data else data) in *.
  assert (Hlen' : length data' = length data).
  { subst data'. destruct (type =? _); [by rewrite length_insert | done]. }
  assert (Hbytes' : bytes data').
  { subst data'. destruct (type =? _); [| done].
    apply bytes_insert; [done | apply to_uint8_byte]. }
  destruct (IH data' (i + (len + 1)) Hbytes') as (out & Hrun & Hrun2 & Hsize & Hout & Hframe);
    [lia | lia |].
  exists out. rewrite Hstep1, Hstep2. split_and!; try done; [congruence |].
  intros k.
  destruct (Hframe k) as [Hsame | (Hk & Hty & Hval)]; [| right; split_and!; [lia | done..]].
  subst data'. destruct (Z.eqb_spec type HCI_EIR_TX_POWER_LEVEL_TYPE) as [-> | _];
    [| by left].
  destruct (decide (k = Z.to_nat (i + 2))) as [-> | Hne].
  2:{ left. by rewrite Hsame, list_lookup_insert_ne. }
  right. split; [lia |]. split.
  - replace (Z.to_nat (i + 2) - 1)%nat with (Z.to_nat (i + 1)) by lia.
    destruct (Hframe (Z.to_nat (i + 1))) as [-> | (Hk & _)]; [| lia].
    by rewrite list_lookup_insert_ne by lia.
  - rewrite Hsame. apply list_lookup_insert_eq. lia.
Qed.

Lemma fill_tx_power_fuel (tx_power : Z) (data : list Z) (extra : nat) :
  bytes data ->
  fill_tx_power (length data + extra) tx_power data 0
  = fill_tx_power (length data) tx_power data 0.
Proof.
  intros Hbytes. induction extra as [| extra IH]; [by rewrite Nat.add_0_r |].
  rewrite <- IH.
  destruct (fill_tx_power_spec tx_power (length data + extra) data 0 Hbytes)
    as (out & -> & Hmore & _); [lia | lia |].
  by replace (length data + S extra)%nat with (S (length data + extra)) by lia.
Qed.

(** X1. The loop of [SetData] that fills in the TX power, on any vector of
    bytes: it never reads or writes outside the vector and it ends before
    the bound on its rounds is reached (more rounds change nothing); the
    vector keeps its length, and a byte that changed now holds the TX power
    and follows a TX Power Level type byte. *)
Theorem patch_tx_power_in_bounds (tx_power : Z) (data : list Z) :
  bytes data ->
  exists out : list Z,
    patch_tx_power tx_power data = Ok out
    /\ (forall fuel : nat, (length data <= fuel)%nat ->
          fill_tx_power fuel tx_power data 0 = Ok out)
    /\ length out = length data
    /\ bytes out
    /\ forall k : nat,
         out !! k = data !! k
         \/ ((2 <= k)%nat
             /\ out !! (k - 1)%nat = Some HCI_EIR_TX_POWER_LEVEL_TYPE
             /\ out !! k = Some (to_uint8 tx_power)).
Proof.
  intros Hbytes. unfold patch_tx_power.
  destruct (fill_tx_power_spec tx_power (length data) data 0 Hbytes)
    as (out & Hrun & _ & Hsize & Hout & Hframe); [lia | lia |].
  exists out. split_and!; try done.
  - intros fuel Hfuel.
    replace fuel with (length data + (fuel - length data))%nat by lia.
    by rewrite fill_tx_power_fuel.
  - intros k. destruct (Hframe k) as [? | (? & ? & ?)]; [by left | right].
    split_and!; [lia | done..].
Qed.

Lemma patch_tx_power_in_bounds_witness :
  bytes [2; 1; 6; 2; 0x0A; 0; 3; 0xFF; 1; 2]
  /\ exists out : list Z,
       patch_tx_power (-7) [2; 1; 6; 2; 0x0A; 0; 3; 0xFF; 1; 2] = Ok out
       /\ length out = 10%nat.
Proof.
  assert (Hbytes : bytes [2; 1; 6; 2; 0x0A; 0; 3; 0xFF; 1; 2]).
  { repeat constructor; lia. }
  split; [exact Hbytes |].
  destruct (patch_tx_power_in_bounds (-7) _ Hbytes) as (out & Hrun & _ & Hsize & _).
  exists out. split; [exact Hrun | exact Hsize].
Defined.

Lemma encode_structure_length (s : Z * list Z) :
  length (encode_structure s) = S (S (length (snd s))).
Proof. done. Qed.

Lemma fill_tx_power_structures (tx_power : Z) (ss : list (Z * list Z)) :
  Forall (fun s => snd s <> []) ss ->
  forall (fuel : nat) (done_ : list Z),
    (length ss <= fuel)%nat ->
    fill_tx_power fuel tx_power (done_ ++ encode_structures ss) (Z.of_nat (length done_))
    = Ok (done_ ++ encode_structures (map (with_tx_power tx_power) ss)).
Proof.
  induction 1 as [| [type value] ss Hvalue _ IH]; intros fuel done_ Hfuel.
  { cbn. rewrite app_nil_r. apply fill_tx_power_done. lia. }
  destruct value as [| v0 value]; [done |].
  destruct fuel as [| fuel]; [cbn in Hfuel; lia |].
  cbn [map encode_structures flat_map] in *.
  destruct (fill_tx_power_step fuel tx_power
              (done_ ++ encode_structure (type, v0 :: value) ++ flat_map encode_structure ss)
              (Z.of_nat (length done_)))
    as (type' & len & Htype & Hlen & ->); [lia | |].
  { rewrite !length_app, encode_structure_length. cbn. lia. }
  replace (Z.to_nat (Z.of_nat (length done_) + 1)) with (length done_ + 1)%nat in Htype by lia.
  rewrite Nat2Z.id in Hlen.
  rewrite lookup_app_r in Htype, Hlen by lia.
  replace (length done_ + 1 - length done_)%nat with 1%nat in Htype by lia.
  rewrite Nat.sub_diag in Hlen. cbn in Htype, Hlen.
  injection Htype as <-. injection Hlen as <-.
  set (s' := with_tx_power tx_power (type, v0 :: value)).
  assert (Hdata :
    (if type =? HCI_EIR_TX_POWER_LEVEL_TYPE
     then <[Z.to_nat (Z.of_nat (length done_) + 2) := to_uint8 tx_power]>
            (done_ ++ encode_structure (type, v0 :: value) ++ flat_map encode_structure ss)
     else done_ ++ encode_structure (type, v0 :: value) ++ flat_map encode_structure ss)
    = (done_ ++ encode_structure s') ++ flat_map encode_structure ss).
  { subst s'. unfold with_tx_power. cbn [fst snd].
    destruct (type =? HCI_EIR_TX_POWER_LEVEL_TYPE); [| by rewrite <- app_assoc].
    replace (Z.to_nat (Z.of_nat (length done_) + 2)) with (length done_ + 2)%nat by lia.
    rewrite insert_app_r. by rewrite <- app_assoc. }
  rewrite Hdata.
  assert (Hpos : Z.of_nat (length done_) + (1 + Z.of_nat (S (length value)) + 1)
                 = Z.of_nat (length (done_ ++ encode_structure s'))).
  { rewrite length_app, encode_structure_length. subst s'. unfold with_tx_power.
    cbn [fst snd]. destruct (type =? _); cbn [snd length]; lia. }
  cbn [snd length] in *. rewrite Hpos. fold (encode_structures ss).
  rewrite IH by (cbn in Hfuel; lia).
  by rewrite <- app_assoc.
Qed.

(** X2. On advertising data made of well-formed structures (length, type,
    non-empty value), the loop of [SetData] puts the TX power into the first
    value byte of every TX Power Level structure and leaves everything else
    as it is. *)
Theorem patch_tx_power_structures (tx_power : Z) (ss : list (Z * list Z)) :
  Forall (fun s => snd s <> [] /\ (length (snd s) <= 254)%nat) ss ->
  patch_tx_power tx_power (encode_structures ss)
  = Ok (encode_structures (map (with_tx_power tx_power) ss)).
Proof.
  intros Hss. unfold patch_tx_power.
  apply (fill_tx_power_structures tx_power ss) with (done_ := []).
  - eapply Forall_impl; [exact Hss |]. by intros s [? _].
  - clear Hss. induction ss as [| s ss IH]; [done |].
    cbn [encode_structures flat_map]. rewrite length_app, encode_structure_length.
    cbn [length]. unfold encode_structures in IH. lia.
Qed.

Lemma patch_tx_power_structures_witness :
  patch_tx_power (-7) (encode_structures [(1, [6]); (0x0A, [0]); (0xFF, [1; 2])])
  = Ok [2; 1; 6; 2; 0x0A; 249; 3; 0xFF; 1; 2].
Proof.
  rewrite (patch_tx_power_structures (-7) [(1, [6]); (0x0A, [0]); (0xFF, [1; 2])]).
  - reflexivity.
  - repeat constructor; cbn; (done || lia).
Defined.

(** * Keys and randomizers of the encryption engine *)

Lemma user_key_iv_long (enc_key_value : list Z) :
  (24 <= length enc_key_value)%nat ->
  user_key_iv (seq 0 24) enc_key_value [] []
  = Ok (take 16 enc_key_value, take 8 (drop 16 enc_key_value)).
Proof.
  intros Hlen.
  do 24 (destruct enc_key_value as [| ? enc_key_value]; [cbn in Hlen; lia |]).
  reflexivity.
Qed.

Lemma user_key_iv_short (enc_key_value : list Z) :
  (length enc_key_value < 24)%nat ->
  user_key_iv (seq 0 24) enc_key_value [] [] = Crash OutOfRange.
Proof.
  intros Hlen.
  do 24 (destruct enc_key_value as [| ? enc_key_value]; [reflexivity |]).
  cbn in Hlen. lia.
Qed.

(** The key and the IV [EncryptedAdvertising] works with. *)
Lemma EncryptedAdvertising_with (env : Environment) (inst : AdvertisingInstance)
    (data key iv : list Z) :
  (if bool_decide (enc_key_value inst = [])
   then Ok (map (session_key env) (seq 0 16), map (init_vector env) (seq 0 8))
   else user_key_iv (seq 0 24) (enc_key_value inst) [] []) = Ok (key, iv) ->
  EncryptedAdvertising env inst data
  = if negb (EVP_AEAD_CTX_new env key) then Ok []
    else
      let sealed :=
        EVP_AEAD_CTX_seal_scatter env key
          (rev (array5_to_list (randomizer inst)) ++ rev iv) data [0xEA] in
      let ED_AD_Data :=
        BTM_BLE_AD_TYPE_ED
          :: rev (array5_to_list (randomizer inst))
             ++ written (repeat 0 (length data)) (fst sealed)
             ++ written (repeat 0 EVP_AEAD_max_overhead) (snd sealed) in
      Ok (to_uint8 (Z.of_nat (length ED_AD_Data)) :: ED_AD_Data).
Proof. unfold EncryptedAdvertising. by intros ->. Qed.

Lemma enc_key_value_set (v : list Z) (inst : AdvertisingInstance) :
  enc_key_value (set_enc_key_value v inst) = v
  /\ randomizer (set_enc_key_value v inst) = randomizer inst.
Proof. by destruct inst. Qed.

(** X3. [EncryptedAdvertising] and the length of enc_key_value: a key of 1
    to 23 bytes makes the loop over its 24 bytes read past its end, and
    that is the only way the function can go wrong; of a longer key only
    the first 24 bytes are used; and when the cipher context cannot be
    created the result is the empty vector, without length or type byte. *)
Theorem EncryptedAdvertising_key_length (env : Environment) (inst : AdvertisingInstance)
    (data : list Z) :
  let key_value := enc_key_value inst in
  (EncryptedAdvertising env inst data = Crash OutOfRange
   <-> (0 < length key_value < 24)%nat)
  /\ (forall f : fault, EncryptedAdvertising env inst data = Crash f -> f = OutOfRange)
  /\ ((24 <= length key_value)%nat ->
      EncryptedAdvertising env inst data
      = EncryptedAdvertising env (set_enc_key_value (take 24 key_value) inst) data)
  /\ (key_value = [] \/ (24 <= length key_value)%nat ->
      (forall key : list Z, EVP_AEAD_CTX_new env key = false) ->
      EncryptedAdvertising env inst data = Ok []).
Proof.
  intros key_value.
  assert (Hshort : (0 < length key_value < 24)%nat ->
                   EncryptedAdvertising env inst data = Crash OutOfRange).
  { intros Hlen. unfold EncryptedAdvertising. fold key_value.
    rewrite bool_decide_eq_false_2 by (intros E; rewrite E in Hlen; cbn in Hlen; lia).
    rewrite user_key_iv_short by lia. reflexivity. }
  assert (Hgood : key_value = [] \/ (24 <= length key_value)%nat ->
                  exists key iv : list Z,
                    (if bool_decide (enc_key_value inst = [])
                     then Ok (map (session_key env) (seq 0 16),
                              map (init_vector env) (seq 0 8))
                     else user_key_iv (seq 0 24) (enc_key_value inst) [] []) = Ok (key, iv)).
  { fold key_value. intros [-> | Hlen]; [by eexists _, _ |].
    rewrite bool_decide_eq_false_2 by (intros E; rewrite E in Hlen; cbn in Hlen; lia).
    rewrite user_key_iv_long by done. by eexists _, _. }
  assert (Hcases : (0 < length key_value < 24)%nat
                   \/ key_value = [] \/ (24 <= length key_value)%nat).
  { destruct key_value; [by right; left |]. cbn [length]. lia. }
  assert (Hok : key_value = [] \/ (24 <= length key_value)%nat ->
                exists out : list Z, EncryptedAdvertising env inst data = Ok out).
  { intros Hk. destruct (Hgood Hk) as (key & iv & Hkeys).
    rewrite (EncryptedAdvertising_with env inst data key iv Hkeys).
    destruct (EVP_AEAD_CTX_new env key); cbn [negb]; by eexists. }
  split_and!.
  - split; [| done]. intros Hcrash.
    destruct Hcases as [? | Hk]; [done |].
    destruct (Hok Hk) as [out Hout]. congruence.
  - intros f Hcrash. destruct Hcases as [Hlen | Hk].
    + rewrite (Hshort Hlen) in Hcrash. congruence.
    + destruct (Hok Hk) as [out Hout]. congruence.
  - intros Hlen.
    assert (Hne : key_value <> []) by (intros E; rewrite E in Hlen; cbn in Hlen; lia).
    assert (Hne' : take 24 key_value <> []).
    { intros E. apply (f_equal length) in E. rewrite length_take in E.
      change (length (@nil Z)) with 0%nat in E. lia. }
    rewrite (EncryptedAdvertising_with env inst data (take 16 key_value)
               (take 8 (drop 16 key_value))).
    2:{ fold key_value. rewrite bool_decide_eq_false_2 by done.
        by apply user_key_iv_long. }
    rewrite (EncryptedAdvertising_with env (set_enc_key_value (take 24 key_value) inst) data
               (take 16 key_value) (take 8 (drop 16 key_value))).
    2:{ destruct (enc_key_value_set (take 24 key_value) inst) as [-> _].
        rewrite bool_decide_eq_false_2 by done.
        rewrite user_key_iv_long by (rewrite length_take; lia).
        rewrite take_take, skipn_firstn_comm, take_take. do 2 f_equal. }
    by destruct (enc_key_value_set (take 24 key_value) inst) as [_ ->].
  - intros Hk Hctx. destruct (Hgood Hk) as (key & iv & Hkeys).
    rewrite (EncryptedAdvertising_with env inst data key iv Hkeys).
    by rewrite Hctx.
Qed.

(** X4. [GenerateRandomizer] stores the first five bytes of the
    controller's random number in reverse order and reports success, and
    nothing else of the instance changes; [EncryptedAdvertising] reverses
    them again, so the randomizer that leads the encrypted data structure is
    those five bytes in the order the controller gave them. *)
Theorem randomizer_leads_encrypted_data (env : Environment) (m : Manager) (p_inst : Z)
    (inst : AdvertisingInstance) (name : nat) (rand : list Z) :
  slot m p_inst inst ->
  length rand = 8%nat ->
  exists inst' : AdvertisingInstance,
    run (GenerateRandomizer p_inst (client_cb name)) [Random rand] m
    = Ok (with_slot (Z.to_nat p_inst) inst' m,
          [Issued RandCmd; Called (ClientCb name) BTM_BLE_MULTI_ADV_SUCCESS])
    /\ inst' = set_randomizer (randomizer inst') inst
    /\ array5_to_list (randomizer inst') = rev (take 5 rand)
    /\ forall data : list Z,
         enc_key_value inst = [] \/ (24 <= length (enc_key_value inst))%nat ->
         (forall key : list Z, EVP_AEAD_CTX_new env key = true) ->
         exists rest : list Z,
           EncryptedAdvertising env inst' data
           = Ok (to_uint8 (1 + 5 + Z.of_nat (length data) + 4)
                   :: BTM_BLE_AD_TYPE_ED :: take 5 rand ++ rest).
Proof.
  intros Hslot Hlen.
  do 9 (destruct rand as [| ? rand]; [discriminate Hlen || idtac |]); [| discriminate Hlen].
  clear Hlen. eexists. split_and!.
  - unfold run, GenerateRandomizer, issue. cbn [bind fst snd].
    rewrite drive_unfold. cbn [until_command issued resume bind fst snd app].
    unfold GenerateRandomizer_cmpl.
    erewrite update_then by done. unfold client_cb, run_stored, emit. cbn [is_null]. cbn [bind fst snd].
    rewrite drive_unfold. cbn [until_command app]. reflexivity.
  - by destruct inst.
  - by destruct inst.
  - intros data Hkey Hctx.
    destruct (enc_key_value_set [] inst) as [_ Hrnd].
    assert (exists key iv : list Z,
              (if bool_decide (enc_key_value inst = [])
               then Ok (map (session_key env) (seq 0 16), map (init_vector env) (seq 0 8))
               else user_key_iv (seq 0 24) (enc_key_value inst) [] []) = Ok (key, iv))
      as (key & iv & Hkeys).
    { destruct Hkey as [-> | Hlen]; [by eexists _, _ |].
      rewrite bool_decide_eq_false_2 by (intros E; rewrite E in Hlen; cbn in Hlen; lia).
      rewrite user_key_iv_long by done. by eexists _, _. }
    eexists. erewrite (EncryptedAdvertising_with _ _ _ key iv).
    2:{ destruct inst. exact Hkeys. }
    rewrite Hctx. cbn [negb]. cbv zeta.
    replace (randomizer _) with (Array5 z3 z2 z1 z0 z) by (by destruct inst).
    cbn [array5_to_list rev app take a0 a1 a2 a3 a4].
    do 2 f_equal.
    cbn [length]. rewrite !length_app, !written_length, !repeat_length.
    unfold EVP_AEAD_max_overhead. f_equal. lia.
Qed.

Lemma randomizer_leads_encrypted_data_witness :
  slot example_manager 0 (AdvertisingInstance_new example_env 0 example_indeterminate)
  /\ exists inst' : AdvertisingInstance,
       run (GenerateRandomizer 0 (client_cb 1)) [Random [11; 12; 13; 14; 15; 16; 17; 18]]
         example_manager
       = Ok (with_slot 0 inst' example_manager, [Issued RandCmd; Called (ClientCb 1) 0])
       /\ array5_to_list (randomizer inst') = [15; 14; 13; 12; 11].
Proof.
  split; [reflexivity |].
  destruct (randomizer_leads_encrypted_data example_env example_manager 0
              (AdvertisingInstance_new example_env 0 example_indeterminate) 1
              [11; 12; 13; 14; 15; 16; 17; 18] eq_refl eq_refl)
    as (inst' & Hrun & _ & Hrnd & _).
  exists inst'. split; [exact Hrun | exact Hrnd].
Defined.

(** * What the budget computation leaves alone *)

(** X5. [RecomputeTimeout] touches nothing but the duration, maxExtAdvEvents
    and enable_status of the instance: a budget that was 0 stays 0, the set
    is never switched on, the timeout callback runs at most once and only
    together with switching the set off, and a set without budgets is left
    exactly as it is. *)
Theorem RecomputeTimeout_frame (inst : AdvertisingInstance) (now : TimeTicks) :
  (duration inst = 0 -> maxExtAdvEvents inst = 0 -> RecomputeTimeout inst now = Ok (inst, []))
  /\ forall (inst' : AdvertisingInstance) (called : list effect),
       RecomputeTimeout inst now = Ok (inst', called) ->
       inst' = set_enable_status (enable_status inst')
                 (set_maxExtAdvEvents (maxExtAdvEvents inst')
                    (set_duration (duration inst') inst))
       /\ (duration inst = 0 -> duration inst' = 0)
       /\ (maxExtAdvEvents inst = 0 -> maxExtAdvEvents inst' = 0)
       /\ ((called = [] /\ enable_status inst' = enable_status inst)
           \/ (called = [Emit (Called (timeout_cb inst) 0)] /\ enable_status inst' = false)).
Proof.
  split.
  - intros Hd Hm. unfold RecomputeTimeout. rewrite Hd. cbn. by rewrite Hm.
  - intros inst' called. unfold RecomputeTimeout, int_sub, int_add.
    destruct inst as [id iu props rt tx dur mx tt oat oa tcb aur pe ai src sr rnd
                      ad sd pd ade sde pde ekv es et bh].
    cbn [duration maxExtAdvEvents enable_status timeout_cb enable_time advertising_interval].
    repeat (case_match; simplify_eq/=); intros; simplify_eq/=;
      split_and!; try done; try lia; auto.
Qed.

(** * Registration *)

Lemma first_free_none (table : list AdvertisingInstance) (n : nat) :
  forall i : Z,
    (forall k : Z, i <= k < i + Z.of_nat n ->
       exists inst : AdvertisingInstance, at_index table k = Ok inst /\ in_use inst = true) ->
    first_free n i table = Ok None.
Proof.
  induction n as [| n IH]; intros i Hused; [done |].
  cbn [first_free]. destruct (Hused i) as (inst & -> & Hin); [lia |].
  cbn [bind]. rewrite Hin. apply IH. intros k Hk. apply Hused. lia.
Qed.

Lemma first_free_some (table : list AdvertisingInstance) (p : Z) (inst : AdvertisingInstance)
    (n : nat) :
  at_index table p = Ok inst -> in_use inst = false ->
  forall i : Z,
    i <= p < i + Z.of_nat n ->
    (forall k : Z, i <= k < p ->
       exists inst_k : AdvertisingInstance,
         at_index table k = Ok inst_k /\ in_use inst_k = true) ->
    first_free n i table = Ok (Some p).
Proof.
  intros Hp Hfree. induction n as [| n IH]; intros i Hi Hused; [lia |].
  cbn [first_free]. destruct (decide (i = p)) as [-> | Hne].
  - rewrite Hp. cbn [bind]. by rewrite Hfree.
  - destruct (Hused i) as (inst_i & -> & Hin); [lia |].
    cbn [bind]. rewrite Hin. apply IH; [lia |]. intros k Hk. apply Hused. lia.
Qed.

(** X6. With every slot of a non-empty table in use, [RegisterAdvertiserImpl]
    and [RegisterAdvertiser] run the callback with id 0xFF and
    TOO_MANY_ADVERTISERS (2); the table is unchanged and no command is
    issued. *)
Theorem RegisterAdvertiser_table_full (env : Environment) (m : Manager)
    (own_address_type : Z) (cb : RegisterCb) (name : nat) :
  0 < inst_count m ->
  (forall p : Z, 0 <= p < inst_count m ->
     exists inst : AdvertisingInstance, slot m p inst /\ in_use inst = true) ->
  RegisterAdvertiserImpl env own_address_type cb m
  = cb 0xFF ADVERTISE_FAILED_TOO_MANY_ADVERTISERS m
  /\ RegisterAdvertiser env (client_register_cb name) m
     = Ok (m, [Emit (CalledRegister name 0xFF 0x02)])
  /\ forall replies : list reply,
       run (RegisterAdvertiser env (client_register_cb name)) replies m
       = Ok (m, [CalledRegister name 0xFF 0x02]).
Proof.
  intros Hpos Hfull.
  assert (Himpl : forall (oat : Z) (cb' : RegisterCb),
            RegisterAdvertiserImpl env oat cb' m
            = cb' 0xFF ADVERTISE_FAILED_TOO_MANY_ADVERTISERS m).
  { intros oat cb'. unfold RegisterAdvertiserImpl.
    rewrite first_free_none; [done |]. intros k Hk. apply Hfull. lia. }
  split_and!.
  - apply Himpl.
  - unfold RegisterAdvertiser. by rewrite Himpl.
  - intros replies. unfold run, RegisterAdvertiser. rewrite Himpl.
    cbn. by destruct replies.
Qed.

Lemma RegisterAdvertiser_table_full_witness :
  0 < inst_count example_full_manager
  /\ RegisterAdvertiser example_env (client_register_cb 1) example_full_manager
     = Ok (example_full_manager, [Emit (CalledRegister 1 0xFF 0x02)]).
Proof.
  split; [by vm_compute |].
  refine (proj1 (proj2 (RegisterAdvertiser_table_full example_env example_full_manager 0
                          (client_register_cb 1) 1 _ _))).
  - by vm_compute.
  - intros p Hp. change (inst_count example_full_manager) with 3 in Hp.
    assert (p = 0 \/ p = 1 \/ p = 2) as [-> | [-> | ->]] by lia;
      eexists; split; reflexivity.
Defined.

Section Allocation.

Variable env : Environment.
Variable m : Manager.
Variable p : Z.
Variable inst : AdvertisingInstance.
Variable own_address_type : Z.
Variable name : nat.

Hypothesis in_range : 0 <= p < inst_count m.
Hypothesis at_p : slot m p inst.
Hypothesis free : in_use inst = false.
Hypothesis first : forall q : Z, 0 <= q < p ->
  exists inst_q : AdvertisingInstance, slot m q inst_q /\ in_use inst_q = true.

Lemma first_free_is_p : first_free (Z.to_nat (inst_count m)) 0 (adv_inst m) = Ok (Some p).
Proof. apply (first_free_some _ p inst); (done || lia). Qed.

Lemma register_now :
  own_address_type = BLE_ADDR_PUBLIC \/ rpa_gen_offload_enabled m = true ->
  RegisterAdvertiserImpl env own_address_type (client_register_cb name) m
  = Ok (with_slot (Z.to_nat p)
          ((if own_address_type =? BLE_ADDR_PUBLIC
            then set_own_address (get_address env) else id)
             (set_own_address_type (to_uint8 own_address_type) (set_in_use true inst))) m,
        [Emit (CalledRegister name (inst_id inst) BTM_BLE_MULTI_ADV_SUCCESS)]).
Proof.
  intros Hnow. unfold RegisterAdvertiserImpl. rewrite first_free_is_p. cbn [bind].
  destruct (Z.eqb_spec own_address_type BLE_ADDR_PUBLIC) as [Hpub | Hrnd]; cbn [negb].
  - steps. unfold client_register_cb, emit. do 3 f_equal. by destruct inst.
  - destruct Hnow as [? | Hoff]; [done |].
    erewrite update_then by done. unfold with_state.
    replace (rpa_gen_offload_enabled (with_slot _ _ m)) with true by done.
    cbn [negb]. steps. unfold client_register_cb, emit. do 4 f_equal. by destruct inst.
Qed.

Lemma register_later :
  own_address_type <> BLE_ADDR_PUBLIC -> rpa_gen_offload_enabled m = false ->
  exists generated : RawAddress -> Action,
    RegisterAdvertiserImpl env own_address_type (client_register_cb name) m
    = Ok (with_slot (Z.to_nat p)
            (set_own_address_type (to_uint8 own_address_type) (set_in_use true inst)) m,
          [HciRpa generated])
    /\ forall (m2 : Manager) (inst2 : AdvertisingInstance) (bda : RawAddress),
         slot m2 p inst2 ->
         generated bda m2
         = if in_use inst2
           then Ok (with_slot (Z.to_nat p) (set_own_address bda inst2) m2,
                    [Emit (alarm_set_on_mloop (adv_raddr_timer_of p)
                             (btm_get_next_private_addrress_interval_ms env));
                     Emit (CalledRegister name (inst_id inst2) BTM_BLE_MULTI_ADV_SUCCESS)])
           else Ok (m2, []).
Proof.
  intros Hrnd Hoff. unfold RegisterAdvertiserImpl. rewrite first_free_is_p. cbn [bind].
  destruct (Z.eqb_spec own_address_type BLE_ADDR_PUBLIC) as [? | _]; [done |]. cbn [negb].
  erewrite update_then by done. unfold with_state.
  replace (rpa_gen_offload_enabled (with_slot _ _ m)) with false by done.
  cbn [negb]. unfold GenerateRpa, issue. eexists. split; [reflexivity |].
  intros m2 inst2 bda Hslot2. cbv beta.
  erewrite with_inst_slot by done.
  destruct (in_use inst2); cbn [negb]; [| done].
  steps. unfold client_register_cb, emit. reflexivity.
Qed.

End Allocation.

(** X7. [RegisterAdvertiserImpl] takes the first slot that is not in use:
    it marks it in use and stores the address type. For a public address it
    stores the controller's address and reports the slot's id at once; with
    RPA offload it reports at once; otherwise it asks for a resolvable
    private address and, when that arrives, stores it, arms the address
    timer and reports. If the slot was released in the meantime, the
    callback is never run. *)
Theorem RegisterAdvertiser_first_free (env : Environment) (m : Manager) (p : Z)
    (inst : AdvertisingInstance) (own_address_type : Z) (name : nat) :
  0 <= p < inst_count m ->
  slot m p inst -> in_use inst = false ->
  (forall q : Z, 0 <= q < p ->
     exists inst_q : AdvertisingInstance, slot m q inst_q /\ in_use inst_q = true) ->
  let call := RegisterAdvertiserImpl env own_address_type (client_register_cb name) in
  let taken := set_own_address_type (to_uint8 own_address_type) (set_in_use true inst) in
  (own_address_type = BLE_ADDR_PUBLIC ->
   call m = Ok (with_slot (Z.to_nat p) (set_own_address (get_address env) taken) m,
                [Emit (CalledRegister name (inst_id inst) BTM_BLE_MULTI_ADV_SUCCESS)]))
  /\ (own_address_type <> BLE_ADDR_PUBLIC -> rpa_gen_offload_enabled m = true ->
      call m = Ok (with_slot (Z.to_nat p) taken m,
                   [Emit (CalledRegister name (inst_id inst) BTM_BLE_MULTI_ADV_SUCCESS)]))
  /\ (own_address_type <> BLE_ADDR_PUBLIC -> rpa_gen_offload_enabled m = false ->
      exists generated : RawAddress -> Action,
        call m = Ok (with_slot (Z.to_nat p) taken m, [HciRpa generated])
        /\ (forall bda : RawAddress,
              run call [Address bda] m
              = Ok (with_slot (Z.to_nat p) (set_own_address bda taken) m,
                    [Issued GenerateRpaCmd;
                     alarm_set_on_mloop (adv_raddr_timer_of p)
                       (btm_get_next_private_addrress_interval_ms env);
                     CalledRegister name (inst_id inst) BTM_BLE_MULTI_ADV_SUCCESS]))
        /\ (forall (m2 : Manager) (inst2 : AdvertisingInstance) (bda : RawAddress),
              slot m2 p inst2 -> in_use inst2 = false ->
              generated bda m2 = Ok (m2, []))).
Proof.
  intros Hrange Hslot Hfree Hfirst call taken. split_and!.
  - intros Hpub. subst call taken.
    rewrite (register_now env m p inst own_address_type name) by auto.
    by destruct (Z.eqb_spec own_address_type BLE_ADDR_PUBLIC).
  - intros Hrnd Hoff. subst call taken.
    rewrite (register_now env m p inst own_address_type name) by auto.
    by destruct (Z.eqb_spec own_address_type BLE_ADDR_PUBLIC).
  - intros Hrnd Hoff.
    destruct (register_later env m p inst own_address_type name) as (generated & Hcall & Hgen);
      try done.
    exists generated. subst call taken. split_and!; [done | |].
    + intros bda. unfold run. rewrite Hcall. cbn [bind fst snd].
      rewrite drive_unfold. cbn [until_command issued resume bind fst snd app].
      erewrite Hgen by (by apply slot_with_slot with (inst := inst)).
      replace (in_use _) with true by (by destruct inst).
      cbn [bind fst snd]. rewrite with_slot_twice.
      rewrite drive_unfold. cbn [until_command app].
      do 4 f_equal. by destruct inst.
    + intros m2 inst2 bda Hslot2 Hfree2. rewrite (Hgen m2 inst2 bda Hslot2).
      by rewrite Hfree2.
Qed.

Lemma RegisterAdvertiser_first_free_witness :
  slot example_registered_manager 1 (AdvertisingInstance_new example_env 1 example_indeterminate)
  /\ RegisterAdvertiserImpl example_env BLE_ADDR_PUBLIC (client_register_cb 7)
       example_registered_manager
     = Ok (with_slot 1
             (set_own_address (get_address example_env)
                (set_own_address_type 0
                   (set_in_use true
                      (AdvertisingInstance_new example_env 1 example_indeterminate))))
             example_registered_manager,
           [Emit (CalledRegister 7 1 0)]).
Proof.
  split; [reflexivity |].
  refine (proj1 (RegisterAdvertiser_first_free example_env example_registered_manager 1
                   (AdvertisingInstance_new example_env 1 example_indeterminate)
                   BLE_ADDR_PUBLIC 7 _ eq_refl eq_refl _) eq_refl).
  - by vm_compute.
  - intros q Hq. assert (q = 0) as -> by lia. eexists. split; reflexivity.
Defined.

(** * Unregister, slot by slot *)

Lemma set_iso_big_inst_same (m : Manager) : set_iso_big_inst (iso_big_inst m) m = m.
Proof. by destruct m. Qed.

Lemma with_slot_same (m : Manager) (p : Z) (inst : AdvertisingInstance) :
  slot m p inst -> with_slot (Z.to_nat p) inst m = m.
Proof.
  intros [_ Hl]%at_index_inv. unfold with_slot.
  rewrite list_insert_id by done. by destruct m.
Qed.

Section UnregisteringExactly.

Variable env : Environment.
Variable m : Manager.
Variable inst_id : Z.
Variable inst : AdvertisingInstance.

Hypothesis alive : initialized m = true.
Hypothesis in_range : inst_id < inst_count m.
Hypothesis at_id : slot m inst_id inst.

Lemma Unregister_without_big :
  has_big env inst = false ->
  Unregister env inst_id m
  = Ok (with_slot (Z.to_nat inst_id) (unregistered env inst) m, teardown_of env inst_id inst).
Proof.
  intros Hbig. unfold unregistered, teardown_of. rewrite Hbig.
  unfold has_big in Hbig.
  unfold Unregister, with_state, hci_Enable. rewrite alive. cbn [negb].
  destruct (Z.geb_spec inst_id (inst_count m)); [lia |].
  destruct inst as [id iu props rt tx dur mx tt oat oa tcb aur pe ai src sr rnd
                    ad sd pd ade sde pde ekv es et bh].
  cbn [big_handle] in Hbig.
  destruct (supports_ble_iso_broadcaster env); cbn [andb] in Hbig.
  - steps. rewrite Hbig. steps. destruct es, pe, tt; steps; reflexivity.
  - steps. destruct es, pe, tt; steps; reflexivity.
Qed.

Lemma Unregister_with_big (big : IsoBIG.IsoBIGInstance) :
  has_big env inst = true ->
  at_index (iso_big_inst m) (big_handle inst) = Ok big ->
  Unregister env inst_id m
  = Ok (with_slot (Z.to_nat inst_id) (unregistered env inst)
          (set_iso_big_inst
             (<[Z.to_nat (big_handle inst) := released_big env big]> (iso_big_inst m)) m),
        teardown_of env inst_id inst).
Proof.
  intros Hbig Hbigslot. unfold unregistered, teardown_of. rewrite Hbig.
  unfold has_big in Hbig. apply andb_true_iff in Hbig as [Hsup Hvalid].
  unfold Unregister, with_state, hci_Enable. rewrite alive, Hsup. cbn [negb].
  destruct (Z.geb_spec inst_id (inst_count m)); [lia |].
  destruct inst as [id iu props rt tx dur mx tt oat oa tcb aur pe ai src sr rnd
                    ad sd pd ade sde pde ekv es et bh].
  cbn [big_handle] in *.
  rewrite (with_inst_then _ _ _ _ _ at_id). fields. rewrite Hvalid.
  rewrite (with_big_inst_then _ _ _ _ _ Hbigslot).
  rewrite !and_then_assoc, emit_then, !and_then_assoc.
  rewrite (update_big_then _ _ _ _ _ Hbigslot).
  erewrite update_then by slot_tac. fields.
  destruct es, pe, tt; steps; reflexivity.
Qed.

End UnregisteringExactly.

Lemma slot_with_slot_ne (m : Manager) (p q : Z) (inst new : AdvertisingInstance) :
  0 <= p -> 0 <= q -> p <> q ->
  slot m q inst -> slot (with_slot (Z.to_nat p) new m) q inst.
Proof.
  intros Hp Hq Hne [_ Hl]%at_index_inv. unfold slot, with_slot. cbn.
  apply at_index_ok; [done |]. rewrite list_lookup_insert_ne by lia. done.
Qed.

Lemma unregistered_fields (env : Environment) (inst : AdvertisingInstance) :
  let inst' := unregistered env inst in
  in_use inst' = false /\ enable_status inst' = false /\ periodic_enabled inst' = false
  /\ timeout_timer inst' = false /\ skip_rpa inst' = false /\ skip_rpa_count inst' = 0
  /\ address_update_required inst' = false
  /\ has_big env inst' = false
  /\ inst_id inst' = inst_id inst /\ own_address_type inst' = own_address_type inst
  /\ own_address inst' = own_address inst /\ tx_power inst' = tx_power inst
  /\ duration inst' = duration inst /\ maxExtAdvEvents inst' = maxExtAdvEvents inst
  /\ timeout_cb inst' = timeout_cb inst /\ enc_key_value inst' = enc_key_value inst
  /\ advertising_event_properties inst' = advertising_event_properties inst.
Proof.
  unfold unregistered, has_big.
  destruct inst as [id iu props rt tx dur mx tt oat oa tcb aur pe ai src sr rnd
                    ad sd pd ade sde pde ekv es et bh].
  fields. destruct (supports_ble_iso_broadcaster env); cbn [andb].
  - destruct (Z.eqb_spec bh (INVALID_BIG_HANDLE env)) as [-> | Hne]; cbn [negb];
      destruct es, pe, tt; cbn; rewrite ?Z.eqb_refl; split_and!; try done;
      by destruct (Z.eqb_spec bh (INVALID_BIG_HANDLE env)).
  - destruct es, pe, tt; cbn; split_and!; done.
Qed.

Lemma unregistered_twice (env : Environment) (inst : AdvertisingInstance) :
  unregistered env (unregistered env inst) = unregistered env inst
  /\ forall inst_id : Z,
       teardown_of env inst_id (unregistered env inst)
       = [Emit (alarm_cancel (adv_raddr_timer_of inst_id));
          Hci (RemoveAdvertisingSetCmd inst_id) DoNothing].
Proof.
  destruct (unregistered_fields env inst)
    as (Hiu & Hes & Hpe & Htt & Hsr & Hsrc & Haur & Hbig & _).
  split.
  - unfold unregistered at 1. rewrite Hbig, Hes, Hpe, Htt.
    destruct (unregistered env inst). cbn in *. by subst.
  - intros inst_id. unfold teardown_of. by rewrite Hbig, Hes, Hpe, Htt.
Qed.

(** X8. [Unregister] does nothing once the stack is shut down or for an id
    of inst_count or more. Otherwise it changes only the slot of that id
    (and the BIG slot it released): the slot ends up not in use, disabled,
    with periodic advertising off, without timeout timer, out of the
    broadcast throttle and with no address update pending, and keeps its id
    and address; the last command issued is RemoveAdvertisingSet. *)
Theorem Unregister_resets_slot (env : Environment) (m : Manager) (inst_id : Z) :
  (initialized m = false \/ inst_count m <= inst_id -> Unregister env inst_id m = Ok (m, []))
  /\ forall inst : AdvertisingInstance,
       initialized m = true -> tables_ok env m ->
       inst_id < inst_count m -> slot m inst_id inst ->
       exists m' : Manager,
         Unregister env inst_id m = Ok (m', teardown_of env inst_id inst)
         /\ adv_inst m' = <[Z.to_nat inst_id := unregistered env inst]> (adv_inst m)
         /\ inst_count m' = inst_count m
         /\ length (iso_big_inst m') = length (iso_big_inst m)
         /\ in_use (unregistered env inst) = false
         /\ enable_status (unregistered env inst) = false
         /\ periodic_enabled (unregistered env inst) = false
         /\ timeout_timer (unregistered env inst) = false
         /\ skip_rpa (unregistered env inst) = false
         /\ address_update_required (unregistered env inst) = false
         /\ inst_id = get_inst_id (unregistered env inst)
         /\ own_address (unregistered env inst) = own_address inst
         /\ last (teardown_of env inst_id inst)
            = Some (Hci (RemoveAdvertisingSetCmd inst_id) DoNothing).
Proof.
  split.
  - intros Hoff. unfold Unregister, with_state.
    destruct (initialized m); cbn [negb]; [| done].
    destruct Hoff as [? | Hout]; [done |].
    by destruct (Z.geb_spec inst_id (inst_count m)); [| lia].
  - intros inst Halive Htables Hrange Hslot.
    destruct (unregistered_fields env inst)
      as (Hiu & Hes & Hpe & Htt & Hsr & Hsrc & Haur & Hbig & Hid & _ & Hoa & _).
    destruct Htables as (Hadv & Hbigs & Hslots).
    destruct (Hslots inst_id inst Hslot) as [Hpos Hhandle].
    assert (Hlast : last (teardown_of env inst_id inst)
                    = Some (Hci (RemoveAdvertisingSetCmd inst_id) DoNothing)).
    { unfold teardown_of. rewrite !app_assoc.
      change [Emit (alarm_cancel (adv_raddr_timer_of inst_id));
              Hci (RemoveAdvertisingSetCmd inst_id) DoNothing]
        with ([Emit (alarm_cancel (adv_raddr_timer_of inst_id))]
              ++ [Hci (RemoveAdvertisingSetCmd inst_id) DoNothing]).
      by rewrite app_assoc, last_snoc. }
    destruct (has_big env inst) eqn:Hhas.
    + assert (0 <= big_handle inst < inst_count m) as Hvalid.
      { destruct Hhandle as [Hinv | ?]; [| done].
        unfold has_big in Hhas. apply andb_true_iff in Hhas as [_ Hne].
        rewrite Hinv, Z.eqb_refl in Hne. done. }
      destruct (at_index_in (iso_big_inst m) (big_handle inst)) as [big Hbigslot]; [lia |].
      eexists. split; [by apply Unregister_with_big |].
      cbn. rewrite length_insert. split_and!; try done.
      unfold get_inst_id in *. congruence.
    + eexists. split; [by apply Unregister_without_big |].
      cbn. split_and!; try done. unfold get_inst_id in *. congruence.
Qed.

Lemma Unregister_result (env : Environment) (m : Manager) (inst_id : Z)
    (inst : AdvertisingInstance) :
  initialized m = true -> tables_ok env m ->
  inst_id < inst_count m -> slot m inst_id inst ->
  exists bigs : list IsoBIG.IsoBIGInstance,
    Unregister env inst_id m
    = Ok (with_slot (Z.to_nat inst_id) (unregistered env inst) (set_iso_big_inst bigs m),
          teardown_of env inst_id inst)
    /\ length bigs = length (iso_big_inst m).
Proof.
  intros Halive (Hadv & Hbigs & Hslots) Hrange Hslot.
  destruct (Hslots inst_id inst Hslot) as [Hpos Hhandle].
  destruct (has_big env inst) eqn:Hhas.
  - assert (0 <= big_handle inst < inst_count m) as Hvalid.
    { destruct Hhandle as [Hinv | ?]; [| done].
      unfold has_big in Hhas. apply andb_true_iff in Hhas as [_ Hne].
      rewrite Hinv, Z.eqb_refl in Hne. done. }
    destruct (at_index_in (iso_big_inst m) (big_handle inst)) as [big Hbigslot]; [lia |].
    eexists. split; [by apply Unregister_with_big |]. by rewrite length_insert.
  - exists (iso_big_inst m). rewrite set_iso_big_inst_same.
    split; [by apply Unregister_without_big | done].
Qed.

(** X9. [Unregister] does not look at in_use: repeated on the slot it has
    just released, it changes nothing more, yet again cancels the address
    timer and issues RemoveAdvertisingSet. *)
Theorem Unregister_twice (env : Environment) (m : Manager) (inst_id : Z)
    (inst : AdvertisingInstance) :
  initialized m = true -> tables_ok env m ->
  inst_id < inst_count m -> slot m inst_id inst ->
  exists m' : Manager,
    Unregister env inst_id m = Ok (m', teardown_of env inst_id inst)
    /\ Unregister env inst_id m'
       = Ok (m', [Emit (alarm_cancel (adv_raddr_timer_of inst_id));
                  Hci (RemoveAdvertisingSetCmd inst_id) DoNothing])
    /\ forall replies : list reply,
         run (Unregister env inst_id) replies m'
         = Ok (m', [alarm_cancel (adv_raddr_timer_of inst_id);
                    Issued (RemoveAdvertisingSetCmd inst_id)]).
Proof.
  intros Halive Htables Hrange Hslot.
  destruct (Unregister_result env m inst_id inst) as (bigs & Hrun & _); try done.
  eexists. split; [exact Hrun |].
  set (m' := with_slot (Z.to_nat inst_id) (unregistered env inst) (set_iso_big_inst bigs m)).
  assert (Hslot' : slot m' inst_id (unregistered env inst)) by (subst m'; slot_tac).
  destruct (unregistered_fields env inst) as (_ & _ & _ & _ & _ & _ & _ & Hbig & _).
  destruct (unregistered_twice env inst) as [Htwice Hteardown].
  assert (Hagain : Unregister env inst_id m'
                   = Ok (m', [Emit (alarm_cancel (adv_raddr_timer_of inst_id));
                              Hci (RemoveAdvertisingSetCmd inst_id) DoNothing])).
  { rewrite (Unregister_without_big env m' inst_id (unregistered env inst)); try done.
    by rewrite Htwice, Hteardown, with_slot_same. }
  split; [exact Hagain |].
  intros replies. unfold run. rewrite Hagain. cbn [bind fst snd].
  rewrite drive_emit. rewrite drive_DoNothing.
  by destruct (tail replies).
Qed.

Lemma Unregister_twice_witness :
  slot example_registered_manager 0
    (set_in_use true (AdvertisingInstance_new example_env 0 example_indeterminate))
  /\ exists m' : Manager,
       run (Unregister example_env 0) [] example_registered_manager
       = Ok (m', [alarm_cancel (adv_raddr_timer_of 0); Issued (RemoveAdvertisingSetCmd 0)])
       /\ run (Unregister example_env 0) [] m'
          = Ok (m', [alarm_cancel (adv_raddr_timer_of 0); Issued (RemoveAdvertisingSetCmd 0)]).
Proof.
  split; [reflexivity |].
  destruct (Unregister_twice example_env example_registered_manager 0
              (set_in_use true (AdvertisingInstance_new example_env 0 example_indeterminate))
              eq_refl example_tables_ok eq_refl eq_refl)
    as (m' & Hfirst & _ & Hsecond).
  exists m'. split; [| apply Hsecond].
  unfold run. rewrite Hfirst. reflexivity.
Defined.

(** X10. Release and reuse: when every slot below [p] is in use, the id
    [p] that [Unregister] releases is the one the next
    [RegisterAdvertiserImpl] hands out, with the controller's address for a
    public address type; the other slots are as they were. *)
Theorem Register_after_Unregister (env : Environment) (m : Manager) (p : Z)
    (inst : AdvertisingInstance) (name : nat) :
  initialized m = true -> tables_ok env m ->
  0 <= p < inst_count m -> slot m p inst ->
  (forall q : Z, 0 <= q < p ->
     exists inst_q : AdvertisingInstance, slot m q inst_q /\ in_use inst_q = true) ->
  exists (m1 m2 : Manager) (inst2 : AdvertisingInstance),
    Unregister env p m = Ok (m1, teardown_of env p inst)
    /\ RegisterAdvertiserImpl env BLE_ADDR_PUBLIC (client_register_cb name) m1
       = Ok (m2, [Emit (CalledRegister name p BTM_BLE_MULTI_ADV_SUCCESS)])
    /\ slot m2 p inst2 /\ in_use inst2 = true /\ own_address inst2 = get_address env
    /\ forall (q : Z) (inst_q : AdvertisingInstance),
         0 <= q -> q <> p -> slot m q inst_q -> slot m2 q inst_q.
Proof.
  intros Halive Htables Hrange Hslot Hfirst.
  destruct (Unregister_result env m p inst) as (bigs & Hrun & _); try done; [lia |].
  set (m1 := with_slot (Z.to_nat p) (unregistered env inst) (set_iso_big_inst bigs m)) in *.
  assert (Hslot1 : slot m1 p (unregistered env inst)) by (subst m1; slot_tac).
  destruct (unregistered_fields env inst) as (Hfree & _ & _ & _ & _ & _ & _ & _ & Hid & _).
  assert (Hpos : inst_id inst = p).
  { destruct Htables as (_ & _ & Hslots). by destruct (Hslots p inst Hslot). }
  assert (Hothers : forall (q : Z) (inst_q : AdvertisingInstance),
            0 <= q -> q <> p -> slot m q inst_q -> slot m1 q inst_q).
  { intros q inst_q Hq Hne Hq_slot. subst m1.
    apply slot_with_slot_ne; [lia | lia | done |]. by apply slot_set_iso_big_inst. }
  assert (Hfirst1 : forall q : Z, 0 <= q < p ->
            exists inst_q : AdvertisingInstance, slot m1 q inst_q /\ in_use inst_q = true).
  { intros q Hq. destruct (Hfirst q Hq) as (inst_q & Hq_slot & Hq_used).
    exists inst_q. split; [apply Hothers; (done || lia) | done]. }
  pose proof (register_now env m1 p (unregistered env inst) BLE_ADDR_PUBLIC name
                Hrange Hslot1 Hfree Hfirst1 (or_introl eq_refl)) as Hreg.
  rewrite Hid, Hpos in Hreg.
  eexists m1, _, _. split; [exact Hrun |].
  split; [exact Hreg |].
  split; [by apply slot_with_slot with (inst := unregistered env inst) |].
  split_and!.
  - by destruct (unregistered env inst).
  - by destruct (unregistered env inst).
  - intros q inst_q Hq Hne Hq_slot.
    apply slot_with_slot_ne; [lia | lia | done |]. by apply Hothers.
Qed.

Lemma Register_after_Unregister_witness :
  slot example_registered_manager 0
    (set_in_use true (AdvertisingInstance_new example_env 0 example_indeterminate))
  /\ exists (m1 m2 : Manager) (teardown : list effect),
       Unregister example_env 0 example_registered_manager = Ok (m1, teardown)
       /\ RegisterAdvertiserImpl example_env BLE_ADDR_PUBLIC (client_register_cb 1) m1
          = Ok (m2, [Emit (CalledRegister 1 0 0)]).
Proof.
  split; [reflexivity |].
  destruct (Register_after_Unregister example_env example_registered_manager 0
              (set_in_use true (AdvertisingInstance_new example_env 0 example_indeterminate))
              1 eq_refl example_tables_ok)
    as (m1 & m2 & inst2 & Hun & Hreg & _).
  - by vm_compute.
  - reflexivity.
  - intros q Hq. lia.
  - exists m1, m2. eexists. split; [exact Hun | exact Hreg].
Defined.

(** * Setting parameters *)

Lemma to_uint8_low_bits (p : Z) :
  is_connectable (to_uint8 p) = is_connectable p
  /\ Z.land (to_uint8 p) 0x0C = Z.land p 0x0C.
Proof.
  unfold is_connectable, to_uint8. change 256 with (2 ^ 8). split.
  - apply Z.mod_pow2_bits_low. lia.
  - rewrite <- Z.land_ones by lia. rewrite <- Z.land_assoc. reflexivity.
Qed.

(** X11. [SetParameters]: for an id of inst_count or more it returns without
    running the callback; for a slot that is not in use it runs the callback
    with MULTI_ADV_FAILURE and changes nothing; otherwise it issues one
    SetParameters command, with the sid inst_id mod 16, and stores the
    interval, the TX power and the low byte of the event properties, which
    still agrees with the parameter on the connectable bit and on the
    directed bits. With RPA offload the own address type becomes RANDOM_ID
    and the peer address ends in the instance id. *)
Theorem SetParameters_outcomes (m : Manager) (inst_id : Z) (p_params : tBTM_BLE_ADV_PARAMS)
    (cb : ParametersCb) :
  (inst_count m <= inst_id -> SetParameters inst_id p_params cb m = Ok (m, []))
  /\ forall inst : AdvertisingInstance,
       inst_id < inst_count m -> slot m inst_id inst ->
       (in_use inst = false ->
        SetParameters inst_id p_params cb m = cb BTM_BLE_MULTI_ADV_FAILURE 0 m)
       /\ (in_use inst = true ->
           exists inst' : AdvertisingInstance,
             SetParameters inst_id p_params cb m
             = Ok (with_slot (Z.to_nat inst_id) inst' m,
                   [HciParameters
                      (SetParametersCmd (get_inst_id inst)
                         (params_advertising_event_properties p_params)
                         (adv_int_min p_params) (adv_int_max p_params) (channel_map p_params)
                         (own_address_type inst') (own_address inst) 0x00
                         (if rpa_gen_offload_enabled m
                          then [0; 0; 0; 0; 0; get_inst_id inst] else kEmpty)
                         (adv_filter_policy p_params) (params_tx_power p_params)
                         (primary_advertising_phy p_params) 0x00
                         (secondary_advertising_phy p_params) (get_inst_id inst mod 16)
                         (scan_request_notification_enable p_params))
                      cb])
             /\ IsConnectable inst'
                = is_connectable (params_advertising_event_properties p_params)
             /\ Z.land (advertising_event_properties inst') 0x0C
                = Z.land (params_advertising_event_properties p_params) 0x0C
             /\ tx_power inst' = params_tx_power p_params
             /\ advertising_interval inst' = adv_int_min p_params
             /\ own_address_type inst'
                = (if rpa_gen_offload_enabled m then BLE_ADDR_RANDOM_ID
                   else own_address_type inst)
             /\ inst'
                = set_own_address_type (own_address_type inst')
                    (set_advertising_interval (advertising_interval inst')
                       (set_tx_power (tx_power inst')
                          (set_advertising_event_properties
                             (advertising_event_properties inst') inst)))).
Proof.
  split.
  - intros Hout. unfold SetParameters, with_state.
    by destruct (Z.geb_spec inst_id (inst_count m)); [| lia].
  - intros inst Hrange Hslot. unfold SetParameters, with_state.
    destruct (Z.geb_spec inst_id (inst_count m)); [lia |].
    rewrite (with_inst_slot _ _ _ _ Hslot). split.
    + by intros ->.
    + intros ->. cbn [negb].
      destruct (to_uint8_low_bits (params_advertising_event_properties p_params))
        as [Hconn Hdir].
      destruct inst as [id iu props rt tx dur mx tt oat oa tcb aur pe ai src sr rnd
                        ad sd pd ade sde pde ekv es et bh].
      destruct (rpa_gen_offload_enabled m) eqn:Hoff; steps; unfold issue.
      all: match goal with
           | |- exists _, Ok (with_slot _ ?x _, _) = _ /\ _ => exists x
           end; split; [reflexivity |].
      all: fields; split_and!; done.
Qed.

(** * Advertising set terminated *)

(** X12. A set that terminated with LIMIT_REACHED or ADVERTISING_TIMEOUT is
    marked disabled and its timeout callback, if there is one, is run once
    with that status; nothing else changes and no command is issued. *)
Theorem terminated_by_timeout (env : Environment) (m : Manager)
    (status advertising_handle connection_handle num_completed : Z)
    (inst : AdvertisingInstance) :
  status = HCI_ERR_LIMIT_REACHED \/ status = HCI_ERR_ADVERTISING_TIMEOUT ->
  slot m advertising_handle inst ->
  let call := OnAdvertisingSetTerminated env status advertising_handle connection_handle
                num_completed in
  let m' := with_slot (Z.to_nat advertising_handle) (set_enable_status false inst) m in
  call m = Ok (m', if is_null (timeout_cb inst) then []
                   else [Emit (Called (timeout_cb inst) status)])
  /\ forall replies : list reply,
       run call replies m
       = Ok (m', if is_null (timeout_cb inst) then [] else [Called (timeout_cb inst) status]).
Proof.
  intros Hstatus Hslot call m'.
  assert (Hcall : call m = Ok (m', if is_null (timeout_cb inst) then []
                                   else [Emit (Called (timeout_cb inst) status)])).
  { subst call m'. unfold OnAdvertisingSetTerminated.
    replace ((status =? HCI_ERR_LIMIT_REACHED) || (status =? HCI_ERR_ADVERTISING_TIMEOUT))
      with true by (by destruct Hstatus as [-> | ->]).
    erewrite update_then by done. erewrite with_inst_slot by slot_tac.
    replace (timeout_cb (set_enable_status false inst)) with (timeout_cb inst)
      by (by destruct inst).
    unfold run_stored. by destruct (is_null (timeout_cb inst)). }
  split; [exact Hcall |].
  intros replies. unfold run. rewrite Hcall. cbn [bind fst snd].
  destruct (is_null (timeout_cb inst)); by destruct replies.
Qed.

Lemma terminated_by_timeout_witness :
  slot (with_slot 0 example_timed_instance example_manager) 0 example_timed_instance
  /\ run (OnAdvertisingSetTerminated example_env HCI_ERR_ADVERTISING_TIMEOUT 0 0 0) []
       (with_slot 0 example_timed_instance example_manager)
     = Ok (with_slot 0 (set_enable_status false example_timed_instance) example_manager,
           [Called (ClientCb 1) 0x3C]).
Proof.
  split; [reflexivity |].
  exact (proj2 (terminated_by_timeout example_env
                  (with_slot 0 example_timed_instance example_manager)
                  HCI_ERR_ADVERTISING_TIMEOUT 0 0 0 example_timed_instance
                  (or_intror eq_refl) eq_refl) []).
Defined.

Lemma RecomputeTimeout_unlimited (inst : AdvertisingInstance) (now : TimeTicks) :
  duration inst = 0 -> maxExtAdvEvents inst = 0 -> RecomputeTimeout inst now = Ok (inst, []).
Proof. intros Hd Hm. unfold RecomputeTimeout. rewrite Hd. cbn. by rewrite Hm. Qed.

(** X13. A set that terminated for another reason than a timeout (a
    connection, for one): a slot that is not in use is left alone; a
    directed set is marked not in use, without any command; an undirected
    set in use has its budgets recomputed and is enabled again with what
    is left of them, unless it is disabled or a budget ran out, in which
    case the timeout callback has run. A set without budgets stays as it
    is and, when enabled, is enabled again with Enable(true, handle, 0, 0).
    Before any of this the address of the connection is updated when local
    privacy is on without RPA offload. *)
Theorem terminated_otherwise (env : Environment) (m : Manager)
    (status advertising_handle connection_handle num_completed : Z)
    (inst : AdvertisingInstance) :
  status <> HCI_ERR_LIMIT_REACHED -> status <> HCI_ERR_ADVERTISING_TIMEOUT ->
  slot m advertising_handle inst ->
  let call := OnAdvertisingSetTerminated env status advertising_handle connection_handle
                num_completed in
  let acl :=
    if negb (rpa_gen_offload_enabled m)
       && (BTM_BleLocalPrivacyEnabled env
           && (advertising_handle <=? BTM_BLE_MULTI_ADV_MAX env))
    then [Emit (btm_acl_update_conn_addr connection_handle (own_address inst))]
    else [] in
  let directed := negb (Z.land (advertising_event_properties inst) 0x0C =? 0) in
  (in_use inst = false -> call m = Ok (m, acl))
  /\ (in_use inst = true -> directed = true ->
      call m = Ok (with_slot (Z.to_nat advertising_handle) (set_in_use false inst) m, acl))
  /\ (in_use inst = true -> directed = false -> enable_status inst = false ->
      duration inst = 0 -> maxExtAdvEvents inst = 0 ->
      call m = Ok (m, acl))
  /\ (in_use inst = true -> directed = false -> enable_status inst = true ->
      duration inst = 0 -> maxExtAdvEvents inst = 0 ->
      call m = Ok (m, acl ++ [Hci (EnableCmd true advertising_handle 0 0) DoNothing]))
  /\ (in_use inst = true -> directed = false ->
      forall (inst' : AdvertisingInstance) (called : list effect),
        RecomputeTimeout inst (Now env) = Ok (inst', called) ->
        call m
        = Ok (with_slot (Z.to_nat advertising_handle) inst' m,
              acl ++ called
              ++ (if enable_status inst'
                  then [Hci (EnableCmd true advertising_handle (duration inst')
                               (maxExtAdvEvents inst')) DoNothing]
                  else []))).
Proof.
  intros Hlimit Htimeout Hslot call acl directed.
  assert (Hgeneral :
    call m
    = (r <- (if in_use inst then
               if directed then
                 Ok (with_slot (Z.to_nat advertising_handle) (set_in_use false inst) m, [])
               else
                 r <- RecomputeTimeout inst (Now env) ;;
                 Ok (with_slot (Z.to_nat advertising_handle) (fst r) m,
                     snd r ++ (if enable_status (fst r)
                               then [Hci (EnableCmd true advertising_handle
                                            (duration (fst r)) (maxExtAdvEvents (fst r)))
                                       DoNothing]
                               else []))
             else Ok (m, [])) ;;
       Ok (fst r, acl ++ snd r))).
  { subst call acl directed. unfold OnAdvertisingSetTerminated, with_state.
    destruct (Z.eqb_spec status HCI_ERR_LIMIT_REACHED); [done |].
    destruct (Z.eqb_spec status HCI_ERR_ADVERTISING_TIMEOUT); [done |]. cbn [orb].
    match goal with |- and_then _ ?r m = _ => set (rest := r) end.
    assert (Hrest :
      rest m
      = (if in_use inst then
           if negb (Z.land (advertising_event_properties inst) 0x0C =? 0) then
             Ok (with_slot (Z.to_nat advertising_handle) (set_in_use false inst) m, [])
           else
             r <- RecomputeTimeout inst (Now env) ;;
             Ok (with_slot (Z.to_nat advertising_handle) (fst r) m,
                 snd r ++ (if enable_status (fst r)
                           then [Hci (EnableCmd true advertising_handle
                                        (duration (fst r)) (maxExtAdvEvents (fst r)))
                                   DoNothing]
                           else []))
         else Ok (m, []))).
    { subst rest. rewrite (with_inst_slot _ _ _ _ Hslot).
      destruct (in_use inst); [| done].
      destruct (Z.land (advertising_event_properties inst) 12 =? 0); cbn [negb].
      2:{ by rewrite (update_inst_slot _ _ _ _ Hslot). }
      unfold and_then, RecomputeTimeout_at. fold (slot m advertising_handle inst).
      unfold slot in Hslot. rewrite Hslot. cbn [bind].
      destruct (RecomputeTimeout inst (Now env)) as [[inst' called] |]; [| done].
      cbn [bind fst snd]. fold (with_slot (Z.to_nat advertising_handle) inst' m).
      erewrite with_inst_slot by (by apply slot_with_slot with (inst := inst)).
      unfold hci_Enable, issue, skip. by destruct (enable_status inst'). }
    destruct (negb (rpa_gen_offload_enabled m)
              && (BTM_BleLocalPrivacyEnabled env
                  && (advertising_handle <=? BTM_BLE_MULTI_ADV_MAX env))).
    - rewrite (with_inst_then _ _ _ _ _ Hslot). rewrite emit_then. rewrite Hrest.
      by destruct (if in_use inst then _ else _) as [[? ?] |].
    - rewrite skip_then. rewrite Hrest.
      by destruct (if in_use inst then _ else _) as [[? ?] |]. }
  rewrite Hgeneral. clear Hgeneral. split_and!.
  - intros ->. cbn. by rewrite app_nil_r.
  - intros -> ->. cbn. by rewrite app_nil_r.
  - intros -> -> Hoff Hd Hm.
    rewrite RecomputeTimeout_unlimited by done.
    cbn. rewrite Hoff. by rewrite with_slot_same, app_nil_r.
  - intros -> -> Hon Hd Hm.
    rewrite RecomputeTimeout_unlimited by done.
    cbn. rewrite Hon, Hd, Hm. by rewrite with_slot_same.
  - intros -> -> inst' called ->. reflexivity.
Qed.

Lemma terminated_otherwise_witness :
  slot (with_slot 0 example_unlimited_instance example_manager) 0 example_unlimited_instance
  /\ OnAdvertisingSetTerminated example_env HCI_SUCCESS 0 64 0
       (with_slot 0 example_unlimited_instance example_manager)
     = Ok (with_slot 0 example_unlimited_instance example_manager,
           [Hci (EnableCmd true 0 0 0) DoNothing]).
Proof.
  split; [reflexivity |].
  destruct (terminated_otherwise example_env
              (with_slot 0 example_unlimited_instance example_manager)
              HCI_SUCCESS 0 64 0 example_unlimited_instance)
    as (_ & _ & _ & Henabled & _).
  - by vm_compute.
  - by vm_compute.
  - reflexivity.
  - apply Henabled; reflexivity.
Defined.

(** * The timeout of an enabled set *)

(** X14. [Enable] of a set in use with a duration, when no address rotation
    is pending: one Enable command is issued; when it completes, with
    whatever status, the callback is run with that status and then the
    timeout alarm is created and set to duration * 10 ms. When the alarm
    fires, the set is disabled with Enable(false, id, 0, 0), the alarm is
    cancelled and freed, the stored budgets are cleared, and the timeout
    callback is run with the status of that command. *)
Theorem Enable_with_duration (env : Environment) (m : Manager) (inst_id : Z)
    (inst : AdvertisingInstance) (name timeout_name : nat)
    (duration_ maxExtAdvEvents_ status : Z) :
  initialized m = true ->
  inst_id < inst_count m -> slot m inst_id inst ->
  in_use inst = true -> get_inst_id inst = inst_id ->
  rpa_gen_offload_enabled m = true \/ address_update_required inst = false ->
  duration_ <> 0 ->
  let timer := timeout_timer_of inst_id in
  let task := DisableOnTimeout inst_id (ClientCb timeout_name) in
  exists (m1 : Manager) (inst1 : AdvertisingInstance),
    run (Enable env inst_id true (client_cb name) duration_ maxExtAdvEvents_
           (ClientCb timeout_name)) [Status status] m
    = Ok (m1, [Issued (EnableCmd true inst_id duration_ maxExtAdvEvents_);
               Called (ClientCb name) status;
               alarm_new timer;
               alarm_set_closure timer (duration_ * 10) task])
    /\ m1 = with_slot (Z.to_nat inst_id) inst1 m
    /\ enable_status inst1 = true /\ enable_time inst1 = Now env
    /\ timeout_timer inst1 = true /\ timeout_cb inst1 = ClientCb timeout_name
    /\ duration inst1 = duration_ /\ maxExtAdvEvents inst1 = maxExtAdvEvents_
    /\ forall status' : Z,
       exists inst2 : AdvertisingInstance,
         run (run_timer_task env task) [Status status'] m1
         = Ok (with_slot (Z.to_nat inst_id) inst2 m,
               [alarm_cancel timer; alarm_free timer;
                Issued (EnableCmd false inst_id 0 0);
                Called (ClientCb timeout_name) status'])
         /\ enable_status inst2 = false /\ timeout_timer inst2 = false
         /\ duration inst2 = 0 /\ maxExtAdvEvents inst2 = 0 /\ in_use inst2 = true.
Proof.
  intros Halive Hrange Hslot Hused Hid Hdirect Hd timer task.
  destruct inst as [id iu props rt tx dur mx tt oat oa tcb aur pe ai src sr rnd
                    ad sd pd ade sde pde ekv es et bh].
  cbn in Hused, Hid, Hdirect. subst iu id.
  assert (Hrot : negb (rpa_gen_offload_enabled m) && aur = false).
  { destruct Hdirect as [-> | ->]; [done | by rewrite andb_false_r]. }
  destruct (Z.eqb_spec duration_ 0) as [? | _]; [done |].
  eexists _, _. split.
  { unfold run, Enable, with_state.
    destruct (Z.geb_spec inst_id (inst_count m)); [lia |].
    steps. rewrite Hrot.
    destruct (Z.eqb_spec duration_ 0) as [? | _]; [done |]. cbn [negb orb andb].
    steps. unfold EnableFinish, hci_Enable. steps.
    destruct (Z.eqb_spec duration_ 0) as [? | _]; [done |]. cbn [negb orb andb].
    steps.
    rewrite drive_unfold. cbn [until_command issued resume bind fst snd app].
    unfold weak at 1. cbn [initialized with_slot set_adv_inst]. rewrite Halive.
    unfold EnableWithTimerCb, client_cb, run_stored. cbn [is_null]. steps.
    rewrite drive_unfold. cbn [until_command app]. reflexivity. }
  cbn [fst snd]. subst task timer.
  split; [reflexivity |]. fields. split_and!; try done.
  intros status'. eexists. split.
  { unfold run, run_timer_task, weak. cbn [initialized with_slot set_adv_inst].
    rewrite Halive. unfold Enable, with_state.
    cbn [inst_count with_slot set_adv_inst].
    destruct (Z.geb_spec inst_id (inst_count m)); [lia |].
    steps. rewrite ?andb_false_r.
    steps. unfold EnableFinish, hci_Enable. steps.
    rewrite drive_unfold. cbn [until_command issued resume bind fst snd app].
    unfold run_stored, emit. cbn [is_null]. cbn [bind fst snd].
    rewrite drive_unfold. cbn [until_command app bind fst snd]. reflexivity. }
  fields. done.
Qed.

Lemma Enable_with_duration_witness :
  slot example_registered_manager 0
    (set_in_use true (AdvertisingInstance_new example_env 0 example_indeterminate))
  /\ exists m1 : Manager,
       run (Enable example_env 0 true (client_cb 1) 10 0 (ClientCb 2)) [Status 0]
         example_registered_manager
       = Ok (m1, [Issued (EnableCmd true 0 10 0);
                  Called (ClientCb 1) 0;
                  alarm_new (timeout_timer_of 0);
                  alarm_set_closure (timeout_timer_of 0) 100
                    (DisableOnTimeout 0 (ClientCb 2))]).
Proof.
  split; [reflexivity |].
  destruct (Enable_with_duration example_env example_registered_manager 0
              (set_in_use true (AdvertisingInstance_new example_env 0 example_indeterminate))
              1 2 10 0 0 eq_refl eq_refl eq_refl eq_refl eq_refl (or_intror eq_refl))
    as (m1 & inst1 & Hrun & _).
  - done.
  - exists m1. exact Hrun.
Defined.

(** * Rotating the address *)

(** X15. [ConfigureRpa] on a set without budgets, encrypted data or
    broadcast throttle: it asks for a new address and, when it arrives,
    stores it and issues SetRandomAddress; an enabled connectable set is
    disabled before that command and enabled again after it. The callback
    is run with status 0 when SetRandomAddress completes, whatever the
    statuses of the commands were. *)
Theorem ConfigureRpa_rotates (env : Environment) (m : Manager) (p_inst : Z)
    (inst : AdvertisingInstance) (name : nat) (bda : RawAddress) (s1 s2 s3 : Z) :
  initialized m = true ->
  slot m p_inst inst ->
  skip_rpa inst = false ->
  any_encrypted_data inst = false ->
  duration inst = 0 -> maxExtAdvEvents inst = 0 ->
  let restart := IsEnabled inst && IsConnectable inst in
  let call := ConfigureRpa env p_inst (client_cb name) in
  let m' := with_slot (Z.to_nat p_inst) (set_own_address bda inst) m in
  let id := get_inst_id inst in
  (restart = true ->
   run call [Address bda; Status s1; Status s2; Status s3] m
   = Ok (m', [Issued GenerateRpaCmd;
              Issued (EnableCmd false id 0 0);
              Issued (SetRandomAddressCmd id bda);
              Issued (EnableCmd true id 0 0);
              Called (ClientCb name) 0]))
  /\ (restart = false ->
      run call [Address bda; Status s2] m
      = Ok (m', [Issued GenerateRpaCmd;
                 Issued (SetRandomAddressCmd id bda);
                 Called (ClientCb name) 0])).
Proof.
  intros Halive Hslot Hskip Henc Hd Hm restart call m' id.
  unfold any_encrypted_data in Henc.
  apply orb_false_iff in Henc as [Henc Hp].
  apply orb_false_iff in Henc as [Ha Hs].
  apply negb_false_iff in Ha, Hs, Hp.
  destruct inst as [iid iu props rt tx dur mx tt oat oa tcb aur pe ai src sr rnd
                    ad sd pd ade sde pde ekv es et bh].
  cbn in Hskip, Hd, Hm, Ha, Hs, Hp. subst sr dur mx.
  subst restart call m' id. unfold IsEnabled, IsConnectable. fields.
  assert (Hstart :
    forall enabled : bool,
      let inst0 := MkAdvertisingInstance iid iu props rt tx 0 0 tt oat oa tcb aur pe ai src
                     false rnd ad sd pd ade sde pde ekv enabled et bh in
      slot m p_inst inst0 ->
      ConfigureRpa env p_inst (client_cb name) m
      = Ok (m, [HciRpa (ConfigureRpa_generated env p_inst (client_cb name))])).
  { intros enabled inst0 Hslot0. unfold ConfigureRpa, GenerateRpa, issue.
    rewrite (with_inst_slot _ _ _ _ Hslot0). subst inst0. fields.
    rewrite andb_false_r. by steps. }
  split; intros Hrestart.
  - apply andb_true_iff in Hrestart as [-> Hconn].
    unfold run. rewrite (Hstart true) by done. cbn [bind fst snd].
    rewrite drive_unfold. cbn [until_command issued resume bind fst snd app].
    unfold ConfigureRpa_generated, with_state, AdvertiseRestart, hci_Enable, any_encrypted_data,
      IsEnabled, IsConnectable.
    steps. rewrite Hconn, Halive, Ha, Hs, Hp. steps.
    rewrite Ha, Hs, Hp. steps.
    rewrite drive_DoNothing. cbn [tail].
    rewrite drive_unfold. cbn [until_command issued resume bind fst snd app].
    unfold client_cb, run_stored, emit. cbn [is_null]. cbn [bind fst snd app].
    rewrite drive_DoNothing. cbn [tail].
    rewrite drive_emit, drive_nil. reflexivity.
  - unfold run. rewrite (Hstart es) by done. cbn [bind fst snd].
    rewrite drive_unfold. cbn [until_command issued resume bind fst snd app].
    unfold ConfigureRpa_generated, with_state, AdvertiseRestart, hci_Enable, any_encrypted_data,
      IsEnabled, IsConnectable.
    steps. rewrite Hrestart, Halive, Ha, Hs, Hp. steps.
    rewrite Ha, Hs, Hp. steps.
    rewrite drive_unfold. cbn [until_command issued resume bind fst snd app].
    unfold client_cb, run_stored, emit. cbn [is_null]. cbn [bind fst snd app].
    rewrite drive_emit, drive_nil. reflexivity.
Qed.

Lemma ConfigureRpa_rotates_witness :
  slot (with_slot 0 example_unlimited_instance example_manager) 0 example_unlimited_instance
  /\ run (ConfigureRpa example_env 0 (client_cb 1)) [Address [1; 2; 3; 4; 5; 0x46]; Status 7]
       (with_slot 0 example_unlimited_instance example_manager)
     = Ok (with_slot 0 (set_own_address [1; 2; 3; 4; 5; 0x46] example_unlimited_instance)
             example_manager,
           [Issued GenerateRpaCmd;
            Issued (SetRandomAddressCmd 0 [1; 2; 3; 4; 5; 0x46]);
            Called (ClientCb 1) 0]).
Proof.
  split; [reflexivity |].
  exact (proj2 (ConfigureRpa_rotates example_env
                  (with_slot 0 example_unlimited_instance example_manager) 0
                  example_unlimited_instance 1 [1; 2; 3; 4; 5; 0x46] 0 7 0
                  eq_refl eq_refl eq_refl eq_refl eq_refl eq_refl) eq_refl).
Defined.

Lemma set_skip_rpa_count_twice (a b : Z) (inst : AdvertisingInstance) :
  set_skip_rpa_count a (set_skip_rpa_count b inst) = set_skip_rpa_count a inst.
Proof. by destruct inst. Qed.

Lemma tick_skipped (env : Environment) (m : Manager) (p_inst : Z)
    (inst : AdvertisingInstance) :
  initialized m = true -> slot m p_inst inst ->
  skip_rpa inst = true -> 0 < skip_rpa_count inst ->
  btm_ble_adv_raddr_timer_timeout env p_inst m
  = Ok (with_slot (Z.to_nat p_inst) (set_skip_rpa_count (skip_rpa_count inst - 1) inst) m, []).
Proof.
  intros Halive Hslot Hskip Hcount. unfold btm_ble_adv_raddr_timer_timeout, with_state.
  rewrite Halive. by apply ConfigureRpa_skip.
Qed.

Lemma tick_rotates (env : Environment) (m : Manager) (p_inst : Z)
    (inst : AdvertisingInstance) :
  initialized m = true -> slot m p_inst inst ->
  skip_rpa inst = true -> skip_rpa_count inst = 0 -> rotates_at_once inst = true ->
  btm_ble_adv_raddr_timer_timeout env p_inst m
  = Ok (with_slot (Z.to_nat p_inst) (set_skip_rpa_count 15 inst) m,
        [HciRpa (ConfigureRpa_generated env p_inst DoNothing)]).
Proof.
  intros Halive Hslot Hskip Hcount Hrot. unfold btm_ble_adv_raddr_timer_timeout, with_state.
  rewrite Halive. unfold ConfigureRpa, GenerateRpa, issue.
  rewrite (with_inst_slot _ _ _ _ Hslot). rewrite Hskip, Hcount. cbn [andb Z.gtb Z.compare].
  unfold rotates_at_once in Hrot. apply negb_true_iff in Hrot. rewrite Hrot.
  by rewrite (update_then _ _ _ _ _ Hslot).
Qed.

(** X16. The throttle of a broadcast set: with skip_rpa set and a count of
    [n], the next [n] ticks of the address timer only count down and issue
    nothing; the tick after them reloads the count with 15 and asks for a
    new address. So a set that was given 15 rotates its address on every
    16th tick. *)
Theorem broadcast_throttle (env : Environment) (n : nat) :
  forall (m : Manager) (p_inst : Z) (inst : AdvertisingInstance),
    initialized m = true -> slot m p_inst inst ->
    skip_rpa inst = true -> skip_rpa_count inst = Z.of_nat n ->
    rotates_at_once inst = true ->
    let tick := btm_ble_adv_raddr_timer_timeout env p_inst in
    repeated n tick m = Ok (with_slot (Z.to_nat p_inst) (set_skip_rpa_count 0 inst) m, [])
    /\ repeated (S n) tick m
       = Ok (with_slot (Z.to_nat p_inst) (set_skip_rpa_count 15 inst) m,
             [HciRpa (ConfigureRpa_generated env p_inst DoNothing)]).
Proof.
  induction n as [| n IH]; intros m p_inst inst Halive Hslot Hskip Hcount Hrot tick.
  - cbn [repeated]. split.
    + unfold skip. do 2 f_equal. rewrite <- (with_slot_same m p_inst inst) at 1 by done.
      f_equal. destruct inst. cbn in Hcount. by subst.
    + unfold and_then. subst tick. rewrite (tick_rotates env m p_inst inst) by done.
      reflexivity.
  - assert (Hstep : tick m
                    = Ok (with_slot (Z.to_nat p_inst)
                            (set_skip_rpa_count (Z.of_nat n) inst) m, [])).
    { subst tick. rewrite (tick_skipped env m p_inst inst) by (done || lia).
      replace (skip_rpa_count inst - 1) with (Z.of_nat n) by lia. done. }
    destruct (IH (with_slot (Z.to_nat p_inst) (set_skip_rpa_count (Z.of_nat n) inst) m)
                p_inst (set_skip_rpa_count (Z.of_nat n) inst)) as [Hquiet Hnext];
      [done | by apply slot_with_slot with (inst := inst)
       | by destruct inst | by destruct inst | by destruct inst |].
    rewrite with_slot_twice, set_skip_rpa_count_twice in Hquiet, Hnext.
    split.
    + change (repeated (S n) tick) with (tick ;;; repeated n tick).
      rewrite (and_then_silent _ _ _ _ Hstep). exact Hquiet.
    + change (repeated (S (S n)) tick) with (tick ;;; repeated (S n) tick).
      rewrite (and_then_silent _ _ _ _ Hstep). exact Hnext.
Qed.

Lemma broadcast_throttle_witness :
  slot (with_slot 0 (example_broadcast_instance 15) example_manager) 0
    (example_broadcast_instance 15)
  /\ repeated 15 (btm_ble_adv_raddr_timer_timeout example_env 0)
       (with_slot 0 (example_broadcast_instance 15) example_manager)
     = Ok (with_slot 0 (example_broadcast_instance 0) example_manager, []).
Proof.
  split; [reflexivity |].
  exact (proj1 (broadcast_throttle example_env 15
                  (with_slot 0 (example_broadcast_instance 15) example_manager) 0
                  (example_broadcast_instance 15) eq_refl eq_refl eq_refl eq_refl eq_refl)).
Defined.

(** * Periodic advertising *)

(** X17. [SetPeriodicAdvertisingData] without encrypted data, on a set whose
    periodic advertising is off: it stores the data and issues one command.
    When the data starts with the bytes 03 16 51 18 (the Broadcast Audio
    Announcement), and only then, it puts the set into the broadcast
    throttle: skip_rpa set and 15 ticks to skip. *)
Theorem periodic_data_marks_broadcast (env : Environment) (m : Manager) (inst_id : Z)
    (inst : AdvertisingInstance) (data : list Z) (cb : MultiAdvCb) :
  initialized m = true ->
  slot m inst_id inst ->
  periodic_enabled inst = false ->
  let stored := set_periodic_adv_data_enc [] (set_periodic_data data inst) in
  let marked :=
    if is_broadcast_uuid data then set_skip_rpa true (set_skip_rpa_count 15 stored)
    else stored in
  exists (c : command) (k : MultiAdvCb),
    SetPeriodicAdvertisingData env inst_id data [] cb m
    = Ok (with_slot (Z.to_nat inst_id) marked m, [Hci c k])
    /\ (is_broadcast_uuid data = true -> skip_rpa marked = true /\ skip_rpa_count marked = 15)
    /\ (is_broadcast_uuid data = false ->
        skip_rpa marked = skip_rpa inst /\ skip_rpa_count marked = skip_rpa_count inst)
    /\ (is_broadcast_uuid data = true <-> exists rest, data = 3 :: 0x16 :: 0x51 :: 0x18 :: rest).
Proof.
  intros Halive Hslot Hoff stored marked.
  assert (Huuid : is_broadcast_uuid data = true
                  <-> exists rest, data = 3 :: 0x16 :: 0x51 :: 0x18 :: rest).
  { unfold is_broadcast_uuid. destruct data as [| d0 [| d1 [| d2 [| d3 rest]]]];
      try (split; [done | by intros [? ?]]).
    rewrite !andb_true_iff, !Z.eqb_eq. split.
    - intros [[[-> ->] ->] ->]. by exists rest.
    - by intros [rest' [= -> -> -> ->]]. }
  unfold SetPeriodicAdvertisingData, with_state. cbn [bool_decide negb andb].
  rewrite bool_decide_eq_true_2 by done. cbn [negb andb]. rewrite Halive. cbn [negb].
  erewrite update_then by done. erewrite with_inst_slot by slot_tac.
  replace (periodic_enabled _) with false by (by destruct inst).
  rewrite andb_false_r. rewrite skip_then.
  change (is_broadcast_uuid []) with false. cbv iota.
  subst marked stored.
  destruct (is_broadcast_uuid data) eqn:Hb.
  - erewrite update_then by slot_tac. rewrite skip_then, with_slot_twice.
    unfold DivideAndSendData. cbn [DivideAndSendDataRecursively Z.eqb negb orb andb].
    unfold HciSetPeriodicAdvertisingData, issue. eexists _, _. split; [reflexivity |].
    split_and!; [by destruct inst | done | done].
  - rewrite !skip_then.
    unfold DivideAndSendData. cbn [DivideAndSendDataRecursively Z.eqb negb orb andb].
    unfold HciSetPeriodicAdvertisingData, issue. eexists _, _. split; [reflexivity |].
    split_and!; [done | by destruct inst | done].
Qed.

Lemma periodic_data_marks_broadcast_witness :
  slot example_registered_manager 0
    (set_in_use true (AdvertisingInstance_new example_env 0 example_indeterminate))
  /\ exists (m' : Manager) (inst' : AdvertisingInstance) (effects : list effect),
       SetPeriodicAdvertisingData example_env 0 [3; 0x16; 0x51; 0x18; 1; 2; 3] [] (client_cb 1)
         example_registered_manager
       = Ok (m', effects)
       /\ slot m' 0 inst' /\ skip_rpa inst' = true /\ skip_rpa_count inst' = 15.
Proof.
  split; [reflexivity |].
  destruct (periodic_data_marks_broadcast example_env example_registered_manager 0
              (set_in_use true (AdvertisingInstance_new example_env 0 example_indeterminate))
              [3; 0x16; 0x51; 0x18; 1; 2; 3] (client_cb 1) eq_refl eq_refl eq_refl)
    as (c & k & Hrun & Hmarked & _).
  eexists _, _, _. split; [exact Hrun |].
  split; [reflexivity |]. apply Hmarked. reflexivity.
Defined.

(** X18. [SetPeriodicAdvertisingEnable]: on a slot that is not in use the
    callback is run with MULTI_ADV_FAILURE and nothing is issued. Otherwise
    one command is issued, with the value 1 in place of any non-zero enable
    when the controller has no ADI support; the periodic_enabled flag
    follows the enable value that was asked for, and only when the command
    completes with status 0; the callback is run with the status of the
    command. *)
Theorem SetPeriodicAdvertisingEnable_outcomes (env : Environment) (m : Manager)
    (inst_id : Z) (inst : AdvertisingInstance) (enable : Z) (name : nat) :
  slot m inst_id inst ->
  let call := SetPeriodicAdvertisingEnable env inst_id enable (client_cb name) in
  let sent :=
    if negb (enable =? 0) && negb (supports_ble_periodic_advertising_adi env)
    then 1 else enable in
  (in_use inst = false ->
   forall replies : list reply,
     run call replies m = Ok (m, [Called (ClientCb name) BTM_BLE_MULTI_ADV_FAILURE]))
  /\ (in_use inst = true ->
      forall status : Z,
        run call [Status status] m
        = Ok (if status =? 0
              then with_slot (Z.to_nat inst_id)
                     (set_periodic_enabled (negb (enable =? 0)) inst) m
              else m,
              [Issued (SetPeriodicAdvertisingEnableCmd sent inst_id);
               Called (ClientCb name) status])).
Proof.
  intros Hslot call sent. subst call sent. split.
  - intros Hfree replies. unfold run, SetPeriodicAdvertisingEnable.
    rewrite (with_inst_slot _ _ _ _ Hslot), Hfree. cbn. by destruct replies.
  - intros Hused status. unfold run, SetPeriodicAdvertisingEnable.
    rewrite (with_inst_slot _ _ _ _ Hslot), Hused. cbn [negb]. unfold issue.
    cbn [bind fst snd].
    rewrite drive_unfold. cbn [until_command issued resume bind fst snd app].
    unfold periodic_enable_completed, client_cb, run_stored. cbn [is_null].
    destruct (status =? 0).
    + erewrite update_then by done. unfold emit. cbn [bind fst snd].
      rewrite drive_unfold. cbn [until_command app]. reflexivity.
    + rewrite skip_then. unfold emit. cbn [bind fst snd].
      rewrite drive_unfold. cbn [until_command app]. reflexivity.
Qed.

Lemma SetPeriodicAdvertisingEnable_outcomes_witness :
  slot example_registered_manager 0
    (set_in_use true (AdvertisingInstance_new example_env 0 example_indeterminate))
  /\ run (SetPeriodicAdvertisingEnable example_env 0 1 (client_cb 1)) [Status 0]
       example_registered_manager
     = Ok (with_slot 0
             (set_periodic_enabled true
                (set_in_use true (AdvertisingInstance_new example_env 0 example_indeterminate)))
             example_registered_manager,
           [Issued (SetPeriodicAdvertisingEnableCmd 1 0); Called (ClientCb 1) 0]).
Proof.
  split; [reflexivity |].
  exact (proj2 (SetPeriodicAdvertisingEnable_outcomes example_env example_registered_manager 0
                  (set_in_use true
                     (AdvertisingInstance_new example_env 0 example_indeterminate))
                  1 1 eq_refl) eq_refl 0).
Defined.

(** * Suspend and resume *)

(** [RecomputeTimeout] where [Suspend] calls it. *)
Lemma RecomputeTimeout_suspended (inst : AdvertisingInstance) (now : TimeTicks) :
  suspendable inst = true -> recomputable inst now ->
  RecomputeTimeout inst now
  = Ok (after_suspend inst now,
        if budget_over inst now then [Emit (Called (timeout_cb inst) 0)] else []).
Proof.
  intros Hen (Hel & Hdur & Hmax & Hdiv & Hcb).
  rewrite RecomputeTimeout_exact by done.
  unfold after_suspend, budget_over in *. rewrite Hen. cbv zeta.
  destruct (exhausted (duration inst) _); cbn [orb] in *.
  - by rewrite Hcb.
  - destruct (exhausted (maxExtAdvEvents inst) _); [by rewrite Hcb | done].
Qed.

(** A set without budgets is left as it is. *)
Lemma after_suspend_unlimited (inst : AdvertisingInstance) (now : TimeTicks) :
  duration inst = 0 -> maxExtAdvEvents inst = 0 ->
  after_suspend inst now = inst /\ budget_over inst now = false.
Proof.
  intros Hd Hm. unfold after_suspend, budget_over, exhausted, remaining.
  rewrite Hd, Hm. cbn [Z.eqb negb andb orb]. split; [| done].
  destruct (suspendable inst); [| done].
  destruct inst. cbn in *. by subst.
Qed.

Lemma after_suspend_fields (inst : AdvertisingInstance) (now : TimeTicks) :
  let inst' := after_suspend inst now in
  inst_id inst' = inst_id inst
  /\ suspendable inst' = suspendable inst && negb (budget_over inst now)
  /\ (budget_over inst now = false ->
      duration inst' = (if suspendable inst
                        then remaining (duration inst) (durationDone inst now)
                        else duration inst)
      /\ maxExtAdvEvents inst' = (if suspendable inst
                                  then remaining (maxExtAdvEvents inst) (eventsDone inst now)
                                  else maxExtAdvEvents inst)).
Proof.
  unfold after_suspend, budget_over, suspendable. cbv zeta.
  set (over1 := exhausted (duration inst) (durationDone inst now)).
  set (over2 := exhausted (maxExtAdvEvents inst) (eventsDone inst now)).
  set (left1 := remaining (duration inst) (durationDone inst now)).
  set (left2 := remaining (maxExtAdvEvents inst) (eventsDone inst now)).
  clearbody over1 over2 left1 left2.
  destruct inst as [id iu props rt tx dur mx tt oat oa tcb aur pe ai src sr rnd
                    ad sd pd ade sde pde ekv es et bh].
  by destruct iu, es, over1, over2.
Qed.

Section Suspending.

Variable now : nat -> TimeTicks.

Lemma Suspend_sets_exact (table : list AdvertisingInstance) :
  forall i : nat,
    (forall (k : nat) (inst : AdvertisingInstance),
       table !! k = Some inst -> suspendable inst = true ->
       duration inst <> 0 \/ maxExtAdvEvents inst <> 0 ->
       recomputable inst (now (i + k))) ->
    Suspend_sets now i table
    = Ok (suspended_table now i table, suspend_calls now i table,
          map (fun id => SetEnable.MkSetEnableData id 0 0) (enabled_handles table)).
Proof.
  induction table as [| inst table IH]; intros i Hreturns; [done |].
  cbn [Suspend_sets suspended_table suspend_calls]. rewrite IH.
  2:{ intros k inst_k Hk Hen Hbudget. replace (S i + k)%nat with (i + S k)%nat by lia.
      by apply (Hreturns (S k)). }
  cbn [bind fst snd]. unfold enabled_handles. cbn [flat_map].
  destruct (suspendable inst) eqn:Hen.
  - assert (negb (in_use inst) || negb (enable_status inst) = false) as ->.
    { unfold suspendable in Hen. by destruct (in_use inst), (enable_status inst). }
    cbn [andb map app].
    destruct (negb (duration inst =? 0) || negb (maxExtAdvEvents inst =? 0)) eqn:Hbudget.
    + rewrite RecomputeTimeout_suspended; [| done |].
      2:{ specialize (Hreturns 0%nat inst eq_refl Hen). rewrite Nat.add_0_r in Hreturns.
          apply Hreturns.
          destruct (Z.eqb_spec (duration inst) 0), (Z.eqb_spec (maxExtAdvEvents inst) 0);
            try (by left); try (by right). }
      cbn [bind fst snd]. destruct (after_suspend_fields inst (now i)) as (-> & _). done.
    + assert (duration inst = 0 /\ maxExtAdvEvents inst = 0) as [Hd Hm].
      { by destruct (Z.eqb_spec (duration inst) 0), (Z.eqb_spec (maxExtAdvEvents inst) 0). }
      destruct (after_suspend_unlimited inst (now i) Hd Hm) as [-> ->].
      done.
  - assert (negb (in_use inst) || negb (enable_status inst) = true) as ->.
    { unfold suspendable in Hen. by destruct (in_use inst), (enable_status inst). }
    cbn [bind fst snd andb app]. unfold after_suspend. by rewrite Hen.
Qed.

Lemma Resume_sets (table : list AdvertisingInstance) :
  forall i : nat,
    flat_map (fun inst =>
                if in_use inst && enable_status inst
                then [SetEnable.MkSetEnableData (inst_id inst) (duration inst)
                        (maxExtAdvEvents inst)]
                else [])
      (suspended_table now i table)
    = resumed_sets now i table.
Proof.
  induction table as [| inst table IH]; intros i; [done |].
  cbn [suspended_table resumed_sets flat_map]. rewrite IH. f_equal.
  destruct (after_suspend_fields inst (now i)) as (Hid & Hen & Hbudget).
  cbv zeta in Hid, Hen, Hbudget. unfold suspendable in Hen at 1. rewrite Hid, Hen.
  destruct (suspendable inst); cbn [andb]; [| done].
  destruct (budget_over inst (now i)); cbn [negb]; [done |].
  by destruct (Hbudget eq_refl) as [-> ->].
Qed.

Lemma resumed_sets_sublist (table : list AdvertisingInstance) :
  forall i : nat,
    sublist (map SetEnable.handle (resumed_sets now i table)) (enabled_handles table).
Proof.
  unfold enabled_handles.
  induction table as [| inst table IH]; intros i; [done |].
  cbn [resumed_sets flat_map]. rewrite map_app. apply sublist_app; [| apply IH].
  destruct (suspendable inst); cbn [andb]; [| done].
  destruct (negb _); [done |]. apply sublist_nil_l.
Qed.

End Suspending.

(** X19. [Suspend] and [Resume], while the budget computation returns for
    every enabled set with a budget. [Suspend] disables, in one command and
    in table order, exactly the sets that are in use and enabled (and issues
    nothing when there is none). A set whose duration or event budget is
    used up is marked disabled and its timeout callback is run once with
    status 0; every other enabled set keeps what is left of its budgets; a
    set without budgets and a set that is not enabled are left as they
    are. The following [Resume] enables, in one command, exactly the sets
    that are still marked enabled, with what is left of their budgets: a set
    whose budget ran out in [Suspend] is left out. *)
Theorem Suspend_then_Resume (now : nat -> TimeTicks) (m : Manager) :
  (forall (k : nat) (inst : AdvertisingInstance),
     adv_inst m !! k = Some inst -> suspendable inst = true ->
     duration inst <> 0 \/ maxExtAdvEvents inst <> 0 ->
     recomputable inst (now k)) ->
  let sets_off :=
    map (fun id => SetEnable.MkSetEnableData id 0 0) (enabled_handles (adv_inst m)) in
  let sets_on := resumed_sets now 0 (adv_inst m) in
  let m' := set_adv_inst (suspended_table now 0 (adv_inst m)) m in
  Suspend now m
  = Ok (m', suspend_calls now 0 (adv_inst m),
        if bool_decide (sets_off = []) then [] else [EnableSetsCmd false sets_off])
  /\ Resume m' = (if bool_decide (sets_on = []) then [] else [EnableSetsCmd true sets_on])
  /\ sublist (map SetEnable.handle sets_on) (map SetEnable.handle sets_off).
Proof.
  intros Hreturns sets_off sets_on m'.
  split_and!.
  - unfold Suspend. rewrite Suspend_sets_exact by done. reflexivity.
  - unfold Resume. subst m'. cbn [adv_inst set_adv_inst].
    replace (adv_inst (set_adv_inst (suspended_table now 0 (adv_inst m)) m))
      with (suspended_table now 0 (adv_inst m)) by (by destruct m).
    by rewrite Resume_sets.
  - subst sets_on sets_off. rewrite map_map. cbn [SetEnable.handle]. rewrite map_id.
    apply resumed_sets_sublist.
Qed.

Lemma Suspend_then_Resume_witness :
  exists m' : Manager,
    Suspend (fun k => 1000 + FromMilliseconds (500 - 250 * Z.of_nat k)) example_suspend_manager
    = Ok (m', [Emit (Called (ClientCb 1) 0)],
          [EnableSetsCmd false [SetEnable.MkSetEnableData 0 0 0;
                                SetEnable.MkSetEnableData 1 0 0]])
    /\ Resume m' = [EnableSetsCmd true [SetEnable.MkSetEnableData 1 25 25]].
Proof.
  destruct (Suspend_then_Resume (fun k => 1000 + FromMilliseconds (500 - 250 * Z.of_nat k))
              example_suspend_manager) as (Hsuspend & Hresume & _).
  - intros k inst Hk Hen Hbudget.
    destruct k as [| [| [| k]]]; cbn in Hk; simplify_eq; try discriminate Hen.
    + by vm_compute.
    + by vm_compute.
  - eexists. split; [exact Hsuspend | exact Hresume].
Defined.

(** * Broadcast isochronous groups *)

Lemma first_free_big_none (table : list IsoBIG.IsoBIGInstance) (n : nat) :
  forall i : Z,
    (forall k : Z, i <= k < i + Z.of_nat n ->
       exists big, at_index table k = Ok big /\ IsoBIG.in_use big = true) ->
    first_free_big n i table = Ok None.
Proof.
  induction n as [| n IH]; intros i Hused; [done |].
  cbn [first_free_big]. destruct (Hused i) as (big & -> & Hin); [lia |].
  cbn [bind]. rewrite Hin. apply IH. intros k Hk. apply Hused. lia.
Qed.

Lemma first_free_big_some (table : list IsoBIG.IsoBIGInstance) (p : Z)
    (big : IsoBIG.IsoBIGInstance) (n : nat) :
  at_index table p = Ok big -> IsoBIG.in_use big = false ->
  forall i : Z,
    i <= p < i + Z.of_nat n ->
    (forall k : Z, i <= k < p ->
       exists big_k, at_index table k = Ok big_k /\ IsoBIG.in_use big_k = true) ->
    first_free_big n i table = Ok (Some p).
Proof.
  intros Hp Hfree. induction n as [| n IH]; intros i Hi Hused; [lia |].
  cbn [first_free_big]. destruct (decide (i = p)) as [-> | Hne].
  - rewrite Hp. cbn [bind]. by rewrite Hfree.
  - destruct (Hused i) as (big_i & -> & Hin); [lia |].
    cbn [bind]. rewrite Hin. apply IH; [lia |]. intros k Hk. apply Hused. lia.
Qed.

Lemma CreateBIG_allocates (env : Environment) (m : Manager) (inst_id : Z)
    (params : tBLE_CREATE_BIG_PARAMS) (cb : option nat)
    (h : Z) (big : IsoBIG.IsoBIGInstance) (inst : AdvertisingInstance) :
  supports_ble_iso_broadcaster env = true ->
  0 <= h < inst_count m ->
  at_index (iso_big_inst m) h = Ok big -> IsoBIG.in_use big = false ->
  (forall q : Z, 0 <= q < h ->
     exists big_q, at_index (iso_big_inst m) q = Ok big_q /\ IsoBIG.in_use big_q = true) ->
  slot m inst_id inst ->
  CreateBIG env inst_id params cb m
  = Ok (with_slot (Z.to_nat inst_id) (set_big_handle h inst)
          (set_iso_big_inst
             (<[Z.to_nat h :=
                  IsoBIG.set_create_big_cb cb
                    (IsoBIG.set_adv_inst_id inst_id
                       (IsoBIG.set_big_handle h (IsoBIG.set_in_use true big)))]>
                (iso_big_inst m)) m),
        [], [CreateBIGCmd h inst_id params]).
Proof.
  intros Hyes Hrange Hbig Hfree Hfirst Hslot.
  unfold CreateBIG. rewrite Hyes. cbn [negb].
  rewrite (first_free_big_some _ h big) by (done || lia). cbn [bind].
  rewrite (update_big_inst_at _ _ _ _ Hbig). cbn [bind fst snd].
  cbn [iso_big_inst set_iso_big_inst].
  rewrite (at_index_insert _ _ _ _ Hbig). cbn [bind].
  replace (IsoBIG.big_handle _) with h by (by destruct big).
  erewrite update_inst_slot by slot_tac. cbn [bind fst snd].
  match goal with
  | |- context [at_index (adv_inst ?m1) inst_id] =>
      replace (at_index (adv_inst m1) inst_id) with (Ok (set_big_handle h inst))
        by (symmetry; apply (slot_with_slot _ _ inst); slot_tac)
  end.
  cbn [bind]. by destruct inst.
Qed.

(** X20. [CreateBIG] answers [HCI_ERR_ILLEGAL_COMMAND] with the invalid
    handle when the controller has no isochronous broadcaster and when every
    group slot is taken (saying nothing when no callback was given); with
    the feature it takes the first free group slot [h], ties it and the
    advertising instance together and sends the command for handle [h]
    without calling back. *)
Theorem CreateBIG_outcomes (env : Environment) (m : Manager) (inst_id : Z)
    (params : tBLE_CREATE_BIG_PARAMS) (name : nat) :
  let call := CreateBIG env inst_id params (Some name) m in
  let rejected :=
    Ok (m, [Emit (CalledCreateBIG name inst_id HCI_ERR_ILLEGAL_COMMAND (INVALID_BIG_HANDLE env)
                    [0; 0; 0; 0; 0; 0; 0; 0; 0; 0] [])], []) in
  (supports_ble_iso_broadcaster env = false -> call = rejected)
  /\ (0 < inst_count m ->
      (forall h : Z, 0 <= h < inst_count m ->
         exists big, at_index (iso_big_inst m) h = Ok big /\ IsoBIG.in_use big = true) ->
      call = rejected
      /\ CreateBIG env inst_id params None m = Ok (m, [], []))
  /\ (supports_ble_iso_broadcaster env = true ->
      forall (h : Z) (big : IsoBIG.IsoBIGInstance) (inst : AdvertisingInstance),
        0 <= h < inst_count m ->
        at_index (iso_big_inst m) h = Ok big -> IsoBIG.in_use big = false ->
        (forall q : Z, 0 <= q < h ->
           exists big_q, at_index (iso_big_inst m) q = Ok big_q
                         /\ IsoBIG.in_use big_q = true) ->
        slot m inst_id inst ->
        call
        = Ok (with_slot (Z.to_nat inst_id) (set_big_handle h inst)
                (set_iso_big_inst
                   (<[Z.to_nat h :=
                        IsoBIG.set_create_big_cb (Some name)
                          (IsoBIG.set_adv_inst_id inst_id
                             (IsoBIG.set_big_handle h (IsoBIG.set_in_use true big)))]>
                      (iso_big_inst m)) m),
              [], [CreateBIGCmd h inst_id params])).
Proof.
  intros call rejected. subst call rejected. split_and!.
  - intros Hno. unfold CreateBIG. by rewrite Hno.
  - intros Hpos Hfull.
    assert (Hnone : first_free_big (Z.to_nat (inst_count m)) 0 (iso_big_inst m) = Ok None).
    { apply first_free_big_none. intros k Hk. apply Hfull. lia. }
    unfold CreateBIG. rewrite Hnone.
    by destruct (supports_ble_iso_broadcaster env).
  - intros Hyes h big inst Hrange Hbig Hfree Hfirst Hslot.
    by apply CreateBIG_allocates.
Qed.

Lemma at_index_insert_same {A : Type} (v : list A) (i : Z) (a : A) :
  at_index v i = Ok a -> <[Z.to_nat i := a]> v = v.
Proof. intros [_ Hl]%at_index_inv. by apply list_insert_id. Qed.

Section LifeCycle.

Variable env : Environment.
Variable m : Manager.
Variables inst_id h : Z.
Variable big : IsoBIG.IsoBIGInstance.
Variable inst : AdvertisingInstance.
Variable params : tBLE_CREATE_BIG_PARAMS.
Variable name : nat.

Hypothesis supported : supports_ble_iso_broadcaster env = true.
Hypothesis in_range : 0 <= h < inst_count m.
Hypothesis at_h : at_index (iso_big_inst m) h = Ok big.
Hypothesis free : IsoBIG.in_use big = false.
Hypothesis first : forall q : Z, 0 <= q < h ->
  exists big_q, at_index (iso_big_inst m) q = Ok big_q /\ IsoBIG.in_use big_q = true.
Hypothesis at_id : slot m inst_id inst.
Hypothesis no_big : big_handle inst = INVALID_BIG_HANDLE env.

(** The BIG slot and the manager once [CreateBIG] has returned. *)
Let requested : IsoBIG.IsoBIGInstance :=
  IsoBIG.set_create_big_cb (Some name)
    (IsoBIG.set_adv_inst_id inst_id (IsoBIG.set_big_handle h (IsoBIG.set_in_use true big))).

Let m1 : Manager :=
  with_slot (Z.to_nat inst_id) (set_big_handle h inst)
    (set_iso_big_inst (<[Z.to_nat h := requested]> (iso_big_inst m)) m).

Lemma CreateBIGComplete_failed (status : Z) (big_params conn_handle_list : list Z) :
  status <> HCI_SUCCESS ->
  CreateBIGComplete env status h big_params conn_handle_list m1
  = Ok (set_iso_big_inst
          (<[Z.to_nat h := IsoBIG.set_big_handle (INVALID_BIG_HANDLE env)
                             (IsoBIG.set_in_use false requested)]> (iso_big_inst m)) m,
        [Emit (CalledCreateBIG name inst_id status h big_params conn_handle_list)]).
Proof.
  intros Hfailed. unfold CreateBIGComplete, with_state.
  replace (inst_count m1) with (inst_count m) by done.
  destruct (Z.geb_spec h (inst_count m)); [lia |].
  destruct (Z.eqb_spec status HCI_SUCCESS); [done |].
  assert (Hbig1 : at_index (iso_big_inst m1) h = Ok requested).
  { subst m1. cbn. by apply at_index_insert with (a := big). }
  rewrite !and_then_assoc. rewrite (update_big_then _ _ _ _ _ Hbig1).
  erewrite with_big_inst_then.
  2:{ cbn. by apply at_index_insert with (a := requested). }
  replace (IsoBIG.adv_inst_id _) with inst_id by (by destruct big).
  erewrite update_then by (subst m1; slot_tac).
  erewrite with_big_inst_at.
  2:{ cbn. by apply at_index_insert with (a := requested). }
  replace (IsoBIG.create_big_cb _) with (Some name) by (by destruct big).
  replace (IsoBIG.adv_inst_id _) with inst_id by (by destruct big).
  unfold emit. do 2 f_equal.
  subst m1. unfold with_slot. cbn.
  rewrite !list_insert_insert_eq.
  replace (set_big_handle (INVALID_BIG_HANDLE env) (set_big_handle h inst)) with inst
    by (destruct inst; cbn in no_big; by subst).
  rewrite (at_index_insert_same _ _ _ at_id). by destruct m.
Qed.

Let created (conn_handle_list : list Z) : IsoBIG.IsoBIGInstance :=
  IsoBIG.set_created_status true (IsoBIG.set_bis_handles conn_handle_list requested).

Let with_big (b : IsoBIG.IsoBIGInstance) : Manager :=
  with_slot (Z.to_nat inst_id) (set_big_handle h inst)
    (set_iso_big_inst (<[Z.to_nat h := b]> (iso_big_inst m)) m).

Lemma with_big_at (b : IsoBIG.IsoBIGInstance) : at_index (iso_big_inst (with_big b)) h = Ok b.
Proof. subst with_big. cbn. by apply at_index_insert with (a := big). Qed.

Lemma with_big_update (b b' : IsoBIG.IsoBIGInstance) :
  set_iso_big_inst (<[Z.to_nat h := b']> (iso_big_inst (with_big b))) (with_big b)
  = with_big b'.
Proof. subst with_big. unfold with_slot. cbn. by rewrite list_insert_insert_eq. Qed.

Lemma CreateBIGComplete_succeeded (big_params conn_handle_list : list Z) :
  CreateBIGComplete env HCI_SUCCESS h big_params conn_handle_list m1
  = Ok (with_big (created conn_handle_list),
        [Emit (CalledCreateBIG name inst_id HCI_SUCCESS h big_params conn_handle_list)]).
Proof.
  unfold CreateBIGComplete, with_state.
  replace (inst_count m1) with (inst_count m) by done.
  destruct (Z.geb_spec h (inst_count m)); [lia |]. cbn [Z.eqb HCI_SUCCESS].
  change m1 with (with_big requested).
  rewrite (update_big_then _ _ _ _ _ (with_big_at requested)). rewrite with_big_update.
  rewrite (with_big_inst_at _ _ _ _ (with_big_at _)).
  replace (IsoBIG.create_big_cb _) with (Some name) by (by destruct big).
  replace (IsoBIG.adv_inst_id _) with inst_id by (by destruct big).
  reflexivity.
Qed.

Lemma TerminateBIG_created (b : IsoBIG.IsoBIGInstance) (reason : Z) (cb : option nat) :
  initialized m = true -> IsoBIG.created_status b = true ->
  TerminateBIG env inst_id h reason cb (with_big b)
  = Ok (with_big (IsoBIG.set_adv_inst_id inst_id (IsoBIG.set_terminate_big_cb cb b)),
        [Emit (Issued (TerminateBIGCmd h reason))]).
Proof.
  intros Halive Hcreated. unfold TerminateBIG, with_state. rewrite supported. cbn [negb].
  replace (inst_count (with_big b)) with (inst_count m) by done.
  destruct (Z.geb_spec h (inst_count m)); [lia |].
  replace (initialized (with_big b)) with true by done. cbn [negb].
  rewrite (update_big_then _ _ _ _ _ (with_big_at b)). rewrite with_big_update.
  rewrite (with_big_inst_at _ _ _ _ (with_big_at _)).
  replace (IsoBIG.created_status _) with true by (by destruct b).
  reflexivity.
Qed.

Lemma TerminateBIG_not_created (b : IsoBIG.IsoBIGInstance) (reason : Z) (tname : nat) :
  initialized m = true -> IsoBIG.created_status b = false ->
  TerminateBIG env inst_id h reason (Some tname) (with_big b)
  = Ok (with_big (IsoBIG.set_adv_inst_id inst_id (IsoBIG.set_terminate_big_cb (Some tname) b)),
        [Emit (CalledTerminateBIG tname HCI_ERR_ILLEGAL_COMMAND inst_id h reason)]).
Proof.
  intros Halive Hcreated. unfold TerminateBIG, with_state. rewrite supported. cbn [negb].
  replace (inst_count (with_big b)) with (inst_count m) by done.
  destruct (Z.geb_spec h (inst_count m)); [lia |].
  replace (initialized (with_big b)) with true by done. cbn [negb].
  rewrite (update_big_then _ _ _ _ _ (with_big_at b)). rewrite with_big_update.
  rewrite (with_big_inst_at _ _ _ _ (with_big_at _)).
  replace (IsoBIG.created_status _) with false by (by destruct b).
  reflexivity.
Qed.

Lemma TerminateBIGComplete_released (b : IsoBIG.IsoBIGInstance) (status reason : Z)
    (tname : nat) :
  IsoBIG.adv_inst_id b = inst_id -> IsoBIG.terminate_big_cb b = Some tname ->
  TerminateBIGComplete env status h false reason (with_big b)
  = Ok (set_iso_big_inst
          (<[Z.to_nat h := IsoBIG.set_big_handle (INVALID_BIG_HANDLE env)
                             (IsoBIG.set_created_status false
                                (IsoBIG.set_bis_handles [] (IsoBIG.set_in_use false b)))]>
             (iso_big_inst m)) m,
        [Emit (CalledTerminateBIG tname status inst_id h reason)]).
Proof.
  intros Hadv Hcb. unfold TerminateBIGComplete, with_state.
  replace (inst_count (with_big b)) with (inst_count m) by done.
  destruct (Z.geb_spec h (inst_count m)); [lia |]. cbn [negb].
  rewrite !and_then_assoc.
  rewrite (update_big_then _ _ _ _ _ (with_big_at b)). rewrite with_big_update.
  rewrite (with_big_inst_then _ _ _ _ _ (with_big_at _)).
  replace (IsoBIG.adv_inst_id _) with inst_id by (by destruct b; cbn in *).
  erewrite update_then by (subst with_big; slot_tac).
  erewrite with_big_inst_at by (cbn; apply with_big_at).
  replace (IsoBIG.terminate_big_cb _) with (Some tname) by (by destruct b; cbn in *).
  replace (IsoBIG.adv_inst_id _) with inst_id by (by destruct b; cbn in *).
  unfold emit. do 2 f_equal.
  subst with_big. unfold with_slot. cbn. rewrite list_insert_insert_eq.
  replace (set_big_handle (INVALID_BIG_HANDLE env) (set_big_handle h inst)) with inst
    by (destruct inst; cbn in no_big; by subst).
  rewrite (at_index_insert_same _ _ _ at_id). by destruct m.
Qed.

End LifeCycle.

Lemma at_index_insert_ne {A : Type} (v : list A) (i j : Z) (b : A) :
  0 <= i -> 0 <= j -> i <> j -> at_index (<[Z.to_nat i := b]> v) j = at_index v j.
Proof.
  intros Hi Hj Hne. unfold at_index. destruct (Z.ltb_spec j 0); [done |].
  by rewrite list_lookup_insert_ne by lia.
Qed.

(** X21. A group whose creation the controller refuses is given back: after
    [CreateBIG] and a [CreateBIGComplete] with a status other than success
    the callback hears that status, the slot is free with the invalid
    handle, no other group slot and no advertising instance has changed
    (the instance has its invalid group handle again), and a new [CreateBIG]
    gets the same handle. *)
Theorem CreateBIG_failed_round_trip (env : Environment) (m : Manager) (inst_id h : Z)
    (big : IsoBIG.IsoBIGInstance) (inst : AdvertisingInstance)
    (params : tBLE_CREATE_BIG_PARAMS) (name : nat)
    (status : Z) (big_params conn_handle_list : list Z) :
  supports_ble_iso_broadcaster env = true ->
  0 <= h < inst_count m ->
  at_index (iso_big_inst m) h = Ok big -> IsoBIG.in_use big = false ->
  (forall q : Z, 0 <= q < h ->
     exists big_q, at_index (iso_big_inst m) q = Ok big_q /\ IsoBIG.in_use big_q = true) ->
  slot m inst_id inst -> big_handle inst = INVALID_BIG_HANDLE env ->
  status <> HCI_SUCCESS ->
  exists (m1 m2 m3 : Manager) (big2 : IsoBIG.IsoBIGInstance),
    CreateBIG env inst_id params (Some name) m = Ok (m1, [], [CreateBIGCmd h inst_id params])
    /\ CreateBIGComplete env status h big_params conn_handle_list m1
       = Ok (m2, [Emit (CalledCreateBIG name inst_id status h big_params conn_handle_list)])
    /\ adv_inst m2 = adv_inst m /\ inst_count m2 = inst_count m
    /\ at_index (iso_big_inst m2) h = Ok big2
    /\ IsoBIG.in_use big2 = false /\ IsoBIG.big_handle big2 = INVALID_BIG_HANDLE env
    /\ (forall q : Z, 0 <= q -> q <> h ->
          at_index (iso_big_inst m2) q = at_index (iso_big_inst m) q)
    /\ CreateBIG env inst_id params (Some name) m2
       = Ok (m3, [], [CreateBIGCmd h inst_id params]).
Proof.
  intros Hyes Hrange Hbig Hfree Hfirst Hslot Hnone Hfailed.
  pose proof (CreateBIG_allocates env m inst_id params (Some name) h big inst
                Hyes Hrange Hbig Hfree Hfirst Hslot) as Hcreate.
  assert (Hcomplete :
    CreateBIGComplete env status h big_params conn_handle_list
      (with_slot (Z.to_nat inst_id) (set_big_handle h inst)
         (set_iso_big_inst
            (<[Z.to_nat h := IsoBIG.set_create_big_cb (Some name)
                 (IsoBIG.set_adv_inst_id inst_id
                    (IsoBIG.set_big_handle h (IsoBIG.set_in_use true big)))]>
               (iso_big_inst m)) m))
    = Ok (set_iso_big_inst
            (<[Z.to_nat h := IsoBIG.set_big_handle (INVALID_BIG_HANDLE env)
                 (IsoBIG.set_in_use false
                    (IsoBIG.set_create_big_cb (Some name)
                       (IsoBIG.set_adv_inst_id inst_id
                          (IsoBIG.set_big_handle h (IsoBIG.set_in_use true big)))))]>
               (iso_big_inst m)) m,
          [Emit (CalledCreateBIG name inst_id status h big_params conn_handle_list)]))
    by (by apply CreateBIGComplete_failed).
  set (big2 := IsoBIG.set_big_handle (INVALID_BIG_HANDLE env)
                 (IsoBIG.set_in_use false
                    (IsoBIG.set_create_big_cb (Some name)
                       (IsoBIG.set_adv_inst_id inst_id
                          (IsoBIG.set_big_handle h (IsoBIG.set_in_use true big)))))) in *.
  set (m2 := set_iso_big_inst (<[Z.to_nat h := big2]> (iso_big_inst m)) m) in *.
  assert (Hbig2 : at_index (iso_big_inst m2) h = Ok big2).
  { subst m2. cbn. by apply at_index_insert with (a := big). }
  assert (Hothers : forall q : Z, 0 <= q -> q <> h ->
            at_index (iso_big_inst m2) q = at_index (iso_big_inst m) q).
  { intros q Hq Hne. subst m2. cbn. apply at_index_insert_ne; (lia || done). }
  eexists _, m2, _, big2. split; [exact Hcreate |]. split; [exact Hcomplete |].
  split_and!; try done; try (by destruct big).
  apply (CreateBIG_allocates env m2 inst_id params (Some name) h big2 inst); try done.
  - by destruct big.
  - intros q Hq. rewrite Hothers by lia. by apply Hfirst.
Qed.

Lemma CreateBIG_failed_round_trip_witness :
  exists (m1 m2 m3 : Manager),
    CreateBIG example_env 0 example_big_params (Some 1%nat) example_registered_manager
    = Ok (m1, [], [CreateBIGCmd 0 0 example_big_params])
    /\ CreateBIGComplete example_env 7 0 [] [] m1
       = Ok (m2, [Emit (CalledCreateBIG 1 0 7 0 [] [])])
    /\ adv_inst m2 = adv_inst example_registered_manager
    /\ CreateBIG example_env 0 example_big_params (Some 1%nat) m2
       = Ok (m3, [], [CreateBIGCmd 0 0 example_big_params]).
Proof.
  destruct (CreateBIG_failed_round_trip example_env example_registered_manager 0 0
              (IsoBIGInstance_new 0 example_indeterminate)
              (set_in_use true (AdvertisingInstance_new example_env 0 example_indeterminate))
              example_big_params 1 7 [] [])
    as (m1 & m2 & m3 & big2 & Hcreate & Hcomplete & Hsame & _ & _ & _ & _ & _ & Hagain);
    try reflexivity.
  - cbn. lia.
  - intros q Hq. lia.
  - by vm_compute.
  - exists m1, m2, m3. by split_and!.
Defined.

(** X22. The life of a group in a fresh slot: [CreateBIG] reserves handle
    [h] and records it in the instance; [TerminateBIG] before the creation
    has completed is refused with [HCI_ERR_ILLEGAL_COMMAND]; a successful
    [CreateBIGComplete] reports the handles and marks the group created;
    [TerminateBIG] then sends the command, and [TerminateBIGComplete]
    reports its status, frees the slot and leaves the advertising instances
    as they were before the group. *)
Theorem BIG_life_cycle (env : Environment) (m : Manager) (inst_id h : Z)
    (big : IsoBIG.IsoBIGInstance) (inst : AdvertisingInstance)
    (params : tBLE_CREATE_BIG_PARAMS) (name terminate_name : nat)
    (status reason : Z) (big_params conn_handle_list : list Z) :
  initialized m = true ->
  supports_ble_iso_broadcaster env = true ->
  0 <= h < inst_count m ->
  at_index (iso_big_inst m) h = Ok big ->
  IsoBIG.in_use big = false -> IsoBIG.created_status big = false ->
  (forall q : Z, 0 <= q < h ->
     exists big_q, at_index (iso_big_inst m) q = Ok big_q /\ IsoBIG.in_use big_q = true) ->
  slot m inst_id inst -> big_handle inst = INVALID_BIG_HANDLE env ->
  exists (m1 m2 m3 m4 : Manager) (big2 big4 : IsoBIG.IsoBIGInstance),
    CreateBIG env inst_id params (Some name) m = Ok (m1, [], [CreateBIGCmd h inst_id params])
    /\ slot m1 inst_id (set_big_handle h inst)
    /\ (exists m1' : Manager,
          TerminateBIG env inst_id h reason (Some terminate_name) m1
          = Ok (m1', [Emit (CalledTerminateBIG terminate_name HCI_ERR_ILLEGAL_COMMAND
                              inst_id h reason)]))
    /\ CreateBIGComplete env HCI_SUCCESS h big_params conn_handle_list m1
       = Ok (m2, [Emit (CalledCreateBIG name inst_id HCI_SUCCESS h big_params
                          conn_handle_list)])
    /\ at_index (iso_big_inst m2) h = Ok big2
    /\ IsoBIG.in_use big2 = true /\ IsoBIG.created_status big2 = true
    /\ IsoBIG.bis_handles big2 = conn_handle_list /\ IsoBIG.big_handle big2 = h
    /\ TerminateBIG env inst_id h reason (Some terminate_name) m2
       = Ok (m3, [Emit (Issued (TerminateBIGCmd h reason))])
    /\ TerminateBIGComplete env status h false reason m3
       = Ok (m4, [Emit (CalledTerminateBIG terminate_name status inst_id h reason)])
    /\ adv_inst m4 = adv_inst m
    /\ at_index (iso_big_inst m4) h = Ok big4
    /\ IsoBIG.in_use big4 = false /\ IsoBIG.created_status big4 = false
    /\ IsoBIG.bis_handles big4 = [] /\ IsoBIG.big_handle big4 = INVALID_BIG_HANDLE env.
Proof.
  intros Halive Hyes Hrange Hbig Hfree Hfresh Hfirst Hslot Hnone.
  pose proof (CreateBIG_allocates env m inst_id params (Some name) h big inst
                Hyes Hrange Hbig Hfree Hfirst Hslot) as Hcreate.
  set (requested := IsoBIG.set_create_big_cb (Some name)
                      (IsoBIG.set_adv_inst_id inst_id
                         (IsoBIG.set_big_handle h (IsoBIG.set_in_use true big)))) in *.
  set (created := IsoBIG.set_created_status true
                    (IsoBIG.set_bis_handles conn_handle_list requested)).
  set (with_big := fun b : IsoBIG.IsoBIGInstance =>
         with_slot (Z.to_nat inst_id) (set_big_handle h inst)
           (set_iso_big_inst (<[Z.to_nat h := b]> (iso_big_inst m)) m)).
  change (CreateBIG env inst_id params (Some name) m
          = Ok (with_big requested, [], [CreateBIGCmd h inst_id params])) in Hcreate.
  assert (Hcomplete :
    CreateBIGComplete env HCI_SUCCESS h big_params conn_handle_list (with_big requested)
    = Ok (with_big created,
          [Emit (CalledCreateBIG name inst_id HCI_SUCCESS h big_params conn_handle_list)]))
    by (by apply CreateBIGComplete_succeeded).
  assert (Hearly :
    TerminateBIG env inst_id h reason (Some terminate_name) (with_big requested)
    = Ok (with_big (IsoBIG.set_adv_inst_id inst_id
                      (IsoBIG.set_terminate_big_cb (Some terminate_name) requested)),
          [Emit (CalledTerminateBIG terminate_name HCI_ERR_ILLEGAL_COMMAND inst_id h reason)]))
    by (apply TerminateBIG_not_created with (big := big); try done;
        subst created requested; destruct big; cbn in *; done).
  assert (Hterminate :
    TerminateBIG env inst_id h reason (Some terminate_name) (with_big created)
    = Ok (with_big (IsoBIG.set_adv_inst_id inst_id
                      (IsoBIG.set_terminate_big_cb (Some terminate_name) created)),
          [Emit (Issued (TerminateBIGCmd h reason))]))
    by (apply TerminateBIG_created with (big := big); try done;
        subst created requested; by destruct big).
  assert (Hreleased :
    TerminateBIGComplete env status h false reason
      (with_big (IsoBIG.set_adv_inst_id inst_id
                   (IsoBIG.set_terminate_big_cb (Some terminate_name) created)))
    = Ok (set_iso_big_inst
            (<[Z.to_nat h := IsoBIG.set_big_handle (INVALID_BIG_HANDLE env)
                 (IsoBIG.set_created_status false
                    (IsoBIG.set_bis_handles []
                       (IsoBIG.set_in_use false
                          (IsoBIG.set_adv_inst_id inst_id
                             (IsoBIG.set_terminate_big_cb (Some terminate_name)
                                created)))))]>
               (iso_big_inst m)) m,
          [Emit (CalledTerminateBIG terminate_name status inst_id h reason)]))
    by (apply TerminateBIGComplete_released with (big := big); try done;
        subst created requested; by destruct big).
  eexists _, _, _, _, _, _.
  split; [exact Hcreate |].
  split; [slot_tac |].
  split; [eexists; exact Hearly |].
  split; [exact Hcomplete |].
  split; [cbn; by apply at_index_insert with (a := big) |].
  split; [subst created requested; by destruct big |].
  split; [subst created requested; by destruct big |].
  split; [subst created requested; by destruct big |].
  split; [subst created requested; by destruct big |].
  split; [exact Hterminate |].
  split; [exact Hreleased |].
  split; [done |].
  split; [cbn; by apply at_index_insert with (a := big) |].
  subst created requested. by destruct big.
Qed.

Lemma BIG_life_cycle_witness :
  exists (m1 m2 m3 m4 : Manager),
    CreateBIG example_env 0 example_big_params (Some 1%nat) example_registered_manager
    = Ok (m1, [], [CreateBIGCmd 0 0 example_big_params])
    /\ CreateBIGComplete example_env HCI_SUCCESS 0 [1; 2] [16; 17] m1
       = Ok (m2, [Emit (CalledCreateBIG 1 0 HCI_SUCCESS 0 [1; 2] [16; 17])])
    /\ TerminateBIG example_env 0 0 19 (Some 2%nat) m2
       = Ok (m3, [Emit (Issued (TerminateBIGCmd 0 19))])
    /\ TerminateBIGComplete example_env HCI_SUCCESS 0 false 19 m3
       = Ok (m4, [Emit (CalledTerminateBIG 2 HCI_SUCCESS 0 0 19)])
    /\ adv_inst m4 = adv_inst example_registered_manager.
Proof.
  destruct (BIG_life_cycle example_env example_registered_manager 0 0
              (IsoBIGInstance_new 0 example_indeterminate)
              (set_in_use true (AdvertisingInstance_new example_env 0 example_indeterminate))
              example_big_params 1 2 HCI_SUCCESS 19 [1; 2] [16; 17])
    as (m1 & m2 & m3 & m4 & big2 & big4 & Hcreate & _ & _ & Hcomplete & _ & _ & _ & _ & _
        & Hterminate & Hreleased & Hsame & _);
    try reflexivity.
  - cbn. lia.
  - intros q Hq. lia.
  - exists m1, m2, m3, m4. by split_and!.
Defined.

(** * The fragmenter under any completion *)

Lemma bind_pair {A B : Type} (r : result (A * B)) : (x <- r ;; Ok (fst x, snd x)) = r.
Proof. by destruct r as [[a b] |]. Qed.

(** The answer to the only pending command runs its completion. *)
Lemma drive_hci (c : command) (k : MultiAdvCb) (s : Z) (replies : list reply) (m : Manager) :
  drive (Status s :: replies) m [Hci c k]
  = (r <- run (k s) replies m ;; Ok (fst r, Issued c :: snd r)).
Proof.
  cbn [drive until_command resume issued app]. unfold run.
  destruct (k s m) as [[m1 q1] |]; [| done]. cbn [bind fst snd].
  by destruct (drive replies m1 q1) as [[m2 evs] |].
Qed.

Section Chain.

Variable m : Manager.
Variable inst_id : Z.
Variables is_periodic_adv_data is_scan_rsp : bool.
Variable data : list Z.
Variable done_cb : MultiAdvCb.

Hypothesis alive : initialized m = true.
Hypothesis fits_int : Z.of_nat (length data) <= INT_MAX.

Let max := chunk_max is_periodic_adv_data.
Let sender := fragment_sender is_periodic_adv_data is_scan_rsp.
Let send (chunk : Z * list Z) : event :=
  Issued (fragment_command is_periodic_adv_data is_scan_rsp (to_uint8 inst_id) chunk).
Let rec_ (fuel : nat) (isFirst : bool) (offset status : Z) : Action :=
  DivideAndSendDataRecursively fuel isFirst inst_id is_periodic_adv_data data offset
    done_cb sender status.
Let n := Z.of_nat (length data).

Lemma chain_failed (fuel : nat) (isFirst : bool) (offset status : Z) :
  status <> 0 -> rec_ fuel isFirst offset status = done_cb status.
Proof.
  intros Hs. unfold rec_. destruct fuel; cbn [DivideAndSendDataRecursively];
    by destruct (Z.eqb_spec status 0).
Qed.

Lemma chain_finished (fuel : nat) (offset : Z) :
  offset = n -> rec_ fuel false offset 0 = done_cb 0.
Proof.
  intros ->. unfold rec_. destruct fuel; cbn [DivideAndSendDataRecursively];
    rewrite to_int_small by lia; fold n; by rewrite !Z.eqb_refl.
Qed.

(** One fragment goes out, bound to the rest of the chain. *)
Lemma chain_step (fuel : nat) (isFirst : bool) (offset : Z) :
  0 <= offset <= n ->
  isFirst = true \/ offset < n ->
  let more := n - offset >? max in
  let operation :=
    if isFirst then (if more then FIRST else COMPLETE)
    else (if more then INTERMEDIATE else LAST) in
  let len := if more then max else n - offset in
  let chunk := (operation, take (Z.to_nat len) (drop (Z.to_nat offset) data)) in
  rec_ (S fuel) isFirst offset 0 m
  = Ok (m, [Hci (fragment_command is_periodic_adv_data is_scan_rsp (to_uint8 inst_id) chunk)
              (rec_ fuel false (offset + len))]).
Proof.
  intros Hoff Hgo more operation len chunk.
  assert (0 <= len <= 252 /\ len <= n - offset) as [Hlen Hlen'].
  { subst len more. destruct (chunk_max_cases is_periodic_adv_data) as [E | E];
      fold max in E; destruct (Z.gtb_spec (n - offset) max); lia. }
  assert (rec_ (S fuel) isFirst offset 0
          = sender (to_uint8 inst_id) operation (to_uint8 len) (drop (Z.to_nat offset) data)
              (rec_ fuel false (offset + len))) as Hrec.
  { unfold rec_ at 1. cbn [DivideAndSendDataRecursively].
    rewrite to_int_small by (fold n; lia). fold n.
    replace (negb (0 =? 0) || negb isFirst && (offset =? n)) with false; [reflexivity |].
    destruct Hgo as [-> | Hlt]; [reflexivity |].
    destruct (Z.eqb_spec offset n); [lia |]. by destruct isFirst. }
  rewrite Hrec, (to_uint8_small len) by lia.
  assert (Hs :
    sender (to_uint8 inst_id) operation len (drop (Z.to_nat offset) data)
      (rec_ fuel false (offset + len)) m
    = Ok (m, [Hci (fragment_command is_periodic_adv_data is_scan_rsp (to_uint8 inst_id)
                     (operation, take (Z.to_nat len) (drop (Z.to_nat offset) data)))
                (rec_ fuel false (offset + len))])
    \/ Z.of_nat (length (drop (Z.to_nat offset) data)) < len)
    by (apply sender_issues; (done || lia)).
  destruct Hs as [Hs | Hs]; [done |].
  rewrite length_drop in Hs. subst n. lia.
Qed.

Let enough (fuel : nat) (isFirst : bool) (offset : Z) : Prop :=
  n - offset + (if isFirst then 1 else 0) <= Z.of_nat fuel.

(** With every answer zero the chain sends all chunks and goes on with the
    completion. *)
Lemma chain_all_ok (fuel : nat) :
  forall (isFirst : bool) (offset : Z) (replies : list reply),
    0 <= offset <= n -> enough fuel isFirst offset ->
    run (rec_ fuel isFirst offset 0)
      (repeat (Status 0) (length (chunks_from fuel isFirst max data offset)) ++ replies) m
    = (r <- run (done_cb 0) replies m ;;
       Ok (fst r, map send (chunks_from fuel isFirst max data offset) ++ snd r)).
Proof.
  unfold enough.
  induction fuel as [| fuel IH]; intros isFirst offset replies Hoff Hfuel.
  - destruct isFirst; [lia |].
    assert (offset = n) as -> by lia.
    rewrite chain_finished by reflexivity.
    cbn [chunks_from negb andb]. fold n. rewrite Z.eqb_refl. cbn [length repeat app map].
    by rewrite bind_pair.
  - destruct (decide (isFirst = false /\ offset = n)) as [[-> ->] | Hgo].
    + rewrite chain_finished by reflexivity.
      cbn [chunks_from negb andb]. fold n. rewrite Z.eqb_refl. cbn [length repeat app map].
      by rewrite bind_pair.
    + assert (isFirst = true \/ offset < n) as Hgo'.
      { destruct isFirst; [by left | right]. lia. }
      pose proof (chain_step fuel isFirst offset Hoff Hgo') as Hstep.
      cbn zeta in Hstep.
      cbn [chunks_from]. fold n.
      replace (negb isFirst && (offset =? n)) with false.
      2:{ destruct Hgo' as [-> | Hlt]; [reflexivity |].
          destruct (Z.eqb_spec offset n); [lia |]. by destruct isFirst. }
      set (len := if n - offset >? max then max else n - offset) in *.
      assert (0 < max) as Hmax.
      { destruct (chunk_max_cases is_periodic_adv_data) as [E | E]; fold max in E; lia. }
      assert (0 <= len <= n - offset /\ (isFirst = false -> 0 < len)) as [Hlen Hpos].
      { subst len. destruct (Z.gtb_spec (n - offset) max); split; try lia.
        intros ->. destruct Hgo'; [done | lia]. }
      cbn [length repeat app map].
      unfold run at 1. rewrite Hstep. cbn [bind fst snd]. rewrite drive_hci.
      rewrite IH; [| lia |].
      2:{ destruct isFirst; [lia |]. specialize (Hpos eq_refl). lia. }
      destruct (run (done_cb 0) replies m) as [[m' evs] |]; reflexivity.
Qed.

(** The first non-zero answer stops the chain and goes to the completion. *)
Lemma chain_first_failure (fuel : nat) :
  forall (isFirst : bool) (offset : Z) (j : nat) (s : Z) (replies : list reply),
    0 <= offset <= n -> enough fuel isFirst offset ->
    (j < length (chunks_from fuel isFirst max data offset))%nat ->
    s <> 0 ->
    run (rec_ fuel isFirst offset 0) (repeat (Status 0) j ++ Status s :: replies) m
    = (r <- run (done_cb s) replies m ;;
       Ok (fst r, map send (take (S j) (chunks_from fuel isFirst max data offset)) ++ snd r)).
Proof.
  unfold enough.
  induction fuel as [| fuel IH]; intros isFirst offset j s replies Hoff Hfuel Hj Hs.
  - cbn in Hj. destruct (negb isFirst && (offset =? Z.of_nat (length data))); cbn in Hj; lia.
  - revert Hj. cbn [chunks_from]. fold n.
    destruct (negb isFirst && (offset =? n)) eqn:Hend; [cbn; lia |].
    assert (isFirst = true \/ offset < n) as Hgo'.
    { destruct isFirst; [by left | right]. cbn in Hend.
      destruct (Z.eqb_spec offset n); [done | lia]. }
    pose proof (chain_step fuel isFirst offset Hoff Hgo') as Hstep.
    cbn zeta in Hstep.
    set (len := if n - offset >? max then max else n - offset) in *.
    assert (0 < max) as Hmax.
    { destruct (chunk_max_cases is_periodic_adv_data) as [E | E]; fold max in E; lia. }
    assert (0 <= len <= n - offset /\ (isFirst = false -> 0 < len)) as [Hlen Hpos].
    { subst len. destruct (Z.gtb_spec (n - offset) max); split; try lia.
      intros ->. destruct Hgo'; [done | lia]. }
    intros Hj. unfold run at 1. rewrite Hstep.
    destruct j as [| j].
    + cbn [repeat app bind fst snd]. rewrite drive_hci.
      rewrite chain_failed by done. cbn [take map app]. rewrite take_0. cbn [map app].
      destruct (run (done_cb s) replies m) as [[m' evs] |]; reflexivity.
    + cbn [repeat app bind fst snd]. rewrite drive_hci.
      rewrite IH; [| lia | | cbn in Hj; lia | done].
      2:{ destruct isFirst; [lia |]. specialize (Hpos eq_refl). lia. }
      destruct (run (done_cb s) replies m) as [[m' evs] |]; reflexivity.
Qed.

End Chain.

Lemma chunks_from_end (fuel : nat) (max : Z) (data : list Z) :
  chunks_from fuel false max data (Z.of_nat (length data)) = [].
Proof. destruct fuel; cbn [chunks_from negb andb]; by rewrite Z.eqb_refl. Qed.

Lemma chunks_from_sizes (max : Z) (data : list Z) (fuel : nat) :
  0 < max ->
  forall (isFirst : bool) (offset : Z),
    0 <= offset <= Z.of_nat (length data) ->
    let chunks := chunks_from fuel isFirst max data offset in
    Forall (fun c => Z.of_nat (length (snd c)) <= max) chunks
    /\ (forall (j : nat) (c : Z * list Z),
          chunks !! j = Some c -> (S j < length chunks)%nat ->
          Z.of_nat (length (snd c)) = max)
    /\ (offset < Z.of_nat (length data) -> Forall (fun c => snd c <> []) chunks).
Proof.
  intros Hmax. set (n := Z.of_nat (length data)).
  induction fuel as [| fuel IH]; intros isFirst offset Hoff chunks; subst chunks.
  { cbn [chunks_from]. fold n.
    assert ((if negb isFirst && (offset =? n) then [] else []) = @nil (Z * list Z)) as ->
      by (by destruct (negb isFirst && (offset =? n))).
    by split_and!. }
  cbn [chunks_from]. fold n.
  destruct (negb isFirst && (offset =? n)) eqn:Hend.
  { by split_and!. }
  set (len := if n - offset >? max then max else n - offset).
  assert (Hlen : 0 <= len <= n - offset /\ len <= max
                 /\ (len < max -> offset + len = n) /\ (offset < n -> 0 < len)).
  { subst len. destruct (Z.gtb_spec (n - offset) max); lia. }
  destruct Hlen as (Hlen & Hle & Hlast & Hpos).
  assert (Hsize : Z.of_nat (length (take (Z.to_nat len) (drop (Z.to_nat offset) data))) = len).
  { rewrite length_take, length_drop. subst n. lia. }
  destruct (IH false (offset + len)) as (Hall & Hfull & Hne); [lia |].
  split_and!.
  - constructor; [cbn [snd]; lia | done].
  - intros j c Hc Hj. destruct j as [| j].
    + cbn in Hc. injection Hc as <-. cbn [snd]. rewrite Hsize.
      destruct (Z.lt_ge_cases len max) as [Hshort | ?]; [| lia].
      rewrite Hlast in Hj by done. subst n. rewrite chunks_from_end in Hj. cbn in Hj. lia.
    + cbn [lookup list_lookup] in Hc. apply (Hfull j c Hc). cbn [length] in Hj. lia.
  - intros Hin. constructor.
    + cbn [snd]. intros Hnil. rewrite Hnil in Hsize. cbn in Hsize. lia.
    + destruct (Z.lt_ge_cases (offset + len) n) as [Hmore | ?]; [by apply Hne |].
      replace (offset + len) with n by lia. subst n. by rewrite chunks_from_end.
Qed.

(** X23. The fragments of a payload: with every answer zero [DivideAndSendData]
    sends chunks that hold at most 251 bytes (252 for periodic data), so that
    the one-byte length of the command is the length of the chunk; every
    chunk but the last is full, and no chunk of a non-empty payload is
    empty. *)
Theorem fragment_sizes (m : Manager) (inst_id : Z) (is_periodic_adv_data is_scan_rsp : bool)
    (data : list Z) (done_cb : nat) :
  initialized m = true ->
  Z.of_nat (length data) <= INT_MAX ->
  let max := if is_periodic_adv_data then 252 else 251 in
  let chunks := chunks_of is_periodic_adv_data data in
  run (DivideAndSendData inst_id data is_periodic_adv_data (client_cb done_cb)
         (fragment_sender is_periodic_adv_data is_scan_rsp))
    (repeat (Status 0) (length chunks)) m
  = Ok (m, map (fun chunk =>
                  Issued (fragment_command is_periodic_adv_data is_scan_rsp
                            (to_uint8 inst_id) chunk)) chunks
           ++ [Called (ClientCb done_cb) 0])
  /\ Forall (fun c => Z.of_nat (length (snd c)) <= max) chunks
  /\ (forall (j : nat) (c : Z * list Z),
        chunks !! j = Some c -> (S j < length chunks)%nat -> Z.of_nat (length (snd c)) = max)
  /\ (data <> [] -> Forall (fun c => snd c <> []) chunks).
Proof.
  intros alive fits max chunks.
  assert (Hmax : max = chunk_max is_periodic_adv_data) by (by destruct is_periodic_adv_data).
  destruct (chunks_from_sizes (chunk_max is_periodic_adv_data) data (S (length data)))
    with (isFirst := true) (offset := 0) as (Hall & Hfull & Hne);
    [by destruct is_periodic_adv_data | lia |].
  split_and!.
  - apply run_all_ok; (done || lia).
  - by rewrite Hmax.
  - rewrite Hmax. exact Hfull.
  - intros Hdata. apply Hne. destruct data; [done | cbn; lia].
Qed.

Lemma fragment_sizes_witness :
  exists chunks : list (Z * list Z),
    run (DivideAndSendData 0 (repeat 7 300) false (client_cb 1) (fragment_sender false false))
      (repeat (Status 0) (length chunks)) example_manager
    = Ok (example_manager,
          map (fun chunk => Issued (fragment_command false false (to_uint8 0) chunk)) chunks
          ++ [Called (ClientCb 1) 0])
    /\ Forall (fun c => Z.of_nat (length (snd c)) <= 251) chunks.
Proof.
  destruct (fragment_sizes example_manager 0 false false (repeat 7 300) 1)
    as (Hrun & Hall & _).
  - reflexivity.
  - rewrite repeat_length. unfold INT_MAX. lia.
  - exists (chunks_of false (repeat 7 300)). split; [exact Hrun | exact Hall].
Defined.

(** * Advertising data without an encrypted part *)

Lemma SetData_stored_fields (is_scan_rsp : bool) (data : list Z) (inst : AdvertisingInstance) :
  let inst' := SetData_stored is_scan_rsp data inst in
  tx_power inst' = tx_power inst /\ get_inst_id inst' = get_inst_id inst
  /\ duration inst' = duration inst /\ maxExtAdvEvents inst' = maxExtAdvEvents inst
  /\ enable_status inst' = enable_status inst /\ in_use inst' = in_use inst.
Proof. unfold SetData_stored. by destruct is_scan_rsp, inst. Qed.

(** [SetData] up to the point where it hands the payload to the fragmenter. *)
Lemma SetData_plain (env : Environment) (m : Manager) (inst_id : Z) (is_scan_rsp : bool)
    (data payload : list Z) (cb : MultiAdvCb) (inst : AdvertisingInstance) :
  inst_id < inst_count m -> slot m inst_id inst ->
  patch_tx_power (tx_power inst) (SetData_flags env inst is_scan_rsp ++ data) = Ok payload ->
  let m1 := with_slot (Z.to_nat inst_id) (SetData_stored is_scan_rsp data inst) m in
  SetData env inst_id is_scan_rsp data [] cb m
  = if (Z.of_nat (length data) >? EXT_ADV_DATA_LEN_MAX) && IsEnabled inst then
      r <- DivideAndSendData (get_inst_id inst) payload false
             (restart_after_write inst_id (initialized m) cb)
             (SetDataAdvDataSender is_scan_rsp) m1 ;;
      Ok (fst r,
          Hci (EnableCmd false inst_id (duration inst) (maxExtAdvEvents inst)) DoNothing
          :: snd r)
    else
      DivideAndSendData inst_id payload false cb (SetDataAdvDataSender is_scan_rsp) m1.
Proof.
  intros Hrange Hslot Hpatch m1.
  destruct (SetData_stored_fields is_scan_rsp data inst) as (Htx & Hid & _).
  unfold SetData. cbn [bool_decide decide_rel negb andb]. 
  rewrite bool_decide_eq_true_2 by done. cbn [negb andb].
  unfold with_state. destruct (Z.geb_spec inst_id (inst_count m)); [lia |].
  rewrite (with_inst_slot _ _ _ _ Hslot).
  rewrite Nat.add_0_r.
  set (sent := if negb is_scan_rsp && is_connectable (advertising_event_properties inst)
                  || (get_pts_le_nonconn_adv_enabled env
                      || get_pts_le_conn_nondisc_adv_enabled env)
               then _ else data).
  assert (Hsent : sent = SetData_flags env inst is_scan_rsp ++ data).
  { subst sent. unfold SetData_flags, IsConnectable.
    destruct (negb is_scan_rsp && is_connectable (advertising_event_properties inst)
              || (get_pts_le_nonconn_adv_enabled env
                  || get_pts_le_conn_nondisc_adv_enabled env)); [| done].
    by destruct (get_pts_le_conn_nondisc_adv_enabled env), (duration inst =? 0). }
  rewrite Hsent. clear sent Hsent.
  assert (Hstore :
    (if is_scan_rsp
     then update_inst inst_id (fun i => set_scan_response_data_enc []
                                          (set_scan_response_data data i))
     else update_inst inst_id (fun i => set_advertise_data_enc [] (set_advertise_data data i)))
    = update_inst inst_id (SetData_stored is_scan_rsp data)).
  { unfold SetData_stored. by destruct is_scan_rsp. }
  rewrite Hstore. clear Hstore.
  assert (Hslot1 : slot m1 inst_id (SetData_stored is_scan_rsp data inst))
    by (subst m1; slot_tac).
  destruct ((Z.of_nat (length data) >? EXT_ADV_DATA_LEN_MAX) && IsEnabled inst).
  - unfold hci_Enable. rewrite issue_then.
    erewrite update_then by done. fold m1.
    rewrite (with_inst_slot _ _ _ _ Hslot1). unfold try. rewrite Htx, Hpatch, Hid.
    reflexivity.
  - rewrite skip_then. erewrite update_then by done. fold m1.
    rewrite (with_inst_slot _ _ _ _ Hslot1). unfold try. rewrite Htx, Hpatch.
    reflexivity.
Qed.

Lemma SetData_flags_bytes (env : Environment) (inst : AdvertisingInstance)
    (is_scan_rsp : bool) (data : list Z) :
  bytes data -> bytes (SetData_flags env inst is_scan_rsp ++ data).
Proof.
  intros Hdata. apply Forall_app. split; [| done]. unfold SetData_flags.
  destruct (_ || _); [| constructor].
  repeat constructor; try done;
    by destruct (get_pts_le_conn_nondisc_adv_enabled env), (duration inst =? 0).
Qed.

(** The payload [SetData] sends: the flags, untouched, and the data with
    the TX power filled in. *)
Lemma SetData_payload (env : Environment) (inst : AdvertisingInstance) (is_scan_rsp : bool)
    (data : list Z) :
  bytes data ->
  let flags := SetData_flags env inst is_scan_rsp in
  exists payload : list Z,
    patch_tx_power (tx_power inst) (flags ++ data) = Ok payload
    /\ length payload = (length flags + length data)%nat
    /\ take (length flags) payload = flags.
Proof.
  intros Hdata flags.
  destruct (fill_tx_power_spec (tx_power inst) (length (flags ++ data)) (flags ++ data) 0)
    as (out & Hrun & _ & Hsize & _ & Hframe);
    [by apply SetData_flags_bytes | lia | lia |].
  exists out. split; [exact Hrun |]. split; [by rewrite Hsize, length_app |].
  subst flags. unfold SetData_flags in *.
  destruct (_ || _); [| by rewrite take_0].
  set (v := if get_pts_le_conn_nondisc_adv_enabled env then _ else _) in *.
  destruct out as [| a [| b [| c out]]]; try (cbn in Hsize; lia).
  destruct (Hframe 0%nat) as [H0 | (? & _)]; [| lia].
  destruct (Hframe 1%nat) as [H1 | (? & _)]; [| lia].
  cbn in H0, H1. simplify_eq.
  destruct (Hframe 2%nat) as [H2 | (_ & Htype & _)]; [| by cbn in Htype].
  cbn in H2. by simplify_eq.
Qed.

(** X24. Advertising data without an encrypted part, for a set that need not
    be stopped for the write, with the PTS options of the stack configuration
    off: [SetData] stores the data as given and sends,
    in chunks, the data with the TX power filled in; before the advertise
    data of a connectable set it sends the flags structure, limited
    discoverable when the set has a duration and general discoverable
    otherwise, which it does not store. *)
Theorem SetData_sends_flags (env : Environment) (m : Manager) (inst_id : Z)
    (is_scan_rsp : bool) (data : list Z) (name : nat) (inst : AdvertisingInstance) :
  initialized m = true ->
  inst_id < inst_count m -> slot m inst_id inst ->
  bytes data -> Z.of_nat (length data) + 3 <= INT_MAX ->
  Z.of_nat (length data) <= EXT_ADV_DATA_LEN_MAX \/ IsEnabled inst = false ->
  get_pts_le_nonconn_adv_enabled env = false ->
  get_pts_le_conn_nondisc_adv_enabled env = false ->
  let flags :=
    if negb is_scan_rsp && IsConnectable inst
    then [2; HCI_EIR_FLAGS_TYPE;
          if duration inst =? 0 then BTM_GENERAL_DISCOVERABLE else BTM_LIMITED_DISCOVERABLE]
    else [] in
  exists (payload : list Z) (inst' : AdvertisingInstance),
    patch_tx_power (tx_power inst) (flags ++ data) = Ok payload
    /\ take (length flags) payload = flags
    /\ run (SetData env inst_id is_scan_rsp data [] (client_cb name))
         (repeat (Status 0) (length (chunks_of false payload))) m
       = Ok (with_slot (Z.to_nat inst_id) inst' m,
             map (fun chunk =>
                    Issued (fragment_command false is_scan_rsp (to_uint8 inst_id) chunk))
               (chunks_of false payload)
             ++ [Called (ClientCb name) 0])
    /\ concat (map snd (chunks_of false payload)) = payload
    /\ (if is_scan_rsp then scan_response_data inst' = data /\ advertise_data inst' = advertise_data inst
        else advertise_data inst' = data /\ scan_response_data inst' = scan_response_data inst)
    /\ inst' = SetData_stored is_scan_rsp data inst.
Proof.
  intros Halive Hrange Hslot Hbytes Hfits Hrestart Hpts1 Hpts2 flags.
  assert (Hflags : flags = SetData_flags env inst is_scan_rsp).
  { subst flags. unfold SetData_flags. rewrite Hpts1, Hpts2, orb_false_r.
    by destruct (negb is_scan_rsp && IsConnectable inst). }
  destruct (SetData_payload env inst is_scan_rsp data Hbytes) as (payload & Hpatch & Hsize & Htake).
  rewrite <- Hflags in Hpatch, Hsize, Htake.
  exists payload, (SetData_stored is_scan_rsp data inst).
  assert (Hlen : (length flags <= 3)%nat).
  { subst flags. destruct (negb is_scan_rsp && IsConnectable inst); cbn; lia. }
  split_and!; try done.
  - unfold run. rewrite (SetData_plain env m inst_id is_scan_rsp data payload _ inst)
      by (done || by rewrite <- Hflags).
    assert ((Z.of_nat (length data) >? EXT_ADV_DATA_LEN_MAX) && IsEnabled inst = false) as ->.
    { destruct Hrestart as [Hshort | ->]; [| by rewrite andb_false_r].
      by destruct (Z.gtb_spec (Z.of_nat (length data)) EXT_ADV_DATA_LEN_MAX); [lia |]. }
    apply (run_all_ok (with_slot (Z.to_nat inst_id) (SetData_stored is_scan_rsp data inst) m)
             inst_id false is_scan_rsp payload name); (done || lia).
  - apply chunks_concat; (done || lia).
  - unfold SetData_stored. by destruct is_scan_rsp, inst.
Qed.

Lemma SetData_sends_flags_witness :
  exists (payload : list Z) (inst' : AdvertisingInstance),
    run (SetData example_env 0 false [2; 10; 0] [] (client_cb 1))
      (repeat (Status 0) (length (chunks_of false payload)))
      (with_slot 0 example_enabled_instance example_manager)
    = Ok (with_slot 0 inst' (with_slot 0 example_enabled_instance example_manager),
          map (fun chunk => Issued (fragment_command false false (to_uint8 0) chunk))
            (chunks_of false payload)
          ++ [Called (ClientCb 1) 0])
    /\ take 3 payload = [2; 1; 1]
    /\ advertise_data inst' = [2; 10; 0].
Proof.
  destruct (SetData_sends_flags example_env
              (with_slot 0 example_enabled_instance example_manager) 0 false [2; 10; 0] 1
              example_enabled_instance)
    as (payload & inst' & _ & Htake & Hrun & _ & [Hdata _] & _);
    try reflexivity.
  - repeat constructor; lia.
  - by vm_compute.
  - left. by vm_compute.
  - exists payload, inst'. split; [exact Hrun |]. split; [exact Htake | exact Hdata].
Defined.

(** The completion bound when the set was stopped for the write. *)
Lemma restart_after_write_run (m : Manager) (p_inst : Z) (inst : AdvertisingInstance)
    (name : nat) (s : Z) (replies : list reply) :
  initialized m = true -> slot m p_inst inst ->
  run (restart_after_write p_inst true (client_cb name) 0) (Status s :: replies) m
  = Ok (m, [Issued (EnableCmd true (get_inst_id inst) (duration inst) (maxExtAdvEvents inst));
            Called (ClientCb name) s]).
Proof.
  intros Halive Hslot. unfold run, restart_after_write, through_ptr. cbn [Z.eqb negb andb].
  rewrite Halive, (with_inst_slot _ _ _ _ Hslot). unfold hci_Enable, issue. cbn [bind fst snd].
  rewrite drive_hci. unfold run, client_cb, run_stored, emit. cbn [is_null]. cbn [bind fst snd].
  by destruct replies.
Qed.

(** X25. Advertising data of more than 251 bytes for a set that is enabled:
    [SetData] first switches the set off in the controller, sends the
    chunks and, when all were accepted, switches the set on again with the
    duration and event budget it has, reporting the status of that command;
    when a chunk is refused it reports that status and does not switch the
    set on again, while the instance still counts as enabled. *)
Theorem SetData_restart (env : Environment) (m : Manager) (inst_id : Z)
    (is_scan_rsp : bool) (data : list Z) (name : nat) (inst : AdvertisingInstance) :
  initialized m = true ->
  inst_id < inst_count m -> slot m inst_id inst ->
  bytes data ->
  EXT_ADV_DATA_LEN_MAX < Z.of_nat (length data) -> Z.of_nat (length data) + 3 <= INT_MAX ->
  IsEnabled inst = true ->
  exists (payload : list Z) (inst' : AdvertisingInstance),
    let m' := with_slot (Z.to_nat inst_id) inst' m in
    let chunks := chunks_of false payload in
    let send chunk :=
      Issued (fragment_command false is_scan_rsp (to_uint8 (get_inst_id inst)) chunk) in
    let off := Issued (EnableCmd false inst_id (duration inst) (maxExtAdvEvents inst)) in
    let on := Issued (EnableCmd true (get_inst_id inst) (duration inst)
                        (maxExtAdvEvents inst)) in
    patch_tx_power (tx_power inst) (SetData_flags env inst is_scan_rsp ++ data) = Ok payload
    /\ concat (map snd chunks) = payload
    /\ (forall (s0 s : Z) (rest : list reply),
          run (SetData env inst_id is_scan_rsp data [] (client_cb name))
            (Status s0 :: repeat (Status 0) (length chunks) ++ Status s :: rest) m
          = Ok (m', off :: map send chunks ++ [on; Called (ClientCb name) s]))
    /\ (forall (j : nat) (s0 s : Z) (rest : list reply),
          (j < length chunks)%nat -> s <> 0 ->
          run (SetData env inst_id is_scan_rsp data [] (client_cb name))
            (Status s0 :: repeat (Status 0) j ++ Status s :: rest) m
          = Ok (m', off :: map send (take (S j) chunks) ++ [Called (ClientCb name) s]))
    /\ IsEnabled inst' = true
    /\ inst' = SetData_stored is_scan_rsp data inst.
Proof.
  intros Halive Hrange Hslot Hbytes Hlong Hfits Hen.
  destruct (SetData_payload env inst is_scan_rsp data Hbytes) as (payload & Hpatch & Hsize & _).
  destruct (SetData_stored_fields is_scan_rsp data inst)
    as (_ & Hid & Hdur & Hmax & Hstatus & _).
  exists payload, (SetData_stored is_scan_rsp data inst).
  intros m' chunks send off on.
  assert (Hflags : (length (SetData_flags env inst is_scan_rsp) <= 3)%nat).
  { unfold SetData_flags. destruct (_ || _); cbn; lia. }
  assert (Halive' : initialized m' = true) by done.
  assert (Hslot' : slot m' inst_id (SetData_stored is_scan_rsp data inst))
    by (subst m'; slot_tac).
  assert (Hcall : forall replies : list reply,
    run (SetData env inst_id is_scan_rsp data [] (client_cb name)) replies m
    = (r <- run (DivideAndSendData (get_inst_id inst) payload false
                   (restart_after_write inst_id true (client_cb name))
                   (SetDataAdvDataSender is_scan_rsp)) (tail replies) m' ;;
       Ok (fst r, off :: snd r))).
  { intros replies. unfold run.
    rewrite (SetData_plain env m inst_id is_scan_rsp data payload _ inst) by done.
    rewrite Hen, andb_true_r, Halive.
    destruct (Z.gtb_spec (Z.of_nat (length data)) EXT_ADV_DATA_LEN_MAX); [| lia].
    fold m'. destruct (DivideAndSendData _ _ _ _ _ m') as [[m2 q] |]; [| done].
    cbn [bind fst snd]. by rewrite drive_DoNothing. }
  split_and!; try done.
  - apply chunks_concat; (done || lia).
  - intros s0 s rest. rewrite Hcall. cbn [tail].
    unfold DivideAndSendData, chunks, chunks_of.
    rewrite (chain_all_ok m' (get_inst_id inst) false is_scan_rsp payload
               (restart_after_write inst_id true (client_cb name)) Halive')
      by (done || lia).
    rewrite (restart_after_write_run m' inst_id _ name s rest Halive' Hslot').
    cbn [bind fst snd]. by rewrite Hid, Hdur, Hmax.
  - intros j s0 s rest Hj Hs. rewrite Hcall. cbn [tail].
    unfold DivideAndSendData, chunks, chunks_of.
    rewrite (chain_first_failure m' (get_inst_id inst) false is_scan_rsp payload
               (restart_after_write inst_id true (client_cb name)) Halive')
      by (done || lia).
    unfold restart_after_write. destruct (Z.eqb_spec s 0); [done |]. cbn [negb].
    unfold run, client_cb, run_stored, emit. cbn [is_null]. cbn [bind fst snd]. by destruct rest.
  - unfold IsEnabled in *. by rewrite Hstatus.
Qed.

Lemma SetData_restart_witness :
  exists (payload : list Z) (inst' : AdvertisingInstance),
    run (SetData example_env 0 false (repeat 7 300) [] (client_cb 1))
      (Status 0 :: repeat (Status 0) (length (chunks_of false payload)) ++ [Status 0])
      (with_slot 0 example_enabled_instance example_manager)
    = Ok (with_slot 0 inst' (with_slot 0 example_enabled_instance example_manager),
          Issued (EnableCmd false 0 5 7)
          :: map (fun chunk => Issued (fragment_command false false (to_uint8 0) chunk))
               (chunks_of false payload)
          ++ [Issued (EnableCmd true 0 5 7); Called (ClientCb 1) 0])
    /\ IsEnabled inst' = true.
Proof.
  destruct (SetData_restart example_env
              (with_slot 0 example_enabled_instance example_manager) 0 false (repeat 7 300) 1
              example_enabled_instance)
    as (payload & inst' & _ & _ & Hrun & _ & Hen & _);
    try reflexivity.
  - unfold bytes. apply Forall_forall. intros b Hb.
    apply list_elem_of_In, repeat_spec in Hb. lia.
  - by vm_compute.
  - exists payload, inst'. split; [exact (Hrun 0 0 []) | exact Hen].
Defined.

(** * The legacy start *)

Lemma drive_hci_parameters (c : command) (k : ParametersCb) (s t : Z) (replies : list reply)
    (m : Manager) :
  drive (StatusTxPower s t :: replies) m [HciParameters c k]
  = (r <- run (k s t) replies m ;; Ok (fst r, Issued c :: snd r)).
Proof.
  cbn [drive until_command resume issued app]. unfold run.
  destruct (k s t m) as [[m1 q1] |]; [| done]. cbn [bind fst snd].
  by destruct (drive replies m1 q1) as [[m2 evs] |].
Qed.

Lemma SetParameters_issue (m : Manager) (inst_id : Z) (p_params : tBTM_BLE_ADV_PARAMS)
    (cb : ParametersCb) (inst : AdvertisingInstance) :
  inst_id < inst_count m -> slot m inst_id inst -> in_use inst = true ->
  SetParameters inst_id p_params cb m
  = Ok (with_slot (Z.to_nat inst_id) (SetParameters_stored m p_params inst) m,
        [HciParameters (SetParameters_command m p_params inst) cb]).
Proof.
  intros Hrange Hslot Hused. unfold SetParameters, with_state.
  destruct (Z.geb_spec inst_id (inst_count m)); [lia |].
  rewrite (with_inst_slot _ _ _ _ Hslot), Hused. cbn [negb].
  unfold SetParameters_stored, SetParameters_command.
  destruct inst as [id iu props rt tx dur mx tt oat oa tcb aur pe ai src sr rnd
                    ad sd pd ade sde pde ekv es et bh].
  destruct (rpa_gen_offload_enabled m) eqn:Hoff; steps; reflexivity.
Qed.

Lemma SetParameters_stored_fields (m : Manager) (p_params : tBTM_BLE_ADV_PARAMS)
    (inst : AdvertisingInstance) :
  let inst' := SetParameters_stored m p_params inst in
  in_use inst' = in_use inst /\ get_inst_id inst' = get_inst_id inst
  /\ own_address inst' = own_address inst
  /\ enable_status inst' = enable_status inst
  /\ duration inst' = duration inst
  /\ address_update_required inst' = address_update_required inst
  /\ timeout_timer inst' = timeout_timer inst
  /\ IsConnectable inst' = is_connectable (params_advertising_event_properties p_params).
Proof.
  unfold SetParameters_stored, IsConnectable.
  destruct (to_uint8_low_bits (params_advertising_event_properties p_params)) as [Hconn _].
  destruct inst, (rpa_gen_offload_enabled m); cbn; by rewrite ?Hconn.
Qed.

(** The answer to the only pending command, for a call that left just that. *)
Lemma run_hci (a : Action) (m m1 : Manager) (c : command) (k : MultiAdvCb) (s : Z)
    (replies : list reply) :
  a m = Ok (m1, [Hci c k]) ->
  run a (Status s :: replies) m = (r <- run (k s) replies m1 ;; Ok (fst r, Issued c :: snd r)).
Proof. intros Ha. unfold run at 1. rewrite Ha. cbn [bind fst snd]. apply drive_hci. Qed.

Lemma run_emit (a : Action) (m m1 : Manager) (ev : event) (replies : list reply) :
  a m = Ok (m1, [Emit ev]) -> run a replies m = Ok (m1, [ev]).
Proof. intros Ha. unfold run. rewrite Ha. cbn [bind fst snd]. by destruct replies. Qed.

(** [SetData] without an encrypted part, for a set that is not stopped for
    the write, under any completion. *)
Lemma SetData_chain (env : Environment) (m : Manager) (inst_id : Z) (is_scan_rsp : bool)
    (data payload : list Z) (cb : MultiAdvCb) (inst : AdvertisingInstance) :
  initialized m = true -> inst_id < inst_count m -> slot m inst_id inst ->
  IsEnabled inst = false ->
  patch_tx_power (tx_power inst) (SetData_flags env inst is_scan_rsp ++ data) = Ok payload ->
  Z.of_nat (length payload) <= INT_MAX ->
  let m' := with_slot (Z.to_nat inst_id) (SetData_stored is_scan_rsp data inst) m in
  let chunks := chunks_of false payload in
  let send chunk := Issued (fragment_command false is_scan_rsp (to_uint8 inst_id) chunk) in
  (forall replies : list reply,
     run (SetData env inst_id is_scan_rsp data [] cb)
       (repeat (Status 0) (length chunks) ++ replies) m
     = (r <- run (cb 0) replies m' ;; Ok (fst r, map send chunks ++ snd r)))
  /\ (forall (j : nat) (s : Z) (replies : list reply),
        (j < length chunks)%nat -> s <> 0 ->
        run (SetData env inst_id is_scan_rsp data [] cb)
          (repeat (Status 0) j ++ Status s :: replies) m
        = (r <- run (cb s) replies m' ;; Ok (fst r, map send (take (S j) chunks) ++ snd r))).
Proof.
  intros Halive Hrange Hslot Hoff Hpatch Hfits m' chunks send.
  assert (Hcall : forall replies : list reply,
    run (SetData env inst_id is_scan_rsp data [] cb) replies m
    = run (DivideAndSendData inst_id payload false cb (SetDataAdvDataSender is_scan_rsp))
        replies m').
  { intros replies. unfold run.
    rewrite (SetData_plain env m inst_id is_scan_rsp data payload _ inst) by done.
    by rewrite Hoff, andb_false_r. }
  assert (Halive' : initialized m' = true) by done.
  split.
  - intros replies. rewrite Hcall. unfold DivideAndSendData, chunks, chunks_of.
    apply (chain_all_ok m' inst_id false is_scan_rsp payload cb Halive'); (done || lia).
  - intros j s replies Hj Hs. rewrite Hcall. unfold DivideAndSendData, chunks, chunks_of.
    apply (chain_first_failure m' inst_id false is_scan_rsp payload cb Halive');
      (done || lia).
Qed.

Section LegacyStart.

Variable env : Environment.
Variable m : Manager.
Variable advertiser_id : Z.
Variable name : nat.
Variable params : tBTM_BLE_ADV_PARAMS.
Variables advertise_data_ scan_response_data_ : list Z.
Variable duration_ : Z.
Variable timeout_cb_ : StoredCb.
Variable inst : AdvertisingInstance.

Hypothesis alive : initialized m = true.
Hypothesis in_range : advertiser_id < inst_count m.
Hypothesis at_id : slot m advertiser_id inst.
Hypothesis used : in_use inst = true.
Hypothesis not_enabled : IsEnabled inst = false.
Hypothesis adv_bytes : bytes advertise_data_.
Hypothesis rsp_bytes : bytes scan_response_data_.
Hypothesis adv_fits : Z.of_nat (length advertise_data_) + 3 <= INT_MAX.
Hypothesis rsp_fits : Z.of_nat (length scan_response_data_) + 3 <= INT_MAX.

Let c : LegacyCreatorParams :=
  {| l_inst_id := advertiser_id;
     l_cb := client_cb name;
     l_params := params;
     l_advertise_data := advertise_data_;
     l_advertise_data_enc := [];
     l_scan_response_data := scan_response_data_;
     l_scan_response_data_enc := [];
     l_duration := duration_;
     l_timeout_cb := timeout_cb_ |}.
Let start : Action :=
  StartAdvertising env advertiser_id (client_cb name) params advertise_data_
    scan_response_data_ duration_ timeout_cb_.
Let p : nat := Z.to_nat advertiser_id.
Let called (s : Z) : event := Called (ClientCb name) s.

(** The instance after each step. *)
Let inst1 : AdvertisingInstance := SetParameters_stored m params inst.
Let inst2 (tx : Z) : AdvertisingInstance := set_tx_power tx inst1.
Let inst3 (tx : Z) : AdvertisingInstance := SetData_stored false advertise_data_ (inst2 tx).
Let inst4 (tx : Z) : AdvertisingInstance := SetData_stored true scan_response_data_ (inst3 tx).

Lemma legacy_failed (K : MultiAdvCb) (s : Z) (m' : Manager) (replies : list reply) :
  initialized m' = true -> s <> 0 ->
  K = StartAdvertising_random_address_cb env c \/ K = StartAdvertising_advertise_data_cb env c
  \/ K = StartAdvertising_scan_response_data_cb env c ->
  run (K s) replies m' = Ok (m', [called s]).
Proof.
  intros Halive Hs HK. apply run_emit.
  destruct HK as [-> | [-> | ->]];
    unfold StartAdvertising_random_address_cb, StartAdvertising_advertise_data_cb,
      StartAdvertising_scan_response_data_cb, with_state;
    rewrite Halive; cbn [negb]; by destruct (Z.eqb_spec s 0).
Qed.

Lemma legacy_start (s tx : Z) (replies : list reply) :
  run start (StatusTxPower s tx :: replies) m
  = (r <- run (StartAdvertising_parameters_cb env c s tx) replies (with_slot p inst1 m) ;;
     Ok (fst r, Issued (SetParameters_command m params inst) :: snd r)).
Proof.
  unfold run at 1, start, StartAdvertising. cbn [l_inst_id l_params].
  rewrite (SetParameters_issue m advertiser_id params _ inst) by done.
  cbn [bind fst snd]. apply drive_hci_parameters.
Qed.

Lemma legacy_parameters_failed (s tx : Z) (replies : list reply) :
  s <> 0 ->
  run (StartAdvertising_parameters_cb env c s tx) replies (with_slot p inst1 m)
  = Ok (with_slot p inst1 m, [called s]).
Proof.
  intros Hs. apply run_emit. unfold StartAdvertising_parameters_cb, with_state.
  cbn [initialized with_slot set_adv_inst]. rewrite alive. cbn [negb].
  by destruct (Z.eqb_spec s 0).
Qed.

Lemma legacy_parameters (tx s : Z) (replies : list reply) :
  run (StartAdvertising_parameters_cb env c 0 tx) (Status s :: replies) (with_slot p inst1 m)
  = (r <- run (StartAdvertising_random_address_cb env c s) replies (with_slot p (inst2 tx) m) ;;
     Ok (fst r, Issued (SetRandomAddressCmd advertiser_id (own_address inst)) :: snd r)).
Proof.
  apply run_hci. unfold StartAdvertising_parameters_cb, with_state.
  cbn [initialized with_slot set_adv_inst]. rewrite alive. cbn [negb Z.eqb l_inst_id].
  assert (Hslot1 : slot (with_slot p inst1 m) advertiser_id inst1) by (subst p; slot_tac).
  erewrite update_then by exact Hslot1. rewrite with_slot_twice.
  assert (Hslot2 : slot (with_slot p (set_tx_power tx inst1) m) advertiser_id
                     (set_tx_power tx inst1)) by (subst p; slot_tac).
  rewrite (with_inst_slot _ _ _ _ Hslot2). unfold issue.
  destruct (SetParameters_stored_fields m params inst) as (_ & _ & Hoa & _).
  fold inst1 in Hoa. subst inst2.
  replace (own_address (set_tx_power tx inst1)) with (own_address inst);
    [done | rewrite <- Hoa; by destruct inst1].
Qed.

Lemma inst2_fields (tx : Z) :
  tx_power (inst2 tx) = tx /\ IsEnabled (inst2 tx) = false
  /\ IsConnectable (inst2 tx) = is_connectable (params_advertising_event_properties params)
  /\ duration (inst2 tx) = duration inst.
Proof.
  destruct (SetParameters_stored_fields m params inst)
    as (_ & _ & _ & Hen & Hdur & _ & _ & Hconn).
  fold inst1 in Hen, Hdur, Hconn. subst inst2. unfold IsEnabled, IsConnectable in *.
  cbv beta. rewrite <- Hconn, <- Hdur, <- not_enabled, <- Hen. by destruct inst1.
Qed.

Lemma inst3_fields (tx : Z) :
  tx_power (inst3 tx) = tx /\ IsEnabled (inst3 tx) = false.
Proof.
  destruct (inst2_fields tx) as (Htx & Hen & _).
  destruct (SetData_stored_fields false advertise_data_ (inst2 tx)) as (Htx' & _ & _ & _ & Hen' & _).
  unfold IsEnabled in *. subst inst3. cbv beta. by rewrite Htx', Hen'.
Qed.

(** The advertise data go out after the random address was set. *)
Lemma legacy_advertise_data (tx : Z) (payload : list Z) :
  patch_tx_power tx (SetData_flags env (inst2 tx) false ++ advertise_data_) = Ok payload ->
  Z.of_nat (length payload) <= INT_MAX ->
  let chunks := chunks_of false payload in
  let send chunk := Issued (fragment_command false false (to_uint8 advertiser_id) chunk) in
  (forall replies : list reply,
     run (StartAdvertising_random_address_cb env c 0)
       (repeat (Status 0) (length chunks) ++ replies) (with_slot p (inst2 tx) m)
     = (r <- run (StartAdvertising_advertise_data_cb env c 0) replies
               (with_slot p (inst3 tx) m) ;;
        Ok (fst r, map send chunks ++ snd r)))
  /\ (forall (j : nat) (s : Z) (replies : list reply),
        (j < length chunks)%nat -> s <> 0 ->
        run (StartAdvertising_random_address_cb env c 0)
          (repeat (Status 0) j ++ Status s :: replies) (with_slot p (inst2 tx) m)
        = Ok (with_slot p (inst3 tx) m, map send (take (S j) chunks) ++ [called s])).
Proof.
  intros Hpatch Hfits chunks send.
  destruct (inst2_fields tx) as (Htx & Hen & _).
  assert (Hslot2 : slot (with_slot p (inst2 tx) m) advertiser_id (inst2 tx))
    by (subst p; slot_tac).
  destruct (SetData_chain env (with_slot p (inst2 tx) m) advertiser_id false advertise_data_
              payload (StartAdvertising_advertise_data_cb env c) (inst2 tx))
    as [Hall Hfail]; try done; [by rewrite Htx |].
  assert (Hcall : forall replies : list reply,
    run (StartAdvertising_random_address_cb env c 0) replies (with_slot p (inst2 tx) m)
    = run (SetData env advertiser_id false advertise_data_ []
             (StartAdvertising_advertise_data_cb env c)) replies (with_slot p (inst2 tx) m)).
  { intros replies. unfold run, StartAdvertising_random_address_cb, with_state.
    cbn [initialized with_slot set_adv_inst]. by rewrite alive. }
  fold p in Hall, Hfail. rewrite with_slot_twice in Hall, Hfail.
  split.
  - intros replies. rewrite Hcall. apply Hall.
  - intros j s replies Hj Hs. rewrite Hcall, Hfail by done.
    rewrite legacy_failed; [done | done | done | by right; left].
Qed.

(** The scan response goes out after the advertise data. *)
Lemma legacy_scan_response (tx : Z) (payload : list Z) :
  patch_tx_power tx (SetData_flags env (inst3 tx) true ++ scan_response_data_) = Ok payload ->
  Z.of_nat (length payload) <= INT_MAX ->
  let chunks := chunks_of false payload in
  let send chunk := Issued (fragment_command false true (to_uint8 advertiser_id) chunk) in
  (forall replies : list reply,
     run (StartAdvertising_advertise_data_cb env c 0)
       (repeat (Status 0) (length chunks) ++ replies) (with_slot p (inst3 tx) m)
     = (r <- run (StartAdvertising_scan_response_data_cb env c 0) replies
               (with_slot p (inst4 tx) m) ;;
        Ok (fst r, map send chunks ++ snd r)))
  /\ (forall (j : nat) (s : Z) (replies : list reply),
        (j < length chunks)%nat -> s <> 0 ->
        run (StartAdvertising_advertise_data_cb env c 0)
          (repeat (Status 0) j ++ Status s :: replies) (with_slot p (inst3 tx) m)
        = Ok (with_slot p (inst4 tx) m, map send (take (S j) chunks) ++ [called s])).
Proof.
  intros Hpatch Hfits chunks send.
  destruct (inst3_fields tx) as (Htx & Hen).
  assert (Hslot3 : slot (with_slot p (inst3 tx) m) advertiser_id (inst3 tx))
    by (subst p; slot_tac).
  destruct (SetData_chain env (with_slot p (inst3 tx) m) advertiser_id true scan_response_data_
              payload (StartAdvertising_scan_response_data_cb env c) (inst3 tx))
    as [Hall Hfail]; try done; [by rewrite Htx |].
  assert (Hcall : forall replies : list reply,
    run (StartAdvertising_advertise_data_cb env c 0) replies (with_slot p (inst3 tx) m)
    = run (SetData env advertiser_id true scan_response_data_ []
             (StartAdvertising_scan_response_data_cb env c)) replies
        (with_slot p (inst3 tx) m)).
  { intros replies. unfold run, StartAdvertising_advertise_data_cb, with_state.
    cbn [initialized with_slot set_adv_inst]. by rewrite alive. }
  fold p in Hall, Hfail. rewrite with_slot_twice in Hall, Hfail.
  split.
  - intros replies. rewrite Hcall. apply Hall.
  - intros j s replies Hj Hs. rewrite Hcall, Hfail by done.
    rewrite legacy_failed; [done | done | done | by right; right].
Qed.

Let flags (is_scan_rsp : bool) : list Z :=
  SetData_flags env
    (set_advertising_event_properties (params_advertising_event_properties params) inst)
    is_scan_rsp.

Lemma legacy_flags (tx : Z) :
  SetData_flags env (inst2 tx) false = flags false
  /\ SetData_flags env (inst3 tx) true = flags true.
Proof.
  destruct (inst2_fields tx) as (_ & _ & Hconn & Hdur).
  subst flags. unfold SetData_flags. cbv beta.
  assert (Hdur' : duration (set_advertising_event_properties
                              (params_advertising_event_properties params) inst)
                  = duration inst) by (by destruct inst).
  assert (Hdur3 : duration (inst3 tx) = duration inst).
  { destruct (SetData_stored_fields false advertise_data_ (inst2 tx)) as (_ & _ & Hd & _).
    change (duration (inst3 tx) = duration (inst2 tx)) in Hd. by rewrite Hd. }
  rewrite Hconn, Hdur, Hdur', Hdur3. cbn [negb andb].
  split; [| done].
  replace (IsConnectable (set_advertising_event_properties
                            (params_advertising_event_properties params) inst))
    with (is_connectable (params_advertising_event_properties params));
    [done | by destruct inst].
Qed.

Lemma legacy_payloads (tx : Z) :
  exists payload1 payload2 : list Z,
    patch_tx_power tx (flags false ++ advertise_data_) = Ok payload1
    /\ patch_tx_power tx (flags true ++ scan_response_data_) = Ok payload2
    /\ Z.of_nat (length payload1) <= INT_MAX /\ Z.of_nat (length payload2) <= INT_MAX.
Proof.
  destruct (legacy_flags tx) as [Hf1 Hf2].
  destruct (inst2_fields tx) as (Htx2 & _). destruct (inst3_fields tx) as (Htx3 & _).
  destruct (SetData_payload env (inst2 tx) false advertise_data_ adv_bytes)
    as (payload1 & Hp1 & Hl1 & _).
  destruct (SetData_payload env (inst3 tx) true scan_response_data_ rsp_bytes)
    as (payload2 & Hp2 & Hl2 & _).
  rewrite Htx2, Hf1 in Hp1. rewrite Htx3, Hf2 in Hp2. rewrite Hf1 in Hl1. rewrite Hf2 in Hl2.
  exists payload1, payload2. split_and!; try done.
  - assert (length (flags false) <= 3)%nat; [| lia].
    subst flags. unfold SetData_flags. cbv beta. destruct (_ || _); cbn; lia.
  - assert (length (flags true) <= 3)%nat; [| lia].
    subst flags. unfold SetData_flags. cbv beta. destruct (_ || _); cbn; lia.
Qed.

(** X26. The legacy [StartAdvertising] on an instance in use that is not
    enabled, when a step is refused: the callback is run once with the status
    of the step that failed (SetParameters, SetRandomAddress, a chunk of the
    advertise data or of the scan response), nothing further is sent, and the
    instance stays in use: unlike [StartAdvertisingSet], the chain does not
    unregister it. *)
Theorem StartAdvertising_failure (tx s : Z) (rest : list reply) :
  s <> 0 ->
  let call :=
    StartAdvertising env advertiser_id (client_cb name) params advertise_data_
      scan_response_data_ duration_ timeout_cb_ in
  let parameters := Issued (SetParameters_command m params inst) in
  let address := Issued (SetRandomAddressCmd advertiser_id (own_address inst)) in
  let send is_scan_rsp chunk :=
    Issued (fragment_command false is_scan_rsp (to_uint8 advertiser_id) chunk) in
  let kept (result : result (Manager * list event)) (evs : list event) :=
    exists inst' : AdvertisingInstance,
      result = Ok (with_slot (Z.to_nat advertiser_id) inst' m, evs)
      /\ in_use inst' = true /\ IsEnabled inst' = false in
  exists payload1 payload2 : list Z,
    patch_tx_power tx (flags false ++ advertise_data_) = Ok payload1
    /\ patch_tx_power tx (flags true ++ scan_response_data_) = Ok payload2
    /\ kept (run call (StatusTxPower s tx :: rest) m)
         [parameters; Called (ClientCb name) s]
    /\ kept (run call (StatusTxPower 0 tx :: Status s :: rest) m)
         [parameters; address; Called (ClientCb name) s]
    /\ (forall j : nat, (j < length (chunks_of false payload1))%nat ->
          kept (run call (StatusTxPower 0 tx :: Status 0 :: repeat (Status 0) j
                          ++ Status s :: rest) m)
            ([parameters; address]
             ++ map (send false) (take (S j) (chunks_of false payload1))
             ++ [Called (ClientCb name) s]))
    /\ (forall j : nat, (j < length (chunks_of false payload2))%nat ->
          kept (run call (StatusTxPower 0 tx :: Status 0
                          :: repeat (Status 0) (length (chunks_of false payload1))
                          ++ repeat (Status 0) j ++ Status s :: rest) m)
            ([parameters; address]
             ++ map (send false) (chunks_of false payload1)
             ++ map (send true) (take (S j) (chunks_of false payload2))
             ++ [Called (ClientCb name) s])).
Proof.
  intros Hs call parameters address send kept.
  destruct (legacy_payloads tx) as (payload1 & payload2 & Hp1 & Hp2 & Hl1 & Hl2).
  destruct (legacy_flags tx) as [Hf1 Hf2].
  destruct (legacy_advertise_data tx payload1) as [Hadv Hadv_failed];
    [by rewrite Hf1 | done |].
  destruct (legacy_scan_response tx payload2) as [Hrsp Hrsp_failed];
    [by rewrite Hf2 | done |].
  destruct (SetParameters_stored_fields m params inst) as (Hused1 & _ & _ & Hen1 & _).
  fold inst1 in Hused1, Hen1.
  destruct (inst2_fields tx) as (_ & Hen2 & _). destruct (inst3_fields tx) as (_ & Hen3).
  assert (Hused2 : in_use (inst2 tx) = true).
  { subst inst2. cbv beta. rewrite <- used, <- Hused1. by destruct inst1. }
  assert (Hused3 : in_use (inst3 tx) = true).
  { destruct (SetData_stored_fields false advertise_data_ (inst2 tx))
      as (_ & _ & _ & _ & _ & Hu).
    change (in_use (inst3 tx) = in_use (inst2 tx)) in Hu. by rewrite Hu. }
  assert (Hkept4 : in_use (inst4 tx) = true /\ IsEnabled (inst4 tx) = false).
  { destruct (SetData_stored_fields true scan_response_data_ (inst3 tx))
      as (_ & _ & _ & _ & Hen & Hu).
    change (enable_status (inst4 tx) = enable_status (inst3 tx)) in Hen.
    change (in_use (inst4 tx) = in_use (inst3 tx)) in Hu.
    unfold IsEnabled in *. by rewrite Hen, Hu. }
  exists payload1, payload2. split; [done |]. split; [done |].
  subst kept call. fold start. cbv beta. split_and!.
  - exists inst1. rewrite legacy_start, legacy_parameters_failed by done.
    split_and!; [done | by rewrite Hused1 | unfold IsEnabled in *; by rewrite Hen1].
  - exists (inst2 tx). rewrite legacy_start, legacy_parameters.
    rewrite legacy_failed; [| done | done | by left].
    by split_and!.
  - intros j Hj. exists (inst3 tx).
    rewrite legacy_start, legacy_parameters, Hadv_failed by done.
    by split_and!.
  - intros j Hj. exists (inst4 tx).
    rewrite legacy_start, legacy_parameters, Hadv, Hrsp_failed by done.
    split; [| done]. cbn [bind fst snd app]. reflexivity.
Qed.

Hypothesis own_id : get_inst_id inst = advertiser_id.
Hypothesis direct : rpa_gen_offload_enabled m = true \/ address_update_required inst = false.

Lemma inst4_fields (tx : Z) :
  in_use (inst4 tx) = true /\ inst_id (inst4 tx) = advertiser_id
  /\ address_update_required (inst4 tx) = address_update_required inst
  /\ timeout_timer (inst4 tx) = timeout_timer inst
  /\ tx_power (inst4 tx) = tx
  /\ advertise_data (inst4 tx) = advertise_data_
  /\ scan_response_data (inst4 tx) = scan_response_data_
  /\ advertising_event_properties (inst4 tx)
     = to_uint8 (params_advertising_event_properties params).
Proof.
  subst inst4 inst3 inst2 inst1. unfold SetData_stored, SetParameters_stored. cbv beta.
  unfold get_inst_id in own_id.
  destruct inst, (rpa_gen_offload_enabled m); cbn in *; by subst.
Qed.

(** The set is enabled after the scan response. *)
Lemma legacy_enable (tx s : Z) (replies : list reply) :
  let d := to_uint16 duration_ in
  let timer := timeout_timer_of advertiser_id in
  exists inst' : AdvertisingInstance,
    run (StartAdvertising_scan_response_data_cb env c 0) (Status s :: replies)
      (with_slot p (inst4 tx) m)
    = Ok (with_slot p inst' m,
          (if (d =? 0) && timeout_timer inst then [alarm_cancel timer; alarm_free timer]
           else [])
          ++ [Issued (EnableCmd true advertiser_id d 0); called s]
          ++ (if d =? 0 then []
              else [alarm_new timer;
                    alarm_set_closure timer (d * 10)
                      (DisableOnTimeout advertiser_id timeout_cb_)]))
    /\ in_use inst' = true /\ enable_status inst' = true /\ enable_time inst' = Now env
    /\ duration inst' = d /\ maxExtAdvEvents inst' = 0
    /\ timeout_timer inst' = negb (d =? 0)
    /\ tx_power inst' = tx
    /\ advertise_data inst' = advertise_data_
    /\ scan_response_data inst' = scan_response_data_
    /\ advertising_event_properties inst'
       = to_uint8 (params_advertising_event_properties params).
Proof.
  intros d timer.
  destruct (inst4_fields tx) as (Hused & Hid & Haur & Htimer & Htx & Had & Hsr & Hprops).
  set (m4 := with_slot p (inst4 tx) m).
  assert (Hslot4 : slot m4 advertiser_id (inst4 tx)) by (subst m4 p; slot_tac).
  set (inst5 := set_maxExtAdvEvents 0
                  (set_duration d
                     (if true && (negb (d =? 0) || negb (0 =? 0))
                      then set_timeout_cb timeout_cb_ (inst4 tx) else inst4 tx))).
  assert (Hcall : StartAdvertising_scan_response_data_cb env c 0 m4
                  = EnableFinish env advertiser_id true (client_cb name) 0
                      (with_slot p inst5 m4)).
  { unfold StartAdvertising_scan_response_data_cb, with_state.
    assert (initialized m4 = true) as -> by done.
    cbn [negb Z.eqb l_inst_id l_cb l_duration l_timeout_cb]. fold d.
    apply Enable_direct; try done.
    destruct direct as [Hoff | Hno]; [by left | right; right; by rewrite Haur]. }
  destruct (stored_budgets true d 0 timeout_cb_ (inst4 tx)) as (Hdur5 & Hmax5 & Hid5 & Htimer5).
  fold inst5 in Hdur5, Hmax5, Hid5, Htimer5.
  assert (Hslot5 : slot (with_slot p inst5 m4) advertiser_id inst5) by (subst m4 p; slot_tac).
  rewrite (EnableFinish_run env advertiser_id true (client_cb name) 0 _ inst5 Hslot5) in Hcall.
  cbv zeta in Hcall. rewrite Hdur5, Hmax5, Hid5, Hid, Htimer5, Htimer in Hcall.
  cbn [andb] in Hcall. fold p in Hcall. subst m4. rewrite !with_slot_twice in Hcall.
  unfold run. rewrite Hcall. cbn [bind fst snd]. clear Hcall.
  assert (Hfields5 : in_use inst5 = true /\ tx_power inst5 = tx
                     /\ advertise_data inst5 = advertise_data_
                     /\ scan_response_data inst5 = scan_response_data_
                     /\ advertising_event_properties inst5
                        = to_uint8 (params_advertising_event_properties params)
                     /\ timeout_cb inst5
                        = (if d =? 0 then timeout_cb (inst4 tx) else timeout_cb_)).
  { subst inst5. destruct (inst4 tx), (d =? 0); cbn in *; by subst. }
  destruct Hfields5 as (Hused5 & Htx5 & Had5 & Hsr5 & Hprops5 & Htcb5).
  destruct (Z.eqb_spec d 0) as [Hd | Hd]; cbn [negb andb].
  - set (inst6 := set_enable_status true (set_enable_time (Now env) _)).
    exists inst6. split.
    + destruct (timeout_timer inst); cbn [app]; rewrite ?drive_emit, drive_hci;
        unfold run, client_cb, run_stored, emit; cbn [is_null]; cbn [bind fst snd];
        by destruct replies.
    + subst inst6. destruct (timeout_timer inst); destruct inst5; cbn in *; by subst.
  - rewrite Htcb5. cbn [app].
    set (inst6 := set_enable_status true (set_enable_time (Now env) (id inst5))).
    exists (set_timeout_timer true inst6). split.
    + rewrite drive_hci. unfold run, weak.
      assert (initialized (with_slot p inst6 m) = true) as -> by done.
      unfold EnableWithTimerCb, client_cb, run_stored. cbn [is_null].
      assert (Hslot6 : slot (with_slot p inst6 m) advertiser_id inst6)
        by (subst p; slot_tac).
      rewrite emit_then. erewrite update_then by exact Hslot6.
      rewrite emit_then. unfold emit. cbn [bind fst snd]. fold p.
      rewrite with_slot_twice, !drive_emit. by destruct replies.
    + subst inst6. unfold id. destruct inst5; cbn in *; by subst.
Qed.


(** X27. The legacy [StartAdvertising] on an instance in use that is not
    enabled and needs no new address, when every step before the last is
    accepted: SetParameters, SetRandomAddress with the address of the
    instance, the advertise data (after the flags structure, with the TX
    power the controller reported filled in), the scan response and Enable
    go out in this order; the flags are chosen by the duration the instance
    had before, as the new one is stored only by the final Enable, which
    gets the duration as 16 bits and no event limit. The callback is run
    once, with the status of that Enable, and then the timeout alarm is set
    when the duration is not 0. *)
Theorem StartAdvertising_sequence (tx s : Z) (rest : list reply) :
  let call :=
    StartAdvertising env advertiser_id (client_cb name) params advertise_data_
      scan_response_data_ duration_ timeout_cb_ in
  let d := to_uint16 duration_ in
  let timer := timeout_timer_of advertiser_id in
  let send is_scan_rsp chunk :=
    Issued (fragment_command false is_scan_rsp (to_uint8 advertiser_id) chunk) in
  exists (payload1 payload2 : list Z) (inst' : AdvertisingInstance),
    patch_tx_power tx (flags false ++ advertise_data_) = Ok payload1
    /\ patch_tx_power tx (flags true ++ scan_response_data_) = Ok payload2
    /\ run call
         (StatusTxPower 0 tx :: Status 0
          :: repeat (Status 0) (length (chunks_of false payload1))
          ++ repeat (Status 0) (length (chunks_of false payload2))
          ++ Status s :: rest) m
       = Ok (with_slot (Z.to_nat advertiser_id) inst' m,
             [Issued (SetParameters_command m params inst);
              Issued (SetRandomAddressCmd advertiser_id (own_address inst))]
             ++ map (send false) (chunks_of false payload1)
             ++ map (send true) (chunks_of false payload2)
             ++ (if (d =? 0) && timeout_timer inst
                 then [alarm_cancel timer; alarm_free timer] else [])
             ++ [Issued (EnableCmd true advertiser_id d 0); Called (ClientCb name) s]
             ++ (if d =? 0 then []
                 else [alarm_new timer;
                       alarm_set_closure timer (d * 10)
                         (DisableOnTimeout advertiser_id timeout_cb_)]))
    /\ in_use inst' = true /\ enable_status inst' = true /\ enable_time inst' = Now env
    /\ duration inst' = d /\ maxExtAdvEvents inst' = 0
    /\ tx_power inst' = tx
    /\ advertise_data inst' = advertise_data_
    /\ scan_response_data inst' = scan_response_data_.
Proof.
  intros call d timer send.
  destruct (legacy_payloads tx) as (payload1 & payload2 & Hp1 & Hp2 & Hl1 & Hl2).
  destruct (legacy_flags tx) as [Hf1 Hf2].
  destruct (legacy_advertise_data tx payload1) as [Hadv _]; [by rewrite Hf1 | done |].
  destruct (legacy_scan_response tx payload2) as [Hrsp _]; [by rewrite Hf2 | done |].
  destruct (legacy_enable tx s rest)
    as (inst' & Hrun & Hused & Hen & Htime & Hdur & Hmax & _ & Htx & Had & Hsr & _).
  exists payload1, payload2, inst'. split; [done |]. split; [done |].
  split; [| by split_and!].
  subst call. fold start.
  rewrite legacy_start, legacy_parameters, Hadv, Hrsp, Hrun.
  cbn [bind fst snd app]. reflexivity.
Qed.

End LegacyStart.

Lemma StartAdvertising_failure_witness :
  exists inst' : AdvertisingInstance,
    run (StartAdvertising example_env 0 (client_cb 1) example_params [2; 10; 0] [] 10
           (ClientCb 2))
      [StatusTxPower 0 (-7); Status 12] example_registered_manager
    = Ok (with_slot 0 inst' example_registered_manager,
          [Issued (SetParameters_command example_registered_manager example_params
                     (set_in_use true
                        (AdvertisingInstance_new example_env 0 example_indeterminate)));
           Issued (SetRandomAddressCmd 0 kEmpty);
           Called (ClientCb 1) 12])
    /\ in_use inst' = true.
Proof.
  destruct (StartAdvertising_failure example_env example_registered_manager 0 1
              example_params [2; 10; 0] [] 10 (ClientCb 2)
              (set_in_use true (AdvertisingInstance_new example_env 0 example_indeterminate)))
    with (tx := -7) (s := 12) (rest := @nil reply)
    as (payload1 & payload2 & _ & _ & _ & (inst' & Hrun & Hused & _) & _);
    try reflexivity.
  - repeat constructor; lia.
  - constructor.
  - by vm_compute.
  - by vm_compute.
  - done.
  - exists inst'. split; [exact Hrun | exact Hused].
Defined.

Lemma StartAdvertising_sequence_witness :
  exists (payload1 payload2 : list Z) (inst' : AdvertisingInstance) (evs : list event),
    run (StartAdvertising example_env 0 (client_cb 1) example_params [2; 10; 0] [] 10
           (ClientCb 2))
      (StatusTxPower 0 (-7) :: Status 0
       :: repeat (Status 0) (length (chunks_of false payload1))
       ++ repeat (Status 0) (length (chunks_of false payload2))
       ++ [Status 0]) example_registered_manager
    = Ok (with_slot 0 inst' example_registered_manager, evs)
    /\ patch_tx_power (-7) ([2; 1; 2] ++ [2; 10; 0]) = Ok payload1
    /\ enable_status inst' = true /\ duration inst' = 10.
Proof.
  destruct (StartAdvertising_sequence example_env example_registered_manager 0 1
              example_params [2; 10; 0] [] 10 (ClientCb 2)
              (set_in_use true (AdvertisingInstance_new example_env 0 example_indeterminate)))
    with (tx := -7) (s := 0) (rest := @nil reply)
    as (payload1 & payload2 & inst' & Hp1 & _ & Hrun & _ & Hen & _ & Hdur & _);
    try reflexivity.
  - repeat constructor; lia.
  - constructor.
  - by vm_compute.
  - by vm_compute.
  - by right.
  - exists payload1, payload2, inst'. eexists. split; [exact Hrun |].
    split; [exact Hp1 |]. split; [exact Hen | exact Hdur].
Defined.


(** * Enable, with and without a rotation of the address *)

(** The end of every [Enable] that is not refused: [EnableFinish] issues the
    command, and its answer reaches the callback once. *)
Lemma EnableFinish_completes (env : Environment) (m : Manager) (p_inst : Z) (name : nat)
    (status0 status : Z) (inst0 : AdvertisingInstance) (replies : list reply) :
  initialized m = true -> slot m p_inst inst0 -> get_inst_id inst0 = p_inst ->
  exists (m' : Manager) (evs : list event),
    run (EnableFinish env p_inst true (client_cb name) status0) (Status status :: replies) m
    = Ok (m', evs)
    /\ client_calls name evs = [status]
    /\ commands evs = [EnableCmd true p_inst (duration inst0) (maxExtAdvEvents inst0)].
Proof.
  intros Halive Hslot Hid. unfold run.
  rewrite (EnableFinish_run env p_inst true (client_cb name) status0 m inst0 Hslot).
  cbv zeta. unfold get_inst_id in Hid. rewrite Hid. cbn [bind fst snd andb].
  destruct (duration inst0 =? 0), (timeout_timer inst0); cbn [negb andb app id].
  all: rewrite ?drive_emit, ?drive_hci.
  all: unfold run, weak, client_cb, run_stored, EnableWithTimerCb;
    cbn [is_null initialized with_slot set_adv_inst].
  all: rewrite ?Halive.
  all: on_slot.
  all: rewrite ?drive_emit, ?drive_nil; cbn [bind fst snd map].
  all: try (destruct replies; cbn [drive until_command bind fst snd]).
  all: eexists _, _; (split; [reflexivity |]).
  all: cbn; rewrite Nat.eqb_refl; done.
Qed.

(** [ConfigureRpa] when the address is rotated at once, for a set without
    encrypted data: the request for the address, and what its arrival
    leaves behind. *)
Lemma ConfigureRpa_rotation (env : Environment) (m : Manager) (p_inst : Z)
    (inst : AdvertisingInstance) (K : MultiAdvCb) :
  initialized m = true -> slot m p_inst inst ->
  skip_rpa inst = false \/ skip_rpa_count inst <= 0 ->
  rotates_at_once inst = true ->
  any_encrypted_data inst = false ->
  let restart := IsEnabled inst && IsConnectable inst in
  let inst1 := if skip_rpa inst then set_skip_rpa_count 15 inst else inst in
  let id := get_inst_id inst in
  ConfigureRpa env p_inst K m
  = Ok (with_slot (Z.to_nat p_inst) inst1 m, [HciRpa (ConfigureRpa_generated env p_inst K)])
  /\ forall bda : RawAddress,
       ConfigureRpa_generated env p_inst K bda (with_slot (Z.to_nat p_inst) inst1 m)
       = Ok (with_slot (Z.to_nat p_inst) (set_own_address bda inst1) m,
             (if restart then [Hci (EnableCmd false id 0 0) DoNothing] else [])
             ++ [Hci (SetRandomAddressCmd id bda) (fun _ => K 0)]
             ++ (if restart then [Hci (EnableCmd true id 0 0) DoNothing] else [])).
Proof.
  intros Halive Hslot Hthrottle Hnow Henc restart inst1 id.
  unfold any_encrypted_data in Henc.
  apply orb_false_iff in Henc as [Henc Hp].
  apply orb_false_iff in Henc as [Ha Hs].
  apply negb_false_iff in Ha, Hs, Hp.
  unfold rotates_at_once in Hnow. apply negb_true_iff in Hnow.
  assert (Hfirst : skip_rpa inst && (skip_rpa_count inst >? 0) = false).
  { destruct Hthrottle as [-> | Hc]; [done |].
    destruct (Z.gtb_spec (skip_rpa_count inst) 0); [lia | by rewrite andb_false_r]. }
  subst restart inst1 id. revert Hfirst Hnow Ha Hs Hp.
  destruct inst as [iid iu props rt tx dur mx tt oat oa tcb aur pe ai src sr rnd
                    ad sd pd ade sde pde ekv es et bh].
  unfold IsEnabled, IsConnectable, get_inst_id. fields.
  intros Hfirst Hnow Ha Hs Hp.
  split.
  - unfold ConfigureRpa, GenerateRpa.
    rewrite (with_inst_slot _ _ _ _ Hslot). fields. rewrite Hfirst.
    unfold IsEnabled, IsConnectable. fields. rewrite Hnow.
    destruct sr; steps; [reflexivity |].
    by rewrite (with_slot_same m p_inst _ Hslot).
  - intros bda. unfold ConfigureRpa_generated, with_state, AdvertiseRestart, hci_Enable,
      any_encrypted_data, IsEnabled, IsConnectable.
    assert (Halive' : forall i : AdvertisingInstance,
              initialized (with_slot (Z.to_nat p_inst) i m) = true) by done.
    destruct sr; [| rewrite (with_slot_same m p_inst _ Hslot)].
    + steps. rewrite Halive', Ha, Hs, Hp. cbn [orb negb]. rewrite orb_false_r.
      destruct es, (is_connectable props); cbn [andb]; steps; rewrite Ha, Hs, Hp; steps; reflexivity.
    + steps. rewrite Halive, Ha, Hs, Hp. cbn [orb negb]. rewrite orb_false_r.
      destruct es, (is_connectable props); cbn [andb]; steps; rewrite Ha, Hs, Hp; steps; reflexivity.
Qed.

(** The instance [Enable] hands to [ConfigureRpa]: its arguments stored and
    the pending rotation taken. *)
Lemma Enable_rotating_fields (d me : Z) (tcb : StoredCb) (inst : AdvertisingInstance) :
  let inst1 :=
    set_address_update_required false
      (set_maxExtAdvEvents me
         (set_duration d
            (if true && (negb (d =? 0) || negb (me =? 0))
             then set_timeout_cb tcb inst else inst))) in
  duration inst1 = d /\ maxExtAdvEvents inst1 = me /\ get_inst_id inst1 = get_inst_id inst
  /\ skip_rpa inst1 = skip_rpa inst /\ skip_rpa_count inst1 = skip_rpa_count inst
  /\ IsEnabled inst1 = IsEnabled inst /\ IsConnectable inst1 = IsConnectable inst
  /\ any_encrypted_data inst1 = any_encrypted_data inst.
Proof. destruct inst. by destruct (true && _). Qed.

(** One answer, delivered to the first command of the queue. *)
Lemma drive_answer (e : effect) (r : reply) (replies : list reply) (m : Manager) (q : list effect) :
  (forall ev : event, e <> Emit ev) ->
  drive (r :: replies) m (e :: q)
  = (r1 <- resume e r m ;;
     r2 <- drive replies (fst r1) (q ++ snd r1) ;;
     Ok (fst r2, issued e :: snd r2)).
Proof. intros He. destruct e as [ev | | | |]; [by destruct (He ev) | done ..]. Qed.

(** The bookkeeping of [ConfigureRpa] leaves the handle and the budgets of
    the instance alone. *)
Lemma ConfigureRpa_keeps_budgets (inst : AdvertisingInstance) (f : AdvertisingInstance -> AdvertisingInstance) :
  (exists b, f = set_address_update_required b) \/ (exists bda, f = set_own_address bda) ->
  let inst' := f (if skip_rpa inst then set_skip_rpa_count 15 inst else inst) in
  get_inst_id inst' = get_inst_id inst /\ duration inst' = duration inst
  /\ maxExtAdvEvents inst' = maxExtAdvEvents inst.
Proof.
  intros [[b ->] | [bda ->]]; cbv zeta; destruct (skip_rpa inst); by destruct inst.
Qed.

(** C7 (amended). [Enable] with an instance id of inst_count or more returns
    without running the callback at all. With an id below inst_count, the
    callback is run at once with MULTI_ADV_FAILURE when the instance is not
    in use. When it is in use and no address rotation is due (RPA offload,
    disabling, or address_update_required clear), the callback is run
    exactly once, with the status of the one Enable command, when that
    command completes. When a rotation is due, [Enable] goes through
    [ConfigureRpa]: in the broadcast throttle (skip_rpa with a count above
    0) nothing is issued and the callback never runs; for an enabled
    connectable set that is given a budget the rotation is put off and the
    callback is run exactly once with the status of the Enable command;
    otherwise, for a set without encrypted data, the address is generated
    and set first (around a stop and restart of an enabled connectable set),
    and once all commands are answered the callback has run exactly once,
    with the status of the final Enable command. *)
Theorem Enable_completion (env : Environment) (m : Manager) (inst_id : Z) (enable : bool)
    (name : nat) (duration_ maxExtAdvEvents_ : Z) (timeout_cb_ : StoredCb) :
  let call :=
    Enable env inst_id enable (client_cb name) duration_ maxExtAdvEvents_ timeout_cb_ in
  (inst_count m <= inst_id ->
   forall replies : list reply, run call replies m = Ok (m, []))
  /\ (forall inst : AdvertisingInstance,
        inst_id < inst_count m -> slot m inst_id inst ->
        (in_use inst = false ->
         forall replies : list reply,
           run call replies m = Ok (m, [Called (ClientCb name) BTM_BLE_MULTI_ADV_FAILURE]))
        /\ (in_use inst = true -> initialized m = true -> get_inst_id inst = inst_id ->
            rpa_gen_offload_enabled m = true \/ enable = false
            \/ address_update_required inst = false ->
            forall status : Z,
            exists (m' : Manager) (evs : list event),
              run call [Status status] m = Ok (m', evs)
              /\ client_calls name evs = [status]
              /\ commands evs = [EnableCmd enable inst_id duration_ maxExtAdvEvents_])
        /\ (in_use inst = true -> initialized m = true -> get_inst_id inst = inst_id ->
            rpa_gen_offload_enabled m = false -> enable = true ->
            address_update_required inst = true ->
            let restart := IsEnabled inst && IsConnectable inst in
            let budget := negb (duration_ =? 0) || negb (maxExtAdvEvents_ =? 0) in
            (skip_rpa inst = true -> 0 < skip_rpa_count inst ->
             forall replies : list reply,
             exists m' : Manager, run call replies m = Ok (m', []))
            /\ (skip_rpa inst = false \/ skip_rpa_count inst <= 0 ->
                (restart && budget = true ->
                 forall status : Z,
                 exists (m' : Manager) (evs : list event),
                   run call [Status status] m = Ok (m', evs)
                   /\ client_calls name evs = [status]
                   /\ commands evs = [EnableCmd true inst_id duration_ maxExtAdvEvents_])
                /\ (restart && budget = false -> any_encrypted_data inst = false ->
                    forall (bda : RawAddress) (s1 s2 s3 status : Z),
                    exists (m' : Manager) (evs : list event),
                      run call
                        (Address bda :: (if restart then [Status s1] else [])
                         ++ Status s2 :: (if restart then [Status s3] else [])
                         ++ [Status status]) m
                      = Ok (m', evs)
                      /\ client_calls name evs = [status]
                      /\ commands evs
                         = GenerateRpaCmd
                           :: (if restart then [EnableCmd false inst_id 0 0] else [])
                           ++ SetRandomAddressCmd inst_id bda
                           :: (if restart then [EnableCmd true inst_id 0 0] else [])
                           ++ [EnableCmd true inst_id duration_ maxExtAdvEvents_])))).
Proof.
  intros call. split.
  - intros Hid replies. unfold run, call. rewrite Enable_bad_id by done.
    by destruct replies.
  - intros inst Hrange Hslot. split; [| split].
    + intros Hfree replies. unfold run, call.
      rewrite (Enable_not_in_use _ _ _ _ _ _ _ _ inst) by done.
      by destruct replies.
    + intros Hused Halive Hid Hdirect status. unfold run, call.
      rewrite (Enable_direct _ _ _ _ _ _ _ _ inst) by done.
      erewrite EnableFinish_run by eauto using slot_with_slot.
      destruct (stored_budgets enable duration_ maxExtAdvEvents_ timeout_cb_ inst)
        as (Hd & Hm & Hi & Ht).
      cbv zeta in Hd, Hm, Hi, Ht. rewrite Hd, Hm, Hi, Ht.
      unfold get_inst_id in Hid. rewrite Hid, with_slot_twice.
      cbn [bind fst snd].
      destruct enable, (duration_ =? 0), (timeout_timer inst); cbn [negb andb app id].
      all: cbn [drive until_command issued resume bind fst snd app map].
      all: unfold weak, client_cb, run_stored, EnableWithTimerCb;
        cbn [is_null initialized with_slot set_adv_inst].
      all: rewrite ?Halive.
      all: on_slot.
      all: cbn [drive until_command issued resume bind fst snd app map].
      all: eexists _, _; split; [reflexivity |].
      all: cbn; rewrite Nat.eqb_refl; done.
    + intros Hused Halive Hid Hoff -> Hreq restart budget.
      set (inst1 := set_address_update_required false
                      (set_maxExtAdvEvents maxExtAdvEvents_
                         (set_duration duration_
                            (if true && (negb (duration_ =? 0)
                                         || negb (maxExtAdvEvents_ =? 0))
                             then set_timeout_cb timeout_cb_ inst else inst)))).
      set (K := fun status : Z =>
                  weak (EnableFinish env inst_id true (client_cb name) status)).
      set (m1 := with_slot (Z.to_nat inst_id) inst1 m).
      assert (Hcall : call m = ConfigureRpa env inst_id K m1)
        by (by apply Enable_rotating).
      destruct (Enable_rotating_fields duration_ maxExtAdvEvents_ timeout_cb_ inst)
        as (Hd & Hm & Hi & Hsk & Hsc & Hen & Hco & Henc).
      fold inst1 in Hd, Hm, Hi, Hsk, Hsc, Hen, Hco, Henc.
      assert (Hslot1 : slot m1 inst_id inst1) by (subst m1; slot_tac).
      assert (Halive1 : initialized m1 = true) by done.
      assert (HK : forall (status0 status : Z) (inst2 : AdvertisingInstance)
                     (replies : list reply),
                get_inst_id inst2 = inst_id -> duration inst2 = duration_ ->
                maxExtAdvEvents inst2 = maxExtAdvEvents_ ->
                exists (m' : Manager) (evs : list event),
                  run (K status0) (Status status :: replies)
                    (with_slot (Z.to_nat inst_id) inst2 m)
                  = Ok (m', evs)
                  /\ client_calls name evs = [status]
                  /\ commands evs = [EnableCmd true inst_id duration_ maxExtAdvEvents_]).
      { intros status0 status inst2 replies Hi2 Hd2 Hm2.
        destruct (EnableFinish_completes env (with_slot (Z.to_nat inst_id) inst2 m) inst_id
                    name status0 status inst2 replies)
          as (m' & evs & Hrun & Hcalls & Hcmds); [done | slot_tac | done |].
        exists m', evs. rewrite Hd2, Hm2 in Hcmds. split; [| done].
        unfold run, K, weak in *. cbn [initialized with_slot set_adv_inst].
        by rewrite Halive. }
      split.
      * intros Hskip Hcount replies. unfold run. rewrite Hcall.
        rewrite (ConfigureRpa_skip env m1 inst_id inst1 Hslot1) by (by rewrite ?Hsk, ?Hsc).
        eexists. cbn [bind fst snd]. by destruct replies.
      * intros Hthrottle. split.
        -- intros Hdefer status. apply andb_true_iff in Hdefer as [Hrestart Hbudget].
           apply andb_true_iff in Hrestart as [He Hc].
           unfold run. rewrite Hcall.
           rewrite (ConfigureRpa_defer env m1 inst_id inst1 Hslot1); try done.
           2:{ by rewrite <- He, <- Hen. }
           2:{ by rewrite Hco. }
           2:{ rewrite Hd, Hm. subst budget.
               destruct (Z.eqb_spec duration_ 0), (Z.eqb_spec maxExtAdvEvents_ 0);
                 try (by left); try (by right). }
           2:{ by rewrite Hsk, Hsc. }
           subst m1. rewrite with_slot_twice.
           apply (HK 1 status _ []).
           ++ rewrite <- Hid, <- Hi. apply (ConfigureRpa_keeps_budgets inst1); eauto.
           ++ rewrite <- Hd. apply (ConfigureRpa_keeps_budgets inst1); eauto.
           ++ rewrite <- Hm. apply (ConfigureRpa_keeps_budgets inst1); eauto.
        -- intros Hnow Hplain bda s1 s2 s3 status.
           destruct (ConfigureRpa_rotation env m1 inst_id inst1 K) as [Hask Hgot];
             try done.
           { by rewrite Hsk, Hsc. }
           { unfold rotates_at_once. rewrite Hen, Hco, Hd, Hm. fold restart budget.
             by rewrite Hnow. }
           { by rewrite Henc. }
           cbv zeta in Hask, Hgot. rewrite Hen, Hco, Hi, Hid in Hgot. fold restart in Hgot.
           subst m1. rewrite with_slot_twice in Hask, Hgot.
           unfold run. rewrite Hcall, Hask. cbn [bind fst snd].
           rewrite drive_answer by done. cbn [resume issued app].
           rewrite Hgot. cbn [bind fst snd]. rewrite with_slot_twice.
           set (inst3 := set_own_address bda (if skip_rpa inst1 then _ else inst1)).
           destruct (HK 0 status inst3 []) as (m' & evs & Hrun & Hcalls & Hcmds).
           { rewrite <- Hid, <- Hi. apply (ConfigureRpa_keeps_budgets inst1); eauto. }
           { rewrite <- Hd. apply (ConfigureRpa_keeps_budgets inst1); eauto. }
           { rewrite <- Hm. apply (ConfigureRpa_keeps_budgets inst1); eauto. }
           unfold run in Hrun.
           destruct (K 0 (with_slot (Z.to_nat inst_id) inst3 m)) as [[m4 qF] |] eqn:EK;
             [| done].
           cbn [bind fst snd] in Hrun.
           destruct restart; cbn [app].
           ++ rewrite drive_DoNothing. cbn [tail].
              rewrite drive_answer by done. cbn [resume issued app].
              rewrite EK. cbn [bind fst snd app].
              rewrite drive_DoNothing. cbn [tail]. rewrite Hrun. cbn [bind fst snd].
              eexists _, _. split; [reflexivity |].
              cbn [client_calls commands flat_map app] in *.
              split; [exact Hcalls | repeat f_equal; exact Hcmds].
           ++ rewrite drive_answer by done. cbn [resume issued app].
              rewrite EK. cbn [bind fst snd app]. rewrite Hrun. cbn [bind fst snd].
              eexists _, _. split; [reflexivity |].
              cbn [client_calls commands flat_map app] in *.
              split; [exact Hcalls | repeat f_equal; exact Hcmds].
Qed.

Lemma Enable_completion_witness :
  in_use example_enabled_instance = true
  /\ exists (m' : Manager) (evs : list event),
       run (Enable example_env 0 true (client_cb 1) 0 0 NoOpCb)
         [Address [1; 2; 3; 4; 5; 0x46]; Status 0; Status 0; Status 0; Status 7]
         (with_slot 0 (set_address_update_required true example_enabled_instance)
            example_manager)
       = Ok (m', evs)
       /\ client_calls 1 evs = [7]
       /\ commands evs
          = [GenerateRpaCmd; EnableCmd false 0 0 0;
             SetRandomAddressCmd 0 [1; 2; 3; 4; 5; 0x46];
             EnableCmd true 0 0 0; EnableCmd true 0 0 0].
Proof.
  split; [reflexivity |].
  destruct (Enable_completion example_env
              (with_slot 0 (set_address_update_required true example_enabled_instance)
                 example_manager)
              0 true 1 0 0 NoOpCb) as [_ Hin].
  destruct (Hin (set_address_update_required true example_enabled_instance))
    as (_ & _ & Hrotation); [by vm_compute | reflexivity |].
  destruct (Hrotation eq_refl eq_refl eq_refl eq_refl eq_refl eq_refl) as [_ Hnow].
  destruct (Hnow (or_introl eq_refl)) as [_ Hrotate].
  exact (Hrotate eq_refl eq_refl [1; 2; 3; 4; 5; 0x46] 0 0 0 7).
Defined.

(** * The encrypted-data gate *)

(** Past the gate, an instance id out of range ends [SetData] without a
    callback. *)
Lemma SetData_bad_id (env : Environment) (m : Manager) (inst_id : Z) (is_scan_rsp : bool)
    (data encr_data : list Z) (cb : MultiAdvCb) :
  encr_data = [] \/ enc_adv_data_enabled env = true ->
  inst_count m <= inst_id ->
  SetData env inst_id is_scan_rsp data encr_data cb m = Ok (m, []).
Proof.
  intros Hopen Hid. unfold SetData.
  assert (negb (bool_decide (encr_data = [])) && negb (enc_adv_data_enabled env) = false)
    as -> by (destruct Hopen as [-> | ->]; [reflexivity | apply andb_false_r]).
  unfold with_state. by destruct (Z.geb_spec inst_id (inst_count m)); [| lia].
Qed.

(** With an encrypted part and the feature on, [SetData] stops the set if
    the data is long and asks the controller for a randomizer. *)
Lemma SetData_asks_randomizer (env : Environment) (m : Manager) (inst_id : Z)
    (is_scan_rsp : bool) (data encr_data : list Z) (cb : MultiAdvCb)
    (inst : AdvertisingInstance) :
  encr_data <> [] -> enc_adv_data_enabled env = true ->
  inst_id < inst_count m -> slot m inst_id inst ->
  let restart :=
    (Z.of_nat (length data + length encr_data) >? EXT_ADV_DATA_LEN_MAX) && IsEnabled inst in
  exists (m' : Manager) (k : list Z -> Action),
    SetData env inst_id is_scan_rsp data encr_data cb m
    = Ok (m', (if restart
               then [Hci (EnableCmd false inst_id (duration inst) (maxExtAdvEvents inst))
                       DoNothing]
               else []) ++ [HciRand k]).
Proof.
  intros Hany Hon Hrange Hslot restart. unfold SetData.
  rewrite Hon, andb_false_r. unfold with_state.
  destruct (Z.geb_spec inst_id (inst_count m)); [lia |].
  rewrite (with_inst_slot _ _ _ _ Hslot). fold restart.
  rewrite (nonempty_decide _ Hany). cbn [negb].
  unfold GenerateRandomizer, hci_Enable.
  destruct restart, is_scan_rsp.
  all: rewrite ?issue_then, ?skip_then; erewrite update_then by done.
  all: unfold issue; cbn [bind fst snd app]; by eexists _, _.
Qed.

(** Without an encrypted part, [SetData] stops the set if the data is long
    and sends the first chunk of the payload. *)
Lemma SetData_sends_first (env : Environment) (m : Manager) (inst_id : Z)
    (is_scan_rsp : bool) (data payload : list Z) (cb : MultiAdvCb)
    (inst : AdvertisingInstance) :
  initialized m = true -> inst_id < inst_count m -> slot m inst_id inst ->
  patch_tx_power (tx_power inst) (SetData_flags env inst is_scan_rsp ++ data) = Ok payload ->
  Z.of_nat (length payload) <= INT_MAX ->
  let restart := (Z.of_nat (length data) >? EXT_ADV_DATA_LEN_MAX) && IsEnabled inst in
  let id := if restart then get_inst_id inst else inst_id in
  exists (chunk : Z * list Z) (k : MultiAdvCb),
    head (chunks_of false payload) = Some chunk
    /\ SetData env inst_id is_scan_rsp data [] cb m
       = Ok (with_slot (Z.to_nat inst_id) (SetData_stored is_scan_rsp data inst) m,
             (if restart
              then [Hci (EnableCmd false inst_id (duration inst) (maxExtAdvEvents inst))
                      DoNothing]
              else [])
             ++ [Hci (fragment_command false is_scan_rsp (to_uint8 id) chunk) k]).
Proof.
  intros Halive Hrange Hslot Hpatch Hfits restart id.
  rewrite (SetData_plain env m inst_id is_scan_rsp data payload cb inst) by done.
  fold restart. set (m1 := with_slot _ _ m).
  assert (Halive1 : initialized m1 = true) by done.
  assert (Hfirst : forall (handle : Z) (done_cb : MultiAdvCb),
    exists (chunk : Z * list Z) (k : MultiAdvCb),
      head (chunks_of false payload) = Some chunk
      /\ DivideAndSendData handle payload false done_cb (SetDataAdvDataSender is_scan_rsp) m1
         = Ok (m1, [Hci (fragment_command false is_scan_rsp (to_uint8 handle) chunk) k])).
  { intros handle done_cb.
    pose proof (chain_step m1 handle false is_scan_rsp payload done_cb Halive1 Hfits
                  (length payload) true 0) as Hstep.
    cbv zeta in Hstep. eexists _, _. split; [reflexivity |].
    unfold DivideAndSendData. apply Hstep; [lia | by left]. }
  subst id. destruct restart.
  - destruct (Hfirst (get_inst_id inst) (restart_after_write inst_id (initialized m) cb))
      as (chunk & k & Hhead & ->).
    by exists chunk, k.
  - destruct (Hfirst inst_id cb) as (chunk & k & Hhead & ->). by exists chunk, k.
Qed.

(** C5. The encrypted-data gate. [StartAdvertisingSet] given any non-empty
    encrypted buffer while [enc_adv_data_enabled] is off does nothing but run
    its callback as cb(0, 0, FEATURE_UNSUPPORTED = 5): the manager is
    unchanged, so no instance is registered, and no command is issued.
    [SetData] does the same with cb(5). With all encrypted buffers empty, or
    with the flag on, [StartAdvertisingSet] goes on to
    [RegisterAdvertiserImpl] with creator parameters that carry the callback
    and the buffers. [SetData] with an empty encrypted buffer, or with the
    flag on, does not run the callback in the call: with an instance id of
    inst_count or more it returns without any effect, and otherwise it stops
    the set when the data is long and the set enabled, and then asks for a
    randomizer (encrypted buffer not empty) or sends the first chunk of the
    payload (encrypted buffer empty), its callback bound to what follows. *)
Theorem encrypted_data_gate (env : Environment)
    (cb : IdTxPowerStatusCb) (params : tBTM_BLE_ADV_PARAMS)
    (advertise_data advertise_data_enc scan_response_data scan_response_data_enc : list Z)
    (periodic_params : tBLE_PERIODIC_ADV_PARAMS)
    (periodic_data periodic_adv_data_enc : list Z)
    (duration_ maxExtAdvEvents_ : Z) (enc_key_value : list Z) (timeout_cb : nat)
    (inst_id : Z) (is_scan_rsp : bool) (data encr_data : list Z) (data_cb : MultiAdvCb) :
  let start cb :=
    StartAdvertisingSet env cb params advertise_data advertise_data_enc
      scan_response_data scan_response_data_enc periodic_params periodic_data
      periodic_adv_data_enc duration_ maxExtAdvEvents_ enc_key_value timeout_cb in
  ((advertise_data_enc <> [] \/ scan_response_data_enc <> [] \/ periodic_adv_data_enc <> []) ->
   enc_adv_data_enabled env = false ->
   start cb = cb 0 0 ADVERTISE_FAILED_FEATURE_UNSUPPORTED
   /\ forall (name : nat) (m : Manager),
        start (client_id_tx_power_status_cb name) m
        = Ok (m, [Emit (CalledIdTxPowerStatus name 0 0 0x05)]))
  /\ ((advertise_data_enc = [] /\ scan_response_data_enc = [] /\ periodic_adv_data_enc = [])
      \/ enc_adv_data_enabled env = true ->
      exists (own_address_type : Z) (c : CreatorParams),
        start cb = RegisterAdvertiserImpl env own_address_type (register_cb env c)
        /\ c_cb c = cb
        /\ c_advertise_data_enc c = advertise_data_enc
        /\ c_scan_response_data_enc c = scan_response_data_enc
        /\ c_periodic_adv_data_enc c = periodic_adv_data_enc)
  /\ (encr_data <> [] -> enc_adv_data_enabled env = false ->
      SetData env inst_id is_scan_rsp data encr_data data_cb
      = data_cb ADVERTISE_FAILED_FEATURE_UNSUPPORTED
      /\ forall (name : nat) (m : Manager),
           SetData env inst_id is_scan_rsp data encr_data (client_cb name) m
           = Ok (m, [Emit (Called (ClientCb name) 0x05)]))
  /\ (encr_data = [] \/ enc_adv_data_enabled env = true ->
      forall m : Manager,
        (inst_count m <= inst_id ->
         SetData env inst_id is_scan_rsp data encr_data data_cb m = Ok (m, []))
        /\ (forall inst : AdvertisingInstance,
              inst_id < inst_count m -> slot m inst_id inst ->
              let restart :=
                (Z.of_nat (length data + length encr_data) >? EXT_ADV_DATA_LEN_MAX)
                && IsEnabled inst in
              let stop :=
                if restart
                then [Issued (EnableCmd false inst_id (duration inst) (maxExtAdvEvents inst))]
                else [] in
              (encr_data <> [] ->
               exists m' : Manager,
                 run (SetData env inst_id is_scan_rsp data encr_data data_cb) [] m
                 = Ok (m', stop ++ [Issued RandCmd]))
              /\ (encr_data = [] -> initialized m = true ->
                  forall payload : list Z,
                    patch_tx_power (tx_power inst) (SetData_flags env inst is_scan_rsp ++ data)
                    = Ok payload ->
                    Z.of_nat (length payload) <= INT_MAX ->
                    exists chunk : Z * list Z,
                      head (chunks_of false payload) = Some chunk
                      /\ run (SetData env inst_id is_scan_rsp data encr_data data_cb) [] m
                         = Ok (with_slot (Z.to_nat inst_id)
                                 (SetData_stored is_scan_rsp data inst) m,
                               stop
                               ++ [Issued (fragment_command false is_scan_rsp
                                             (to_uint8 (if restart then get_inst_id inst
                                                        else inst_id))
                                             chunk)])))).
Proof.
  intros start. split_and!.
  - intros Hany Hoff.
    assert (Hgate : forall cb', start cb' = cb' 0 0 ADVERTISE_FAILED_FEATURE_UNSUPPORTED).
    { intros cb'. unfold start, StartAdvertisingSet. rewrite Hoff.
      destruct Hany as [H | [H | H]]; rewrite (nonempty_decide _ H);
        cbn [negb orb andb]; rewrite ?orb_true_r; reflexivity. }
    split; [apply Hgate |]. intros name m. rewrite Hgate. reflexivity.
  - intros Hfree. unfold start, StartAdvertisingSet.
    assert (Hcond :
      (negb (bool_decide (advertise_data_enc = []))
       || negb (bool_decide (scan_response_data_enc = []))
       || negb (bool_decide (periodic_adv_data_enc = [])))
      && negb (enc_adv_data_enabled env) = false).
    { destruct Hfree as [(-> & -> & ->) | ->]; [reflexivity | apply andb_false_r]. }
    rewrite Hcond. cbv zeta. eexists _, _. split; [reflexivity |]. done.
  - intros Hany Hoff.
    assert (Hgate : forall cb', SetData env inst_id is_scan_rsp data encr_data cb'
                                = cb' ADVERTISE_FAILED_FEATURE_UNSUPPORTED).
    { intros cb'. unfold SetData. rewrite Hoff, (nonempty_decide _ Hany). reflexivity. }
    split; [apply Hgate |]. intros name m. rewrite Hgate. reflexivity.
  - intros Hopen m. split; [intros Hid; by apply SetData_bad_id |].
    intros inst Hrange Hslot restart stop. split.
    + intros Hany. destruct Hopen as [-> | Hon]; [done |].
      destruct (SetData_asks_randomizer env m inst_id is_scan_rsp data encr_data data_cb inst)
        as (m' & k & Hcall); try done.
      exists m'. unfold run. rewrite Hcall. fold restart. cbn [bind fst snd].
      rewrite drive_nil, map_app. subst stop. by destruct restart.
    + intros -> Halive payload Hpatch Hfits. subst restart stop. rewrite Nat.add_0_r.
      destruct (SetData_sends_first env m inst_id is_scan_rsp data payload data_cb inst)
        as (chunk & k & Hhead & Hcall); try done.
      exists chunk. split; [exact Hhead |]. unfold run. rewrite Hcall. cbn [bind fst snd].
      rewrite drive_nil, map_app. by destruct (_ && _).
Qed.

Lemma encrypted_data_gate_witness :
  StartAdvertisingSet example_env_without_feature (client_id_tx_power_status_cb 1)
    example_params [2; 10; 0] [3; 0x31; 1; 2] [] [] example_periodic_params [] []
    10 0 [] 2 example_manager
  = Ok (example_manager, [Emit (CalledIdTxPowerStatus 1 0 0 5)])
  /\ SetData example_env_without_feature 0 false [2; 10; 0] [3; 0x31; 1; 2] (client_cb 1)
       example_registered_manager
     = Ok (example_registered_manager, [Emit (Called (ClientCb 1) 5)])
  /\ SetData example_env_without_feature 7 false [2; 10; 0] [] (client_cb 1)
       example_registered_manager
     = Ok (example_registered_manager, [])
  /\ exists chunk : Z * list Z,
       head (chunks_of false [2; 10; 0]) = Some chunk
       /\ run (SetData example_env_without_feature 0 false [2; 10; 0] [] (client_cb 1)) []
            example_registered_manager
          = Ok (with_slot 0
                  (SetData_stored false [2; 10; 0]
                     (set_in_use true
                        (AdvertisingInstance_new example_env 0 example_indeterminate)))
                  example_registered_manager,
                [Issued (fragment_command false false 0 chunk)]).
Proof.
  destruct (encrypted_data_gate example_env_without_feature
              (client_id_tx_power_status_cb 1) example_params
              [2; 10; 0] [3; 0x31; 1; 2] [] [] example_periodic_params [] []
              10 0 [] 2 0 false [2; 10; 0] [3; 0x31; 1; 2] (client_cb 1))
    as (Hstart & _ & Hdata & _).
  destruct (encrypted_data_gate example_env_without_feature
              (client_id_tx_power_status_cb 1) example_params
              [2; 10; 0] [] [] [] example_periodic_params [] []
              10 0 [] 2 7 false [2; 10; 0] [] (client_cb 1))
    as (_ & _ & _ & Hbad).
  destruct (encrypted_data_gate example_env_without_feature
              (client_id_tx_power_status_cb 1) example_params
              [2; 10; 0] [] [] [] example_periodic_params [] []
              10 0 [] 2 0 false [2; 10; 0] [] (client_cb 1))
    as (_ & _ & _ & Hfree).
  split_and!.
  - apply Hstart; [by left | reflexivity].
  - apply Hdata; [done | reflexivity].
  - apply (Hbad (or_introl eq_refl) example_registered_manager). by vm_compute.
  - destruct (Hfree (or_introl eq_refl) example_registered_manager) as [_ Hin].
    destruct (Hin (set_in_use true (AdvertisingInstance_new example_env 0 example_indeterminate)))
      as [_ Hplain]; [by vm_compute | reflexivity |].
    apply (Hplain eq_refl eq_refl [2; 10; 0]); [reflexivity | by vm_compute].
Defined.

(** * Failure of a step of StartAdvertisingSet *)




Section StartSet.

Variable env : Environment.
Variable m : Manager.
Variable name : nat.
Variable params : tBTM_BLE_ADV_PARAMS.
Variables advertise_data_ scan_response_data_ : list Z.
Variable periodic_params_ : tBLE_PERIODIC_ADV_PARAMS.
Variable periodic_data_ : list Z.
Variables duration_ maxExtAdvEvents_ : Z.
Variable enc_key_value_ : list Z.
Variable timeout_cb_ : nat.
Variable p : Z.
Variable inst : AdvertisingInstance.
Variable bda : RawAddress.

(** The address type [StartAdvertisingSet] registers with. *)
Let address_type : Z :=
  if negb (params_own_address_type params =? BLE_ADDR_ANONYMOUS)
     && negb (params_own_address_type params =? BLE_ADDR_DEFAULT env)
  then params_own_address_type params
  else if BTM_BleLocalPrivacyEnabled env then BLE_ADDR_RANDOM else BLE_ADDR_PUBLIC.
(** The host generates the address of the set. *)
Let rotating : bool :=
  negb (address_type =? BLE_ADDR_PUBLIC) && negb (rpa_gen_offload_enabled m).

Hypothesis alive : initialized m = true.
Hypothesis tables : tables_ok env m.
Hypothesis in_range : 0 <= p < inst_count m.
Hypothesis at_p : slot m p inst.
Hypothesis first : forall q : Z, 0 <= q < p ->
  exists inst_q : AdvertisingInstance, slot m q inst_q /\ in_use inst_q = true.
(** The slot is free, as [Unregister] or the start of the stack left it. *)
Hypothesis free : in_use inst = false.
Hypothesis disabled : enable_status inst = false.
Hypothesis periodic_off : periodic_enabled inst = false.
Hypothesis no_timer : timeout_timer inst = false.
Hypothesis no_update : address_update_required inst = false.
Hypothesis type_byte : 0 <= params_own_address_type params < 256.
Hypothesis adv_bytes : bytes advertise_data_.
Hypothesis rsp_bytes : bytes scan_response_data_.
Hypothesis adv_fits : Z.of_nat (length advertise_data_) + 3 <= INT_MAX.
Hypothesis rsp_fits : Z.of_nat (length scan_response_data_) + 3 <= INT_MAX.
Hypothesis periodic_fits : Z.of_nat (length periodic_data_) <= INT_MAX.

Let c : CreatorParams :=
  {| c_inst_id := p;
     c_cb := client_id_tx_power_status_cb name;
     c_params := params;
     c_advertise_data := advertise_data_;
     c_advertise_data_enc := [];
     c_scan_response_data := scan_response_data_;
     c_scan_response_data_enc := [];
     c_periodic_params := periodic_params_;
     c_periodic_data := periodic_data_;
     c_periodic_adv_data_enc := [];
     c_enc_key_value := enc_key_value_;
     c_duration := duration_;
     c_maxExtAdvEvents := maxExtAdvEvents_;
     c_timeout_cb := timeout_cb_ |}.
Let start : Action :=
  StartAdvertisingSet env (client_id_tx_power_status_cb name) params advertise_data_ []
    scan_response_data_ [] periodic_params_ periodic_data_ [] duration_ maxExtAdvEvents_
    enc_key_value_ timeout_cb_.
Let called (s : Z) : event := CalledIdTxPowerStatus name 0 0 s.

(** The instance after each step. *)
Let inst0 : AdvertisingInstance :=
  (if rotating then set_own_address bda
   else if address_type =? BLE_ADDR_PUBLIC then set_own_address (get_address env) else id)
    (set_own_address_type (to_uint8 address_type) (set_in_use true inst)).
Let inst1 : AdvertisingInstance :=
  SetParameters_stored m params (set_enc_key_value enc_key_value_ inst0).
Let inst2 (tx : Z) : AdvertisingInstance := set_tx_power tx inst1.
Let inst3 (tx : Z) : AdvertisingInstance := SetData_stored false advertise_data_ (inst2 tx).
Let inst4 (tx : Z) : AdvertisingInstance := SetData_stored true scan_response_data_ (inst3 tx).
Let inst5 (tx : Z) : AdvertisingInstance :=
  let stored := set_periodic_adv_data_enc [] (set_periodic_data periodic_data_ (inst4 tx)) in
  if is_broadcast_uuid periodic_data_ then set_skip_rpa true (set_skip_rpa_count 15 stored)
  else stored.
Let inst6 (tx : Z) : AdvertisingInstance := set_periodic_enabled true (inst5 tx).

Let parameters : event :=
  Issued (SetParameters_command m params (set_enc_key_value enc_key_value_ inst0)).


Lemma own_id : inst_id inst = p.
Proof. destruct tables as (_ & _ & Hslots). by destruct (Hslots p inst at_p). Qed.







Let address : list event :=
  if rotating then [Issued (SetRandomAddressCmd p bda)] else [].
Let flags (is_scan_rsp : bool) : list Z :=
  SetData_flags env
    (set_advertising_event_properties (params_advertising_event_properties params) inst)
    is_scan_rsp.
Let send (is_periodic_adv_data is_scan_rsp : bool) (chunk : Z * list Z) : event :=
  Issued (fragment_command is_periodic_adv_data is_scan_rsp (to_uint8 p) chunk).


















End StartSet.


